(** * A shallow embedding of node-oci-registry-client

    The development follows the layout of the library:
    - [lib/common.ts]              (name parsing: [parseIndex], [parseRepo], [parseRepoAndRef]),
    - [lib/www-authenticate.ts]    (the challenge parser),
    - [lib/docker-json-client.ts]  (the request executor and [DockerResponse]),
    - [lib/registry-client-v2.ts]  (the registry client).

    Conventions.
    - A JavaScript string is represented by the byte string of its UTF-8
      encoding (Rocq's [string]).  Searching for and cutting at ASCII
      separators commutes with that encoding.
    - A JavaScript number is an IEEE-754 binary64 value (Rocq's primitive
      [float]).
    - A thrown exception (or a rejected promise) is the [Throw] case of
      [result]; [async] functions are run to completion, one after the other.
    - What the JavaScript platform supplies and the library only calls
      ([JSON.parse], [JSON.stringify], [TextDecoder], [new URL], [btoa],
      MD5, the number printer) is a field of the class [Platform]. *)

From Stdlib Require Import Ascii String Strings.Byte ZArith Lia Floats.PrimFloat DecimalString.
From Stdlib Require Floats.FloatOps Floats.SpecFloat.
From stdpp Require Import prelude strings gmap.

Local Open Scope Z_scope.

(** ** JavaScript strings *)

Module JsString.

Definition code (c : ascii) : N := Ascii.N_of_ascii c.

(** The character U+0022, which cannot be written inside a string literal. *)
Definition dquote : string := String (Ascii.ascii_of_N 34) EmptyString.

(** A line feed. *)
Definition newline : string := String (Ascii.ascii_of_N 10) EmptyString.

(** The number of bytes of the representation. *)
Definition bytes (s : string) : Z := Z.of_nat (String.length s).

(** [s.length]: the number of UTF-16 code units.  A character of one to three
    bytes is one unit, a character of four bytes is two. *)
Fixpoint length (s : string) : Z :=
  match s with
  | EmptyString => 0
  | String c r =>
      let x := code c in
      (if ((x <? 128) || (192 <=? x))%N then 1 else 0) + (if (240 <=? x)%N then 1 else 0)
      + length r
  end.

(** [s.startsWith(p)] *)
Fixpoint startsWith (s p : string) {struct p} : bool :=
  match p with
  | EmptyString => true
  | String a p' =>
      match s with
      | EmptyString => false
      | String b s' => Ascii.eqb a b && startsWith s' p'
      end
  end.

(** [s.indexOf(pat)]: the first position at which [pat] occurs, or -1.
    Positions count bytes; the library only compares them with each other and
    hands them back to [slice]. *)
Fixpoint indexOf (s pat : string) : Z :=
  if startsWith s pat then 0
  else match s with
       | EmptyString => -1
       | String _ s' => let r := indexOf s' pat in if r <? 0 then -1 else r + 1
       end.

(** [s.lastIndexOf(pat)]: the last position at which [pat] occurs, or -1. *)
Fixpoint lastIndexOf (s pat : string) : Z :=
  match s with
  | EmptyString => if startsWith s pat then 0 else -1
  | String _ s' =>
      let r := lastIndexOf s' pat in
      if 0 <=? r then r + 1 else if startsWith s pat then 0 else -1
  end.

Definition includes (s pat : string) : bool := 0 <=? indexOf s pat.

Fixpoint drop (n : nat) (s : string) : string :=
  match n with
  | O => s
  | S n' => match s with EmptyString => EmptyString | String _ s' => drop n' s' end
  end.

Fixpoint take (n : nat) (s : string) : string :=
  match n with
  | O => EmptyString
  | S n' => match s with EmptyString => EmptyString | String a s' => String a (take n' s') end
  end.

(** [s.indexOf(pat, from)] for a position [from] that is not negative. *)
Definition indexOfFrom (s pat : string) (from : Z) : Z :=
  let from' := Z.min from (bytes s) in
  let r := indexOf (drop (Z.to_nat from') s) pat in
  if r <? 0 then -1 else r + from'.

(** How [slice] reads one of its positions: a negative one counts from the end. *)
Definition relativeIndex (len i : Z) : Z :=
  if i <? 0 then Z.max (len + i) 0 else Z.min i len.

(** [s.slice(b, e)], and [s.slice(b)] when [e] is [None]. *)
Definition slice (s : string) (b : Z) (e : option Z) : string :=
  let len := bytes s in
  let from := relativeIndex len b in
  let to := match e with None => len | Some e' => relativeIndex len e' end in
  take (Z.to_nat (to - from)) (drop (Z.to_nat from) s).

(** [s[i]] *)
Definition charAt (s : string) (i : Z) : option ascii :=
  if i <? 0 then None else String.get (Z.to_nat i) s.

(** [s.split(sep)] for a separator of one character. *)
Fixpoint splitChar (sep : ascii) (s : string) : list string :=
  match s with
  | EmptyString => [EmptyString]
  | String c s' =>
      if Ascii.eqb c sep then EmptyString :: splitChar sep s'
      else match splitChar sep s' with
           | [] => [String c EmptyString]
           | w :: ws => String c w :: ws
           end
  end.

(** [parts.join(sep)] on strings. *)
Fixpoint join (sep : string) (parts : list string) : string :=
  match parts with
  | [] => EmptyString
  | [p] => p
  | p :: ps => p +:+ sep +:+ join sep ps
  end.

(** The length in bytes of the white space or line terminator code point that
    [s] starts with ([\s] of a regular expression, and what [trim] removes);
    0 when it starts with none. *)
Definition wsLen (s : string) : nat :=
  match s with
  | EmptyString => O
  | String a r =>
      let x := code a in
      if ((9 <=? x) && (x <=? 13) || (x =? 32))%N then 1%nat
      else match r with
           | EmptyString => O
           | String b r' =>
               let y := code b in
               if ((x =? 194) && (y =? 160))%N then 2%nat
               else match r' with
                    | EmptyString => O
                    | String c _ =>
                        let z := code c in
                        if ((x =? 225) && (y =? 154) && (z =? 128))%N then 3%nat
                        else if ((x =? 226) && (y =? 128) &&
                                 ((128 <=? z) && (z <=? 138) || (z =? 168) || (z =? 169)
                                  || (z =? 175)))%N then 3%nat
                        else if ((x =? 226) && (y =? 129) && (z =? 159))%N then 3%nat
                        else if ((x =? 227) && (y =? 128) && (z =? 128))%N then 3%nat
                        else if ((x =? 239) && (y =? 187) && (z =? 191))%N then 3%nat
                        else O
                    end
           end
  end.

Fixpoint trimStartFuel (fuel : nat) (s : string) : string :=
  match fuel with
  | O => s
  | S fuel' => match wsLen s with
               | O => s
               | n => trimStartFuel fuel' (drop n s)
               end
  end.

(** [s.trimStart()] *)
Definition trimStart (s : string) : string := trimStartFuel (String.length s) s.

Definition isBlank (s : string) : bool :=
  match trimStart s with EmptyString => true | _ => false end.

(** [s.trimEnd()] *)
Fixpoint trimEnd (s : string) : string :=
  if isBlank s then EmptyString
  else match s with
       | EmptyString => EmptyString
       | String a r => String a (trimEnd r)
       end.

(** [s.trim()] *)
Definition trim (s : string) : string := trimEnd (trimStart s).

(** [\w] of a regular expression. *)
Definition isWordChar (c : ascii) : bool :=
  let x := code c in
  ((48 <=? x) && (x <=? 57) || (65 <=? x) && (x <=? 90) || (97 <=? x) && (x <=? 122)
   || (x =? 95))%N.

(** The longest prefix of [s] whose characters satisfy [p], and the rest. *)
Fixpoint span (p : ascii -> bool) (s : string) : string * string :=
  match s with
  | EmptyString => (EmptyString, EmptyString)
  | String c s' =>
      if p c then let '(a, b) := span p s' in (String c a, b)
      else (EmptyString, s)
  end.

Fixpoint all (p : ascii -> bool) (s : string) : bool :=
  match s with
  | EmptyString => true
  | String c s' => p c && all p s'
  end.

(** [s.toLowerCase()], on the letters A to Z. *)
Fixpoint toLowerCase (s : string) : string :=
  match s with
  | EmptyString => EmptyString
  | String c s' =>
      let x := code c in
      String (if ((65 <=? x) && (x <=? 90))%N then Ascii.ascii_of_N (x + 32) else c)
             (toLowerCase s')
  end.

(** The decimal representation of an integer, as [String(n)] prints it. *)
Definition ofZ (n : Z) : string := NilZero.string_of_int (Z.to_int n).

End JsString.

(** ** Bytes, hexadecimal and base64 *)

Module Bytes.

Definition ofZ (z : Z) : byte :=
  match Byte.of_N (Z.to_N (z mod 256)) with Some b => b | None => Byte.x00 end.

Definition toZ (b : byte) : Z := Z.of_N (Byte.to_N b).

(** The UTF-8 bytes of a string. *)
Definition ofString (s : string) : list byte := list_byte_of_string s.

Definition toString (l : list byte) : string := string_of_list_byte l.

Definition hexDigit (d : Z) : ascii :=
  Ascii.ascii_of_N (Z.to_N (if d <? 10 then 48 + d else 87 + d)).

(** Two lower-case hexadecimal digits per byte. *)
Fixpoint hex (l : list Z) : string :=
  match l with
  | [] => EmptyString
  | b :: l' => String (hexDigit (b / 16)) (String (hexDigit (b mod 16)) (hex l'))
  end.

Definition base64Digit (d : Z) : ascii :=
  Ascii.ascii_of_N (Z.to_N
    (if d <? 26 then 65 + d
     else if d <? 52 then 71 + d
     else if d <? 62 then d - 4
     else if d =? 62 then 43 else 47)).

Definition pad : ascii := Ascii.ascii_of_N 61.

(** Base64 with the standard alphabet and padding. *)
Fixpoint base64 (l : list Z) : string :=
  match l with
  | [] => EmptyString
  | [a] =>
      String (base64Digit (a / 4))
        (String (base64Digit ((a mod 4) * 16)) (String pad (String pad EmptyString)))
  | [a; b] =>
      String (base64Digit (a / 4))
        (String (base64Digit ((a mod 4) * 16 + b / 16))
           (String (base64Digit ((b mod 16) * 4)) (String pad EmptyString)))
  | a :: b :: c :: l' =>
      String (base64Digit (a / 4))
        (String (base64Digit ((a mod 4) * 16 + b / 16))
           (String (base64Digit ((b mod 16) * 4 + c / 64))
              (String (base64Digit (c mod 64)) (base64 l'))))
  end.

(** Cuts a list into pieces of [n] elements, at most [fuel] of them. *)
Fixpoint chunksOf {A} (fuel n : nat) (l : list A) : list (list A) :=
  match fuel with
  | O => []
  | S fuel' =>
      match l with
      | [] => []
      | _ => firstn n l :: chunksOf fuel' n (skipn n l)
      end
  end.

(** The big-endian bytes of a number, [n] of them. *)
Fixpoint bigEndian (n : nat) (x : Z) : list Z :=
  match n with
  | O => []
  | S n' => (x / 256 ^ Z.of_nat n') mod 256 :: bigEndian n' x
  end.

Definition littleEndian (n : nat) (x : Z) : list Z := rev (bigEndian n x).

Definition fromBigEndian (l : list Z) : Z := fold_left (fun acc b => acc * 256 + b) l 0.

Definition fromLittleEndian (l : list Z) : Z := fromBigEndian (rev l).

End Bytes.

(** ** The digests of [crypto.createHash] *)

Module SHA256.

Definition primesBelow (n : nat) : list Z :=
  filter (fun p => forallb (fun d => negb (p mod d =? 0) || (p <=? d))
                    (map Z.of_nat (seq 2 (Z.to_nat p))))
    (map Z.of_nat (seq 2 n)).

Definition primes64 : list Z := Eval vm_compute in firstn 64 (primesBelow 320).

(** The integer cube root, one bit at a time from bit [k - 1] down. *)
Fixpoint cubeRootBits (k : nat) (n acc : Z) : Z :=
  match k with
  | O => acc
  | S k' =>
      let c := acc + 2 ^ Z.of_nat k' in
      cubeRootBits k' n (if c * c * c <=? n then c else acc)
  end.

Definition word (x : Z) : Z := x mod 2 ^ 32.

(** The first 32 bits of the fractional parts of the cube roots of the first
    64 primes. *)
Definition K : list Z :=
  Eval vm_compute in map (fun p => word (cubeRootBits 40 (p * 2 ^ 96) 0)) primes64.

(** The first 32 bits of the fractional parts of the square roots of the
    first 8 primes. *)
Definition H0 : list Z :=
  Eval vm_compute in map (fun p => word (Z.sqrt (p * 2 ^ 64))) (firstn 8 primes64).

Definition rotr (n x : Z) : Z := Z.lor (Z.shiftr x n) (word (Z.shiftl x (32 - n))).
Definition not32 (x : Z) : Z := Z.lxor x (2 ^ 32 - 1).
Definition Ch (x y z : Z) : Z := Z.lxor (Z.land x y) (Z.land (not32 x) z).
Definition Maj (x y z : Z) : Z := Z.lxor (Z.lxor (Z.land x y) (Z.land x z)) (Z.land y z).
Definition bigSigma0 (x : Z) : Z := Z.lxor (Z.lxor (rotr 2 x) (rotr 13 x)) (rotr 22 x).
Definition bigSigma1 (x : Z) : Z := Z.lxor (Z.lxor (rotr 6 x) (rotr 11 x)) (rotr 25 x).
Definition smallSigma0 (x : Z) : Z := Z.lxor (Z.lxor (rotr 7 x) (rotr 18 x)) (Z.shiftr x 3).
Definition smallSigma1 (x : Z) : Z := Z.lxor (Z.lxor (rotr 17 x) (rotr 19 x)) (Z.shiftr x 10).

(** The bit length is appended as 64 bits after the mark and the zeroes. *)
Definition padding (len : Z) : list Z :=
  128 :: repeat 0 (Z.to_nat ((55 - len) mod 64)) ++ Bytes.bigEndian 8 (8 * len).

(** The message schedule, extended by [n] words. *)
Fixpoint schedule (n : nat) (w : list Z) : list Z :=
  match n with
  | O => w
  | S n' =>
      let t := List.length w in
      let at' i := nth (t - i) w 0 in
      schedule n' (w ++ [word (smallSigma1 (at' 2%nat) + at' 7%nat
                               + smallSigma0 (at' 15%nat) + at' 16%nat)])
  end.

Definition round (st : list Z) (kw : Z * Z) : list Z :=
  match st with
  | [a; b; c; d; e; f; g; h] =>
      let t1 := h + bigSigma1 e + Ch e f g + fst kw + snd kw in
      let t2 := bigSigma0 a + Maj a b c in
      [word (t1 + t2); a; b; c; word (d + t1); e; f; g]
  | _ => st
  end.

Definition compress (st : list Z) (block : list Z) : list Z :=
  let w := schedule 48 (map Bytes.fromBigEndian (Bytes.chunksOf 16 4 block)) in
  map (fun p => word (fst p + snd p)) (combine st (fold_left round (combine K w) st)).

(** The 32 bytes of the SHA-256 digest of a message. *)
Definition digest (msg : list byte) : list Z :=
  let m := map Bytes.toZ msg in
  let padded := m ++ padding (Z.of_nat (List.length m)) in
  let blocks := Bytes.chunksOf (List.length padded) 64 padded in
  concat (map (Bytes.bigEndian 4) (fold_left compress blocks H0)).

(** [crypto.createHash('sha256').update(msg).digest('hex')] *)
Definition hexDigest (msg : list byte) : string := Bytes.hex (digest msg).

End SHA256.

Module MD5.

Definition word (x : Z) : Z := x mod 2 ^ 32.

(** [floor (2^32 * abs (sin (i + 1)))] for [i] from 0 to 63. *)
Definition K : list Z :=
  [ 3614090360; 3905402710; 606105819; 3250441966; 4118548399; 1200080426; 2821735955; 4249261313;
    1770035416; 2336552879; 4294925233; 2304563134; 1804603682; 4254626195; 2792965006; 1236535329;
    4129170786; 3225465664; 643717713; 3921069994; 3593408605; 38016083; 3634488961; 3889429448;
    568446438; 3275163606; 4107603335; 1163531501; 2850285829; 4243563512; 1735328473; 2368359562;
    4294588738; 2272392833; 1839030562; 4259657740; 2763975236; 1272893353; 4139469664; 3200236656;
    681279174; 3936430074; 3572445317; 76029189; 3654602809; 3873151461; 530742520; 3299628645;
    4096336452; 1126891415; 2878612391; 4237533241; 1700485571; 2399980690; 4293915773; 2240044497;
    1873313359; 4264355552; 2734768916; 1309151649; 4149444226; 3174756917; 718787259; 3951481745 ].

Definition shifts : list Z :=
  concat (map (fun r => r ++ r ++ r ++ r)
            [[7; 12; 17; 22]; [5; 9; 14; 20]; [4; 11; 16; 23]; [6; 10; 15; 21]]).

Definition init : list Z := map Bytes.fromLittleEndian
  [[1; 35; 69; 103]; [137; 171; 205; 239]; [254; 220; 186; 152]; [118; 84; 50; 16]].

Definition rotl (n x : Z) : Z := Z.lor (word (Z.shiftl x n)) (Z.shiftr x (32 - n)).
Definition not32 (x : Z) : Z := Z.lxor x (2 ^ 32 - 1).

Definition step (m : list Z) (st : list Z) (i : Z) : list Z :=
  match st with
  | [a; b; c; d] =>
      let '(f, g) :=
        if i <? 16 then (Z.lor (Z.land b c) (Z.land (not32 b) d), i)
        else if i <? 32 then (Z.lor (Z.land d b) (Z.land (not32 d) c), (5 * i + 1) mod 16)
        else if i <? 48 then (Z.lxor (Z.lxor b c) d, (3 * i + 5) mod 16)
        else (Z.lxor c (Z.lor b (not32 d)), (7 * i) mod 16) in
      let f' := word (f + a + nth (Z.to_nat i) K 0 + nth (Z.to_nat g) m 0) in
      [d; word (b + rotl (nth (Z.to_nat i) shifts 0) f'); b; c]
  | _ => st
  end.

Definition compress (st : list Z) (block : list Z) : list Z :=
  let m := map Bytes.fromLittleEndian (Bytes.chunksOf 16 4 block) in
  map (fun p => word (fst p + snd p))
    (combine st (fold_left (step m) (map Z.of_nat (seq 0 64)) st)).

Definition padding (len : Z) : list Z :=
  128 :: repeat 0 (Z.to_nat ((55 - len) mod 64)) ++ Bytes.littleEndian 8 (8 * len).

(** The 16 bytes of the MD5 digest of a message. *)
Definition digest (msg : list byte) : list Z :=
  let m := map Bytes.toZ msg in
  let padded := m ++ padding (Z.of_nat (List.length m)) in
  let blocks := Bytes.chunksOf (List.length padded) 64 padded in
  concat (map (Bytes.littleEndian 4) (fold_left compress blocks init)).

(** [crypto.createHash('md5').update(msg).digest('base64')] *)
Definition base64Digest (msg : list byte) : string := Bytes.base64 (digest msg).

End MD5.


(** ** JavaScript values, as [JSON.parse] produces them *)

#[warnings="-register-all"]
Inductive value : Type :=
| VUndefined
| VNull
| VBool (b : bool)
| VNumber (x : float)
| VString (s : string)
| VArray (items : list value)
| VObject (props : list (string * value)).

(** ** Responses *)

(** The headers of a request or a response ([Headers] of node-fetch): the
    value of each name, the name in lower case. *)
Abbreviation Headers := (gmap string string).

(** What [fetch] resolves to ([Response] of node-fetch).  [body] is the
    sequence of chunks the body stream delivers; [None] is a response without
    a body. *)
Module Fetch.
Record Response := {
  status : Z;
  statusText : string;
  headers : Headers;
  body : option (list (list byte));
}.
End Fetch.

(** [class DockerResponse extends Response]: the response, whether its body
    has been read, and the decoded body once it has been. *)
Record DockerResponse := {
  status : Z;
  statusText : string;
  headers : Headers;
  body : option (list (list byte));
  bodyUsed : bool;
  decodedBody : option (list byte);
}.

(** ** Exceptions *)

(** The errors the library throws or lets through.  [HttpError] is the one
    class that has a [resp] field. *)
Inductive exn : Type :=
| Error (message : string)
| TypeError (message : string)
| FetchError (message : string)
| InvalidCharacterError (message : string)
| HttpError (resp : DockerResponse) (errors : list value) (message : string)
| BadDigestError (message : string)
| TooManyRedirectsError (message : string).

Definition message (e : exn) : string :=
  match e with
  | Error m | TypeError m | FetchError m | InvalidCharacterError m
  | HttpError _ _ m | BadDigestError m | TooManyRedirectsError m => m
  end.

(** [err.resp], when the error has one. *)
Definition resp (e : exn) : option DockerResponse :=
  match e with
  | HttpError r _ _ => Some r
  | _ => None
  end.

Inductive result (A : Type) : Type :=
| Ok (a : A)
| Throw (e : exn).
Arguments Ok {A} a.
Arguments Throw {A} e.

Definition isThrow {A} (r : result A) : bool :=
  match r with Throw _ => true | Ok _ => false end.

#[global] Instance result_ret : MRet result := fun A a => Ok a.
#[global] Instance result_bind : MBind result := fun A B f r =>
  match r with
  | Ok a => f a
  | Throw e => Throw e
  end.

#[global] Instance result_fmap : FMap result := fun A B f r =>
  match r with
  | Ok a => Ok (f a)
  | Throw e => Throw e
  end.

(** ** Computations with a state that may throw *)

Definition M (S A : Type) : Type := S -> result A * S.

#[global] Instance M_ret {S} : MRet (M S) := fun A a s => (Ok a, s).
#[global] Instance M_bind {S} : MBind (M S) := fun A B f m s =>
  match m s with
  | (Ok a, s') => f a s'
  | (Throw e, s') => (Throw e, s')
  end.

Definition throw {S A} (e : exn) : M S A := fun s => (Throw e, s).

(** A pure computation that may throw. *)
Definition liftR {S A} (r : result A) : M S A := fun s => (r, s).

Definition getState {S} : M S S := fun s => (Ok s, s).
Definition modify {S} (f : S -> S) : M S unit := fun s => (Ok tt, f s).

(** [try { m } catch (e) { h e }] *)
Definition tryCatch {S A} (m : M S A) (h : exn -> M S A) : M S A := fun s =>
  match m s with
  | (Ok a, s') => (Ok a, s')
  | (Throw e, s') => h e s'
  end.

(** A method call on a response held in a local variable: the value it
    returns and the response as the call leaves it. *)
Definition call {S A} (m : M DockerResponse A) (r : DockerResponse) : M S (A * DockerResponse) :=
  fun s =>
    match m r with
    | (Ok a, r') => (Ok (a, r'), s)
    | (Throw e, _) => (Throw e, s)
    end.

(** ** What the platform supplies *)

Class Platform := {
  (** [JSON.parse(text)]; [inl] carries the message of the [SyntaxError]. *)
  JSON_parse : string -> string + value;
  (** [JSON.stringify(v)] *)
  JSON_stringify : value -> string;
  (** [String(x)] on a number *)
  Number_toString : float -> string;
  (** [new TextDecoder().decode(bytes)] *)
  TextDecoder_decode : list byte -> string;
  (** [new URL(url, base).toString()]; [None] when the constructor throws. *)
  new_URL : string -> option string -> option string;
  (** [btoa(s)]; [None] when [s] has a character above U+00FF. *)
  btoa : string -> option string;
  (** [DEFAULT_USERAGENT], which names the package version, the machine and
      the version of node. *)
  DEFAULT_USERAGENT : string;
}.

Module Js.
Section WithPlatform.
Context `{Platform}.

(** [if (v)] *)
Definition truthy (v : value) : bool :=
  match v with
  | VUndefined | VNull => false
  | VBool b => b
  | VNumber x => negb (PrimFloat.eqb x 0 || PrimFloat.is_nan x)
  | VString s => negb (String.eqb s EmptyString)
  | VArray _ | VObject _ => true
  end.

(** The own property [k] of an object made by [JSON.parse]. *)
Fixpoint lookup (k : string) (props : list (string * value)) : value :=
  match props with
  | [] => VUndefined
  | (k', v) :: props' => if String.eqb k k' then v else lookup k props'
  end.

Definition hasOwn (k : string) (props : list (string * value)) : bool :=
  existsb (fun p => String.eqb k (fst p)) props.

(** [v.k] for the property names the library reads ([body], [errors],
    [details], [message], [schemaVersion], [token], [error], [code],
    [detail]): none of them is defined on a prototype, so the read gives the
    own property of an object, [undefined] on any other value, and throws on
    [undefined] and [null]. *)
Definition get (v : value) (k : string) : result value :=
  match v with
  | VUndefined =>
      Throw (TypeError ("Cannot read properties of undefined (reading '" +:+ k +:+ "')"))
  | VNull => Throw (TypeError ("Cannot read properties of null (reading '" +:+ k +:+ "')"))
  | VObject props => Ok (lookup k props)
  | _ => Ok VUndefined
  end.

(** [v?.k] *)
Definition getOpt (v : value) (k : string) : result value :=
  match v with
  | VUndefined | VNull => Ok VUndefined
  | _ => get v k
  end.

(** [v[0]] on an array *)
Definition first (items : list value) : value := hd VUndefined items.

(** [v === 1] *)
Definition isOne (v : value) : bool :=
  match v with
  | VNumber x => PrimFloat.eqb x 1
  | _ => false
  end.

(** [typeof v === 'string'] *)
Definition isString (v : value) : bool :=
  match v with VString _ => true | _ => false end.

(** [String(v)], which is also how [+] and [join] turn a value into a string.
    An object whose own [toString] property hides the method of the prototype
    cannot be converted. *)
Fixpoint toString (v : value) : result string :=
  match v with
  | VUndefined => Ok "undefined"
  | VNull => Ok "null"
  | VBool b => Ok (if b then "true" else "false")
  | VNumber x => Ok (Number_toString x)
  | VString s => Ok s
  | VArray items =>
      (fix each (l : list value) : result (list string) :=
         match l with
         | [] => Ok []
         | x :: l' =>
             match (match x with VUndefined | VNull => Ok EmptyString | _ => toString x end) with
             | Throw e => Throw e
             | Ok s => match each l' with
                       | Throw e => Throw e
                       | Ok ss => Ok (s :: ss)
                       end
             end
         end) items ≫= fun ss => Ok (JsString.join "," ss)
  | VObject props =>
      if hasOwn "toString" props
      then Throw (TypeError "Cannot convert object to primitive value")
      else Ok "[object Object]"
  end.

(** An element of [parts.join(sep)]: [undefined] and [null] give nothing. *)
Definition joinItem (v : value) : result string :=
  match v with
  | VUndefined | VNull => Ok EmptyString
  | _ => toString v
  end.

End WithPlatform.
End Js.

(** ** [Headers] of node-fetch *)

Module Headers.

(** The characters of a header value: tab, U+0020 to U+007E and U+0080 to
    U+00FF (the last ones are two bytes each). *)
Fixpoint legalValue (v : string) : bool :=
  match v with
  | EmptyString => true
  | String c r =>
      let x := JsString.code c in
      if ((x =? 9) || (32 <=? x) && (x <=? 126))%N then legalValue r
      else if ((x =? 194) || (x =? 195))%N then
        match r with
        | String d r' =>
            let y := JsString.code d in
            ((128 <=? y) && (y <=? 191))%N && legalValue r'
        | EmptyString => false
        end
      else false
  end.

Definition key (name : string) : string := JsString.toLowerCase name.

(** [h.get(name)]; [None] is [null]. *)
Definition get (h : Headers) (name : string) : option string := h !! key name.

Definition has (h : Headers) (name : string) : bool :=
  match h !! key name with Some _ => true | None => false end.

(** [h.set(name, v)] *)
Definition set (h : Headers) (name v : string) : result Headers :=
  if legalValue v then Ok (<[key name := v]> h)
  else Throw (TypeError (v +:+ " is not a legal HTTP header value")).

(** [h.append(name, v)] *)
Definition append (h : Headers) (name v : string) : result Headers :=
  if legalValue v then
    Ok (match h !! key name with
        | Some old => <[key name := old +:+ ", " +:+ v]> h
        | None => <[key name := v]> h
        end)
  else Throw (TypeError (v +:+ " is not a legal HTTP header value")).

(** [h.delete(name)] *)
Definition delete (h : Headers) (name : string) : Headers := base.delete (key name) h.

End Headers.

(** ** lib/types.ts *)

Inductive Scheme : Type := http | https.

Definition schemeName (s : Scheme) : string :=
  match s with http => "http" | https => "https" end.

Module RegistryIndex.
Record t := {
  name : string;
  official : bool;
  scheme : Scheme;
}.
End RegistryIndex.

Module RegistryRepo.
Record t := {
  index : RegistryIndex.t;
  official : bool;
  remoteName : string;
  localName : string;
  canonicalName : string;
}.
End RegistryRepo.

(** [interface RegistryImage extends RegistryRepo]; [None] is [null]. *)
Module RegistryImage.
Record t := {
  repo :> RegistryRepo.t;
  digest : option string;
  tag : option string;
  canonicalRef : string;
}.
End RegistryImage.

Inductive AuthInfo : Type :=
| AuthNone
| AuthBasic (username password : string)
| AuthBearer (token : string).

(** ** lib/common.ts *)

Module Common.
Import JsString.

Definition MEDIATYPE_MANIFEST_V2 : string :=
  "application/vnd.docker.distribution.manifest.v2+json".
Definition MEDIATYPE_MANIFEST_LIST_V2 : string :=
  "application/vnd.docker.distribution.manifest.list.v2+json".
Definition MEDIATYPE_OCI_MANIFEST_V1 : string :=
  "application/vnd.oci.image.manifest.v1+json".
Definition MEDIATYPE_OCI_MANIFEST_INDEX_V1 : string :=
  "application/vnd.oci.image.index.v1+json".

Definition DEFAULT_INDEX_NAME : string := "docker.io".
Definition DEFAULT_INDEX_URL : string := "https://registry-1.docker.io".
Definition DEFAULT_LOGIN_SERVERNAME : string := "https://index.docker.io/v1/".
Definition DEFAULT_TAG : string := "latest".

Definition isLowerOrDigit (c : ascii) : bool :=
  let x := code c in ((97 <=? x) && (x <=? 122) || (48 <=? x) && (x <=? 57))%N.

(** [/^[a-z0-9\._-]*$/] *)
Definition VALID_NS (s : string) : bool :=
  all (fun c => isLowerOrDigit c || Ascii.eqb c "." || Ascii.eqb c "_" || Ascii.eqb c "-") s.

(** [/^[a-z0-9_\/\.-]*$/] *)
Definition VALID_REPO (s : string) : bool :=
  all (fun c => isLowerOrDigit c || Ascii.eqb c "_" || Ascii.eqb c "/" || Ascii.eqb c "."
                || Ascii.eqb c "-") s.

Definition splitIntoTwo (str sep : string) : list string :=
  let slashIdx := indexOf str sep in
  if slashIdx =? -1 then [str]
  else [slice str 0 (Some slashIdx); slice str (slashIdx + 1) None].

Definition isLocalhost (host : string) : bool :=
  let lead := hd EmptyString (splitChar ":" host) in
  String.eqb lead "localhost" || String.eqb lead "127.0.0.1" || includes host "::1".

(** The last character of [s] is [c]: [s[s.length - 1] === c]. *)
Definition lastCharIs (s : string) (c : ascii) : bool :=
  match charAt s (bytes s - 1) with
  | Some d => Ascii.eqb d c
  | None => false
  end.

(** [parseIndex(arg)]; [None] is a call without the argument. *)
Definition parseIndex (arg : option string) : result RegistryIndex.t :=
  let arg' := default EmptyString arg in
  if String.eqb arg' EmptyString || String.eqb arg' DEFAULT_LOGIN_SERVERNAME then
    Ok {| RegistryIndex.scheme := https;
          RegistryIndex.name := DEFAULT_INDEX_NAME;
          RegistryIndex.official := true |}
  else
    let protoSepIdx := indexOf arg' "://" in
    '(scheme, indexName) ←
      (if negb (protoSepIdx =? -1) then
         let foundScheme := slice arg' 0 (Some protoSepIdx) in
         if String.eqb foundScheme "http" then Ok (http, slice arg' (protoSepIdx + 3) None)
         else if String.eqb foundScheme "https" then Ok (https, slice arg' (protoSepIdx + 3) None)
         else Throw (Error ("invalid index scheme, must be " +:+ dquote +:+ "http" +:+ dquote
                            +:+ " or " +:+ dquote +:+ "https" +:+ dquote +:+ ": " +:+ arg'))
       else Ok (if isLocalhost arg' then http else https, arg'));
    indexName ←
      (if String.eqb indexName EmptyString then
         Throw (Error ("invalid index, empty host: " +:+ arg'))
       else if (indexOf indexName "." =? -1) && (indexOf indexName ":" =? -1)
               && negb (String.eqb indexName "localhost") then
         Throw (Error ("invalid index, " +:+ dquote +:+ indexName +:+ dquote
                       +:+ " does not look like a valid host: " +:+ arg'))
       else
         let indexName :=
           if lastCharIs indexName "/" then slice indexName 0 (Some (bytes indexName - 1))
           else indexName in
         if negb (indexOf indexName "/" =? -1) then
           Throw (Error ("invalid index, trailing repo: " +:+ arg'))
         else Ok indexName);
    let indexName :=
      if String.eqb indexName ("index." +:+ DEFAULT_INDEX_NAME) then DEFAULT_INDEX_NAME
      else indexName in
    let index := {| RegistryIndex.name := indexName;
                    RegistryIndex.official := String.eqb indexName DEFAULT_INDEX_NAME;
                    RegistryIndex.scheme := scheme |} in
    if RegistryIndex.official index && (match scheme with http => true | https => false end) then
      Throw (Error ("invalid index, plaintext HTTP to official index is disallowed: " +:+ arg'))
    else Ok index.

(** The second argument of [parseRepo]: a string or a parsed index. *)
Definition DefaultIndex : Type := string + RegistryIndex.t.

Definition parseRepo (arg : string) (defaultIndex : option DefaultIndex)
  : result RegistryRepo.t :=
  let protoSepIdx := indexOf arg "://" in
  '(index, remoteNameRaw) ←
    (if negb (protoSepIdx =? -1) then
       (* (A) repo with a protocol *)
       let slashIdx := indexOfFrom arg "/" (protoSepIdx + 3) in
       if slashIdx =? -1 then
         Throw (Error ("invalid repository name, no " +:+ dquote +:+ "/REPO" +:+ dquote
                       +:+ " after hostame: " +:+ arg))
       else
         let indexName := slice arg 0 (Some slashIdx) in
         let remoteNameRaw := slice arg (slashIdx + 1) None in
         index ← parseIndex (Some indexName);
         Ok (index, remoteNameRaw)
     else
       match splitIntoTwo arg "/" with
       | [part0; part1] =>
           if (indexOf part0 "." =? -1) && (indexOf part0 ":" =? -1)
              && negb (String.eqb part0 "localhost") then
             (* (B) repo without leading 'INDEX/' *)
             index ← match defaultIndex with
                     | None => parseIndex None
                     | Some (inl str) => parseIndex (Some str)
                     | Some (inr idx) => Ok idx
                     end;
             Ok (index, arg)
           else
             (* (C) repo with leading 'INDEX/' (without protocol) *)
             index ← parseIndex (Some part0);
             Ok (index, part1)
       | _ =>
           index ← match defaultIndex with
                   | None => parseIndex None
                   | Some (inl str) => parseIndex (Some str)
                   | Some (inr idx) => Ok idx
                   end;
           Ok (index, arg)
       end);
  (* Validate remoteName *)
  '(ns, name) ←
    match splitIntoTwo remoteNameRaw "/" with
    | [ns; name] =>
        if (length ns <? 2) || (255 <? length ns) then
          Throw (Error ("invalid repository namespace, must be between 2 and 255 characters: "
                        +:+ ns))
        else if negb (VALID_NS ns) then
          Throw (Error ("invalid repository namespace, may only contain [a-z0-9._-] characters: "
                        +:+ ns))
        else if lastCharIs (take 1 ns) "-" && lastCharIs ns "-" then
          Throw (Error ("invalid repository namespace, cannot start or end with a hypen: "
                        +:+ ns))
        else if negb (indexOf ns "--" =? -1) then
          Throw (Error ("invalid repository namespace, cannot contain consecutive hyphens: "
                        +:+ ns))
        else Ok (ns, name)
    | _ => Ok (if RegistryIndex.official index then "library" else EmptyString, remoteNameRaw)
    end;
  (* Validate name *)
  if negb (VALID_REPO name) then
    Throw (Error ("invalid repository name, may only contain [a-z0-9_/.-] characters: "
                  +:+ name))
  else
    let official := RegistryIndex.official index && String.eqb ns "library" in
    let remoteName := if String.eqb ns EmptyString then name else ns +:+ "/" +:+ name in
    let '(localName, canonicalName) :=
      if RegistryIndex.official index then
        let localName := if official then name else remoteName in
        (localName, DEFAULT_INDEX_NAME +:+ "/" +:+ localName)
      else
        let localName := RegistryIndex.name index +:+ "/" +:+ remoteName in
        (localName, localName) in
    Ok {| RegistryRepo.index := index;
          RegistryRepo.official := official;
          RegistryRepo.remoteName := remoteName;
          RegistryRepo.localName := localName;
          RegistryRepo.canonicalName := canonicalName |}.

Definition parseRepoAndRef (arg : string) (defaultIndex : option DefaultIndex)
  : result RegistryImage.t :=
  let atIdx := lastIndexOf arg "@" in
  let '(digest, tag, arg) :=
    if negb (atIdx =? -1) then (Some (slice arg (atIdx + 1) None), None, slice arg 0 (Some atIdx))
    else (None, Some DEFAULT_TAG, arg) in
  let colonIdx := lastIndexOf arg ":" in
  let slashIdx := lastIndexOf arg "/" in
  let '(tag, arg) :=
    if negb (colonIdx =? -1) && (slashIdx <? colonIdx)
    then (Some (slice arg (colonIdx + 1) None), slice arg 0 (Some colonIdx))
    else (tag, arg) in
  repo ← parseRepo arg defaultIndex;
  Ok {| RegistryImage.repo := repo;
        RegistryImage.digest := digest;
        RegistryImage.tag := tag;
        RegistryImage.canonicalRef :=
          join EmptyString
            [ RegistryRepo.canonicalName repo;
              match tag with
              | Some t => if String.eqb t EmptyString then EmptyString else ":" +:+ t
              | None => EmptyString
              end;
              match digest with
              | Some d => if String.eqb d EmptyString then EmptyString else "@" +:+ d
              | None => EmptyString
              end ] |}.

Definition parseRepoAndTag := parseRepoAndRef.

(** [urlFromIndex(index, scheme)].  A [scheme] other than http and https is
    excluded by its type, and with it the second error of the source. *)
Definition urlFromIndex (index : RegistryIndex.t) (scheme : option Scheme) : result string :=
  if RegistryIndex.official index then
    match scheme with
    | Some http => Throw (Error "Unencrypted communication with docker.io is not allowed")
    | _ => Ok DEFAULT_INDEX_URL
    end
  else
    Ok (schemeName (default (RegistryIndex.scheme index) scheme) +:+ "://"
        +:+ RegistryIndex.name index).

End Common.

(** ** lib/www-authenticate.ts *)

Module WwwAuthenticate.
Import JsString.

Definition isSeparator (c : ascii) : bool :=
  Ascii.eqb c (Ascii.ascii_of_N 34) || Ascii.eqb c "," || Ascii.eqb c "=".

(** [header.split(Separators)], where [Separators] is a double quote, a comma
    or an equals sign, captured: the text between the separators (empty where
    two of them meet) and the separators themselves. *)
Fixpoint splitSeparators (s : string) : list string :=
  match s with
  | EmptyString => [EmptyString]
  | String c r =>
      if isSeparator c then EmptyString :: String c EmptyString :: splitSeparators r
      else match splitSeparators r with
           | w :: ws => String c w :: ws
           | [] => [String c EmptyString]
           end
  end.

(** The states of [parse_params]; the source numbers them 0, 1, 2, 3, 8, 9. *)
Inductive state : Type :=
| Token         (* 0 *)
| ExpectEquals  (* 1 *)
| ExpectValue   (* 2 *)
| Quoted        (* 3 *)
| EndQuote      (* 8 *)
| ExpectComma.  (* 9 *)

(** The loop of [parse_params] over the tokens; [inl] is the error message it
    returns.  [key] and [value] are read only after they have been set. *)
Fixpoint parseTokens (toks : list string) (st : state) (key value : string)
    (parms : gmap string string) : string + (state * string * string * gmap string string) :=
  match toks with
  | [] => inr (st, key, value, parms)
  | tok :: toks' =>
      if String.eqb tok EmptyString then parseTokens toks' st key value parms
      else
        match st with
        | Token => parseTokens toks' ExpectEquals (trim tok) value parms
        | ExpectEquals =>
            if negb (String.eqb "=" tok) then inl ("Equal sign was expected after " +:+ key)
            else parseTokens toks' ExpectValue key value parms
        | ExpectValue =>
            if String.eqb dquote tok then parseTokens toks' Quoted key EmptyString parms
            else parseTokens toks' ExpectComma key (trim tok) (<[key := trim tok]> parms)
        | Quoted =>
            if String.eqb dquote tok then parseTokens toks' EndQuote key value parms
            else parseTokens toks' Quoted key (value +:+ tok) parms
        | EndQuote =>
            if String.eqb dquote tok then parseTokens toks' Quoted key (value +:+ dquote) parms
            else if String.eqb "," tok then parseTokens toks' Token key value (<[key := value]> parms)
            else inl ("Unexpected token (" +:+ tok +:+ ") after " +:+ value +:+ dquote)
        | ExpectComma =>
            if negb (String.eqb "," tok) then inl ("Comma expected after " +:+ value)
            else parseTokens toks' Token key value parms
        end
  end.

(** [parse_params(header)]: the parameters, or the error it returns. *)
Definition parse_params (header : string) : string + gmap string string :=
  match parseTokens (splitSeparators header) Token EmptyString EmptyString ∅ with
  | inl err => inl err
  | inr (st, key, value, parms) =>
      match st with
      | Token | ExpectComma => inr parms
      | EndQuote => inr (<[key := value]> parms)
      | _ => inl "Unexpected end of www-authenticate value."
      end
  end.

(** The text up to the first line terminator: what the last group of
    [ParseAuth] matches. *)
Fixpoint restOfLine (s : string) : string :=
  match s with
  | EmptyString => EmptyString
  | String c r =>
      let x := code c in
      if ((x =? 10) || (x =? 13))%N then EmptyString
      else if startsWith s (String (Ascii.ascii_of_N 226) (String (Ascii.ascii_of_N 128)
                             (String (Ascii.ascii_of_N 168) EmptyString)))
              || startsWith s (String (Ascii.ascii_of_N 226) (String (Ascii.ascii_of_N 128)
                                (String (Ascii.ascii_of_N 169) EmptyString)))
      then EmptyString
      else String c (restOfLine r)
  end.

(** [to_parse.match(ParseAuth)], where [ParseAuth] is a run of word
    characters, white space, and the rest of the line: the first run of word
    characters that white space follows, and the text after that white space
    to the end of the line.  [None] is no match. *)
Fixpoint matchParseAuth (fuel : nat) (s : string) : option (string * string) :=
  match fuel with
  | O => None
  | S fuel' =>
      match s with
      | EmptyString => None
      | String c r =>
          if isWordChar c then
            let '(w, rest) := span isWordChar s in
            match wsLen rest with
            | O => matchParseAuth fuel' rest
            | _ => Some (w, restOfLine (trimStart rest))
            end
          else matchParseAuth fuel' r
      end
  end.

Record Parser := {
  scheme : string;
  parms : gmap string string;
  err : option string;
}.

(** [new Parse_WWW_Authenticate(to_parse)] *)
Definition Parse_WWW_Authenticate (to_parse : string) : result Parser :=
  match matchParseAuth (String.length to_parse) to_parse with
  | None => Throw (TypeError "Cannot read properties of null (reading '1')")
  | Some (m1, m2) =>
      match parse_params m2 with
      | inl e => Ok {| scheme := EmptyString; parms := ∅; err := Some e |}
      | inr p => Ok {| scheme := m1; parms := p; err := None |}
      end
  end.

End WwwAuthenticate.

(** ** lib/docker-json-client.ts *)

(** What [fetch] is called with. *)
Module Request.
Record t := {
  url : string;
  method : string;
  headers : Headers;
  redirect : string;
}.
End Request.

(** What becomes of a [fetch]: the promise rejects (no response was
    obtained) or resolves to a response. *)
Inductive Fetched : Type :=
| Rejected (message : string)
| Resolved (r : Fetch.Response).

(** The network: [network n] is what the [n]-th [fetch] of the run meets, and
    [sent] the requests made so far, the first one first. *)
Record World := {
  network : nat -> Fetched;
  sent : list Request.t;
}.

Definition fetch (req : Request.t) : M World Fetch.Response := fun w =>
  let w' := {| network := network w; sent := sent w ++ [req] |} in
  match network w (List.length (sent w)) with
  | Rejected m => (Throw (FetchError m), w')
  | Resolved r => (Ok r, w')
  end.

Record HttpReqOpts := {
  opt_method : string;
  opt_path : string;
  opt_headers : option Headers;
  opt_expectStatus : option (list Z);
  opt_redirect : option string;
}.

Module DockerResponse.
Section WithPlatform.
Context `{Platform}.

(** [new DockerResponse(rawResp.body, {headers, status, statusText})] *)
Definition make (raw : Fetch.Response) : DockerResponse :=
  {| status := Fetch.status raw; statusText := Fetch.statusText raw;
     headers := Fetch.headers raw; body := Fetch.body raw;
     bodyUsed := false; decodedBody := None |}.

Definition setBodyUsed (r : DockerResponse) : DockerResponse :=
  {| status := status r; statusText := statusText r; headers := headers r; body := body r;
     bodyUsed := true; decodedBody := decodedBody r |}.

Definition setDecodedBody (b : list byte) (r : DockerResponse) : DockerResponse :=
  {| status := status r; statusText := statusText r; headers := headers r; body := body r;
     bodyUsed := bodyUsed r; decodedBody := Some b |}.

(** [this.arrayBuffer()]: the whole body, which can be read once. *)
Definition arrayBuffer : M DockerResponse (list byte) := fun r =>
  if bodyUsed r then (Throw (TypeError "body used already"), r)
  else (Ok (concat (default [] (body r))), setBodyUsed r).

Definition dockerBody : M DockerResponse (list byte) :=
  this ← getState;
  match decodedBody this with
  | Some b => mret b
  | None =>
      bytes ← arrayBuffer;
      this ← getState;
      (* Content-MD5 check. *)
      _ ← match Headers.get (headers this) "content-md5" with
          | Some contentMd5 =>
              if negb (String.eqb contentMd5 EmptyString) && negb (status this =? 206) then
                let digest := MD5.base64Digest bytes in
                if negb (String.eqb contentMd5 digest) then
                  throw (Error ("BadDigestError: Content-MD5 (" +:+ contentMd5 +:+ " vs "
                                +:+ digest +:+ ")"))
                else mret tt
              else mret tt
          | None => mret tt
          end;
      _ ← modify (setDecodedBody bytes);
      mret bytes
  end.

(** [dockerJson()]; [VUndefined] for a body of white space. *)
Definition dockerJson : M DockerResponse value :=
  this ← getState;
  body ← match decodedBody this with
         | Some b => mret b
         | None => dockerBody
         end;
  let text := TextDecoder_decode body in
  if JsString.length (JsString.trim text) =? 0 then mret VUndefined
  else
    match JSON_parse text with
    | inr v => mret v
    | inl jsonErr => throw (Error ("Invalid JSON in response: " +:+ jsonErr))
    end.

(** [errObj.filter((x) => typeof x.message === 'string')] *)
Fixpoint filterMessages (errObj : list value) : result (list value) :=
  match errObj with
  | [] => Ok []
  | x :: rest =>
      m ← Js.get x "message";
      kept ← filterMessages rest;
      Ok (if Js.isString m then x :: kept else kept)
  end.

Definition dockerErrors : M DockerResponse (list value) :=
  obj ← tryCatch dockerJson (fun _ => mret VNull);
  error ← liftR (Js.getOpt obj "error");
  errObj ←
    (if Js.truthy error then mret (VArray [error])
     else
       errors ← liftR (Js.getOpt obj "errors");
       match errors with
       | VUndefined | VNull => mret (VArray (if Js.truthy obj then [obj] else []))
       | _ => mret errors
       end);
  match errObj with
  | VArray items => liftR (filterMessages items)
  | _ => throw (TypeError "errObj.filter is not a function")
  end.

(** One line of the message of an [HttpError]:
    ['    ' + [x.code, x.message, x.detail ? JSON.stringify(x.detail) : ''].join(': ')] *)
Definition errorText (x : value) : result string :=
  code ← Js.get x "code";
  msg ← Js.get x "message";
  detail ← Js.get x "detail";
  code' ← Js.joinItem code;
  msg' ← Js.joinItem msg;
  Ok ("    " +:+ JsString.join ": "
        [code'; msg'; if Js.truthy detail then JSON_stringify detail else EmptyString]).

Fixpoint errorTexts (errors : list value) : result (list string) :=
  match errors with
  | [] => Ok []
  | x :: rest =>
      t ← errorText x;
      ts ← errorTexts rest;
      Ok (t :: ts)
  end.

(** The first [n] UTF-16 code units of a string: [text.slice(0, n)].  A cut
    in the middle of a character of four bytes leaves its first half. *)
Fixpoint takeUnits (n : Z) (s : string) : string :=
  match s with
  | EmptyString => EmptyString
  | String c r =>
      let x := Z.of_N (JsString.code c) in
      if (128 <=? x) && (x <? 192) then String c (takeUnits n r)
      else if n <=? 0 then EmptyString
      else if 240 <=? x then
        if n =? 1 then
          match map (fun b => Z.of_N (JsString.code b)) (list_ascii_of_string (JsString.take 4 s)) with
          | [b0; b1; b2; b3] =>
              let cp := (b0 mod 8) * 262144 + (b1 mod 64) * 4096 + (b2 mod 64) * 64 + b3 mod 64 in
              let hi := 55296 + (cp - 65536) / 1024 in
              string_of_list_ascii
                (map (fun b => Ascii.ascii_of_N (Z.to_N b))
                   [224 + hi / 4096; 128 + (hi / 64) mod 64; 128 + hi mod 64])
          | _ => EmptyString
          end
        else String c (takeUnits (n - 2) r)
      else String c (takeUnits (n - 1) r)
  end.

Definition dockerThrowable (baseMsg : string) : M DockerResponse exn :=
  this ← getState;
  (* no point trying to parse HTML *)
  if match Headers.get (headers this) "content-type" with
     | Some ct => JsString.startsWith ct "text/html"
     | None => false
     end
  then
    _ ← arrayBuffer;
    this ← getState;
    mret (HttpError this [] (baseMsg +:+ " (w/ HTML body)"))
  else
    tryCatch
      (errors ← (if 400 <=? status this then dockerErrors else mret []);
       errors ←
         (if Z.of_nat (List.length errors) =? 0 then
            body ← dockerBody;
            let text := TextDecoder_decode body in
            if 1 <? JsString.length text
            then mret (errors ++ [VObject [("message", VString (takeUnits 512 text))]])
            else mret errors
          else mret errors);
       errorTexts ← liftR (errorTexts errors);
       this ← getState;
       mret (HttpError this errors (JsString.join JsString.newline (baseMsg :: errorTexts))))
      (fun err =>
         this ← getState;
         mret (HttpError this []
                 (baseMsg +:+ " - and failed to parse error body: " +:+ message err))).

(** A body stream as its reader sees it: the chunks it delivers, and the
    error it ends with if it does not end well. *)
Record ByteStream := {
  chunks : list (list byte);
  failure : option exn;
}.

(** [stream.pipeThrough(new TransformStream({transform, flush}))] where
    [transform] passes each chunk on and [flush] may end the stream with an
    error computed from all the bytes. *)
Definition pipeThrough (flush : list byte -> option exn) (s : ByteStream) : ByteStream :=
  {| chunks := chunks s;
     failure := match failure s with
                | Some e => Some e
                | None => flush (concat (chunks s))
                end |}.

Definition dockerStream (this : DockerResponse) : result ByteStream :=
  match body this with
  | None => Throw (Error "No body to stream")
  | Some bodyChunks =>
      let stream := {| chunks := if bodyUsed this then [] else bodyChunks; failure := None |} in
      (* Content-MD5 check. *)
      match Headers.get (headers this) "content-md5" with
      | Some contentMd5 =>
          if negb (String.eqb contentMd5 EmptyString) && negb (status this =? 206) then
            Ok (pipeThrough
                  (fun bytes =>
                     let digest := MD5.base64Digest bytes in
                     if negb (String.eqb contentMd5 digest)
                     then Some (Error ("BadDigestError: Content-MD5 (" +:+ contentMd5 +:+ " vs "
                                       +:+ digest +:+ ")"))
                     else None)
                  stream)
          else Ok stream
      | None => Ok stream
      end
  end.

End WithPlatform.
End DockerResponse.

Module DockerJsonClient.
Section WithPlatform.
Context `{Platform}.

Record t := {
  accept : string;
  name : string;
  contentType : string;
  url : string;
  userAgent : string;
}.

(** [new DockerJsonClient({url, userAgent})] *)
Definition make (url userAgent : string) : t :=
  {| accept := "application/json";
     name := "DockerJsonClient";
     contentType := "application/json";
     url := url;
     userAgent := userAgent |}.

Definition setAccept (a : string) (c : t) : t :=
  {| accept := a; name := name c; contentType := contentType c; url := url c;
     userAgent := userAgent c |}.

Definition request (this : t) (opts : HttpReqOpts) : M World DockerResponse :=
  let headers := default ∅ (opt_headers opts) in
  headers ←
    (if negb (Headers.has headers "accept") && negb (String.eqb (accept this) EmptyString)
     then liftR (Headers.set headers "accept" (accept this))
     else mret headers);
  headers ← liftR (Headers.set headers "user-agent" (userAgent this));
  target ← match new_URL (opt_path opts) (Some (url this)) with
           | Some u => mret u
           | None => throw (TypeError "Invalid URL")
           end;
  rawResp ← fetch {| Request.url := target;
                     Request.method := opt_method opts;
                     Request.headers := headers;
                     Request.redirect := default "manual" (opt_redirect opts) |};
  let resp := DockerResponse.make rawResp in
  let expectStatus := default [200] (opt_expectStatus opts) in
  if existsb (Z.eqb (Fetch.status rawResp)) expectStatus then mret resp
  else
    '(e, _) ← call (DockerResponse.dockerThrowable
                      ("Unexpected HTTP " +:+ JsString.ofZ (Fetch.status rawResp) +:+ " from "
                       +:+ opt_path opts)) resp;
    throw e.

End WithPlatform.
End DockerJsonClient.

(** ** URI encoding *)

Module Uri.
Import JsString.

Definition isAlphaNum (c : ascii) : bool :=
  let x := code c in
  ((48 <=? x) && (x <=? 57) || (65 <=? x) && (x <=? 90) || (97 <=? x) && (x <=? 122))%N.

Definition upperHexDigit (d : Z) : ascii :=
  Ascii.ascii_of_N (Z.to_N (if d <? 10 then 48 + d else 55 + d)).

Definition percent (c : ascii) : string :=
  let x := Z.of_N (code c) in
  String "%" (String (upperHexDigit (x / 16)) (String (upperHexDigit (x mod 16)) EmptyString)).

Fixpoint escape (keep : ascii -> bool) (s : string) : string :=
  match s with
  | EmptyString => EmptyString
  | String c r => (if keep c then String c EmptyString else percent c) +:+ escape keep r
  end.

(** [encodeURI(s)] of a well-formed string: every byte of a character is
    escaped, but for letters, digits and [; / ? : @ & = + $ , # - _ . ! ~ * ' ( )]. *)
Definition encodeURI (s : string) : string :=
  escape (fun c => isAlphaNum c || includes ";/?:@&=+$,#-_.!~*'()" (String c EmptyString)) s.

(** How [URLSearchParams] writes a name or a value. *)
Fixpoint formEncode (s : string) : string :=
  match s with
  | EmptyString => EmptyString
  | String c r =>
      (if Ascii.eqb c " " then "+"
       else if isAlphaNum c || includes "*-._" (String c EmptyString) then String c EmptyString
       else percent c) +:+ formEncode r
  end.

(** [query.toString()] for the parameters in the order they were added. *)
Definition queryString (query : list (string * string)) : string :=
  join "&" (map (fun p => formEncode (fst p) +:+ "=" +:+ formEncode (snd p)) query).

End Uri.

(** ** lib/registry-client-v2.ts *)

Record RegistryClientOpts := {
  opts_name : option string;
  opts_repo : option RegistryRepo.t;
  opts_username : option string;
  opts_password : option string;
  opts_token : option string;
  opts_insecure : option bool;
  opts_scheme : option Scheme;
  opts_acceptOCIManifests : option bool;
  opts_acceptManifestLists : option bool;
  opts_userAgent : option string;
  opts_scopes : option (list string);
}.

(** The fields of a [RegistryClientV2]; [None] is [null] or [undefined]. *)
Record RegistryClientV2 := {
  insecure : bool;
  repo : RegistryRepo.t;
  acceptOCIManifests : bool;
  acceptManifestLists : bool;
  username : option string;
  password : option string;
  scopes : list string;
  _loggedIn : bool;
  _loggedInScope : option string;
  _authInfo : option AuthInfo;
  _headers : Headers;
  _url : string;
  _commonHttpClientOpts : string;  (* userAgent *)
}.

(** A client and the network it talks to. *)
Record Session := {
  client : RegistryClientV2;
  world : World;
}.

(** What [_parseDockerContentDigest] returns, without its two methods. *)
Record ContentDigest := {
  raw : string;
  algorithm : string;
  expectedDigest : string;
}.

Module Client.
Section WithPlatform.
Context `{Platform}.
Import JsString.

(** A string that is not empty: [if (s)] on an optional string. *)
Definition nonEmpty (s : option string) : bool :=
  match s with
  | Some s' => negb (String.eqb s' EmptyString)
  | None => false
  end.

Definition _setAuthHeaderFromAuthInfo (headers : Headers) (authInfo : option AuthInfo)
  : result Headers :=
  match authInfo with
  | Some (AuthBearer token) => Headers.set headers "authorization" ("Bearer " +:+ token)
  | Some (AuthBasic username password) =>
      let credentials := username +:+ ":" +:+ password in
      match btoa credentials with
      | Some b => Headers.set headers "authorization" ("Basic " +:+ b)
      | None => Throw (InvalidCharacterError "Invalid character")
      end
  | _ => Ok (Headers.delete headers "authorization")
  end.

Definition _getRegistryErrorMessage (err : value) : result value :=
  body ← Js.get err "body";
  first ←
    (if Js.truthy body then
       errors ← Js.get body "errors";
       Ok (match errors with
           | VArray items => if Js.truthy (Js.first items) then Some (Js.first items) else None
           | _ => None
           end)
     else Ok None);
  match first with
  | Some e0 => Js.get e0 "message"
  | None =>
      details ← (if Js.truthy body then Js.get body "details" else Ok VUndefined);
      if Js.truthy details then Ok details
      else
        errors ← Js.get err "errors";
        m ← match errors with
            | VArray items => Js.get (Js.first items) "message"
            | _ => Ok VUndefined
            end;
        if Js.truthy m then Ok m
        else
          m ← Js.get err "message";
          if Js.truthy m then Ok m
          else
            d ← Js.get err "details";
            if Js.truthy d then Ok d
            else s ← Js.toString err; Ok (VString s)
  end.

Definition _makeAuthScope (resource name : string) (actions : list string) : string :=
  resource +:+ ":" +:+ name +:+ ":" +:+ join "," actions.

Definition _parseWWWAuthenticate (header : string) : result WwwAuthenticate.Parser :=
  parsed ← WwwAuthenticate.Parse_WWW_Authenticate header;
  if nonEmpty (WwwAuthenticate.err parsed) then
    Throw (Error ("could not parse WWW-Authenticate header " +:+ dquote +:+ header +:+ dquote
                  +:+ ": " +:+ default EmptyString (WwwAuthenticate.err parsed)))
  else Ok parsed.

Definition _parseDockerContentDigest (dcd : string) : result ContentDigest :=
  if String.eqb dcd EmptyString then
    Throw (BadDigestError ("missing " +:+ dquote +:+ "Docker-Content-Digest" +:+ dquote
                           +:+ " header"))
  else
    let errPre := "could not parse Docker-Content-Digest header " +:+ dquote +:+ dcd +:+ dquote
                  +:+ ": " in
    match Common.splitIntoTwo dcd ":" with
    | [part0; part1] =>
        if negb (String.eqb part0 "sha256") then
          Throw (BadDigestError (errPre +:+ "Unsupported hash algorithm "
                                 +:+ JSON_stringify (VString part0)))
        else Ok {| raw := dcd; algorithm := part0; expectedDigest := part1 |}
    | _ => Throw (BadDigestError (errPre +:+ JSON_stringify (VString dcd)))
    end.

(** [startHash()] of a parsed digest: the function that hashes all the bytes. *)
Definition startHash (this : ContentDigest) : result (list byte -> string) :=
  if String.eqb (algorithm this) "sha256" then Ok SHA256.hexDigest
  else Throw (BadDigestError ("Unsupported hash algorithm " +:+ algorithm this)).

(** [validationStream] of a parsed digest, as the transform that
    [stream.pipeThrough] would apply. *)
Definition validationStream (this : ContentDigest)
  : result (DockerResponse.ByteStream -> DockerResponse.ByteStream) :=
  hash ← startHash this;
  Ok (DockerResponse.pipeThrough
        (fun bytes =>
           let digest := hash bytes in
           if String.eqb (expectedDigest this) digest then None
           else Some (BadDigestError ("Docker-Content-Digest (" +:+ expectedDigest this
                                      +:+ " vs " +:+ digest +:+ ")")))).

(** The digest is taken over the bytes of the string as it was given. *)
Definition digestFromManifestStr (manifestStr : string) : result string :=
  let digestPrefix := "sha256:" in
  match JSON_parse manifestStr with
  | inl errMessage =>
      Throw (Error ("could not parse manifest: " +:+ errMessage +:+ newline +:+ manifestStr))
  | inr manifest =>
      schemaVersion ← Js.get manifest "schemaVersion";
      if Js.isOne schemaVersion then
        Throw (Error "schemaVersion 1 is not supported by /x/docker_registry_client.")
      else Ok (digestPrefix +:+ SHA256.hexDigest (Bytes.ofString manifestStr))
  end.

(** [new RegistryClientV2(opts)] *)
Definition new (opts : RegistryClientOpts) : result RegistryClientV2 :=
  repo ← match opts_repo opts with
         | Some r => Ok r
         | None =>
             if nonEmpty (opts_name opts)
             then Common.parseRepo (default EmptyString (opts_name opts)) None
             else Throw (Error "name or repo required")
         end;
  headers ←
    (if nonEmpty (opts_token opts) then
       _setAuthHeaderFromAuthInfo ∅ (Some (AuthBearer (default EmptyString (opts_token opts))))
     else if nonEmpty (opts_username opts) || nonEmpty (opts_password opts) then
       _setAuthHeaderFromAuthInfo ∅
         (Some (AuthBasic (default EmptyString (opts_username opts))
                          (default EmptyString (opts_password opts))))
     else _setAuthHeaderFromAuthInfo ∅ (Some AuthNone));
  url ← Common.urlFromIndex (RegistryRepo.index repo) (opts_scheme opts);
  Ok {| insecure := default false (opts_insecure opts);
        repo := repo;
        acceptOCIManifests := default false (opts_acceptOCIManifests opts);
        acceptManifestLists := default false (opts_acceptManifestLists opts);
        username := opts_username opts;
        password := opts_password opts;
        scopes := default ["pull"] (opts_scopes opts);
        _loggedIn := false;
        _loggedInScope := None;
        _authInfo := None;
        _headers := headers;
        _url := url;
        _commonHttpClientOpts :=
          if nonEmpty (opts_userAgent opts) then default EmptyString (opts_userAgent opts)
          else DEFAULT_USERAGENT |}.

(** [this._api] *)
Definition _api (this : RegistryClientV2) : DockerJsonClient.t :=
  DockerJsonClient.make (_url this) (_commonHttpClientOpts this).

(** A request of the client: only the network changes. *)
Definition liftW {A} (m : M World A) : M Session A := fun s =>
  let '(r, w) := m (world s) in (r, {| client := client s; world := w |}).

(** Reads the fields of [this]. *)
Definition getThis : M Session RegistryClientV2 := fun s => (Ok (client s), s).

Definition ping (headers : option Headers) (expectStatus : option (list Z))
  : M Session DockerResponse :=
  this ← getThis;
  resp ← liftW (DockerJsonClient.request (_api this)
                  {| opt_method := "GET";
                     opt_path := "/v2/";
                     opt_headers := headers;
                     opt_expectStatus := Some (default [200; 401; 404] expectStatus);
                     opt_redirect := None |});
  '(_, resp) ← call DockerResponse.dockerBody resp;
  mret resp.

(** What [_getToken] asks of the token endpoint: the URL made of the realm
    and the query, and the credentials of the client if it has a user name. *)
Definition tokenRequest (this : RegistryClientV2) (realm service : option string)
    (scopes : option (list string)) : result HttpReqOpts :=
  (* - add https:// prefix (or http) if none on 'realm' *)
  let realm' := default "undefined" realm in
  let '(scheme, rest) := span isWordChar realm' in
  tokenUrl ←
    (if negb (String.eqb scheme EmptyString) && startsWith rest "://" then
       if negb (String.eqb scheme "http") && negb (String.eqb scheme "https") then
         Throw (Error ("unsupported scheme for WWW-Authenticate realm " +:+ dquote +:+ realm'
                       +:+ dquote +:+ ": " +:+ dquote +:+ scheme +:+ dquote))
       else Ok realm'
     else Ok ((if insecure this then "http" else "https") +:+ "://" +:+ realm'));
  let query :=
    (if nonEmpty service then [("service", default EmptyString service)] else [])
    ++ map (fun scope => ("scope", scope)) (default [] scopes)
    ++ (if nonEmpty (username this) then [("account", default EmptyString (username this))]
        else []) in
  headers ←
    (if nonEmpty (username this) then
       _setAuthHeaderFromAuthInfo ∅
         (Some (AuthBasic (default EmptyString (username this))
                          (default EmptyString (password this))))
     else Ok ∅);
  let tokenUrl :=
    if negb (String.eqb (Uri.queryString query) EmptyString)
    then tokenUrl +:+ "?" +:+ Uri.queryString query
    else tokenUrl in
  Ok {| opt_method := "GET";
        opt_path := tokenUrl;
        opt_headers := Some headers;
        opt_expectStatus := Some [200; 401];
        opt_redirect := None |}.

(** What [_getToken] makes of the response of the token endpoint. *)
Definition tokenResponse (resp : DockerResponse) : M Session string :=
  if status resp =? 401 then
    (* Convert *all* 401 errors to use a generic error constructor
       with a simple error message. *)
    '(json, resp) ← call DockerResponse.dockerJson resp;
    errMsg ← liftR (_getRegistryErrorMessage json);
    errMsg ← liftR (Js.toString errMsg);
    '(e, _) ← call (DockerResponse.dockerThrowable ("Registry auth failed: " +:+ errMsg)) resp;
    throw e
  else
    '(body, resp) ← call DockerResponse.dockerJson resp;
    token ← liftR (Js.get body "token");
    match token with
    | VString t => mret t
    | _ =>
        '(e, _) ← call (DockerResponse.dockerThrowable
                          "authorization server did not include a token in the response") resp;
        throw e
    end.

Definition _getToken (realm service : option string) (scopes : option (list string))
  : M Session string :=
  this ← getThis;
  opts ← liftR (tokenRequest this realm service scopes);
  resp ← liftW (DockerJsonClient.request (_api this) opts);
  tokenResponse resp.

Definition performLogin (scope : option string) (pingRes : option DockerResponse)
  : M Session AuthInfo :=
  this ← getThis;
  let rePing : M Session (AuthInfo + DockerResponse) :=
    res ← ping None (Some [200; 401]);
    mret (if status res =? 200 then inl AuthNone (* No authorization is necessary. *)
          else inr res) in
  pinged ←
    match pingRes with
    | Some res =>
        if nonEmpty (Headers.get (headers res) "www-authenticate") then mret (inr res)
        else rePing
    | None => rePing
    end;
  match pinged with
  | inl authInfo => mret authInfo
  | inr res =>
      let chalHeader := Headers.get (headers res) "www-authenticate" in
      if negb (nonEmpty chalHeader) then
        '(e, _) ← call (DockerResponse.dockerThrowable
                          ("missing WWW-Authenticate header from " +:+ dquote +:+ "GET /v2/"
                           +:+ dquote
                           +:+ " (see https://docs.docker.com/registry/spec/api/#api-version-check)"))
                    res;
        throw e
      else
        authChallenge ← liftR (_parseWWWAuthenticate (default EmptyString chalHeader));
        if String.eqb (toLowerCase (WwwAuthenticate.scheme authChallenge)) "basic" then
          mret (AuthBasic (default EmptyString (username this))
                          (default EmptyString (password this)))
        else if String.eqb (toLowerCase (WwwAuthenticate.scheme authChallenge)) "bearer" then
          token ← _getToken (WwwAuthenticate.parms authChallenge !! "realm")
                            (WwwAuthenticate.parms authChallenge !! "service")
                            (Some (if nonEmpty scope then [default EmptyString scope] else []));
          mret (AuthBearer token)
        else
          throw (Error ("unsupported auth scheme: " +:+ dquote
                        +:+ WwwAuthenticate.scheme authChallenge +:+ dquote))
  end.

Definition setLoggedIn (scope : string) (authInfo : AuthInfo) (c : RegistryClientV2)
  : RegistryClientV2 :=
  {| insecure := insecure c; repo := repo c; acceptOCIManifests := acceptOCIManifests c;
     acceptManifestLists := acceptManifestLists c; username := username c;
     password := password c; scopes := scopes c;
     _loggedIn := true;
     _loggedInScope := Some scope;
     _authInfo := Some authInfo;
     _headers := _headers c; _url := _url c;
     _commonHttpClientOpts := _commonHttpClientOpts c |}.

Definition setHeaders (h : Headers) (c : RegistryClientV2) : RegistryClientV2 :=
  {| insecure := insecure c; repo := repo c; acceptOCIManifests := acceptOCIManifests c;
     acceptManifestLists := acceptManifestLists c; username := username c;
     password := password c; scopes := scopes c;
     _loggedIn := _loggedIn c; _loggedInScope := _loggedInScope c; _authInfo := _authInfo c;
     _headers := h;
     _url := _url c; _commonHttpClientOpts := _commonHttpClientOpts c |}.

Definition onClient (f : RegistryClientV2 -> RegistryClientV2) : M Session unit :=
  modify (fun s => {| client := f (client s); world := world s |}).

(** The scope [login] works with: [opts.scope], or by default the scope of
    the repository with the scopes of the client. *)
Definition effectiveScope (this : RegistryClientV2) (scope : option string) : string :=
  if nonEmpty scope then default EmptyString scope
  else _makeAuthScope "repository" (RegistryRepo.remoteName (repo this)) (scopes this).

Definition login (pingRes : option DockerResponse) (scope : option string) : M Session unit :=
  this ← getThis;
  let scope := effectiveScope this scope in
  if _loggedIn this && bool_decide (_loggedInScope this = Some scope) then mret tt
  else
    authInfo ← performLogin (Some scope) pingRes;
    _ ← onClient (setLoggedIn scope authInfo);
    this ← getThis;
    headers ← liftR (_setAuthHeaderFromAuthInfo (_headers this) (Some authInfo));
    onClient (setHeaders headers).

(** [header.split(/[\s,]+/g)]: the text between runs of white space and
    commas. *)
Fixpoint splitVersions (fuel : nat) (s : string) (inRun : bool) : list string :=
  match fuel with
  | O => [EmptyString]
  | S fuel' =>
      match s with
      | EmptyString => [EmptyString]
      | String c r =>
          let n := if Ascii.eqb c "," then 1%nat else wsLen s in
          match n with
          | O => match splitVersions fuel' r false with
                 | w :: ws => String c w :: ws
                 | [] => [String c EmptyString]
                 end
          | _ => if inRun then splitVersions fuel' (drop n s) true
                 else EmptyString :: splitVersions fuel' (drop n s) true
          end
      end
  end.

Definition supportsV2 : M Session bool :=
  tryCatch
    (res ← ping None None;
     let header := Headers.get (headers res) "docker-distribution-api-version" in
     if nonEmpty header
        && existsb (String.eqb "registry/2.0")
             (let h := default EmptyString header in splitVersions (S (String.length h)) h false)
     then mret true
     else mret (existsb (Z.eqb (status res)) [200; 401]))
    (fun err =>
       match resp err with
       | Some _ => mret false
       | None => throw err
       end).

Definition listTags : M Session value :=
  _ ← login None None;
  this ← getThis;
  res ← liftW (DockerJsonClient.request (_api this)
                 {| opt_method := "GET";
                    opt_path := "/v2/" +:+ Uri.encodeURI (RegistryRepo.remoteName (repo this))
                                +:+ "/tags/list";
                    opt_headers := Some (_headers this);
                    opt_expectStatus := None;
                    opt_redirect := Some "follow" |});
  '(json, _) ← call DockerResponse.dockerJson res;
  mret json.

(** The request of [getManifest]: the headers of the client with the media
    types it accepts, and the path of the manifest. *)
Definition manifestRequest (this : RegistryClientV2) (ref : string)
    (acceptManifestLists acceptOCIManifests : bool) (followRedirects : option bool)
  : result HttpReqOpts :=
  headers ← Headers.append (_headers this) "accept" Common.MEDIATYPE_MANIFEST_V2;
  headers ← (if acceptManifestLists
             then Headers.append headers "accept" Common.MEDIATYPE_MANIFEST_LIST_V2
             else Ok headers);
  headers ← (if acceptOCIManifests then
               headers ← Headers.append headers "accept" Common.MEDIATYPE_OCI_MANIFEST_V1;
               if acceptManifestLists
               then Headers.append headers "accept" Common.MEDIATYPE_OCI_MANIFEST_INDEX_V1
               else Ok headers
             else Ok headers);
  Ok {| opt_method := "GET";
        opt_path := "/v2/" +:+ Uri.encodeURI (RegistryRepo.remoteName (repo this))
                    +:+ "/manifests/" +:+ Uri.encodeURI ref;
        opt_headers := Some headers;
        opt_expectStatus := Some [200; 401];
        opt_redirect :=
          Some (match followRedirects with
                | Some false => "manual"
                | _ => "follow"
                end) |}.

(** What [getManifest] makes of the response. *)
Definition manifestResponse (ref : string) (resp : DockerResponse)
  : M Session (DockerResponse * value) :=
  if status resp =? 401 then
    '(json, resp) ← call DockerResponse.dockerJson resp;
    errMsg ← liftR (_getRegistryErrorMessage json);
    errMsg ← liftR (Js.toString errMsg);
    '(e, _) ← call (DockerResponse.dockerThrowable
                      ("Manifest " +:+ JSON_stringify (VString ref) +:+ " Not Found: "
                       +:+ errMsg)) resp;
    throw e
  else
    '(manifest, resp) ← call DockerResponse.dockerJson resp;
    schemaVersion ← liftR (Js.get manifest "schemaVersion");
    if Js.isOne schemaVersion then
      throw (Error "schemaVersion 1 is not supported by /x/docker_registry_client.")
    else mret (resp, manifest).

Definition getManifest (ref : string) (acceptManifestLists' acceptOCIManifests' : option bool)
    (followRedirects : option bool) : M Session (DockerResponse * value) :=
  this0 ← getThis;
  let acceptOCIManifests := default (acceptOCIManifests this0) acceptOCIManifests' in
  let acceptManifestLists := default (acceptManifestLists this0) acceptManifestLists' in
  _ ← login None None;
  this ← getThis;
  opts ← liftR (manifestRequest this ref acceptManifestLists acceptOCIManifests followRedirects);
  resp ← liftW (DockerJsonClient.request (_api this) opts);
  manifestResponse ref resp.

Definition deleteManifest (ref : string) : M Session unit :=
  _ ← login None None;
  this ← getThis;
  resp ← liftW (DockerJsonClient.request (_api this)
                  {| opt_method := "DELETE";
                     opt_path := "/v2/" +:+ Uri.encodeURI (RegistryRepo.remoteName (repo this))
                                 +:+ "/manifests/" +:+ Uri.encodeURI ref;
                     opt_headers := Some (_headers this);
                     opt_expectStatus := Some [200; 202];
                     opt_redirect := None |});
  _ ← call DockerResponse.dockerJson resp; (* GCR gives { errors: [] } *)
  mret tt.

(** The loop of [_makeHttpRequest].  [remaining] is [maxRedirects - numRedirs]:
    the loop goes on while [numRedirs < maxRedirects], and each turn adds one
    to [numRedirs]. *)
Fixpoint redirectLoop (remaining : nat) (method : string) (followRedirects : bool)
    (maxRedirects : Z) (path : string) (reqHeaders : option Headers)
    (ress : list DockerResponse) : M Session (list DockerResponse) :=
  match remaining with
  | O =>
      throw (TooManyRedirectsError
               ("maximum number of redirects (" +:+ ofZ maxRedirects +:+ ") hit"))
  | S remaining' =>
      this ← getThis;
      let client := DockerJsonClient.setAccept EmptyString (_api this) in
      resp ← liftW (DockerJsonClient.request client
                      {| opt_method := method;
                         opt_path := path;
                         opt_headers := reqHeaders;
                         opt_expectStatus := Some [200; 302; 307];
                         opt_redirect := Some "manual" |});
      let ress := ress ++ [resp] in
      if negb followRedirects then mret ress
      else if negb ((status resp =? 302) || (status resp =? 307)) then mret ress
      else
        let location := Headers.get (headers resp) "location" in
        if negb (nonEmpty location) then mret ress
        else
          match new_URL path (Some (_url this)) with
          | None => throw (TypeError "Invalid URL")
          | Some base =>
              match new_URL (default EmptyString location) (Some base) with
              | None => throw (TypeError "Invalid URL")
              | Some loc =>
                  redirectLoop remaining' method followRedirects maxRedirects loc (Some ∅) ress
              end
          end
  end.

Definition _makeHttpRequest (method path : string) (headers : option Headers)
    (followRedirects : option bool) (maxRedirects : option Z)
  : M Session (list DockerResponse) :=
  let followRedirects := default true followRedirects in
  let maxRedirects := default 3 maxRedirects in
  redirectLoop (Z.to_nat maxRedirects) method followRedirects maxRedirects path headers [].

Definition _headOrGetBlob (method digest : string) : M Session (list DockerResponse) :=
  _ ← login None None;
  this ← getThis;
  _makeHttpRequest method
    ("/v2/" +:+ Uri.encodeURI (RegistryRepo.remoteName (repo this)) +:+ "/blobs/"
     +:+ Uri.encodeURI digest)
    (Some (_headers this)) None None.

Definition headBlob (digest : string) : M Session (list DockerResponse) :=
  _headOrGetBlob "HEAD" digest.

Definition createBlobReadStream (digest : string)
  : M Session (list DockerResponse * DockerResponse.ByteStream) :=
  ress ← _headOrGetBlob "GET" digest;
  stream ← match last ress with
           | Some res => liftR (DockerResponse.dockerStream res)
           | None => throw (TypeError "Cannot read properties of undefined (reading 'dockerStream')")
           end;
  _ ← match ress with
      | res0 :: _ =>
          let dcdHeader := Headers.get (headers res0) "docker-content-digest" in
          if nonEmpty dcdHeader then
            dcdInfo ← liftR (_parseDockerContentDigest (default EmptyString dcdHeader));
            if negb (String.eqb (raw dcdInfo) digest) then
              throw (BadDigestError ("Docker-Content-Digest header, " +:+ raw dcdInfo
                                     +:+ ", does not match given digest, " +:+ digest))
            else
              (* TODO: restore when moving to node 18 LTS
                 stream = stream.pipeThrough(dcdInfo.validationStream); *)
              mret tt
          else mret tt
      | [] => throw (TypeError "Cannot read properties of undefined (reading 'headers')")
      end;
  mret (ress, stream).

End WithPlatform.
End Client.

(** ** A reference platform

    An executable stand-in for what the platform supplies, used to run the
    library on concrete inputs.  The general statements below hold for every
    [Platform]. *)

Module Reference.
Import JsString.

(** *** Numbers *)

(** The double nearest to [p / q] (ties to even), for [0 < p] and [0 < q]. *)
Definition floatOfRatio (negative : bool) (p q : Z) : float :=
  let k := 56 - (Z.log2 p - Z.log2 q) in
  let num := if 0 <=? k then p * 2 ^ k else p in
  let den := if 0 <=? k then q else q * 2 ^ (- k) in
  let n := 2 * (num / den) + (if num mod den =? 0 then 0 else 1) in
  FloatOps.SF2Prim
    (SpecFloat.binary_normalize FloatOps.prec FloatOps.emax
       (if negative then - n else n) (- k - 1) negative).

(** The double that the decimal numeral [m * 10 ^ e] denotes. *)
Definition floatOfDecimal (negative : bool) (m e : Z) : float :=
  if m =? 0 then (if negative then PrimFloat.neg_zero else PrimFloat.zero)
  else if 400 <? e + Z.log2 m / 3 then
    (if negative then PrimFloat.neg_infinity else PrimFloat.infinity)
  else if e + Z.log2 m <? - 400 then
    (if negative then PrimFloat.neg_zero else PrimFloat.zero)
  else if 0 <=? e then floatOfRatio negative (m * 10 ^ e) 1
  else floatOfRatio negative m (10 ^ (- e)).

Fixpoint digitsOfPos (fuel : nat) (n : Z) (acc : string) : string :=
  match fuel with
  | O => acc
  | S fuel' =>
      let acc' := String (Ascii.ascii_of_N (Z.to_N (48 + n mod 10))) acc in
      if n <? 10 then acc' else digitsOfPos fuel' (n / 10) acc'
  end.

(** The decimal digits of a number that is not negative. *)
Definition digits (n : Z) : string := digitsOfPos (S (Z.to_nat (Z.log2 n))) n EmptyString.

Fixpoint zeros (n : nat) : string :=
  match n with O => EmptyString | S n' => String "0" (zeros n') end.

(** The shortest decimal that denotes the double [p / q]: for each number of
    digits [k] from 1 on, the [k]-digit decimals next to [p / q] are tried;
    the result is [(s, n)] with [s * 10 ^ (n - k)] the decimal. *)
Fixpoint shortest (tries : nat) (k : Z) (x : float) (p q : Z) (n0 : Z) : Z * Z :=
  match tries with
  | O => (0, 0)
  | S tries' =>
      (* p / q = r * 10 ^ (n0 - k) for some r with about k digits *)
      let e := n0 - k in
      let num := if 0 <=? e then p else p * 10 ^ (- e) in
      let den := if 0 <=? e then q * 10 ^ e else q in
      let lo := num / den in
      let near := if 2 * (num mod den) <=? den then [lo; lo + 1] else [lo + 1; lo] in
      match filter (fun s => (0 <? s) && PrimFloat.eqb (floatOfDecimal false s e) x) near with
      | s :: _ => if s =? 10 ^ k then (s / 10, n0 + 1) else if s <? 10 ^ (k - 1) then (s * 10, n0) else (s, n0)
      | [] => shortest tries' (k + 1) x p q n0
      end
  end.

(** [String(x)] on a number *)
Definition numberToString (x : float) : string :=
  match FloatOps.Prim2SF x with
  | SpecFloat.S754_nan => "NaN"
  | SpecFloat.S754_zero _ => "0"
  | SpecFloat.S754_infinity s => if s then "-Infinity" else "Infinity"
  | SpecFloat.S754_finite sign m e =>
      let p := if 0 <=? e then Z.pos m * 2 ^ e else Z.pos m in
      let q := if 0 <=? e then 1 else 2 ^ (- e) in
      (* 10 ^ (n0 - 1) <= p / q < 10 ^ n0 *)
      let est := (Z.log2 p - Z.log2 q) * 30103 / 100000 in
      let atLeast (a : Z) := if 0 <=? a then 10 ^ a * q <=? p else q <=? p * 10 ^ (- a) in
      let n0 := if atLeast (est + 1) then est + 2
                else if atLeast est then est + 1
                else if atLeast (est - 1) then est
                else est - 1 in
      let '(s, n) := shortest 18 1 (PrimFloat.abs x) p q n0 in
      let ds := digits s in
      let k := bytes ds in
      let body :=
        if (k <=? n) && (n <=? 21) then ds +:+ zeros (Z.to_nat (n - k))
        else if (0 <? n) && (n <=? 21) then take (Z.to_nat n) ds +:+ "." +:+ drop (Z.to_nat n) ds
        else if (-6 <? n) && (n <=? 0) then "0." +:+ zeros (Z.to_nat (- n)) +:+ ds
        else
          let ex := (if 0 <=? n - 1 then "+" else "-") +:+ digits (Z.abs (n - 1)) in
          if k =? 1 then ds +:+ "e" +:+ ex
          else take 1 ds +:+ "." +:+ drop 1 ds +:+ "e" +:+ ex in
      if sign then "-" +:+ body else body
  end.

(** *** UTF-8 *)

(** The bytes of a code point, or of a lone surrogate code unit. *)
Definition utf8 (cp : Z) : string :=
  string_of_list_ascii (map (fun b => Ascii.ascii_of_N (Z.to_N b))
    (if cp <? 128 then [cp]
     else if cp <? 2048 then [192 + cp / 64; 128 + cp mod 64]
     else if cp <? 65536 then [224 + cp / 4096; 128 + (cp / 64) mod 64; 128 + cp mod 64]
     else [240 + cp / 262144; 128 + (cp / 4096) mod 64; 128 + (cp / 64) mod 64; 128 + cp mod 64])).

Definition replacement : list byte := map Bytes.ofZ [239; 191; 189].

(** The decoder of the platform for UTF-8: an ill-formed sequence becomes
    U+FFFD, one for each maximal part of it. *)
Fixpoint decodeUtf8 (l : list byte) (need : nat) (lower upper : Z) (pending : list byte)
  : list byte :=
  match l with
  | [] => match need with O => [] | _ => replacement end
  | b :: l' =>
      let x := Bytes.toZ b in
      match need with
      | O =>
          if x <? 128 then b :: decodeUtf8 l' O 128 191 []
          else if (194 <=? x) && (x <=? 223) then decodeUtf8 l' 1 128 191 [b]
          else if (224 <=? x) && (x <=? 239) then
            decodeUtf8 l' 2 (if x =? 224 then 160 else 128) (if x =? 237 then 159 else 191) [b]
          else if (240 <=? x) && (x <=? 244) then
            decodeUtf8 l' 3 (if x =? 240 then 144 else 128) (if x =? 244 then 143 else 191) [b]
          else replacement ++ decodeUtf8 l' O 128 191 []
      | S need' =>
          if (lower <=? x) && (x <=? upper) then
            match need' with
            | O => pending ++ [b] ++ decodeUtf8 l' O 128 191 []
            | _ => decodeUtf8 l' need' 128 191 (pending ++ [b])
            end
          else
            (* the byte starts over *)
            replacement ++
            (if x <? 128 then b :: decodeUtf8 l' O 128 191 []
             else if (194 <=? x) && (x <=? 223) then decodeUtf8 l' 1 128 191 [b]
             else if (224 <=? x) && (x <=? 239) then
               decodeUtf8 l' 2 (if x =? 224 then 160 else 128) (if x =? 237 then 159 else 191) [b]
             else if (240 <=? x) && (x <=? 244) then
               decodeUtf8 l' 3 (if x =? 240 then 144 else 128) (if x =? 244 then 143 else 191) [b]
             else replacement ++ decodeUtf8 l' O 128 191 [])
      end
  end.

(** [new TextDecoder().decode(bytes)]: a byte order mark at the start is
    dropped. *)
Definition textDecode (l : list byte) : string :=
  let l' := match map Bytes.toZ (firstn 3 l) with
            | [239; 187; 191] => skipn 3 l
            | _ => l
            end in
  Bytes.toString (decodeUtf8 l' O 128 191 []).

(** *** JSON *)

Fixpoint skipSpace (s : string) : string :=
  match s with
  | String c r =>
      let x := code c in
      if ((x =? 32) || (x =? 9) || (x =? 10) || (x =? 13))%N then skipSpace r else s
  | EmptyString => s
  end.

Definition hexValue (c : ascii) : option Z :=
  let x := Z.of_N (code c) in
  if (48 <=? x) && (x <=? 57) then Some (x - 48)
  else if (65 <=? x) && (x <=? 70) then Some (x - 55)
  else if (97 <=? x) && (x <=? 102) then Some (x - 87)
  else None.

(** The code unit of the four hexadecimal digits that [s] starts with. *)
Definition hex4 (s : string) : option (Z * string) :=
  match s with
  | String a (String b (String c (String d r))) =>
      x ← hexValue a; y ← hexValue b; z ← hexValue c; w ← hexValue d;
      Some (x * 4096 + y * 256 + z * 16 + w, r)
  | _ => None
  end.

(** The characters of a string literal after its opening quote. *)
Fixpoint parseString (fuel : nat) (s : string) : option (string * string) :=
  match fuel with
  | O => None
  | S fuel' =>
      match s with
      | EmptyString => None
      | String c r =>
          let x := code c in
          if (x =? 34)%N then Some (EmptyString, r)
          else if (x <? 32)%N then None
          else if (x =? 92)%N then
            match r with
            | String e r' =>
                let simple (t : N) :=
                  '(str, rest) ← parseString fuel' r';
                  Some (String (Ascii.ascii_of_N t) str, rest) in
                match e with
                | "b"%char => simple 8%N
                | "f"%char => simple 12%N
                | "n"%char => simple 10%N
                | "r"%char => simple 13%N
                | "t"%char => simple 9%N
                | "/"%char => simple 47%N
                | "\"%char => simple 92%N
                | "u"%char =>
                    '(u, r2) ← hex4 r';
                    let pair :=
                      if (55296 <=? u) && (u <=? 56319) && startsWith r2 "\u" then
                        match hex4 (drop 2 r2) with
                        | Some (v, r3) =>
                            if (56320 <=? v) && (v <=? 57343)
                            then Some (65536 + (u - 55296) * 1024 + (v - 56320), r3)
                            else None
                        | None => None
                        end
                      else None in
                    let '(cp, r4) := default (u, r2) pair in
                    '(str, rest) ← parseString fuel' r4;
                    Some (utf8 cp +:+ str, rest)
                | _ => if (code e =? 34)%N then simple 34%N else None
                end
            | EmptyString => None
            end
          else
            '(str, rest) ← parseString fuel' r;
            Some (String c str, rest)
      end
  end.

Definition isDigit (c : ascii) : bool := ((48 <=? code c) && (code c <=? 57))%N.

Fixpoint digitsValue (s : string) (acc : Z) : Z :=
  match s with
  | EmptyString => acc
  | String c r => digitsValue r (acc * 10 + (Z.of_N (code c) - 48))
  end.

(** A number literal at the start of [s]. *)
Definition parseNumber (s : string) : option (float * string) :=
  let '(negative, s1) := match s with
                         | String "-" r => (true, r)
                         | _ => (false, s)
                         end in
  let '(int, s2) := span isDigit s1 in
  if String.eqb int EmptyString || (startsWith int "0" && negb (String.eqb int "0")) then None
  else
    '(frac, s3) ← match s2 with
                  | String "." r =>
                      let '(f, r') := span isDigit r in
                      if String.eqb f EmptyString then None else Some (f, r')
                  | _ => Some (EmptyString, s2)
                  end;
    '(ex, s4) ← match s3 with
                | String c r =>
                    if Ascii.eqb c "e" || Ascii.eqb c "E" then
                      let '(sign, r1) := match r with
                                         | String "+" r' => (1, r')
                                         | String "-" r' => (-1, r')
                                         | _ => (1, r)
                                         end in
                      let '(d, r2) := span isDigit r1 in
                      if String.eqb d EmptyString then None else Some (sign * digitsValue d 0, r2)
                    else Some (0, s3)
                | EmptyString => Some (0, s3)
                end;
    Some (floatOfDecimal negative (digitsValue (int +:+ frac) 0) (ex - bytes frac), s4).

(** [obj[k] = v] while an object literal is read: a later member replaces an
    earlier one of the same name. *)
Fixpoint setMember (k : string) (v : value) (props : list (string * value))
  : list (string * value) :=
  match props with
  | [] => [(k, v)]
  | (k', v') :: rest => if String.eqb k k' then (k, v) :: rest else (k', v') :: setMember k v rest
  end.

Fixpoint parseValue (fuel : nat) (s : string) : option (value * string) :=
  match fuel with
  | O => None
  | S fuel' =>
      let s := skipSpace s in
      match s with
      | String "{" r =>
          match skipSpace r with
          | String "}" r' => Some (VObject [], r')
          | r' => parseMembers fuel' r' []
          end
      | String "[" r =>
          match skipSpace r with
          | String "]" r' => Some (VArray [], r')
          | r' => parseItems fuel' r' []
          end
      | String c r =>
          if (code c =? 34)%N then
            '(str, rest) ← parseString (String.length r) r;
            Some (VString str, rest)
          else if startsWith s "true" then Some (VBool true, drop 4 s)
          else if startsWith s "false" then Some (VBool false, drop 5 s)
          else if startsWith s "null" then Some (VNull, drop 4 s)
          else
            '(x, rest) ← parseNumber s;
            Some (VNumber x, rest)
      | EmptyString => None
      end
  end
with parseItems (fuel : nat) (s : string) (acc : list value) : option (value * string) :=
  match fuel with
  | O => None
  | S fuel' =>
      '(v, r) ← parseValue fuel' s;
      match skipSpace r with
      | String "," r' => parseItems fuel' r' (acc ++ [v])
      | String "]" r' => Some (VArray (acc ++ [v]), r')
      | _ => None
      end
  end
with parseMembers (fuel : nat) (s : string) (acc : list (string * value))
  : option (value * string) :=
  match fuel with
  | O => None
  | S fuel' =>
      match skipSpace s with
      | String c r =>
          if (code c =? 34)%N then
            '(k, r1) ← parseString (String.length r) r;
            match skipSpace r1 with
            | String ":" r2 =>
                '(v, r3) ← parseValue fuel' r2;
                match skipSpace r3 with
                | String "," r4 => parseMembers fuel' r4 (setMember k v acc)
                | String "}" r4 => Some (VObject (setMember k v acc), r4)
                | _ => None
                end
            | _ => None
            end
          else None
      | EmptyString => None
      end
  end.

(** [JSON.parse(text)].  The message of the error is the platform's own and
    is not reproduced. *)
Definition jsonParse (text : string) : string + value :=
  match parseValue (2 * String.length text + 2) text with
  | Some (v, rest) =>
      match skipSpace rest with
      | EmptyString => inr v
      | _ => inl "Unexpected non-whitespace character after JSON"
      end
  | None => inl "Unexpected token in JSON"
  end.

Fixpoint quoteChars (s : string) : string :=
  match s with
  | EmptyString => EmptyString
  | String c r =>
      let x := Z.of_N (code c) in
      (if x =? 34 then "\" +:+ dquote
       else if x =? 92 then "\\"
       else if x =? 8 then "\b"
       else if x =? 12 then "\f"
       else if x =? 10 then "\n"
       else if x =? 13 then "\r"
       else if x =? 9 then "\t"
       else if x <? 32 then
         "\u00" +:+ String (Bytes.hexDigit (x / 16)) (String (Bytes.hexDigit (x mod 16)) EmptyString)
       else String c EmptyString) +:+ quoteChars r
  end.

(** [JSON.stringify(v)] for a value that [JSON.parse] can produce. *)
Fixpoint jsonStringify (v : value) : string :=
  match v with
  | VUndefined | VNull => "null"
  | VBool b => if b then "true" else "false"
  | VNumber x => if PrimFloat.is_finite x then numberToString x else "null"
  | VString s => dquote +:+ quoteChars s +:+ dquote
  | VArray items => "[" +:+ join "," (map jsonStringify items) +:+ "]"
  | VObject props =>
      "{" +:+ join ","
        ((fix members (l : list (string * value)) : list string :=
            match l with
            | [] => []
            | (k, VUndefined) :: l' => members l'
            | (k, x) :: l' =>
                (dquote +:+ quoteChars k +:+ dquote +:+ ":" +:+ jsonStringify x) :: members l'
            end) props) +:+ "}"
  end.

(** *** URLs *)

(** A URL of the http or https scheme as origin and the rest. *)
Definition splitOrigin (u : string) : option (string * string) :=
  let scheme := if startsWith u "http://" then Some 7%nat
                else if startsWith u "https://" then Some 8%nat
                else None in
  n ← scheme;
  let '(host, rest) :=
    span (fun c => negb (Ascii.eqb c "/" || Ascii.eqb c "?" || Ascii.eqb c "#")) (drop n u) in
  if String.eqb host EmptyString then None else Some (take n u +:+ host, rest).

(** [new URL(url, base).toString()] for http and https URLs that are written
    in their normal form already (host in lower case, no default port, no dot
    segments, nothing to escape): an absolute [url] stands for itself, and one
    that starts with a slash replaces the path of [base]. *)
Definition newURL (url : string) (base : option string) : option string :=
  match splitOrigin url with
  | Some (origin, rest) =>
      Some (origin +:+ (if startsWith rest "/" then rest else "/" +:+ rest))
  | None =>
      b ← base;
      '(origin, _) ← splitOrigin b;
      if startsWith url "/" && negb (startsWith url "//") then Some (origin +:+ url) else None
  end.

(** [btoa(s)]: each character up to U+00FF is one byte. *)
Fixpoint latin1 (s : string) : option (list Z) :=
  match s with
  | EmptyString => Some []
  | String c r =>
      let x := Z.of_N (code c) in
      if x <? 128 then l ← latin1 r; Some (x :: l)
      else if (x =? 194) || (x =? 195) then
        match r with
        | String d r' => l ← latin1 r'; Some ((x - 192) * 64 + Z.of_N (code d) mod 64 :: l)
        | EmptyString => None
        end
      else None
  end.

#[global] Instance platform : Platform := {|
  JSON_parse := jsonParse;
  JSON_stringify := jsonStringify;
  Number_toString := numberToString;
  TextDecoder_decode := textDecode;
  new_URL := newURL;
  btoa := fun s => Bytes.base64 <$> latin1 s;
  DEFAULT_USERAGENT := "node-oci-registry-client/0.2.0 (x64-linux; node/16.17.0)";
|}.

End Reference.

(** ** Example data *)

Module Examples.

(** The manifest of the test of [digestFromManifestStr]. *)
Definition layer (size : float) (digest : string) : value :=
  VObject [("mediaType", VString "application/vnd.docker.image.rootfs.diff.tar");
           ("size", VNumber size);
           ("digest", VString digest)].

Definition v2Manifest : value :=
  VObject
    [("schemaVersion", VNumber 2);
     ("mediaType", VString "application/vnd.docker.distribution.manifest.v2+json");
     ("config",
      VObject [("mediaType", VString "application/vnd.docker.container.image.v1+json");
               ("size", VNumber 2372);
               ("digest",
                VString "sha256:ea880aeae3c3e357bbb7bb715f0f63f086038c7d279736d7f32960064951c00a")]);
     ("layers",
      VArray
        [layer 10240 "sha256:84ff92691f909a05b224e1c56abb4864f01b4f8e3c854e4bb4c7baf1d3f6d652";
         layer 3573760 "sha256:483a41b4dbd5bb9bf388f24139441aa9b90735992ed8f31ec2092eb024d99130";
         layer 10240 "sha256:84ff92691f909a05b224e1c56abb4864f01b4f8e3c854e4bb4c7baf1d3f6d652";
         layer 10240 "sha256:208e4cb1d5e8c6fdfadc4329baf4002821fe5e5359626336f64f0005737af272"])].

(** [JSON.stringify(v2Manifest)] *)
Definition v2ManifestStr : string := Reference.jsonStringify v2Manifest.

(** A manifest of the first schema version. *)
Definition v1Manifest : value :=
  VObject [("schemaVersion", VNumber 1); ("name", VString "blarg"); ("tag", VString "latest")].

Definition v1ManifestStr : string := Reference.jsonStringify v1Manifest.

(** A manifest written with white space: the text is not what a second
    serialization of its value is. *)
Definition spacedManifestStr : string :=
  "{ " +:+ JsString.dquote +:+ "mediaType" +:+ JsString.dquote +:+ " : "
  +:+ JsString.dquote +:+ "application/vnd.docker.distribution.manifest.v2+json"
  +:+ JsString.dquote +:+ ", " +:+ JsString.dquote +:+ "schemaVersion" +:+ JsString.dquote
  +:+ " : 2 }".

Definition spacedManifest : value :=
  VObject [("mediaType", VString "application/vnd.docker.distribution.manifest.v2+json");
           ("schemaVersion", VNumber 2)].

(** The value of a computation that is known not to throw. *)
Definition value_or {A} (d : A) (r : result A) : A :=
  match r with
  | Ok a => a
  | Throw _ => d
  end.

Definition thrown {A} (r : result A) : exn :=
  match r with
  | Ok _ => Error EmptyString
  | Throw e => e
  end.

Definition resolved (f : Fetched) : Fetch.Response :=
  match f with
  | Resolved raw => raw
  | Rejected _ =>
      {| Fetch.status := 0; Fetch.statusText := EmptyString; Fetch.headers := ∅;
         Fetch.body := None |}
  end.

Definition noStream : DockerResponse.ByteStream :=
  {| DockerResponse.chunks := []; DockerResponse.failure := None |}.

Definition noDigest : ContentDigest :=
  {| raw := EmptyString; algorithm := EmptyString; expectedDigest := EmptyString |}.

Definition noResponse : DockerResponse :=
  {| status := 0; statusText := EmptyString; headers := ∅; body := None;
     bodyUsed := false; decodedBody := None |}.

Definition noRequest : HttpReqOpts :=
  {| opt_method := EmptyString; opt_path := EmptyString; opt_headers := None;
     opt_expectStatus := None; opt_redirect := None |}.

(** A network that answers the requests with the elements of [l] in turn and
    refuses the connection afterwards. *)
Definition script (l : list Fetched) : nat -> Fetched :=
  fun n => nth n l (Rejected "connect ECONNREFUSED 127.0.0.1:5000").

Definition respond (status : Z) (headers : list (string * string)) (body : string) : Fetched :=
  Resolved {| Fetch.status := status;
              Fetch.statusText := EmptyString;
              Fetch.headers := list_to_map headers;
              Fetch.body := Some [Bytes.ofString body] |}.

(** [new RegistryClientV2({ name })] *)
Definition optsOfName (name : string) : RegistryClientOpts :=
  {| opts_name := Some name; opts_repo := None; opts_username := None; opts_password := None;
     opts_token := None; opts_insecure := None; opts_scheme := None;
     opts_acceptOCIManifests := None; opts_acceptManifestLists := None;
     opts_userAgent := None; opts_scopes := None |}.

(** The session of a client made for [name], on the network [net]; a name
    that does not parse gives the client of [localhost:5000/blarg]. *)
Definition blarg : RegistryClientV2 :=
  {| insecure := false;
     repo := {| RegistryRepo.index := {| RegistryIndex.name := "localhost:5000";
                                         RegistryIndex.official := false;
                                         RegistryIndex.scheme := http |};
                RegistryRepo.official := false;
                RegistryRepo.remoteName := "blarg";
                RegistryRepo.localName := "localhost:5000/blarg";
                RegistryRepo.canonicalName := "localhost:5000/blarg" |};
     acceptOCIManifests := false;
     acceptManifestLists := false;
     username := None;
     password := None;
     scopes := ["pull"];
     _loggedIn := false;
     _loggedInScope := None;
     _authInfo := None;
     _headers := ∅;
     _url := "http://localhost:5000";
     _commonHttpClientOpts := DEFAULT_USERAGENT (Platform := Reference.platform) |}.

Definition session (net : nat -> Fetched) : Session :=
  {| client := blarg; world := {| network := net; sent := [] |} |}.

(** A registry that asks for no authentication and serves a manifest of the
    first schema version. *)
Definition v1Registry : nat -> Fetched :=
  script [respond 200 [] "{}";
          respond 200 [("content-type", "application/json")] v1ManifestStr].

(** No registry listens. *)
Definition down : nat -> Fetched := script [].

(** A registry that answers every request with an internal error. *)
Definition broken : nat -> Fetched :=
  fun _ => respond 500 [("content-type", "text/plain")] "Internal Server Error".

(** A registry that answers every request with a redirect. *)
Definition redirecting : nat -> Fetched :=
  fun _ => respond 307 [("location", "/next")] EmptyString.

(** A registry that sends the request for a blob on to a content delivery
    network, which serves it. *)
Definition cdn : nat -> Fetched :=
  script [respond 307 [("location", "https://cdn.example.com/blobs/1?sig=abc")] EmptyString;
          respond 200 [] "layer"].

(** The client of [localhost:5000/blarg] with an authorization header. *)
Definition authorized (credentials : string) : RegistryClientV2 :=
  {| insecure := insecure blarg; repo := repo blarg;
     acceptOCIManifests := acceptOCIManifests blarg;
     acceptManifestLists := acceptManifestLists blarg;
     username := username blarg; password := password blarg; scopes := scopes blarg;
     _loggedIn := true;
     _loggedInScope := Some "repository:blarg:pull";
     _authInfo := Some (AuthBearer credentials);
     _headers := <["authorization" := "Bearer " +:+ credentials]> ∅;
     _url := _url blarg;
     _commonHttpClientOpts := _commonHttpClientOpts blarg |}.

Definition sessionOf (c : RegistryClientV2) (net : nat -> Fetched) : Session :=
  {| client := c; world := {| network := net; sent := [] |} |}.

(** The challenge of a registry that wants a token. *)
Definition challenge : string :=
  "Bearer realm=" +:+ JsString.dquote +:+ "https://auth.example.com/token" +:+ JsString.dquote
  +:+ ",service=" +:+ JsString.dquote +:+ "registry.example.com" +:+ JsString.dquote.

Definition tokenBody (token : string) : string :=
  Reference.jsonStringify (VObject [("token", VString token)]).

(** A registry that wants a token, and a token service that grants one for
    each scope asked for. *)
Definition bearerRegistry : nat -> Fetched :=
  script [respond 401 [("www-authenticate", challenge)] EmptyString;
          respond 200 [("content-type", "application/json")] (tokenBody "abc");
          respond 401 [("www-authenticate", challenge)] EmptyString;
          respond 200 [("content-type", "application/json")] (tokenBody "def")].

(** A token service that refuses. *)
Definition refusing (body : string) : nat -> Fetched :=
  script [respond 401 [("www-authenticate", challenge)] EmptyString;
          respond 401 [("content-type", "application/json")] body].

(** A registry that asks for authentication without saying how. *)
Definition noChallenge : nat -> Fetched :=
  script [respond 401 [] EmptyString].

(** A registry whose challenge does not parse. *)
Definition badChallenge : nat -> Fetched :=
  script [respond 401 [("www-authenticate", "Bearer realm")] EmptyString].

(** A registry that asks for a scheme the client does not know. *)
Definition digestChallenge : nat -> Fetched :=
  script [respond 401 [("www-authenticate", "Digest realm=registry")] EmptyString].

(** A token service that answers the request for a token with [status] and
    [body]. *)
Definition tokenService (status : Z) (body : string) : nat -> Fetched :=
  script [respond status [("content-type", "application/json")] body].


(** The body of the errors of a registry. *)
Definition errorsBody : string :=
  Reference.jsonStringify
    (VObject [("errors", VArray [VObject [("code", VString "UNAUTHORIZED");
                                          ("message", VString "authentication required")]])]).

Definition noErrorsBody : string :=
  Reference.jsonStringify (VObject [("errors", VArray [])]).

(** [_getToken] for the realm and the service of [challenge]. *)
Definition getToken (net : nat -> Fetched) : result string * Session :=
  Client._getToken (H := Reference.platform) (Some "https://auth.example.com/token")
    (Some "registry.example.com") (Some ["repository:blarg:pull"]) (session net).

(** The digest of the five bytes of [layer]. *)
Definition layerDigest : string :=
  "sha256:" +:+ SHA256.hexDigest (Bytes.ofString "layer").

(** A registry that asks for no authentication and serves [body] as the blob
    it says has the digest [digest]. *)
Definition blobRegistry (digest body : string) : nat -> Fetched :=
  script [respond 200 [] "{}";
          respond 200 [("docker-content-digest", digest)] body].

End Examples.

(** ** Vocabulary of the statements *)

Section Vocabulary.
Context `{Platform}.

(** The body is announced as HTML. *)
Definition isHtml (r : DockerResponse) : bool :=
  match Headers.get (headers r) "content-type" with
  | Some ct => JsString.startsWith ct "text/html"
  | None => false
  end.

(** The headers the executor sends: those it is given, [accept] unless it is
    there or the client has none, and [user-agent]. *)
Definition requestHeaders (c : DockerJsonClient.t) (opts : HttpReqOpts) : result Headers :=
  let headers := default ∅ (opt_headers opts) in
  headers ←
    (if negb (Headers.has headers "accept")
        && negb (String.eqb (DockerJsonClient.accept c) EmptyString)
     then Headers.set headers "accept" (DockerJsonClient.accept c)
     else Ok headers);
  Headers.set headers "user-agent" (DockerJsonClient.userAgent c).

Definition requestOf (c : DockerJsonClient.t) (opts : HttpReqOpts) (h : Headers)
    (target : string) : Request.t :=
  {| Request.url := target;
     Request.method := opt_method opts;
     Request.headers := h;
     Request.redirect := default "manual" (opt_redirect opts) |}.

Definition send (req : Request.t) (w : World) : World :=
  {| network := network w; sent := sent w ++ [req] |}.

Definition expected (opts : HttpReqOpts) (st : Z) : bool :=
  existsb (Z.eqb st) (default [200] (opt_expectStatus opts)).

(** The request of [ping]. *)
Definition pingRequest (expectStatus : option (list Z)) : HttpReqOpts :=
  {| opt_method := "GET";
     opt_path := "/v2/";
     opt_headers := None;
     opt_expectStatus := Some (default [200; 401; 404] expectStatus);
     opt_redirect := None |}.

(** [versions.includes('registry/2.0')] for the header of a response, if it
    has one. *)
Definition listsRegistry2 (res : DockerResponse) : bool :=
  match Headers.get (headers res) "docker-distribution-api-version" with
  | Some header =>
      negb (String.eqb header EmptyString)
      && existsb (String.eqb "registry/2.0")
           (Client.splitVersions (Datatypes.S (String.length header)) header false)
  | None => false
  end.

(** The session after one more request. *)
Definition sending (req : Request.t) (s : Session) : Session :=
  {| client := client s; world := send req (world s) |}.

(** [login] has nothing to do: the client is logged in with this scope. *)
Definition loggedInWith (c : RegistryClientV2) (scope : string) : bool :=
  _loggedIn c && bool_decide (_loggedInScope c = Some scope).

(** The computation leaves every session in relation [R] with the one it
    started from. *)
Definition respects {A} (R : Session -> Session -> Prop) (m : M Session A) : Prop :=
  forall s, R s (snd (m s)).

(** The fields of the client are what they were. *)
Definition sameClient (s s' : Session) : Prop := client s' = client s.

(** The requests made before are still there, and the network is the same. *)
Definition moreSent (s s' : Session) : Prop :=
  network (world s') = network (world s)
  /\ exists reqs, sent (world s') = sent (world s) ++ reqs.

(** The character [c] does not occur in [s]. *)
Definition lacks (c : ascii) (s : string) : bool :=
  JsString.all (fun d => negb (Ascii.eqb d c)) s.

(** A reference as it is written: a name, then a colon and a tag, then an at
    sign and a digest. *)
Definition reference (name : string) (tag digest : option string) : string :=
  name
  +:+ match tag with Some t => ":" +:+ t | None => EmptyString end
  +:+ match digest with Some d => "@" +:+ d | None => EmptyString end.

(** A tag that can be read back: not empty, without colon, slash and at sign. *)
Definition validTag (tag : option string) : bool :=
  match tag with
  | Some t => negb (String.eqb t EmptyString) && lacks ":" t && lacks "/" t && lacks "@" t
  | None => true
  end.

(** A digest that can be read back: not empty, without at sign. *)
Definition validDigest (digest : option string) : bool :=
  match digest with
  | Some d => negb (String.eqb d EmptyString) && lacks "@" d
  | None => true
  end.

(** The name of an index as [parseRepo] recognises one in front of a slash,
    written without a scheme, and not the long name of the official index. *)
Definition hostLike (idx : string) : bool :=
  negb (String.eqb idx EmptyString)
  && lacks "/" idx && lacks "@" idx
  && negb ((JsString.indexOf idx "." =? -1) && (JsString.indexOf idx ":" =? -1)
           && negb (String.eqb idx "localhost"))
  && negb (String.eqb idx "index.docker.io").

(** The namespace [library] of the official index is not written in a
    canonical name. *)
Definition keepsNamespace (idx remote : string) : bool :=
  negb (String.eqb idx "docker.io" && JsString.startsWith remote "library/").

(** The checks of [parseRepo] on a namespace. *)
Definition validNamespace (ns : string) : bool :=
  negb ((JsString.length ns <? 2) || (255 <? JsString.length ns))
  && Common.VALID_NS ns
  && negb (Common.lastCharIs (JsString.take 1 ns) "-" && Common.lastCharIs ns "-")
  && (JsString.indexOf ns "--" =? -1).

(** The checks of [parseRepo] on the name of a repository in an index. *)
Definition validRemote (remote : string) : bool :=
  match Common.splitIntoTwo remote "/" with
  | [ns; name] => validNamespace ns && Common.VALID_REPO name
  | _ => Common.VALID_REPO remote
  end.

(** The error that rejects a manifest of the first schema version. *)
Definition schemaVersion1Error : exn :=
  Error "schemaVersion 1 is not supported by /x/docker_registry_client.".



(** The request of one turn of the loop of [_makeHttpRequest]. *)
Definition redirectRequest (method path : string) (reqHeaders : option Headers) : HttpReqOpts :=
  {| opt_method := method;
     opt_path := path;
     opt_headers := reqHeaders;
     opt_expectStatus := Some [200; 302; 307];
     opt_redirect := Some "manual" |}.

(** The client that the loop of [_makeHttpRequest] makes its requests with. *)
Definition redirectClient (this : RegistryClientV2) : DockerJsonClient.t :=
  DockerJsonClient.setAccept EmptyString (Client._api this).

(** From the request number [k] on, the network answers every request with a
    307 response whose [location] header is [loc k] and is not empty. *)
Definition alwaysRedirects (w : World) (loc : nat -> string) : Prop :=
  forall k, (List.length (sent w) <= k)%nat ->
    exists raw, network w k = Resolved raw
                /\ Fetch.status raw = 307
                /\ Headers.get (Fetch.headers raw) "location" = Some (loc k)
                /\ loc k <> EmptyString.

(** The URLs of [n] hops can be made: the path of each request resolves
    against the URL of the client, and the location that answers it resolves
    against the result. *)
Fixpoint hopsResolve (url : string) (loc : nat -> string) (n k : nat) (path : string) : bool :=
  match n with
  | O => true
  | Datatypes.S n' =>
      match new_URL path (Some url) with
      | None => false
      | Some base =>
          match new_URL (loc k) (Some base) with
          | None => false
          | Some next => hopsResolve url loc n' (Datatypes.S k) next
          end
      end
  end.

(** The response does not send the loop on: the loop does not follow
    redirects, or the status is neither 302 nor 307, or there is no location. *)
Definition endsLoop (followRedirects : bool) (raw : Fetch.Response) : bool :=
  negb followRedirects
  || negb ((Fetch.status raw =? 302) || (Fetch.status raw =? 307))
  || negb (Client.nonEmpty (Headers.get (Fetch.headers raw) "location")).

(** What the executor makes of the answer of the network: the response when
    its status is expected, the error of [dockerThrowable] when it is not. *)
Definition answer (opts : HttpReqOpts) (f : Fetched) : result DockerResponse :=
  match f with
  | Rejected m => Throw (FetchError m)
  | Resolved raw =>
      if expected opts (Fetch.status raw) then Ok (DockerResponse.make raw)
      else
        match DockerResponse.dockerThrowable
                ("Unexpected HTTP " +:+ JsString.ofZ (Fetch.status raw) +:+ " from "
                 +:+ opt_path opts) (DockerResponse.make raw) with
        | (Ok e, _) => Throw e
        | (Throw e, _) => Throw e
        end
  end.

(** The session after the requests [reqs] have been made. *)
Definition extend (s : Session) (reqs : list Request.t) : Session :=
  {| client := client s;
     world := {| network := network (world s); sent := sent (world s) ++ reqs |} |}.

(** The requests made between the sessions [s] and [s']. *)
Definition issued (s s' : Session) : list Request.t :=
  drop (List.length (sent (world s))) (sent (world s')).

(** The requests of a run of the loop of [_makeHttpRequest] that starts at
    [path] with the headers [reqHeaders] when [k] requests have been made.
    A request follows another one only when the network has answered that one
    with a location; it goes to the location resolved against the URL of that
    one, and the loop has given the executor an empty set of headers for it. *)
Inductive redirectChain (this : RegistryClientV2) (net : nat -> Fetched) (method : string)
  : string -> option Headers -> nat -> list Request.t -> Prop :=
| chain_none path reqHeaders k :
    redirectChain this net method path reqHeaders k []
| chain_last path reqHeaders k h target :
    Headers.set (default ∅ reqHeaders) "user-agent" (_commonHttpClientOpts this) = Ok h ->
    new_URL path (Some (_url this)) = Some target ->
    redirectChain this net method path reqHeaders k
      [requestOf (redirectClient this) (redirectRequest method path reqHeaders) h target]
| chain_hop path reqHeaders k h target raw location next rest :
    Headers.set (default ∅ reqHeaders) "user-agent" (_commonHttpClientOpts this) = Ok h ->
    new_URL path (Some (_url this)) = Some target ->
    net k = Resolved raw ->
    Headers.get (Fetch.headers raw) "location" = Some location ->
    new_URL location (Some target) = Some next ->
    redirectChain this net method next (Some ∅) (Datatypes.S k) rest ->
    redirectChain this net method path reqHeaders k
      (requestOf (redirectClient this) (redirectRequest method path reqHeaders) h target
       :: rest).

End Vocabulary.

(** ** Vocabulary of the further statements *)

Section FurtherVocabulary.
Context `{Platform}.

(** [host] looks like the name of a host to [parseIndex] and [parseRepo]: it
    has a dot or a colon, or it is [localhost]. *)
Definition looksLikeHost (host : string) : bool :=
  negb ((JsString.indexOf host "." =? -1) && (JsString.indexOf host ":" =? -1)
        && negb (String.eqb host "localhost")).

(** An entry of the errors of a response as their type promises it: an
    object whose [message] is a string. *)
Definition hasMessage (x : value) : Prop :=
  exists props m, x = VObject props /\ Js.lookup "message" props = VString m.

(** The [accept] header of a request of the executor: the one it is given,
    or else the one of the client unless that is empty. *)
Definition acceptSent (c : DockerJsonClient.t) (opts : HttpReqOpts) : option string :=
  match Headers.get (default ∅ (opt_headers opts)) "accept" with
  | Some a => Some a
  | None =>
      if String.eqb (DockerJsonClient.accept c) EmptyString then None
      else Some (DockerJsonClient.accept c)
  end.

(** The value of the [authorization] header that stands for [authInfo];
    [None] is no header. *)
Definition authorizationOf (authInfo : option AuthInfo) : option string :=
  match authInfo with
  | Some (AuthBearer token) => Some ("Bearer " +:+ token)
  | Some (AuthBasic username password) =>
      (fun b => "Basic " +:+ b) <$> btoa (username +:+ ":" +:+ password)
  | _ => None
  end.

(** The credentials that the constructor makes the first header of. *)
Definition credentialsOf (opts : RegistryClientOpts) : option AuthInfo :=
  if Client.nonEmpty (opts_token opts)
  then Some (AuthBearer (default EmptyString (opts_token opts)))
  else if Client.nonEmpty (opts_username opts) || Client.nonEmpty (opts_password opts)
  then Some (AuthBasic (default EmptyString (opts_username opts))
                       (default EmptyString (opts_password opts)))
  else Some AuthNone.

(** Between the sessions [s] and [s'] at most [n] requests were made: the
    requests made before are still there, and the network is the same. *)
Definition atMost (n : nat) (s s' : Session) : Prop :=
  network (world s') = network (world s)
  /\ exists reqs, sent (world s') = sent (world s) ++ reqs /\ (List.length reqs <= n)%nat.

(** The ping response carries a challenge, so that [performLogin] does not
    ping again. *)
Definition hasChallenge (pingRes : option DockerResponse) : bool :=
  match pingRes with
  | Some res => Client.nonEmpty (Headers.get (headers res) "www-authenticate")
  | None => false
  end.

(** The response sends the loop of [_makeHttpRequest] on when redirects are
    followed: its status is 302 or 307 and it has a location. *)
Definition isRedirect (r : DockerResponse) : bool :=
  ((status r =? 302) || (status r =? 307))
  && Client.nonEmpty (Headers.get (headers r) "location").

(** A name as it stands in a challenge: one word character or more. *)
Definition isWord (s : string) : bool :=
  negb (String.eqb s EmptyString) && JsString.all JsString.isWordChar s.

(** A printable character of ASCII other than the double quote. *)
Definition isQuotable (c : ascii) : bool :=
  ((32 <=? JsString.code c) && (JsString.code c <? 127))%N
  && negb (Ascii.eqb c (Ascii.ascii_of_N 34)).

(** A parameter of a challenge, its value between double quotes. *)
Definition quotedParam (p : string * string) : string :=
  p.1 +:+ "=" +:+ JsString.dquote +:+ p.2 +:+ JsString.dquote.

(** A challenge as a registry writes it: the scheme, a space, and the
    parameters with commas between them. *)
Definition challenge (scheme : string) (params : list (string * string)) : string :=
  scheme +:+ " " +:+ JsString.join "," (map quotedParam params).

(** The parameters as an object holds them: a later value of a name replaces
    an earlier one. *)
Definition paramsOf (params : list (string * string)) : gmap string string :=
  foldl (fun m p => <[p.1 := p.2]> m) ∅ params.

(** The request of [deleteManifest]. *)
Definition deleteRequest (this : RegistryClientV2) (ref : string) : HttpReqOpts :=
  {| opt_method := "DELETE";
     opt_path := "/v2/" +:+ Uri.encodeURI (RegistryRepo.remoteName (repo this))
                 +:+ "/manifests/" +:+ Uri.encodeURI ref;
     opt_headers := Some (_headers this);
     opt_expectStatus := Some [200; 202];
     opt_redirect := None |}.

(** The request of [listTags]. *)
Definition tagsRequest (this : RegistryClientV2) : HttpReqOpts :=
  {| opt_method := "GET";
     opt_path := "/v2/" +:+ Uri.encodeURI (RegistryRepo.remoteName (repo this))
                 +:+ "/tags/list";
     opt_headers := Some (_headers this);
     opt_expectStatus := None;
     opt_redirect := Some "follow" |}.

(** What [dockerJson] makes of the bytes of a body; the value is not looked
    at by a caller that only waits for it. *)
Definition jsonOf (b : list byte) : result value :=
  if JsString.length (JsString.trim (TextDecoder_decode b)) =? 0 then Ok VUndefined
  else match JSON_parse (TextDecoder_decode b) with
       | inr v => Ok v
       | inl jsonErr => Throw (Error ("Invalid JSON in response: " +:+ jsonErr))
       end.

(** The media types that [getManifest] asks for, after what the client
    accepts already. *)
Definition accepted (this : RegistryClientV2) (acceptManifestLists acceptOCIManifests : bool)
  : list string :=
  match Headers.get (_headers this) "accept" with Some a => [a] | None => [] end
  ++ [Common.MEDIATYPE_MANIFEST_V2]
  ++ (if acceptManifestLists then [Common.MEDIATYPE_MANIFEST_LIST_V2] else [])
  ++ (if acceptOCIManifests
      then Common.MEDIATYPE_OCI_MANIFEST_V1
           :: (if acceptManifestLists then [Common.MEDIATYPE_OCI_MANIFEST_INDEX_V1] else [])
      else []).

End FurtherVocabulary.

(** ** Further example data *)

Module FurtherExamples.

(** The index of [https://quay.io/]. *)
Definition quay : RegistryIndex.t :=
  {| RegistryIndex.scheme := https; RegistryIndex.name := "quay.io";
     RegistryIndex.official := false |}.

(** The index of a registry on this host. *)
Definition localIndex : RegistryIndex.t :=
  {| RegistryIndex.scheme := http; RegistryIndex.name := "localhost:5000";
     RegistryIndex.official := false |}.

(** The official index. *)
Definition dockerIndex : RegistryIndex.t :=
  {| RegistryIndex.scheme := https; RegistryIndex.name := "docker.io";
     RegistryIndex.official := true |}.

(** The repository of [busybox]. *)
Definition busybox : RegistryRepo.t :=
  {| RegistryRepo.index := dockerIndex;
     RegistryRepo.official := true;
     RegistryRepo.remoteName := "library/busybox";
     RegistryRepo.localName := "busybox";
     RegistryRepo.canonicalName := "docker.io/busybox" |}.


(** The response of a registry that asks for no authentication. *)
Definition open : DockerResponse :=
  DockerResponse.make (Examples.resolved (Examples.respond 200 [] "{}")).

(** The response of a registry that refuses, with the errors it names. *)
Definition refusal : DockerResponse :=
  DockerResponse.make
    (Examples.resolved
       (Examples.respond 401 [("content-type", "application/json")] Examples.errorsBody)).

(** The parameters of the challenge of the official registry. *)
Definition dockerParams : list (string * string) :=
  [("realm", "https://auth.docker.io/token");
   ("service", "registry.docker.io");
   ("scope", "repository:library/nginx:pull,push")].

(** A registry that asks for no authentication and serves a manifest. *)
Definition manifestRegistry : nat -> Fetched :=
  Examples.script
    [Examples.respond 200 [] "{}";
     Examples.respond 200
       [("content-type", "application/vnd.docker.distribution.manifest.v2+json")]
       Examples.v2ManifestStr].

(** A registry that accepts the deletion of a manifest in plain words. *)
Definition deletingRegistry : nat -> Fetched :=
  Examples.script [Examples.respond 200 [] "{}"; Examples.respond 202 [] "Accepted"].

Definition tagsBody : value :=
  VObject [("name", VString "blarg"); ("tags", VArray [VString "latest"; VString "1.0"])].

(** A registry that lists the tags of a repository. *)
Definition tagsRegistry : nat -> Fetched :=
  Examples.script
    [Examples.respond 200 [] "{}";
     Examples.respond 200 [("content-type", "application/json")]
       (Reference.jsonStringify tagsBody)].

End FurtherExamples.

(** * Properties *)

(** ** The model against the tests of the library *)

Section Tests.
Import Common.
#[local] Existing Instance Reference.platform.

Example sha256_abc :
  SHA256.hexDigest (Bytes.ofString "abc")
  = "ba7816bf8f01cfea414140de5dae2223b00361a396177a9cb410ff61f20015ad".
Proof. vm_compute. reflexivity. Qed.

Example sha256_two_blocks :
  SHA256.hexDigest (Bytes.ofString (Reference.zeros 70))
  = "3a82a2f228264303e7ba1c33d44e99740ce445bb3dcb206dcf23d140c6d59370".
Proof. vm_compute. reflexivity. Qed.

Example md5_abc : MD5.base64Digest (Bytes.ofString "abc") = "kAFQmDzST7DWlj99KOF/cg==".
Proof. vm_compute. reflexivity. Qed.

Example md5_empty : MD5.base64Digest [] = "1B2M2Y8AsgTpgAmY7PhCfg==".
Proof. vm_compute. reflexivity. Qed.

(** [digestFromManifestStr(JSON.stringify(v2Manifest))] of the test of the
    digest. *)
Example test_digestFromManifestStr :
  Client.digestFromManifestStr Examples.v2ManifestStr
  = Ok "sha256:28a63cc341ad4ad7ba7de0af4061ca8068e425ecca4e2c4c326dd8d07442ab71".
Proof. vm_compute. reflexivity. Qed.

Example blarg_is_new :
  Client.new (Examples.optsOfName "localhost:5000/blarg") = Ok Examples.blarg.
Proof. vm_compute. reflexivity. Qed.

(** test/common.spec.ts *)

Example test_busybox :
  RegistryImage.canonicalRef <$> parseRepoAndRef "busybox" None
  = Ok "docker.io/busybox:latest".
Proof. vm_compute. reflexivity. Qed.

Example test_busybox_repo :
  RegistryImage.repo <$> parseRepoAndRef "busybox" None
  = Ok {| RegistryRepo.index := {| RegistryIndex.name := "docker.io";
                                   RegistryIndex.official := true;
                                   RegistryIndex.scheme := https |};
          RegistryRepo.official := true;
          RegistryRepo.remoteName := "library/busybox";
          RegistryRepo.localName := "busybox";
          RegistryRepo.canonicalName := "docker.io/busybox" |}.
Proof. vm_compute. reflexivity. Qed.

Example test_roundtrip_latest :
  RegistryImage.canonicalRef <$> parseRepoAndRef "localhost:5000/blarg:latest" None
  = Ok "localhost:5000/blarg:latest".
Proof. vm_compute. reflexivity. Qed.

Example test_roundtrip_mytag :
  RegistryImage.canonicalRef <$> parseRepoAndRef "localhost:5000/blarg:mytag" None
  = Ok "localhost:5000/blarg:mytag".
Proof. vm_compute. reflexivity. Qed.

Example test_roundtrip_digest :
  RegistryImage.canonicalRef <$> parseRepoAndRef "localhost:5000/blarg@sha256:cafebabe" None
  = Ok "localhost:5000/blarg@sha256:cafebabe".
Proof. vm_compute. reflexivity. Qed.

Example test_roundtrip_tag_digest :
  RegistryImage.canonicalRef
    <$> parseRepoAndRef "localhost:5000/blarg:mytag@sha256:cafebabe" None
  = Ok "localhost:5000/blarg:mytag@sha256:cafebabe".
Proof. vm_compute. reflexivity. Qed.

Example test_default_index :
  RegistryRepo.canonicalName <$> parseRepo "foo/bar" (Some (inl "https://myreg.example.com:1234"))
  = Ok "myreg.example.com:1234/foo/bar".
Proof. vm_compute. reflexivity. Qed.

Example test_bad_namespace :
  isThrow (parseRepo "registry.gitlab.com/user@name/repo-a/repo-b" None) = true.
Proof. vm_compute. reflexivity. Qed.

Example test_nested_repo :
  RegistryRepo.remoteName <$> parseRepo "registry.gitlab.com/user.name/repo-a/repo-b" None
  = Ok "user.name/repo-a/repo-b".
Proof. vm_compute. reflexivity. Qed.

Example test_parseIndex :
  RegistryIndex.name <$> parseIndex (Some "index.docker.io") = Ok "docker.io"
  ∧ isThrow (parseIndex (Some "http://docker.io")) = true
  ∧ isThrow (parseIndex (Some "https://")) = true
  ∧ isThrow (parseIndex (Some "https://foo")) = true
  ∧ isThrow (parseIndex (Some "foo")) = true
  ∧ RegistryIndex.name <$> parseIndex (Some "docker.io/") = Ok "docker.io"
  ∧ isThrow (parseIndex (Some "docker.io/foo")) = true
  ∧ RegistryIndex.name <$> parseIndex (Some "https://index.docker.io/v1/") = Ok "docker.io"
  ∧ RegistryIndex.scheme <$> parseIndex (Some "http://quay.io") = Ok http
  ∧ RegistryIndex.scheme <$> parseIndex (Some "localhost:5000") = Ok http.
Proof. vm_compute. repeat split; reflexivity. Qed.

(** The challenge of the comment of [_parseWWWAuthenticate]. *)
Example test_challenge :
  (fun p => (WwwAuthenticate.scheme p, WwwAuthenticate.parms p !! "realm",
             WwwAuthenticate.parms p !! "service"))
    <$> Client._parseWWWAuthenticate
          ("Bearer realm=" +:+ JsString.dquote +:+ "https://auth.docker.io/token"
           +:+ JsString.dquote +:+ ",service=" +:+ JsString.dquote +:+ "registry.docker.io"
           +:+ JsString.dquote)
  = Ok ("Bearer", Some "https://auth.docker.io/token", Some "registry.docker.io").
Proof. vm_compute. reflexivity. Qed.

Example test_challenge_no_equals :
  message <$> (match Client._parseWWWAuthenticate "Bearer realm" with
               | Throw e => Ok e
               | Ok _ => Throw (Error EmptyString)
               end)
  = Ok ("could not parse WWW-Authenticate header " +:+ JsString.dquote +:+ "Bearer realm"
        +:+ JsString.dquote +:+ ": Unexpected end of www-authenticate value.").
Proof. vm_compute. reflexivity. Qed.

End Tests.

(** ** Reasoning about computations *)

Ltac unfoldM :=
  unfold mbind, mret, M_bind, M_ret, result_bind, result_ret, throw, liftR, Client.liftW,
    call, getState, modify, tryCatch, Client.getThis, Client.onClient in *.

(** ** Manifests *)

Section Manifests.
Context `{Platform}.

(** C6. [digestFromManifestStr] is a function of its argument and of nothing
    else: on a string that parses as JSON to a value whose [schemaVersion]
    is not 1, the result is ['sha256:'] followed by the hexadecimal SHA-256 of
    the bytes of the string itself.  The parsed value does not enter the
    digest, so neither the order of the keys nor the platform does. *)
Theorem digestFromManifestStr_hashes_raw_bytes (manifestStr : string)
    (manifest schemaVersion : value) :
  JSON_parse manifestStr = inr manifest ->
  Js.get manifest "schemaVersion" = Ok schemaVersion ->
  Js.isOne schemaVersion = false ->
  Client.digestFromManifestStr manifestStr
  = Ok ("sha256:" +:+ SHA256.hexDigest (Bytes.ofString manifestStr)).
Proof.
  intros Hparse Hget Hone. unfold Client.digestFromManifestStr.
  rewrite Hparse. unfoldM. rewrite Hget, Hone. reflexivity.
Qed.

Lemma digestFromManifestStr_schemaVersion1 (manifestStr : string) (manifest sv : value) :
  JSON_parse manifestStr = inr manifest ->
  Js.get manifest "schemaVersion" = Ok sv ->
  Js.isOne sv = true ->
  Client.digestFromManifestStr manifestStr = Throw schemaVersion1Error.
Proof.
  intros Hparse Hget Hone. unfold Client.digestFromManifestStr.
  rewrite Hparse. unfoldM. rewrite Hget, Hone. reflexivity.
Qed.

Lemma manifestResponse_schemaVersion1 (ref : string) (resp resp' : DockerResponse)
    (manifest sv : value) (s : Session) :
  (status resp =? 401) = false ->
  DockerResponse.dockerJson resp = (Ok manifest, resp') ->
  Js.get manifest "schemaVersion" = Ok sv ->
  Js.isOne sv = true ->
  Client.manifestResponse ref resp s = (Throw schemaVersion1Error, s).
Proof.
  intros Hst Hjson Hget Hone. unfold Client.manifestResponse.
  rewrite Hst. unfoldM. rewrite Hjson, Hget, Hone. reflexivity.
Qed.

(** C7. A manifest whose [schemaVersion] is 1 is rejected, whatever else it
    holds: [digestFromManifestStr] throws on a string that parses to one, and
    [getManifest] throws when the registry answers its request with a 200
    response whose body parses to one. *)
Theorem schemaVersion_1_is_rejected :
  (forall (manifestStr : string) (manifest sv : value),
     JSON_parse manifestStr = inr manifest ->
     Js.get manifest "schemaVersion" = Ok sv ->
     Js.isOne sv = true ->
     Client.digestFromManifestStr manifestStr = Throw schemaVersion1Error)
  /\
  (forall (ref : string) (acceptManifestLists' acceptOCIManifests' followRedirects : option bool)
          (s s1 s2 : Session) (opts : HttpReqOpts) (resp resp' : DockerResponse)
          (manifest sv : value),
     Client.login None None s = (Ok tt, s1) ->
     Client.manifestRequest (client s1) ref
       (default (acceptManifestLists (client s)) acceptManifestLists')
       (default (acceptOCIManifests (client s)) acceptOCIManifests') followRedirects = Ok opts ->
     Client.liftW (DockerJsonClient.request (Client._api (client s1)) opts) s1 = (Ok resp, s2) ->
     status resp = 200 ->
     DockerResponse.dockerJson resp = (Ok manifest, resp') ->
     Js.get manifest "schemaVersion" = Ok sv ->
     Js.isOne sv = true ->
     Client.getManifest ref acceptManifestLists' acceptOCIManifests' followRedirects s
     = (Throw schemaVersion1Error, s2)).
Proof.
  split.
  - apply digestFromManifestStr_schemaVersion1.
  - intros ref aml aoci fr s s1 s2 opts resp resp' manifest sv
      Hlogin Hopts Hreq Hst Hjson Hget Hone.
    unfold Client.getManifest.
    change (Client.getThis ≫= _) with
      (fun s0 : Session =>
         (Client.login None None ≫= fun _ =>
          Client.getThis ≫= fun this =>
          liftR (Client.manifestRequest this ref (default (acceptManifestLists (client s0)) aml)
                   (default (acceptOCIManifests (client s0)) aoci) fr) ≫= fun opts =>
          Client.liftW (DockerJsonClient.request (Client._api this) opts) ≫= fun resp =>
          Client.manifestResponse ref resp) s0).
    cbv beta.
    unfold mbind at 1, M_bind at 1. rewrite Hlogin.
    unfold mbind at 1, M_bind at 1. unfold Client.getThis at 1. cbv beta iota.
    unfold mbind at 1, M_bind at 1. unfold liftR at 1. rewrite Hopts. cbv beta iota.
    unfold mbind at 1, M_bind at 1. rewrite Hreq.
    eapply manifestResponse_schemaVersion1; eauto.
    rewrite Hst. reflexivity.
Qed.

End Manifests.
(** The manifest of the test of the library, and a manifest whose text is
    not the serialization of its value: the digest is the one of the text. *)
Lemma digestFromManifestStr_hashes_raw_bytes_witness :
  Client.digestFromManifestStr (H := Reference.platform) Examples.v2ManifestStr
  = Ok ("sha256:" +:+ SHA256.hexDigest (Bytes.ofString Examples.v2ManifestStr))
  /\ (Client.digestFromManifestStr (H := Reference.platform) Examples.spacedManifestStr
      = Ok ("sha256:" +:+ SHA256.hexDigest (Bytes.ofString Examples.spacedManifestStr))
      /\ Reference.jsonParse Examples.spacedManifestStr = inr Examples.spacedManifest
      /\ SHA256.hexDigest (Bytes.ofString Examples.spacedManifestStr)
         <> SHA256.hexDigest
              (Bytes.ofString (Reference.jsonStringify Examples.spacedManifest))).
Proof.
  split; [|split; [|split]].
  - apply (@digestFromManifestStr_hashes_raw_bytes Reference.platform
             Examples.v2ManifestStr Examples.v2Manifest (VNumber 2));
      vm_compute; reflexivity.
  - apply (@digestFromManifestStr_hashes_raw_bytes Reference.platform
             Examples.spacedManifestStr Examples.spacedManifest (VNumber 2));
      vm_compute; reflexivity.
  - vm_compute. reflexivity.
  - vm_compute. discriminate.
Defined.

(** A manifest of the first schema version, as a string and as the answer of
    a registry. *)
Lemma schemaVersion_1_is_rejected_witness :
  Client.digestFromManifestStr (H := Reference.platform) Examples.v1ManifestStr
  = Throw schemaVersion1Error
  /\ fst (Client.getManifest (H := Reference.platform) "latest" None None None
            (Examples.session Examples.v1Registry))
     = Throw schemaVersion1Error.
Proof.
  split.
  - apply (proj1 (@schemaVersion_1_is_rejected Reference.platform)
             Examples.v1ManifestStr Examples.v1Manifest (VNumber 1));
      vm_compute; reflexivity.
  - set (s := Examples.session Examples.v1Registry).
    pose (s1 := snd (Client.login None None s)).
    pose (opts := Examples.value_or Examples.noRequest
                    (Client.manifestRequest (client s1) "latest" false false None)).
    pose (r := Client.liftW (DockerJsonClient.request (Client._api (client s1)) opts) s1).
    pose (resp := Examples.value_or Examples.noResponse (fst r)).
    rewrite (proj2 (@schemaVersion_1_is_rejected Reference.platform) "latest" None None None s s1 (snd r) opts
               resp (snd (DockerResponse.dockerJson resp)) Examples.v1Manifest (VNumber 1));
      [ reflexivity | vm_compute; reflexivity .. ].
Defined.

(** ** Strings *)

Section Strings.
Import JsString.

Lemma append_cons (c : ascii) (a b : string) : String c a +:+ b = String c (a +:+ b).
Proof. reflexivity. Qed.

Lemma append_nil_l (a : string) : EmptyString +:+ a = a.
Proof. reflexivity. Qed.

Lemma append_assoc (a b c : string) : (a +:+ b) +:+ c = a +:+ (b +:+ c).
Proof.
  induction a as [|x a IH]; [reflexivity|].
  rewrite !append_cons. f_equal. exact IH.
Qed.

Lemma append_nil_r (a : string) : a +:+ EmptyString = a.
Proof.
  induction a as [|x a IH]; [reflexivity|].
  rewrite append_cons. f_equal. exact IH.
Qed.

Lemma startsWith_refl (s : string) : startsWith s s = true.
Proof. induction s as [|c s IH]; simpl; [reflexivity|]. rewrite Ascii.eqb_refl. exact IH. Qed.

Lemma startsWith_app (p s : string) : startsWith (p +:+ s) p = true.
Proof.
  induction p as [|c p IH]; [reflexivity|].
  rewrite append_cons. simpl. rewrite Ascii.eqb_refl. exact IH.
Qed.

Lemma startsWith_trans (s p q : string) :
  startsWith s p = true -> startsWith p q = true -> startsWith s q = true.
Proof.
  revert s p. induction q as [|c q IH]; intros s p Hsp Hpq; simpl; [reflexivity|].
  destruct p as [|b p]; simpl in Hpq; [discriminate|].
  destruct s as [|a s]; simpl in Hsp; [discriminate|].
  apply andb_prop in Hsp as [Hab Hsp]. apply andb_prop in Hpq as [Hcb Hpq].
  apply Ascii.eqb_eq in Hab. apply Ascii.eqb_eq in Hcb. subst.
  rewrite Ascii.eqb_refl. simpl. eauto.
Qed.

Lemma startsWith_join_head (sep a : string) (l : list string) :
  startsWith (join sep (a :: l)) a = true.
Proof.
  destruct l as [|b l]; simpl.
  - apply startsWith_refl.
  - apply startsWith_app.
Qed.

End Strings.

(** ** Computations *)

Section Computations.
Context {S : Type}.

Lemma bind_Ok {A B} (m : M S A) (k : A -> M S B) (s s' : S) (b : B) :
  (m ≫= k) s = (Ok b, s') ->
  exists a s1, m s = (Ok a, s1) /\ k a s1 = (Ok b, s').
Proof.
  unfold mbind, M_bind. destruct (m s) as [[a|e] s1]; intros Heq.
  - eauto.
  - discriminate.
Qed.

Lemma bind_Throw {A B} (m : M S A) (k : A -> M S B) (s s' : S) (e : exn) :
  (m ≫= k) s = (Throw e, s') ->
  m s = (Throw e, s') \/ exists a s1, m s = (Ok a, s1) /\ k a s1 = (Throw e, s').
Proof.
  unfold mbind, M_bind. destruct (m s) as [[a|e0] s1]; intros Heq.
  - right. eauto.
  - left. injection Heq as -> ->. reflexivity.
Qed.

Lemma bind_run {A B} (m : M S A) (k : A -> M S B) (s s1 : S) (a : A) :
  m s = (Ok a, s1) -> (m ≫= k) s = k a s1.
Proof. unfold mbind, M_bind. intros ->. reflexivity. Qed.

Lemma bind_fail {A B} (m : M S A) (k : A -> M S B) (s s1 : S) (e : exn) :
  m s = (Throw e, s1) -> (m ≫= k) s = (Throw e, s1).
Proof. unfold mbind, M_bind. intros ->. reflexivity. Qed.

End Computations.

(** ** The request executor *)

Section Executor.
Context `{Platform}.

(** [dockerThrowable] returns an [HttpError] whose message starts with the
    base message, unless the body is HTML and has been read already. *)
Lemma dockerThrowable_returns (baseMsg : string) (r : DockerResponse) :
  isHtml r = false \/ bodyUsed r = false ->
  exists r' errs msg,
    DockerResponse.dockerThrowable baseMsg r = (Ok (HttpError r' errs msg), r')
    /\ JsString.startsWith msg baseMsg = true.
Proof.
  intros Hcase. unfold DockerResponse.dockerThrowable, isHtml in *.
  unfold mbind at 1, M_bind at 1, getState at 1. cbv beta iota.
  destruct (match Headers.get (headers r) "content-type" with
            | Some ct => JsString.startsWith ct "text/html"
            | None => false
            end) eqn:Hhtml.
  - destruct Hcase as [Hc|Hused]; [discriminate|].
    unfoldM. unfold DockerResponse.arrayBuffer. rewrite Hused.
    eexists _, _, _. split; [reflexivity|]. apply startsWith_app.
  - unfold tryCatch.
    match goal with |- context [match ?m r with _ => _ end] => destruct (m r) as [[v|e] r1] eqn:Hm end.
    + apply bind_Ok in Hm as (errors & r2 & _ & Hm).
      apply bind_Ok in Hm as (errors' & r3 & _ & Hm).
      apply bind_Ok in Hm as (texts & r4 & _ & Hm).
      unfoldM. injection Hm as <- <-.
      eexists _, _, _. split; [reflexivity|]. apply startsWith_join_head.
    + unfoldM. eexists _, _, _. split; [reflexivity|].
      apply startsWith_app.
Qed.

Lemma make_fresh (raw : Fetch.Response) : bodyUsed (DockerResponse.make raw) = false.
Proof. reflexivity. Qed.

(** The request executor, case by case. *)
Lemma request_cases (c : DockerJsonClient.t) (opts : HttpReqOpts) (w : World) :
  match requestHeaders c opts with
  | Throw e => DockerJsonClient.request c opts w = (Throw e, w)
  | Ok h =>
      match new_URL (opt_path opts) (Some (DockerJsonClient.url c)) with
      | None => DockerJsonClient.request c opts w = (Throw (TypeError "Invalid URL"), w)
      | Some target =>
          let w' := send (requestOf c opts h target) w in
          match network w (List.length (sent w)) with
          | Rejected m => DockerJsonClient.request c opts w = (Throw (FetchError m), w')
          | Resolved raw =>
              if expected opts (Fetch.status raw)
              then DockerJsonClient.request c opts w = (Ok (DockerResponse.make raw), w')
              else exists r' errs msg,
                     DockerJsonClient.request c opts w = (Throw (HttpError r' errs msg), w')
          end
      end
  end.
Proof.
  unfold DockerJsonClient.request, requestHeaders, expected.
  set (h0 := default ∅ (opt_headers opts)).
  destruct (negb (Headers.has h0 "accept")
            && negb (String.eqb (DockerJsonClient.accept c) EmptyString)) eqn:Hacc.
  - destruct (Headers.set h0 "accept" (DockerJsonClient.accept c)) as [h1|e] eqn:H1;
      unfoldM; simpl; [|reflexivity].
    destruct (Headers.set h1 "user-agent" (DockerJsonClient.userAgent c)) as [h2|e] eqn:H2;
      simpl; [|reflexivity].
    destruct (new_URL (opt_path opts) (Some (DockerJsonClient.url c))) as [target|] eqn:Hurl;
      simpl; [|reflexivity].
    unfold fetch.
    destruct (network w (List.length (sent w))) as [m|raw] eqn:Hnet; simpl; [reflexivity|].
    destruct (existsb (Z.eqb (Fetch.status raw)) (default [200] (opt_expectStatus opts)));
      [reflexivity|].
    edestruct (dockerThrowable_returns
                 ("Unexpected HTTP " +:+ JsString.ofZ (Fetch.status raw) +:+ " from "
                  +:+ opt_path opts) (DockerResponse.make raw)) as (r' & errs & msg & Hthrow & _);
      [right; reflexivity|].
    rewrite Hthrow. eexists _, _, _. reflexivity.
  - unfoldM; simpl.
    destruct (Headers.set h0 "user-agent" (DockerJsonClient.userAgent c)) as [h2|e] eqn:H2;
      simpl; [|reflexivity].
    destruct (new_URL (opt_path opts) (Some (DockerJsonClient.url c))) as [target|] eqn:Hurl;
      simpl; [|reflexivity].
    unfold fetch.
    destruct (network w (List.length (sent w))) as [m|raw] eqn:Hnet; simpl; [reflexivity|].
    destruct (existsb (Z.eqb (Fetch.status raw)) (default [200] (opt_expectStatus opts)));
      [reflexivity|].
    edestruct (dockerThrowable_returns
                 ("Unexpected HTTP " +:+ JsString.ofZ (Fetch.status raw) +:+ " from "
                  +:+ opt_path opts) (DockerResponse.make raw)) as (r' & errs & msg & Hthrow & _);
      [right; reflexivity|].
    rewrite Hthrow. eexists _, _, _. reflexivity.
Qed.

End Executor.

(** ** [ping] and [supportsV2] *)

Section Ping.
Context `{Platform}.

Lemma ping_unfold (expectStatus : option (list Z)) (s : Session) :
  Client.ping None expectStatus s
  = match DockerJsonClient.request (Client._api (client s)) (pingRequest expectStatus) (world s) with
    | (Ok resp, w) =>
        match DockerResponse.dockerBody resp with
        | (Ok _, resp') => (Ok resp', {| client := client s; world := w |})
        | (Throw e, _) => (Throw e, {| client := client s; world := w |})
        end
    | (Throw e, w) => (Throw e, {| client := client s; world := w |})
    end.
Proof.
  unfold Client.ping, pingRequest. unfoldM. simpl.
  destruct (DockerJsonClient.request _ _ _) as [[resp|e] w]; simpl; [|reflexivity].
  destruct (DockerResponse.dockerBody resp) as [[b|e] resp']; reflexivity.
Qed.

Lemma supportsV2_unfold (s : Session) :
  Client.supportsV2 s
  = match Client.ping None None s with
    | (Ok res, s') =>
        (Ok (listsRegistry2 res || existsb (Z.eqb (status res)) [200; 401]), s')
    | (Throw e, s') =>
        match resp e with
        | Some _ => (Ok false, s')
        | None => (Throw e, s')
        end
    end.
Proof.
  unfold Client.supportsV2, listsRegistry2, tryCatch.
  unfold mbind at 1, M_bind at 1.
  destruct (Client.ping None None s) as [[res|e] s']; simpl.
  - destruct (Headers.get (headers res) "docker-distribution-api-version") as [header|];
      simpl; [|reflexivity].
    destruct (negb (String.eqb header EmptyString)); simpl; [|reflexivity].
    destruct (existsb _ _); reflexivity.
  - destruct (resp e); reflexivity.
Qed.

(** C2.  [supportsV2] returns [false] when the ping
    fails with an error that carries a response, which is what a status
    other than 200, 401 and 404 gives; it throws the error again when the
    error carries no response, which is what a failure of the transport
    gives; and when the ping succeeds it returns whether the response lists
    [registry/2.0] in its [docker-distribution-api-version] header or has the
    status 200 or 401. *)
Theorem supportsV2_by_cases (s : Session) :
  (forall e s', Client.ping None None s = (Throw e, s') -> resp e <> None ->
     Client.supportsV2 s = (Ok false, s'))
  /\ (forall e s', Client.ping None None s = (Throw e, s') -> resp e = None ->
        Client.supportsV2 s = (Throw e, s'))
  /\ (forall res s', Client.ping None None s = (Ok res, s') ->
        Client.supportsV2 s
        = (Ok (listsRegistry2 res || (status res =? 200) || (status res =? 401)), s'))
  /\ (forall h target m,
        requestHeaders (Client._api (client s)) (pingRequest None) = Ok h ->
        new_URL "/v2/" (Some (_url (client s))) = Some target ->
        network (world s) (List.length (sent (world s))) = Rejected m ->
        Client.supportsV2 s
        = (Throw (FetchError m),
           sending (requestOf (Client._api (client s)) (pingRequest None) h target) s))
  /\ (forall h target raw,
        requestHeaders (Client._api (client s)) (pingRequest None) = Ok h ->
        new_URL "/v2/" (Some (_url (client s))) = Some target ->
        network (world s) (List.length (sent (world s))) = Resolved raw ->
        existsb (Z.eqb (Fetch.status raw)) [200; 401; 404] = false ->
        Client.supportsV2 s
        = (Ok false,
           sending (requestOf (Client._api (client s)) (pingRequest None) h target) s)).
Proof.
  rewrite supportsV2_unfold. repeat split.
  - intros e s' -> Hresp. destruct (resp e); [reflexivity|congruence].
  - intros e s' -> ->. reflexivity.
  - intros res s' ->. simpl. rewrite orb_false_r, orb_assoc. reflexivity.
  - intros h target m Hh Hurl Hnet. rewrite ping_unfold.
    pose proof (request_cases (Client._api (client s)) (pingRequest None) (world s)) as Hreq.
    rewrite Hh in Hreq. simpl in Hreq. rewrite Hurl, Hnet in Hreq.
    rewrite Hreq. reflexivity.
  - intros h target raw Hh Hurl Hnet Hst. rewrite ping_unfold.
    pose proof (request_cases (Client._api (client s)) (pingRequest None) (world s)) as Hreq.
    rewrite Hh in Hreq. simpl in Hreq. rewrite Hurl, Hnet in Hreq.
    unfold expected in Hreq. simpl in Hreq. simpl in Hst. rewrite Hst in Hreq.
    destruct Hreq as (r' & errs & msg & ->). reflexivity.
Qed.

End Ping.

(** With no registry listening the ping fails without a response, and
    [supportsV2] throws the error: it does not return [false].  When the
    registry answers 500 the ping fails with a response, and [supportsV2]
    returns [false]: it does not throw. *)
Lemma supportsV2_counterexample :
  fst (Client.supportsV2 (H := Reference.platform) (Examples.session Examples.down))
  = Throw (FetchError "connect ECONNREFUSED 127.0.0.1:5000")
  /\ fst (Client.supportsV2 (H := Reference.platform) (Examples.session Examples.broken))
     = Ok false.
Proof. split; vm_compute; reflexivity. Qed.

(** The two failures of the ping, by the cases of the theorem. *)
Lemma supportsV2_by_cases_witness :
  fst (Client.supportsV2 (H := Reference.platform) (Examples.session Examples.down))
  = Throw (FetchError "connect ECONNREFUSED 127.0.0.1:5000")
  /\ fst (Client.supportsV2 (H := Reference.platform) (Examples.session Examples.broken))
     = Ok false.
Proof.
  split.
  - pose proof (proj1 (proj2 (proj2 (proj2
      (@supportsV2_by_cases Reference.platform (Examples.session Examples.down)))))) as Hcase.
    erewrite Hcase; [reflexivity | vm_compute; reflexivity ..].
  - pose proof (proj2 (proj2 (proj2 (proj2
      (@supportsV2_by_cases Reference.platform (Examples.session Examples.broken)))))) as Hcase.
    erewrite Hcase; [reflexivity | vm_compute; reflexivity ..].
Defined.

(** ** What a computation leaves unchanged *)

Section Respects.
Context `{Platform}.
Variable R : Session -> Session -> Prop.
Hypothesis R_refl : forall s, R s s.
Hypothesis R_trans : forall s1 s2 s3, R s1 s2 -> R s2 s3 -> R s1 s3.
Hypothesis R_world : forall c w w',
  network w' = network w -> (exists reqs, sent w' = sent w ++ reqs) ->
  R {| client := c; world := w |} {| client := c; world := w' |}.

Lemma respects_ret {A} (a : A) : respects R (mret a).
Proof. intros s. apply R_refl. Qed.

Lemma respects_throw {A} (e : exn) : respects R (throw (A := A) e).
Proof. intros s. apply R_refl. Qed.

Lemma respects_liftR {A} (r : result A) : respects R (liftR r).
Proof. intros s. apply R_refl. Qed.

Lemma respects_getThis : respects R Client.getThis.
Proof. intros s. apply R_refl. Qed.

Lemma respects_call {A} (m : M DockerResponse A) (r : DockerResponse) :
  respects R (call m r).
Proof. intros s. unfold call. destruct (m r) as [[a|e] r']; apply R_refl. Qed.

Lemma respects_bind {A B} (m : M Session A) (k : A -> M Session B) :
  respects R m -> (forall a, respects R (k a)) -> respects R (m ≫= k).
Proof.
  intros Hm Hk s. unfold mbind, M_bind. specialize (Hm s).
  destruct (m s) as [[a|e] s1]; simpl in *.
  - eapply R_trans; [exact Hm|]. apply Hk.
  - exact Hm.
Qed.

Lemma request_world (c : DockerJsonClient.t) (opts : HttpReqOpts) (w : World) :
  network (snd (DockerJsonClient.request c opts w)) = network w
  /\ exists reqs, sent (snd (DockerJsonClient.request c opts w)) = sent w ++ reqs.
Proof.
  pose proof (request_cases c opts w) as Hreq.
  destruct (requestHeaders c opts) as [h|e].
  - destruct (new_URL (opt_path opts) (Some (DockerJsonClient.url c))) as [target|].
    + simpl in Hreq. destruct (network w (List.length (sent w))) as [m|raw].
      * rewrite Hreq. simpl. eauto.
      * destruct (expected opts (Fetch.status raw)).
        -- rewrite Hreq. simpl. eauto.
        -- destruct Hreq as (r' & errs & msg & ->). simpl. eauto.
    + rewrite Hreq. simpl. split; [reflexivity|]. exists []. symmetry. apply app_nil_r.
  - rewrite Hreq. simpl. split; [reflexivity|]. exists []. symmetry. apply app_nil_r.
Qed.

Lemma respects_request (c : DockerJsonClient.t) (opts : HttpReqOpts) :
  respects R (Client.liftW (DockerJsonClient.request c opts)).
Proof.
  intros [cl w]. unfold Client.liftW. simpl.
  pose proof (request_world c opts w) as [Hnet Hsent].
  destruct (DockerJsonClient.request c opts w) as [r w']. simpl in *.
  apply R_world; assumption.
Qed.

End Respects.

Ltac respects_step :=
  first
    [ apply respects_ret; solve [auto]
    | apply respects_throw; solve [auto]
    | apply respects_liftR; solve [auto]
    | apply respects_getThis; solve [auto]
    | apply respects_call; solve [auto]
    | apply respects_request; solve [auto]
    | apply respects_bind; [solve [auto] | | intros ?]
    | match goal with
      | |- respects _ (match ?x with _ => _ end) => destruct x
      | |- respects _ (if ?x then _ else _) => destruct x
      | |- respects _ (let '(_, _) := ?x in _) => destruct x
      end
    | progress cbv beta ].

Section Login.
Context `{Platform}.

Lemma sameClient_refl (s : Session) : sameClient s s.
Proof. reflexivity. Qed.

Lemma sameClient_trans (s1 s2 s3 : Session) :
  sameClient s1 s2 -> sameClient s2 s3 -> sameClient s1 s3.
Proof. unfold sameClient. congruence. Qed.

Lemma sameClient_world (c : RegistryClientV2) (w w' : World) :
  network w' = network w -> (exists reqs, sent w' = sent w ++ reqs) ->
  sameClient {| client := c; world := w |} {| client := c; world := w' |}.
Proof. reflexivity. Qed.

Lemma moreSent_refl (s : Session) : moreSent s s.
Proof. split; [reflexivity|]. exists []. symmetry. apply app_nil_r. Qed.

Lemma moreSent_trans (s1 s2 s3 : Session) :
  moreSent s1 s2 -> moreSent s2 s3 -> moreSent s1 s3.
Proof.
  intros [Hn1 [r1 Hs1]] [Hn2 [r2 Hs2]]. split; [congruence|].
  exists (r1 ++ r2). rewrite Hs2, Hs1. symmetry. apply app_assoc.
Qed.

Lemma moreSent_world (c : RegistryClientV2) (w w' : World) :
  network w' = network w -> (exists reqs, sent w' = sent w ++ reqs) ->
  moreSent {| client := c; world := w |} {| client := c; world := w' |}.
Proof. intros Hn Hs. split; assumption. Qed.

Lemma ping_respects (R : Session -> Session -> Prop) headers expectStatus :
  (forall s, R s s) ->
  (forall s1 s2 s3, R s1 s2 -> R s2 s3 -> R s1 s3) ->
  (forall c w w', network w' = network w -> (exists reqs, sent w' = sent w ++ reqs) ->
     R {| client := c; world := w |} {| client := c; world := w' |}) ->
  respects R (Client.ping headers expectStatus).
Proof. intros Hr Ht Hw. unfold Client.ping. repeat respects_step. Qed.

Lemma tokenResponse_respects (R : Session -> Session -> Prop) resp :
  (forall s, R s s) ->
  (forall s1 s2 s3, R s1 s2 -> R s2 s3 -> R s1 s3) ->
  respects R (Client.tokenResponse resp).
Proof. intros Hr Ht. unfold Client.tokenResponse. repeat respects_step. Qed.

Lemma getToken_respects (R : Session -> Session -> Prop) realm service scopes :
  (forall s, R s s) ->
  (forall s1 s2 s3, R s1 s2 -> R s2 s3 -> R s1 s3) ->
  (forall c w w', network w' = network w -> (exists reqs, sent w' = sent w ++ reqs) ->
     R {| client := c; world := w |} {| client := c; world := w' |}) ->
  respects R (Client._getToken realm service scopes).
Proof.
  intros Hr Ht Hw. unfold Client._getToken.
  repeat first [apply tokenResponse_respects; solve [auto] | respects_step].
Qed.

Lemma performLogin_respects (R : Session -> Session -> Prop) scope pingRes :
  (forall s, R s s) ->
  (forall s1 s2 s3, R s1 s2 -> R s2 s3 -> R s1 s3) ->
  (forall c w w', network w' = network w -> (exists reqs, sent w' = sent w ++ reqs) ->
     R {| client := c; world := w |} {| client := c; world := w' |}) ->
  respects R (Client.performLogin scope pingRes).
Proof.
  intros Hr Ht Hw. unfold Client.performLogin.
  repeat first [ apply ping_respects; solve [auto]
               | apply getToken_respects; solve [auto]
               | respects_step ].
Qed.

(** [performLogin] does not write to the client. *)
Lemma performLogin_sameClient scope pingRes (s : Session) :
  client (snd (Client.performLogin scope pingRes s)) = client s.
Proof.
  apply (performLogin_respects sameClient);
    [exact sameClient_refl | exact sameClient_trans | exact sameClient_world].
Qed.

Lemma performLogin_moreSent scope pingRes (s : Session) :
  moreSent s (snd (Client.performLogin scope pingRes s)).
Proof.
  apply (performLogin_respects moreSent);
    [exact moreSent_refl | exact moreSent_trans | exact moreSent_world].
Qed.

End Login.

(** ** [login] *)

Section LoginSessions.
Context `{Platform}.

(** [login], case by case. *)
Lemma login_unfold pingRes scope (s : Session) :
  Client.login pingRes scope s
  = let scope' := Client.effectiveScope (client s) scope in
    if loggedInWith (client s) scope' then (Ok tt, s)
    else
      match Client.performLogin (Some scope') pingRes s with
      | (Throw e, s1) => (Throw e, s1)
      | (Ok authInfo, s1) =>
          let c1 := Client.setLoggedIn scope' authInfo (client s1) in
          match Client._setAuthHeaderFromAuthInfo (_headers c1) (Some authInfo) with
          | Ok h => (Ok tt, {| client := Client.setHeaders h c1; world := world s1 |})
          | Throw e => (Throw e, {| client := c1; world := world s1 |})
          end
      end.
Proof.
  unfold Client.login, loggedInWith.
  unfold mbind at 1, M_bind at 1, Client.getThis at 1. cbv beta iota zeta.
  destruct (_loggedIn (client s)
            && bool_decide (_loggedInScope (client s)
                            = Some (Client.effectiveScope (client s) scope))); [reflexivity|].
  unfold mbind at 1, M_bind at 1.
  destruct (Client.performLogin _ pingRes s) as [[a|e] s1]; [|reflexivity].
  unfoldM. simpl.
  destruct (Client._setAuthHeaderFromAuthInfo (_headers (client s1)) (Some a)); reflexivity.
Qed.

(** C10. [login] is atomic: when [performLogin] fails, the client is left
    with the fields it had, and [login] fails with the same error; the fields
    of the session are written only after [performLogin] has succeeded. *)
Theorem login_is_atomic pingRes scope (s : Session) :
  (forall e s1,
     Client.performLogin (Some (Client.effectiveScope (client s) scope)) pingRes s
     = (Throw e, s1) ->
     client (snd (Client.login pingRes scope s)) = client s
     /\ (loggedInWith (client s) (Client.effectiveScope (client s) scope) = false ->
         Client.login pingRes scope s = (Throw e, s1) /\ client s1 = client s))
  /\ (client (snd (Client.login pingRes scope s)) <> client s ->
      exists authInfo s1,
        Client.performLogin (Some (Client.effectiveScope (client s) scope)) pingRes s
        = (Ok authInfo, s1)).
Proof.
  rewrite login_unfold. cbv zeta.
  pose proof (performLogin_sameClient (Some (Client.effectiveScope (client s) scope))
                pingRes s) as Hsame.
  split.
  - intros e s1 Hfail. rewrite Hfail in *. simpl in Hsame.
    destruct (loggedInWith _ _); simpl; [split; [reflexivity|discriminate]|].
    split; [exact Hsame|]. intros _. split; [reflexivity|exact Hsame].
  - destruct (loggedInWith _ _); simpl; [congruence|].
    destruct (Client.performLogin _ pingRes s) as [[a|e] s1]; simpl in *.
    + eauto.
    + congruence.
Qed.

Lemma ping_Ok headers expectStatus (s s' : Session) (res : DockerResponse) :
  Client.ping headers expectStatus s = (Ok res, s') ->
  exists req, s' = sending req s.
Proof.
  unfold Client.ping.
  intros Hping. apply bind_Ok in Hping as (this & s0 & Hthis & Hping).
  unfold Client.getThis in Hthis. injection Hthis as <- <-.
  apply bind_Ok in Hping as (resp & s1 & Hreq & Hping).
  apply bind_Ok in Hping as ([b resp'] & s2 & Hcall & Hping).
  unfold call in Hcall. destruct (DockerResponse.dockerBody resp) as [[b0|e0] r0];
    [|discriminate].
  injection Hcall as <- <- <-. unfoldM. injection Hping as <- <-.
  unfold Client.liftW in Hreq.
  match type of Hreq with context [DockerJsonClient.request ?c ?o ?w] =>
    pose proof (request_cases c o w) as Hcases;
    destruct (DockerJsonClient.request c o w) as [r w'] eqn:Hrun end.
  injection Hreq as -> <-.
  destruct (requestHeaders _ _) as [h|e]; [|discriminate].
  destruct (new_URL _ _) as [target|]; [|discriminate].
  simpl in Hcases. destruct (network _ _) as [m|raw]; [discriminate|].
  destruct (expected _ _).
  - injection Hcases as _ ->. eexists. reflexivity.
  - destruct Hcases as (? & ? & ? & ?). discriminate.
Qed.

Lemma moreSent_length (s s' : Session) :
  moreSent s s' -> (List.length (sent (world s)) <= List.length (sent (world s')))%nat.
Proof. intros [_ [reqs ->]]. rewrite length_app. lia. Qed.

Lemma respects_run {A} (R : Session -> Session -> Prop) (m : M Session A) s r s' :
  respects R m -> m s = (r, s') -> R s s'.
Proof. intros Hm Hrun. specialize (Hm s). rewrite Hrun in Hm. exact Hm. Qed.

(** Without the response of an earlier ping, a [performLogin] that succeeds
    has made a request. *)
Lemma performLogin_round_trip scope (s s1 : Session) (authInfo : AuthInfo) :
  Client.performLogin scope None s = (Ok authInfo, s1) ->
  (List.length (sent (world s)) < List.length (sent (world s1)))%nat.
Proof.
  intros Hrun.
  assert (Hrest : forall res s2,
            Client.ping None (Some [200; 401]) s = (Ok res, s2) ->
            moreSent s2 s1 ->
            (List.length (sent (world s)) < List.length (sent (world s1)))%nat).
  { intros res s2 Hping Hmore. apply ping_Ok in Hping as [req ->].
    apply moreSent_length in Hmore. simpl in Hmore. rewrite length_app in Hmore.
    simpl in Hmore. lia. }
  unfold Client.performLogin in Hrun.
  apply bind_Ok in Hrun as (this & s0 & Hthis & Hrun).
  unfold Client.getThis in Hthis. injection Hthis as <- <-.
  apply bind_Ok in Hrun as (pinged & s2 & Hping & Hrun).
  apply bind_Ok in Hping as (res & s3 & Hping & Hret).
  unfold mret, M_ret in Hret. injection Hret as <- <-.
  eapply Hrest; [exact Hping|].
  eapply (respects_run moreSent); [|exact Hrun].
  destruct (status res =? 200).
  - apply respects_ret. exact moreSent_refl.
  - repeat first [ apply getToken_respects;
                     [exact moreSent_refl | exact moreSent_trans | exact moreSent_world]
                 | apply respects_ret; exact moreSent_refl
                 | apply respects_throw; exact moreSent_refl
                 | apply respects_liftR; exact moreSent_refl
                 | apply respects_call; exact moreSent_refl
                 | apply respects_bind; [exact moreSent_trans | | intros ?]
                 | match goal with
                   | |- respects _ (match ?x with _ => _ end) => destruct x
                   | |- respects _ (if ?x then _ else _) => destruct x
                   end
                 | progress cbv beta ].
Qed.

Lemma effectiveScope_default (c : RegistryClientV2) :
  Client.effectiveScope c None
  = "repository:" +:+ RegistryRepo.remoteName (repo c) +:+ ":" +:+ JsString.join "," (scopes c).
Proof. reflexivity. Qed.

Lemma headers_setLoggedIn sc a (c : RegistryClientV2) :
  _headers (Client.setLoggedIn sc a c) = _headers c.
Proof. reflexivity. Qed.

Lemma effectiveScope_set h sc a (c : RegistryClientV2) scope :
  Client.effectiveScope (Client.setHeaders h (Client.setLoggedIn sc a c)) scope
  = Client.effectiveScope c scope.
Proof. reflexivity. Qed.

Lemma loggedInWith_set h sc a (c : RegistryClientV2) :
  loggedInWith (Client.setHeaders h (Client.setLoggedIn sc a c)) sc = true.
Proof. unfold loggedInWith. simpl. apply bool_decide_eq_true_2. reflexivity. Qed.

(** C5. [login] is memoized on the scope it works with, which by default is
    [repository:<remoteName>:<scopes joined by commas>].  A client that is
    logged in with that scope is left as it is, and so is the network: no
    request is made.  In particular a second [login] with the same scope
    after a first one does nothing.  With any other scope [login] runs
    [performLogin], which without the response of an earlier ping makes at
    least one request, and on its success stores the scope, the new
    [AuthInfo] and the authorization header made from it. *)
Theorem login_is_memoized pingRes scope (s : Session) :
  Client.effectiveScope (client s) None
  = "repository:" +:+ RegistryRepo.remoteName (repo (client s)) +:+ ":"
    +:+ JsString.join "," (scopes (client s))
  /\ (loggedInWith (client s) (Client.effectiveScope (client s) scope) = true ->
      Client.login pingRes scope s = (Ok tt, s))
  /\ (forall s1 pingRes',
        Client.login pingRes scope s = (Ok tt, s1) ->
        Client.login pingRes' scope s1 = (Ok tt, s1))
  /\ (loggedInWith (client s) (Client.effectiveScope (client s) scope) = false ->
      forall authInfo s1 h,
        Client.performLogin (Some (Client.effectiveScope (client s) scope)) pingRes s
        = (Ok authInfo, s1) ->
        Client._setAuthHeaderFromAuthInfo (_headers (client s)) (Some authInfo) = Ok h ->
        Client.login pingRes scope s
        = (Ok tt,
           {| client := Client.setHeaders h
                          (Client.setLoggedIn (Client.effectiveScope (client s) scope) authInfo
                             (client s));
              world := world s1 |})
        /\ (pingRes = None ->
            (List.length (sent (world s)) < List.length (sent (world s1)))%nat)).
Proof.
  split; [reflexivity|].
  rewrite login_unfold. cbv zeta. split; [|split].
  - intros ->. reflexivity.
  - intros s1 pingRes' Hlogin. rewrite login_unfold. cbv zeta.
    destruct (loggedInWith (client s) (Client.effectiveScope (client s) scope)) eqn:Hin.
    + injection Hlogin as <-. rewrite Hin. reflexivity.
    + pose proof (performLogin_sameClient (Some (Client.effectiveScope (client s) scope))
                    pingRes s) as Hsame.
      destruct (Client.performLogin _ pingRes s) as [[a|e] s2]; [|discriminate].
      simpl in Hsame.
      destruct (Client._setAuthHeaderFromAuthInfo _ _) as [h|e]; [|discriminate].
      injection Hlogin as <-. cbn [client world].
      rewrite Hsame, effectiveScope_set, loggedInWith_set. reflexivity.
  - intros Hout authInfo s1 h Hrun Hset. rewrite Hout.
    pose proof (performLogin_sameClient (Some (Client.effectiveScope (client s) scope))
                  pingRes s) as Hsame.
    rewrite Hrun in *. simpl in Hsame. cbv beta iota zeta.
    rewrite headers_setLoggedIn, Hsame, Hset. split; [reflexivity|].
    intros ->. eapply performLogin_round_trip. exact Hrun.
Qed.

End LoginSessions.

(** ** The redirect follower *)

Section Redirects.
Context `{Platform}.

Lemma requestHeaders_redirect (this : RegistryClientV2) method path reqHeaders :
  requestHeaders (redirectClient this) (redirectRequest method path reqHeaders)
  = Headers.set (default ∅ reqHeaders) "user-agent" (_commonHttpClientOpts this).
Proof.
  unfold requestHeaders, redirectClient, redirectRequest. simpl.
  rewrite andb_false_r. reflexivity.
Qed.

Lemma make_status (raw : Fetch.Response) : status (DockerResponse.make raw) = Fetch.status raw.
Proof. reflexivity. Qed.

Lemma make_headers (raw : Fetch.Response) :
  headers (DockerResponse.make raw) = Fetch.headers raw.
Proof. reflexivity. Qed.

(** One turn of the loop of [_makeHttpRequest]. *)
Lemma redirectLoop_step remaining method followRedirects maxRedirects path reqHeaders ress
    (s : Session) :
  Client.redirectLoop (Datatypes.S remaining) method followRedirects maxRedirects path
    reqHeaders ress s
  = match DockerJsonClient.request (redirectClient (client s))
            (redirectRequest method path reqHeaders) (world s) with
    | (Throw e, w) => (Throw e, {| client := client s; world := w |})
    | (Ok resp, w) =>
        let s' := {| client := client s; world := w |} in
        if negb followRedirects
           || negb ((status resp =? 302) || (status resp =? 307))
           || negb (Client.nonEmpty (Headers.get (headers resp) "location"))
        then (Ok (ress ++ [resp]), s')
        else
          match new_URL path (Some (_url (client s))) with
          | None => (Throw (TypeError "Invalid URL"), s')
          | Some base =>
              match new_URL (default EmptyString (Headers.get (headers resp) "location"))
                      (Some base) with
              | None => (Throw (TypeError "Invalid URL"), s')
              | Some loc =>
                  Client.redirectLoop remaining method followRedirects maxRedirects loc
                    (Some ∅) (ress ++ [resp]) s'
              end
          end
    end.
Proof.
  cbn [Client.redirectLoop].
  unfold mbind at 1, M_bind at 1, Client.getThis at 1. cbv beta iota.
  unfold mbind at 1, M_bind at 1, Client.liftW at 1.
  fold (redirectClient (client s)). fold (redirectRequest method path reqHeaders).
  destruct (DockerJsonClient.request _ _ (world s)) as [[resp|e] w]; [|reflexivity].
  cbv beta iota zeta.
  destruct followRedirects; simpl; [|reflexivity].
  destruct ((status resp =? 302) || (status resp =? 307)); simpl; [|reflexivity].
  destruct (Client.nonEmpty (Headers.get (headers resp) "location")); simpl; [|reflexivity].
  destruct (new_URL path (Some (_url (client s)))) as [base|]; [|reflexivity].
  destruct (new_URL _ (Some base)) as [loc|]; reflexivity.
Qed.

(** A response that does not send the loop on ends it: the responses so far
    and this one are returned. *)
Lemma redirectLoop_ends remaining method followRedirects maxRedirects path reqHeaders ress
    (s : Session) (h : Headers) (target : string) (raw : Fetch.Response) :
  Headers.set (default ∅ reqHeaders) "user-agent" (_commonHttpClientOpts (client s)) = Ok h ->
  new_URL path (Some (_url (client s))) = Some target ->
  network (world s) (List.length (sent (world s))) = Resolved raw ->
  existsb (Z.eqb (Fetch.status raw)) [200; 302; 307] = true ->
  endsLoop followRedirects raw = true ->
  Client.redirectLoop (Datatypes.S remaining) method followRedirects maxRedirects path
    reqHeaders ress s
  = (Ok (ress ++ [DockerResponse.make raw]),
     sending (requestOf (redirectClient (client s)) (redirectRequest method path reqHeaders)
                h target) s).
Proof.
  intros Hh Hurl Hnet Hst Hend. rewrite redirectLoop_step.
  pose proof (request_cases (redirectClient (client s))
                (redirectRequest method path reqHeaders) (world s)) as Hreq.
  rewrite requestHeaders_redirect, Hh in Hreq. cbn [redirectRequest opt_path] in Hreq.
  change (DockerJsonClient.url (redirectClient (client s))) with (_url (client s)) in Hreq.
  rewrite Hurl, Hnet in Hreq. cbv zeta in Hreq. unfold expected in Hreq.
  cbn [redirectRequest opt_expectStatus from_option id] in Hreq. rewrite Hst in Hreq.
  cbn [redirectRequest opt_path]. rewrite Hreq. cbv zeta.
  rewrite make_status, make_headers. unfold endsLoop in Hend. rewrite Hend. reflexivity.
Qed.

(** When every response is a 307 with a location, the loop makes as many
    requests as it has turns left and then throws. *)
Lemma redirectLoop_always (loc : nat -> string) method maxRedirects :
  forall remaining path reqHeaders ress (s : Session),
    Headers.legalValue (_commonHttpClientOpts (client s)) = true ->
    alwaysRedirects (world s) loc ->
    hopsResolve (_url (client s)) loc remaining (List.length (sent (world s))) path = true ->
    exists s',
      Client.redirectLoop remaining method true maxRedirects path reqHeaders ress s
      = (Throw (TooManyRedirectsError
                  ("maximum number of redirects (" +:+ JsString.ofZ maxRedirects +:+ ") hit")),
         s')
      /\ client s' = client s
      /\ List.length (sent (world s')) = (List.length (sent (world s)) + remaining)%nat.
Proof.
  induction remaining as [|remaining IH]; intros path reqHeaders ress s Hua Hnet Hurls.
  - exists s. simpl. split; [reflexivity|]. split; [reflexivity|lia].
  - rewrite redirectLoop_step.
    pose proof (request_cases (redirectClient (client s))
                  (redirectRequest method path reqHeaders) (world s)) as Hreq.
    rewrite requestHeaders_redirect in Hreq. unfold Headers.set in Hreq. rewrite Hua in Hreq.
    cbn [redirectRequest opt_path] in Hreq.
    change (DockerJsonClient.url (redirectClient (client s))) with (_url (client s)) in Hreq.
    cbn [hopsResolve] in Hurls.
    destruct (new_URL path (Some (_url (client s)))) as [base|] eqn:Hbase; [|discriminate].
    destruct (Hnet (List.length (sent (world s)))) as (raw & Hraw & Hst & Hloc & Hne); [lia|].
    rewrite Hraw in Hreq. cbv zeta in Hreq. unfold expected in Hreq.
    cbn [redirectRequest opt_expectStatus from_option id] in Hreq. rewrite Hst in Hreq.
    simpl existsb in Hreq. cbv iota in Hreq.
    cbn [redirectRequest opt_path]. rewrite Hreq. cbv zeta.
    rewrite make_status, make_headers, Hst, Hloc. simpl negb.
    assert (Hnonempty : String.eqb (loc (List.length (sent (world s)))) EmptyString = false).
    { apply String.eqb_neq. exact Hne. }
    rewrite Hnonempty. simpl.
    destruct (new_URL (loc (List.length (sent (world s)))) (Some base)) as [next|] eqn:Hnext;
      [|discriminate].
    match goal with |- context [Client.redirectLoop remaining _ _ _ next (Some ∅) ?r ?s1] =>
      destruct (IH next (Some ∅) r s1) as (s' & Hrun & Hclient & Hlen) end.
    + exact Hua.
    + intros k Hk. simpl in Hk. rewrite length_app in Hk. simpl in Hk.
      simpl. apply Hnet. lia.
    + simpl. rewrite length_app. simpl.
      replace (List.length (sent (world s)) + 1)%nat
        with (Datatypes.S (List.length (sent (world s)))) by lia.
      exact Hurls.
    + exists s'. split; [exact Hrun|]. split; [exact Hclient|].
      rewrite Hlen. simpl. rewrite length_app. simpl. lia.
Qed.

End Redirects.

(** ** Headers and URLs of the requests that follow a redirect *)

Section RedirectTargets.
Context `{Platform}.

(** The request executor as a function of the answer of the network. *)
Lemma request_unfold (c : DockerJsonClient.t) (opts : HttpReqOpts) (w : World) :
  DockerJsonClient.request c opts w
  = match requestHeaders c opts with
    | Throw e => (Throw e, w)
    | Ok h =>
        match new_URL (opt_path opts) (Some (DockerJsonClient.url c)) with
        | None => (Throw (TypeError "Invalid URL"), w)
        | Some target =>
            (answer opts (network w (List.length (sent w))),
             send (requestOf c opts h target) w)
        end
    end.
Proof.
  unfold DockerJsonClient.request, requestHeaders, answer, expected.
  set (h0 := default ∅ (opt_headers opts)).
  assert (Hrest : forall h1 : Headers,
    (headers ← liftR (Headers.set h1 "user-agent" (DockerJsonClient.userAgent c));
     target ← match new_URL (opt_path opts) (Some (DockerJsonClient.url c)) with
              | Some u => mret u
              | None => throw (TypeError "Invalid URL")
              end;
     rawResp ← fetch {| Request.url := target;
                        Request.method := opt_method opts;
                        Request.headers := headers;
                        Request.redirect := default "manual" (opt_redirect opts) |};
     let resp := DockerResponse.make rawResp in
     let expectStatus := default [200] (opt_expectStatus opts) in
     if existsb (Z.eqb (Fetch.status rawResp)) expectStatus then mret resp
     else
       '(e, _) ← call (DockerResponse.dockerThrowable
                         ("Unexpected HTTP " +:+ JsString.ofZ (Fetch.status rawResp)
                          +:+ " from " +:+ opt_path opts)) resp;
       throw e) w
    = match Headers.set h1 "user-agent" (DockerJsonClient.userAgent c) with
      | Throw e => (Throw e, w)
      | Ok h =>
          match new_URL (opt_path opts) (Some (DockerJsonClient.url c)) with
          | None => (Throw (TypeError "Invalid URL"), w)
          | Some target =>
              (match network w (List.length (sent w)) with
               | Rejected m => Throw (FetchError m)
               | Resolved raw =>
                   if existsb (Z.eqb (Fetch.status raw)) (default [200] (opt_expectStatus opts))
                   then Ok (DockerResponse.make raw)
                   else
                     match DockerResponse.dockerThrowable
                             ("Unexpected HTTP " +:+ JsString.ofZ (Fetch.status raw)
                              +:+ " from " +:+ opt_path opts) (DockerResponse.make raw) with
                     | (Ok e, _) => Throw e
                     | (Throw e, _) => Throw e
                     end
               end,
               send (requestOf c opts h target) w)
          end
      end).
  { intros h1. unfoldM.
    destruct (Headers.set h1 "user-agent" (DockerJsonClient.userAgent c)) as [h2|e];
      simpl; [|reflexivity].
    destruct (new_URL (opt_path opts) (Some (DockerJsonClient.url c))) as [target|];
      simpl; [|reflexivity].
    unfold fetch, send, requestOf.
    destruct (network w (List.length (sent w))) as [m|raw]; simpl; [reflexivity|].
    destruct (existsb (Z.eqb (Fetch.status raw)) (default [200] (opt_expectStatus opts)));
      [reflexivity|].
    destruct (DockerResponse.dockerThrowable _ (DockerResponse.make raw)) as [[e|e] r'];
      reflexivity. }
  destruct (negb (Headers.has h0 "accept")
            && negb (String.eqb (DockerJsonClient.accept c) EmptyString)).
  - unfold mbind at 1, M_bind at 1, liftR at 1.
    destruct (Headers.set h0 "accept" (DockerJsonClient.accept c)) as [h1|e]; [|reflexivity].
    cbv beta iota. rewrite Hrest. reflexivity.
  - unfold mbind at 1, M_bind at 1, mret at 1, M_ret at 1. cbv beta iota.
    rewrite Hrest. reflexivity.
Qed.

Lemma answer_not_headers method path reqHeaders reqHeaders' (f : Fetched) :
  answer (redirectRequest method path reqHeaders) f
  = answer (redirectRequest method path reqHeaders') f.
Proof. reflexivity. Qed.

Lemma extend_nil (s : Session) : extend s [] = s.
Proof. destruct s as [c [net l]]. unfold extend. simpl. rewrite app_nil_r. reflexivity. Qed.

Lemma extend_sending (s : Session) (req : Request.t) (reqs : list Request.t) :
  extend (sending req s) reqs = extend s (req :: reqs).
Proof.
  unfold extend, sending, send. simpl. rewrite <- app_assoc. reflexivity.
Qed.

Lemma issued_extend (s : Session) (reqs : list Request.t) : issued s (extend s reqs) = reqs.
Proof. unfold issued, extend. simpl. apply drop_app_length. Qed.

(** One turn of the loop, with the executor unfolded. *)
Lemma redirectLoop_turn remaining method followRedirects maxRedirects path reqHeaders ress
    (s : Session) :
  Client.redirectLoop (Datatypes.S remaining) method followRedirects maxRedirects path
    reqHeaders ress s
  = match Headers.set (default ∅ reqHeaders) "user-agent" (_commonHttpClientOpts (client s))
    with
    | Throw e => (Throw e, s)
    | Ok h =>
        match new_URL path (Some (_url (client s))) with
        | None => (Throw (TypeError "Invalid URL"), s)
        | Some target =>
            let s' := sending (requestOf (redirectClient (client s))
                                 (redirectRequest method path reqHeaders) h target) s in
            match answer (redirectRequest method path None)
                    (network (world s) (List.length (sent (world s)))) with
            | Throw e => (Throw e, s')
            | Ok resp =>
                if negb followRedirects
                   || negb ((status resp =? 302) || (status resp =? 307))
                then (Ok (ress ++ [resp]), s')
                else
                  match Headers.get (headers resp) "location" with
                  | None => (Ok (ress ++ [resp]), s')
                  | Some location =>
                      if String.eqb location EmptyString then (Ok (ress ++ [resp]), s')
                      else
                        match new_URL location (Some target) with
                        | None => (Throw (TypeError "Invalid URL"), s')
                        | Some next =>
                            Client.redirectLoop remaining method followRedirects maxRedirects
                              next (Some ∅) (ress ++ [resp]) s'
                        end
                  end
            end
        end
    end.
Proof.
  rewrite redirectLoop_step, request_unfold, requestHeaders_redirect.
  destruct s as [c w]. cbn [client world].
  destruct (Headers.set _ "user-agent" _) as [h|e]; [|reflexivity].
  cbn [redirectRequest opt_path].
  change (DockerJsonClient.url (redirectClient c)) with (_url c).
  destruct (new_URL path (Some (_url c))) as [target|] eqn:Htarget; [|reflexivity].
  rewrite (answer_not_headers method path reqHeaders None).
  destruct (answer _ _) as [resp|e]; [|reflexivity].
  cbv zeta. unfold sending. cbn [client world].
  destruct (negb followRedirects || negb ((status resp =? 302) || (status resp =? 307)));
    [reflexivity|]. cbn [orb].
  destruct (Headers.get (headers resp) "location") as [location|]; [|reflexivity].
  cbn [Client.nonEmpty from_option id].
  destruct (String.eqb location EmptyString); reflexivity.
Qed.

Lemma answer_Ok (opts : HttpReqOpts) (f : Fetched) (resp : DockerResponse) :
  answer opts f = Ok resp ->
  exists raw, f = Resolved raw /\ resp = DockerResponse.make raw.
Proof.
  unfold answer. destruct f as [m|raw]; [discriminate|].
  destruct (expected opts (Fetch.status raw)).
  - intros [= <-]. eauto.
  - destruct (DockerResponse.dockerThrowable _ _) as [[e|e] r']; discriminate.
Qed.

(** The requests of a run of the loop make a redirect chain. *)
Lemma redirectLoop_chain method followRedirects maxRedirects :
  forall remaining path reqHeaders ress (s : Session),
  exists r reqs,
    Client.redirectLoop remaining method followRedirects maxRedirects path reqHeaders ress s
    = (r, extend s reqs)
    /\ redirectChain (client s) (network (world s)) method path reqHeaders
         (List.length (sent (world s))) reqs
    /\ (List.length reqs <= remaining)%nat.
Proof.
  induction remaining as [|remaining IH]; intros path reqHeaders ress s.
  - eexists _, []. rewrite extend_nil. split; [reflexivity|]. split; [constructor|reflexivity].
  - rewrite redirectLoop_turn.
    destruct (Headers.set _ "user-agent" _) as [h|e] eqn:Hh;
      [|eexists _, []; rewrite extend_nil; split; [reflexivity|];
        split; [constructor|simpl; lia]].
    destruct (new_URL path (Some (_url (client s)))) as [target|] eqn:Htarget;
      [|eexists _, []; rewrite extend_nil; split; [reflexivity|];
        split; [constructor|simpl; lia]].
    cbv zeta.
    set (req := requestOf (redirectClient (client s)) (redirectRequest method path reqHeaders)
                  h target).
    assert (Hlast : forall r : result (list DockerResponse), exists r' reqs,
              (r, sending req s) = (r', extend s reqs)
              /\ redirectChain (client s) (network (world s)) method path reqHeaders
                   (List.length (sent (world s))) reqs
              /\ (List.length reqs <= Datatypes.S remaining)%nat).
    { intros r. exists r, [req]. split; [reflexivity|].
      split; [apply chain_last; assumption|simpl; lia]. }
    destruct (answer _ _) as [resp|e] eqn:Hanswer; [|apply Hlast].
    destruct (negb followRedirects || negb ((status resp =? 302) || (status resp =? 307)));
      [apply Hlast|].
    destruct (Headers.get (headers resp) "location") as [location|] eqn:Hloc; [|apply Hlast].
    destruct (String.eqb location EmptyString); [apply Hlast|].
    destruct (new_URL location (Some target)) as [next|] eqn:Hnext; [|apply Hlast].
    destruct (IH next (Some ∅) (ress ++ [resp]) (sending req s))
      as (r & reqs & Hrun & Hchain & Hbound).
    exists r, (req :: reqs). rewrite Hrun, extend_sending. split; [reflexivity|].
    split; [|simpl; lia].
    apply answer_Ok in Hanswer as (raw & Hraw & ->).
    eapply chain_hop; eauto.
    simpl in Hchain. rewrite length_app, Nat.add_1_r in Hchain. exact Hchain.
Qed.

(** C3. With redirects followed and a network that answers every request
    with a 307 and a location, [_makeHttpRequest] throws
    [TooManyRedirectsError] after exactly [maxRedirects] requests (3 by
    default); on no network does it make more requests than that; and a
    response that is accepted and whose status is neither 302 nor 307, or
    that has no location, ends the loop: the responses received so far, this
    one the last, are returned. *)
Theorem redirects_are_bounded (method path : string) (reqHeaders : option Headers)
    (followRedirects : option bool) (maxRedirects : option Z) (s : Session) :
  (forall loc,
     default true followRedirects = true ->
     Headers.legalValue (_commonHttpClientOpts (client s)) = true ->
     alwaysRedirects (world s) loc ->
     hopsResolve (_url (client s)) loc (Z.to_nat (default 3 maxRedirects))
       (List.length (sent (world s))) path = true ->
     exists s',
       Client._makeHttpRequest method path reqHeaders followRedirects maxRedirects s
       = (Throw (TooManyRedirectsError
                   ("maximum number of redirects (" +:+ JsString.ofZ (default 3 maxRedirects)
                    +:+ ") hit")), s')
       /\ List.length (sent (world s'))
          = (List.length (sent (world s)) + Z.to_nat (default 3%Z maxRedirects))%nat)
  /\ (List.length
        (issued s (snd (Client._makeHttpRequest method path reqHeaders followRedirects
                          maxRedirects s)))
      <= Z.to_nat (default 3%Z maxRedirects))%nat
  /\ (forall remaining path' reqHeaders' ress h target raw,
        Headers.set (default ∅ reqHeaders') "user-agent" (_commonHttpClientOpts (client s))
        = Ok h ->
        new_URL path' (Some (_url (client s))) = Some target ->
        network (world s) (List.length (sent (world s))) = Resolved raw ->
        existsb (Z.eqb (Fetch.status raw)) [200; 302; 307] = true ->
        endsLoop (default true followRedirects) raw = true ->
        Client.redirectLoop (Datatypes.S remaining) method (default true followRedirects)
          (default 3 maxRedirects) path' reqHeaders' ress s
        = (Ok (ress ++ [DockerResponse.make raw]),
           sending (requestOf (redirectClient (client s))
                      (redirectRequest method path' reqHeaders') h target) s)).
Proof.
  split; [|split].
  - intros loc Hfollow Hua Hnet Hurls. unfold Client._makeHttpRequest. rewrite Hfollow.
    destruct (redirectLoop_always loc method (default 3 maxRedirects)
                (Z.to_nat (default 3 maxRedirects)) path reqHeaders [] s Hua Hnet Hurls)
      as (s' & Hrun & _ & Hlen).
    exists s'. split; assumption.
  - unfold Client._makeHttpRequest.
    destruct (redirectLoop_chain method (default true followRedirects)
                (default 3 maxRedirects) (Z.to_nat (default 3 maxRedirects)) path reqHeaders
                [] s) as (r & reqs & Hrun & _ & Hbound).
    rewrite Hrun. cbn [snd]. rewrite issued_extend. exact Hbound.
  - intros remaining path' reqHeaders' ress h target raw. apply redirectLoop_ends.
Qed.


(** After the first one, the requests of a redirect chain carry the user
    agent and nothing else, and keep the method. *)
Lemma redirectChain_tail (this : RegistryClientV2) net method :
  forall path reqHeaders k reqs,
    redirectChain this net method path reqHeaders k reqs ->
    forall req, req ∈ tail reqs ->
      Request.headers req = <["user-agent" := _commonHttpClientOpts this]> ∅
      /\ Headers.get (Request.headers req) "authorization" = None
      /\ Request.method req = method.
Proof.
  intros path reqHeaders k reqs Hchain.
  intros req Hin.
  assert (Hall : forall path reqHeaders k reqs,
            redirectChain this net method path reqHeaders k reqs ->
            reqHeaders = Some ∅ ->
            forall req, req ∈ reqs ->
              Request.headers req = <["user-agent" := _commonHttpClientOpts this]> ∅
              /\ Headers.get (Request.headers req) "authorization" = None
              /\ Request.method req = method).
  { clear. intros path reqHeaders k reqs Hchain.
    induction Hchain as [| path reqHeaders k h target Hh Htarget
                         | path reqHeaders k h target raw location next rest Hh Htarget Hraw
                             Hloc Hnext Hrest IH]; intros Hempty req Hin.
    - inversion Hin.
    - apply list_elem_of_singleton in Hin. subst. unfold Headers.set in Hh. simpl in Hh.
      destruct (Headers.legalValue _); [|discriminate]. injection Hh as <-.
      split; [reflexivity|]. split; reflexivity.
    - apply elem_of_cons in Hin as [->|Hin].
      + subst. unfold Headers.set in Hh. simpl in Hh.
        destruct (Headers.legalValue _); [|discriminate]. injection Hh as <-.
        split; [reflexivity|]. split; reflexivity.
      + apply IH; [reflexivity|assumption]. }
  inversion Hchain; subst; simpl in Hin; try solve [inversion Hin].
  eapply Hall; eauto.
Qed.

(** A request follows another one in a redirect chain only to the location
    that answered it, resolved against its URL. *)
Lemma redirectChain_next (this : RegistryClientV2) net method :
  forall path reqHeaders k reqs,
    redirectChain this net method path reqHeaders k reqs ->
    forall (i : nat) req req',
      reqs !! i = Some req -> reqs !! Datatypes.S i = Some req' ->
      exists raw location next,
        net (k + i)%nat = Resolved raw
        /\ Headers.get (Fetch.headers raw) "location" = Some location
        /\ new_URL location (Some (Request.url req)) = Some next
        /\ new_URL next (Some (_url this)) = Some (Request.url req').
Proof.
  intros path reqHeaders k reqs Hchain.
  induction Hchain as [| path reqHeaders k h target Hh Htarget
                       | path reqHeaders k h target raw location next rest Hh Htarget Hraw
                           Hloc Hnext Hrest IH]; intros i req req' Hi Hi'.
  - discriminate.
  - destruct i; discriminate.
  - destruct i as [|i].
    + injection Hi as <-. simpl in Hi'. exists raw, location, next.
      rewrite Nat.add_0_r. split; [assumption|]. split; [assumption|].
      split; [assumption|].
      inversion Hrest; subst; simpl in Hi'; [discriminate| |]; injection Hi' as <-;
        assumption.
    + simpl in Hi, Hi'. destruct (IH i req req' Hi Hi') as (raw' & location' & next' & Hk & Hrem).
      exists raw', location', next'. split; [|exact Hrem].
      replace (k + Datatypes.S i)%nat with (Datatypes.S k + i)%nat by lia. exact Hk.
Qed.

(** Two runs of the loop on the same network, by clients with the same URL
    and user agent: they end the same way, and after the first request they
    make the same requests, whatever the headers they start with. *)
Lemma redirectLoop_agree method followRedirects maxRedirects :
  forall remaining path reqHeaders1 reqHeaders2 ress (s1 s2 : Session),
    _url (client s1) = _url (client s2) ->
    _commonHttpClientOpts (client s1) = _commonHttpClientOpts (client s2) ->
    network (world s1) = network (world s2) ->
    List.length (sent (world s1)) = List.length (sent (world s2)) ->
    exists r reqs1 reqs2,
      Client.redirectLoop remaining method followRedirects maxRedirects path reqHeaders1 ress s1
      = (r, extend s1 reqs1)
      /\ Client.redirectLoop remaining method followRedirects maxRedirects path reqHeaders2 ress
           s2
         = (r, extend s2 reqs2)
      /\ tail reqs1 = tail reqs2
      /\ (reqHeaders1 = reqHeaders2 -> reqs1 = reqs2).
Proof.
  induction remaining as [|remaining IH];
    intros path reqHeaders1 reqHeaders2 ress s1 s2 Hurl Hua Hnet Hlen.
  - eexists _, [], []. rewrite !extend_nil. repeat split; reflexivity.
  - rewrite !redirectLoop_turn. unfold Headers.set. rewrite Hurl, Hua, Hnet, Hlen.
    destruct (Headers.legalValue (_commonHttpClientOpts (client s2)));
      [|eexists _, [], []; rewrite !extend_nil; repeat split; reflexivity].
    destruct (new_URL path (Some (_url (client s2)))) as [target|];
      [|eexists _, [], []; rewrite !extend_nil; repeat split; reflexivity].
    cbv zeta.
    set (req1 := requestOf (redirectClient (client s1))
                   (redirectRequest method path reqHeaders1) _ target).
    set (req2 := requestOf (redirectClient (client s2))
                   (redirectRequest method path reqHeaders2) _ target).
    assert (Hreq : reqHeaders1 = reqHeaders2 -> req1 = req2).
    { intros ->. reflexivity. }
    assert (Hlast : forall r : result (list DockerResponse), exists r' reqs1 reqs2,
              (r, sending req1 s1) = (r', extend s1 reqs1)
              /\ (r, sending req2 s2) = (r', extend s2 reqs2)
              /\ tail reqs1 = tail reqs2
              /\ (reqHeaders1 = reqHeaders2 -> reqs1 = reqs2)).
    { intros r. exists r, [req1], [req2]. repeat split. intros Heq. rewrite (Hreq Heq).
      reflexivity. }
    destruct (answer _ _) as [resp|e]; [|apply Hlast].
    destruct (negb followRedirects || negb ((status resp =? 302) || (status resp =? 307)));
      [apply Hlast|].
    destruct (Headers.get (headers resp) "location") as [location|]; [|apply Hlast].
    destruct (String.eqb location EmptyString); [apply Hlast|].
    destruct (new_URL location (Some target)) as [next|]; [|apply Hlast].
    destruct (IH next (Some ∅) (Some ∅) (ress ++ [resp]) (sending req1 s1) (sending req2 s2))
      as (r & reqs1 & reqs2 & Hrun1 & Hrun2 & _ & Hsame); try assumption.
    { simpl. rewrite !length_app, Hlen. reflexivity. }
    exists r, (req1 :: reqs1), (req2 :: reqs2).
    rewrite Hrun1, Hrun2, !extend_sending. split; [reflexivity|]. split; [reflexivity|].
    simpl. rewrite (Hsame eq_refl). split; [reflexivity|].
    intros Heq. rewrite (Hreq Heq). reflexivity.
Qed.

(** C4. In a run of [_makeHttpRequest], every request after the first one is
    made with the headers the executor sends for an empty set, the user agent
    and nothing else: neither the authorization header nor any other header of
    the caller reaches a redirect target.  It goes to the location that
    answered the request before it, resolved against the URL of that request.
    And the requests after the first one, as well as the outcome of the run,
    are the same for two clients with the same URL and user agent on the same
    network, whatever their credentials and the headers they start with. *)
Theorem redirect_targets_get_fresh_headers (method path : string)
    (reqHeaders : option Headers) (followRedirects : option bool) (maxRedirects : option Z)
    (s : Session) :
  let run := Client._makeHttpRequest method path reqHeaders followRedirects maxRedirects s in
  snd run = extend s (issued s (snd run))
  /\ redirectChain (client s) (network (world s)) method path reqHeaders
       (List.length (sent (world s))) (issued s (snd run))
  /\ (forall req, req ∈ tail (issued s (snd run)) ->
        Request.headers req = <["user-agent" := _commonHttpClientOpts (client s)]> ∅
        /\ Headers.get (Request.headers req) "authorization" = None
        /\ Request.method req = method)
  /\ (forall (i : nat) req req',
        issued s (snd run) !! i = Some req ->
        issued s (snd run) !! Datatypes.S i = Some req' ->
        exists raw location next,
          network (world s) (List.length (sent (world s)) + i)%nat = Resolved raw
          /\ Headers.get (Fetch.headers raw) "location" = Some location
          /\ new_URL location (Some (Request.url req)) = Some next
          /\ new_URL next (Some (_url (client s))) = Some (Request.url req'))
  /\ (forall reqHeaders' (s' : Session),
        _url (client s') = _url (client s) ->
        _commonHttpClientOpts (client s') = _commonHttpClientOpts (client s) ->
        network (world s') = network (world s) ->
        List.length (sent (world s')) = List.length (sent (world s)) ->
        let run' :=
          Client._makeHttpRequest method path reqHeaders' followRedirects maxRedirects s' in
        fst run' = fst run
        /\ tail (issued s' (snd run')) = tail (issued s (snd run))).
Proof.
  unfold Client._makeHttpRequest. cbv zeta.
  destruct (redirectLoop_chain method (default true followRedirects) (default 3 maxRedirects)
              (Z.to_nat (default 3 maxRedirects)) path reqHeaders [] s)
    as (r & reqs & Hrun & Hchain & _).
  rewrite Hrun. cbn [fst snd]. rewrite issued_extend.
  split; [reflexivity|]. split; [exact Hchain|].
  split; [exact (redirectChain_tail _ _ _ _ _ _ _ Hchain)|].
  split; [exact (redirectChain_next _ _ _ _ _ _ _ Hchain)|].
  intros reqHeaders' s' Hurl Hua Hnet Hlen.
  destruct (redirectLoop_agree method (default true followRedirects) (default 3 maxRedirects)
              (Z.to_nat (default 3 maxRedirects)) path reqHeaders' reqHeaders [] s' s
              Hurl Hua Hnet Hlen)
    as (r' & reqs1 & reqs2 & Hrun1 & Hrun2 & Htail & _).
  rewrite Hrun1. rewrite Hrun in Hrun2. injection Hrun2 as <- Hext.
  cbn [fst snd]. rewrite issued_extend. split; [reflexivity|].
  rewrite Htail. f_equal. apply app_inv_head in Hext. symmetry. exact Hext.
Qed.

End RedirectTargets.

(** ** The errors of the token endpoint *)

Section TokenErrors.
Context `{Platform}.

Lemma arrayBuffer_headers (r : DockerResponse) :
  headers (snd (DockerResponse.arrayBuffer r)) = headers r.
Proof. unfold DockerResponse.arrayBuffer. destruct (bodyUsed r); reflexivity. Qed.

Lemma dockerBody_headers (r : DockerResponse) :
  headers (snd (DockerResponse.dockerBody r)) = headers r.
Proof.
  unfold DockerResponse.dockerBody. unfoldM. destruct (decodedBody r); [reflexivity|].
  pose proof (arrayBuffer_headers r) as Hbuf.
  destruct (DockerResponse.arrayBuffer r) as [[bytes|e] r1]; simpl in *; [|assumption].
  destruct (Headers.get (headers r1) "content-md5") as [md5|]; simpl; [|assumption].
  destruct (negb (String.eqb md5 EmptyString) && negb (status r1 =? 206)); simpl;
    [|assumption].
  destruct (negb (String.eqb md5 (MD5.base64Digest bytes))); simpl; assumption.
Qed.

Lemma dockerJson_headers (r : DockerResponse) :
  headers (snd (DockerResponse.dockerJson r)) = headers r.
Proof.
  unfold DockerResponse.dockerJson.
  unfold mbind at 1, M_bind at 1, getState at 1. cbv beta iota.
  unfold mbind at 1, M_bind at 1.
  assert (Hbody : headers (snd (match decodedBody r with
                                | Some b => mret b
                                | None => DockerResponse.dockerBody
                                end r)) = headers r).
  { destruct (decodedBody r); [reflexivity|apply dockerBody_headers]. }
  destruct (match decodedBody r with
            | Some b => mret b
            | None => DockerResponse.dockerBody
            end r) as [[b|e] r1]; simpl in *; [|assumption].
  destruct (JsString.length (JsString.trim (TextDecoder_decode b)) =? 0); simpl;
    [assumption|].
  destruct (JSON_parse (TextDecoder_decode b)); simpl; assumption.
Qed.







End TokenErrors.

(** ** The digest of a blob *)

Section Blobs.
Context `{Platform}.

Lemma parseDockerContentDigest_cases (dcd : string) :
  (exists msg, Client._parseDockerContentDigest dcd = Throw (BadDigestError msg))
  \/ (exists d,
        Client._parseDockerContentDigest dcd
        = Ok {| raw := dcd; algorithm := "sha256"; expectedDigest := d |}).
Proof.
  unfold Client._parseDockerContentDigest.
  destruct (String.eqb dcd EmptyString); [left; eauto|].
  destruct (Common.splitIntoTwo dcd ":") as [|part0 [|part1 [|part2 parts]]];
    try (left; eauto; fail).
  destruct (String.eqb part0 "sha256") eqn:Halg; [|left; eauto].
  apply String.eqb_eq in Halg as ->. right. eauto.
Qed.

(** The transform of [validationStream] ends a stream that has not failed
    with a [BadDigestError] when the bytes do not hash to the digest. *)
Lemma validationStream_rejects (info : ContentDigest) :
  algorithm info = "sha256" ->
  exists validate,
    Client.validationStream info = Ok validate
    /\ forall stream,
         DockerResponse.failure stream = None ->
         SHA256.hexDigest (concat (DockerResponse.chunks stream)) <> expectedDigest info ->
         DockerResponse.chunks (validate stream) = DockerResponse.chunks stream
         /\ exists msg, DockerResponse.failure (validate stream) = Some (BadDigestError msg).
Proof.
  intros Halg. unfold Client.validationStream, Client.startHash. rewrite Halg.
  change (String.eqb "sha256" "sha256") with true. cbv iota.
  unfold mbind, result_bind. eexists. split; [reflexivity|].
  intros stream Hnone Hdiff.
  unfold DockerResponse.pipeThrough. cbn [DockerResponse.chunks DockerResponse.failure].
  split; [reflexivity|]. rewrite Hnone.
  destruct (String.eqb (expectedDigest info) _) eqn:Heq; [|eauto].
  apply String.eqb_eq in Heq. congruence.
Qed.

(** C1. [createBlobReadStream] compares the [docker-content-digest] header
    of the first response with the digest asked for, and throws
    [BadDigestError] when they differ.  When they are equal it returns the
    stream of the last response as [dockerStream] made it: the transform of
    [validationStream] is not applied, although it would end with
    [BadDigestError] a stream whose bytes do not hash to the digest. *)
Theorem createBlobReadStream_checks_the_header_only (digest dcd : string) (s s1 : Session)
    (res0 res : DockerResponse) (rest : list DockerResponse)
    (stream : DockerResponse.ByteStream) :
  Client._headOrGetBlob "GET" digest s = (Ok (res0 :: rest), s1) ->
  last (res0 :: rest) = Some res ->
  DockerResponse.dockerStream res = Ok stream ->
  Headers.get (headers res0) "docker-content-digest" = Some dcd ->
  dcd <> EmptyString ->
  (dcd <> digest ->
   exists msg, Client.createBlobReadStream digest s = (Throw (BadDigestError msg), s1))
  /\ (dcd = digest ->
      forall info, Client._parseDockerContentDigest dcd = Ok info ->
        Client.createBlobReadStream digest s = (Ok (res0 :: rest, stream), s1)
        /\ exists validate,
             Client.validationStream info = Ok validate
             /\ (DockerResponse.failure stream = None ->
                 SHA256.hexDigest (concat (DockerResponse.chunks stream))
                 <> expectedDigest info ->
                 DockerResponse.chunks (validate stream) = DockerResponse.chunks stream
                 /\ exists msg,
                      DockerResponse.failure (validate stream) = Some (BadDigestError msg))).
Proof.
  intros Hblob Hlast Hstream Hdcd Hne.
  assert (Hrun : Client.createBlobReadStream digest s
                 = match Client._parseDockerContentDigest dcd with
                   | Throw e => (Throw e, s1)
                   | Ok dcdInfo =>
                       if negb (String.eqb (raw dcdInfo) digest)
                       then (Throw (BadDigestError
                                      ("Docker-Content-Digest header, " +:+ raw dcdInfo
                                       +:+ ", does not match given digest, " +:+ digest)), s1)
                       else (Ok (res0 :: rest, stream), s1)
                   end).
  { unfold Client.createBlobReadStream. rewrite (bind_run _ _ _ _ _ Hblob).
    rewrite Hlast. unfold mbind at 1, M_bind at 1, liftR at 1. rewrite Hstream.
    cbv beta iota. rewrite Hdcd. cbn [Client.nonEmpty from_option id].
    apply String.eqb_neq in Hne. rewrite Hne. cbn [negb].
    unfoldM. destruct (Client._parseDockerContentDigest dcd) as [info|e]; [|reflexivity].
    destruct (negb (String.eqb (raw info) digest)); reflexivity. }
  rewrite Hrun. split.
  - intros Hdiff.
    destruct (parseDockerContentDigest_cases dcd) as [[msg ->]|(d & ->)]; [eauto|].
    cbn [raw]. apply String.eqb_neq in Hdiff. rewrite Hdiff. cbn [negb]. eauto.
  - intros -> info Hinfo. rewrite Hinfo.
    destruct (parseDockerContentDigest_cases digest) as [[msg Hp]|(d & Hp)];
      [congruence|].
    rewrite Hp in Hinfo. injection Hinfo as <-. cbn [raw].
    rewrite String.eqb_refl. cbn [negb]. split; [reflexivity|].
    destruct (validationStream_rejects
                {| raw := digest; algorithm := "sha256"; expectedDigest := d |} eq_refl)
      as (validate & Hvalidate & Hrejects).
    exists validate. split; [exact Hvalidate|]. apply Hrejects.
Qed.

End Blobs.

(** ** Positions in strings *)

Section Positions.
Import JsString.

Lemma bytes_cons (c : ascii) (s : string) : bytes (String c s) = bytes s + 1.
Proof. unfold bytes. simpl String.length. lia. Qed.

Lemma bytes_nil : bytes EmptyString = 0.
Proof. reflexivity. Qed.

Lemma bytes_nonneg (s : string) : 0 <= bytes s.
Proof. unfold bytes. lia. Qed.

Lemma bytes_app (a b : string) : bytes (a +:+ b) = bytes a + bytes b.
Proof.
  induction a as [|x a IH]; [rewrite append_nil_l, bytes_nil; lia|].
  rewrite append_cons, !bytes_cons, IH. lia.
Qed.

Lemma lacks_cons (c d : ascii) (s : string) :
  lacks c (String d s) = negb (Ascii.eqb d c) && lacks c s.
Proof. reflexivity. Qed.

Lemma lacks_app (c : ascii) (a b : string) : lacks c (a +:+ b) = lacks c a && lacks c b.
Proof.
  induction a as [|x a IH]; [reflexivity|].
  rewrite append_cons, !lacks_cons, IH. apply andb_assoc.
Qed.

Lemma startsWith_one (c d : ascii) (s : string) :
  startsWith (String d s) (String c EmptyString) = Ascii.eqb c d.
Proof. simpl. apply andb_true_r. Qed.

Lemma lastIndexOf_cons (d : ascii) (s pat : string) :
  lastIndexOf (String d s) pat
  = if 0 <=? lastIndexOf s pat then lastIndexOf s pat + 1
    else if startsWith (String d s) pat then 0 else -1.
Proof. reflexivity. Qed.

Lemma indexOf_cons (d : ascii) (s pat : string) :
  indexOf (String d s) pat
  = if startsWith (String d s) pat then 0
    else if indexOf s pat <? 0 then -1 else indexOf s pat + 1.
Proof. reflexivity. Qed.

Lemma lastIndexOf_lacks (c : ascii) (s : string) :
  lacks c s = true -> lastIndexOf s (String c EmptyString) = -1.
Proof.
  induction s as [|d s IH]; [reflexivity|].
  rewrite lacks_cons. intros [Hd Hs]%andb_prop.
  rewrite lastIndexOf_cons, (IH Hs), startsWith_one.
  apply negb_true_iff in Hd. rewrite Ascii.eqb_sym, Hd. reflexivity.
Qed.

Lemma lastIndexOf_lt (c : ascii) (s : string) : -1 <= lastIndexOf s (String c EmptyString) < bytes s.
Proof.
  induction s as [|d s IH]; [simpl; rewrite bytes_nil; lia|].
  rewrite lastIndexOf_cons, bytes_cons, startsWith_one.
  pose proof (bytes_nonneg s).
  destruct (0 <=? lastIndexOf s (String c EmptyString)); [lia|].
  destruct (Ascii.eqb c d); lia.
Qed.

(** The last [c] of a string that ends with a part without [c]. *)
Lemma lastIndexOf_app (c : ascii) (a b : string) :
  lacks c b = true -> lastIndexOf (a +:+ String c b) (String c EmptyString) = bytes a.
Proof.
  intros Hb. induction a as [|x a IH].
  - rewrite append_nil_l, lastIndexOf_cons, (lastIndexOf_lacks c b Hb), startsWith_one,
      Ascii.eqb_refl. reflexivity.
  - rewrite append_cons, lastIndexOf_cons, IH, bytes_cons.
    pose proof (bytes_nonneg a). destruct (Z.leb_spec 0 (bytes a)); [reflexivity|lia].
Qed.

(** A part without [c] at the end does not move the last [c]. *)
Lemma lastIndexOf_app_lacks (c : ascii) (a b : string) :
  lacks c b = true -> lastIndexOf (a +:+ b) (String c EmptyString) = lastIndexOf a (String c EmptyString).
Proof.
  intros Hb. induction a as [|x a IH].
  - rewrite append_nil_l. rewrite (lastIndexOf_lacks c b Hb). reflexivity.
  - rewrite append_cons, !lastIndexOf_cons, IH, !startsWith_one. reflexivity.
Qed.

Lemma lastIndexOf_ge (c : ascii) (a b : string) :
  bytes a <= lastIndexOf (a +:+ String c b) (String c EmptyString).
Proof.
  induction a as [|x a IH].
  - rewrite append_nil_l, bytes_nil. rewrite lastIndexOf_cons, startsWith_one, Ascii.eqb_refl.
    destruct (Z.leb_spec 0 (lastIndexOf b (String c EmptyString))); lia.
  - rewrite append_cons, lastIndexOf_cons, bytes_cons.
    pose proof (bytes_nonneg a).
    destruct (Z.leb_spec 0 (lastIndexOf (a +:+ String c b) (String c EmptyString))); lia.
Qed.

Lemma indexOf_lacks (c : ascii) (s : string) :
  lacks c s = true -> indexOf s (String c EmptyString) = -1.
Proof.
  induction s as [|d s IH]; [reflexivity|].
  rewrite lacks_cons. intros [Hd Hs]%andb_prop.
  rewrite indexOf_cons, (IH Hs), startsWith_one.
  apply negb_true_iff in Hd. rewrite Ascii.eqb_sym, Hd. reflexivity.
Qed.

(** The first [c] of a string that starts with a part without [c]. *)
Lemma indexOf_app (c : ascii) (a b : string) :
  lacks c a = true -> indexOf (a +:+ String c b) (String c EmptyString) = bytes a.
Proof.
  induction a as [|x a IH]; intros Ha.
  - rewrite append_nil_l, indexOf_cons, startsWith_one, Ascii.eqb_refl. reflexivity.
  - rewrite lacks_cons in Ha. apply andb_prop in Ha as [Hx Ha].
    rewrite append_cons, indexOf_cons, startsWith_one, (IH Ha), bytes_cons.
    apply negb_true_iff in Hx. rewrite Ascii.eqb_sym, Hx.
    pose proof (bytes_nonneg a). destruct (Z.ltb_spec (bytes a) 0); [lia|reflexivity].
Qed.

(** A string in which [c] occurs is a part without [c], then [c], then the
    rest. *)
Lemma indexOf_found (c : ascii) (s : string) :
  indexOf s (String c EmptyString) <> -1 ->
  exists a b, s = a +:+ String c b /\ lacks c a = true.
Proof.
  induction s as [|d s IH]; [intros Hne; exfalso; apply Hne; reflexivity|].
  rewrite indexOf_cons, startsWith_one.
  destruct (Ascii.eqb c d) eqn:Hcd.
  - intros _. apply Ascii.eqb_eq in Hcd as <-. exists EmptyString, s. split; reflexivity.
  - destruct (Z.ltb_spec (indexOf s (String c EmptyString)) 0) as [Hneg|Hpos]; [congruence|].
    intros _. destruct IH as (a & b & -> & Ha); [lia|].
    exists (String d a), b. rewrite append_cons, lacks_cons, Ha.
    rewrite Ascii.eqb_sym, Hcd. split; reflexivity.
Qed.

Lemma take_app (a b : string) : take (String.length a) (a +:+ b) = a.
Proof.
  induction a as [|x a IH]; [reflexivity|].
  rewrite append_cons. simpl. f_equal. exact IH.
Qed.

Lemma take_all (n : nat) (s : string) : (String.length s <= n)%nat -> take n s = s.
Proof.
  revert n. induction s as [|x s IH]; intros n Hn; [destruct n; reflexivity|].
  destruct n as [|n]; simpl in *; [lia|]. f_equal. apply IH. lia.
Qed.

Lemma drop_app (a b : string) : drop (String.length a) (a +:+ b) = b.
Proof. induction a as [|x a IH]; [reflexivity|]. rewrite append_cons. simpl. exact IH. Qed.

(** [s.slice(0, i)] at the position of a separator. *)
Lemma slice_before (c : ascii) (a b : string) :
  slice (a +:+ String c b) 0 (Some (bytes a)) = a.
Proof.
  unfold slice, relativeIndex. rewrite bytes_app, bytes_cons.
  pose proof (bytes_nonneg a). pose proof (bytes_nonneg b).
  change (0 <? 0) with false. cbv iota.
  destruct (Z.ltb_spec (bytes a) 0); [lia|].
  rewrite (Z.min_l 0) by lia. rewrite (Z.min_l (bytes a)) by lia.
  change (Z.to_nat 0) with 0%nat. cbn [drop].
  replace (Z.to_nat (bytes a - 0)) with (String.length a) by (unfold bytes; lia).
  apply take_app.
Qed.

(** [s.slice(i + 1)] at the position of a separator. *)
Lemma slice_after (c : ascii) (a b : string) :
  slice (a +:+ String c b) (bytes a + 1) None = b.
Proof.
  unfold slice, relativeIndex. rewrite bytes_app, bytes_cons.
  pose proof (bytes_nonneg a). pose proof (bytes_nonneg b).
  destruct (Z.ltb_spec (bytes a + 1) 0); [lia|].
  rewrite (Z.min_l (bytes a + 1)) by lia.
  assert (Hlen : bytes (a +:+ String c EmptyString) = bytes a + 1) by (rewrite bytes_app; reflexivity).
  replace (Z.to_nat (bytes a + 1)) with (String.length (a +:+ String c EmptyString))
    by (unfold bytes in *; lia).
  replace (a +:+ String c b) with ((a +:+ String c EmptyString) +:+ b)
    by (rewrite append_assoc; reflexivity).
  rewrite drop_app. apply take_all. unfold bytes. lia.
Qed.

Lemma splitIntoTwo_app (c : ascii) (a b : string) :
  lacks c a = true -> Common.splitIntoTwo (a +:+ String c b) (String c EmptyString) = [a; b].
Proof.
  intros Ha. unfold Common.splitIntoTwo. rewrite (indexOf_app c a b Ha).
  pose proof (bytes_nonneg a). destruct (Z.eqb_spec (bytes a) (-1)); [lia|].
  rewrite slice_before, slice_after. reflexivity.
Qed.

Lemma splitIntoTwo_lacks (c : ascii) (s : string) :
  lacks c s = true -> Common.splitIntoTwo s (String c EmptyString) = [s].
Proof. intros Hs. unfold Common.splitIntoTwo. rewrite (indexOf_lacks c s Hs). reflexivity. Qed.

(** The two parts of [splitIntoTwo] and the separator make the string. *)
Lemma splitIntoTwo_cases (c : ascii) (s : string) :
  (Common.splitIntoTwo s (String c EmptyString) = [s] /\ lacks c s = true)
  \/ exists a b, s = a +:+ String c b /\ lacks c a = true
                 /\ Common.splitIntoTwo s (String c EmptyString) = [a; b].
Proof.
  destruct (Z.eq_dec (indexOf s (String c EmptyString)) (-1)) as [Hnone|Hsome].
  - left. unfold Common.splitIntoTwo. rewrite Hnone. split; [reflexivity|].
    clear -Hnone. induction s as [|d s IH]; [reflexivity|].
    rewrite indexOf_cons, startsWith_one in Hnone. rewrite lacks_cons.
    destruct (Ascii.eqb c d) eqn:Hcd; [discriminate|].
    rewrite Ascii.eqb_sym, Hcd. simpl. apply IH.
    destruct (Z.ltb_spec (indexOf s (String c EmptyString)) 0) as [Hneg|Hpos]; [|lia].
    assert (Hrange : forall t, -1 <= indexOf t (String c EmptyString)).
    { clear. induction t as [|x t IHt]; [simpl; lia|].
      rewrite indexOf_cons. destruct (startsWith _ _); [lia|].
      destruct (Z.ltb_spec (indexOf t (String c EmptyString)) 0); lia. }
    specialize (Hrange s). lia.
  - right. destruct (indexOf_found c s Hsome) as (a & b & -> & Ha).
    exists a, b. split; [reflexivity|]. split; [exact Ha|]. apply splitIntoTwo_app, Ha.
Qed.

End Positions.

(** ** References *)

Section References.
Import JsString.

Lemma nonneg_not_minus_one (z : Z) : 0 <= z -> negb (z =? -1) = true.
Proof. intros Hz. destruct (Z.eqb_spec z (-1)); [lia|reflexivity]. Qed.

Lemma canonicalRef_reference (name : string) (tag digest : option string) :
  validTag tag = true -> validDigest digest = true ->
  join EmptyString
    [name;
     match tag with
     | Some t => if String.eqb t EmptyString then EmptyString else ":" +:+ t
     | None => EmptyString
     end;
     match digest with
     | Some d => if String.eqb d EmptyString then EmptyString else "@" +:+ d
     | None => EmptyString
     end]
  = reference name tag digest.
Proof.
  intros Htag Hdigest. unfold reference. cbn [join]. rewrite !append_nil_l.
  destruct tag as [t|]; destruct digest as [d|]; cbn [validTag validDigest] in *.
  - apply andb_prop in Htag as [[[Ht _]%andb_prop _]%andb_prop _].
    apply andb_prop in Hdigest as [Hd _].
    apply negb_true_iff in Ht, Hd. rewrite Ht, Hd. reflexivity.
  - apply andb_prop in Htag as [[[Ht _]%andb_prop _]%andb_prop _].
    apply negb_true_iff in Ht. rewrite Ht. reflexivity.
  - apply andb_prop in Hdigest as [Hd _].
    apply negb_true_iff in Hd. rewrite Hd. reflexivity.
  - reflexivity.
Qed.

(** [parseRepoAndRef] on a reference written with a tag or a digest: the
    name goes to [parseRepo], the tag and the digest are read back. *)
Lemma parseRepoAndRef_reference (name : string) (tag digest : option string)
    (defaultIndex : option Common.DefaultIndex) :
  lacks "@" name = true ->
  validTag tag = true ->
  validDigest digest = true ->
  (tag = None -> digest <> None) ->
  (tag = None ->
   negb (lastIndexOf name ":" =? -1) && (lastIndexOf name "/" <? lastIndexOf name ":")
   = false) ->
  Common.parseRepoAndRef (reference name tag digest) defaultIndex
  = (repo ← Common.parseRepo name defaultIndex;
     Ok {| RegistryImage.repo := repo;
           RegistryImage.digest := digest;
           RegistryImage.tag := tag;
           RegistryImage.canonicalRef :=
             reference (RegistryRepo.canonicalName repo) tag digest |}).
Proof.
  intros Hname Htag Hdigest Hsome Hcolon.
  assert (Hcanonical : forall cn, _ = reference cn tag digest)
    by (intros cn; exact (canonicalRef_reference cn tag digest Htag Hdigest)).
  unfold Common.parseRepoAndRef.
  destruct tag as [t|]; [|destruct digest as [d|]; [|exfalso; exact (Hsome eq_refl eq_refl)]].
  - (* a tag, and maybe a digest *)
    cbn [validTag] in Htag.
    apply andb_prop in Htag as [[[Ht Htc]%andb_prop Hts]%andb_prop Hta].
    assert (Htagged : forall c, c <> ":"%char -> lacks c t = true ->
              lastIndexOf (name +:+ String ":" t) (String c EmptyString)
              = lastIndexOf name (String c EmptyString)).
    { intros c Hc Hlacks. apply lastIndexOf_app_lacks. rewrite lacks_cons, Hlacks.
      apply Ascii.eqb_neq in Hc. rewrite Ascii.eqb_sym, Hc. reflexivity. }
    assert (Hsplit :
      (let colonIdx := lastIndexOf (name +:+ String ":" t) ":" in
       let slashIdx := lastIndexOf (name +:+ String ":" t) "/" in
       if negb (colonIdx =? -1) && (slashIdx <? colonIdx)
       then (Some (slice (name +:+ String ":" t) (colonIdx + 1) None),
             slice (name +:+ String ":" t) 0 (Some colonIdx))
       else (@None string, name +:+ String ":" t)) = (Some t, name)).
    { cbv zeta. rewrite (lastIndexOf_app ":" name t Htc).
      rewrite (Htagged "/"%char ltac:(discriminate) Hts).
      pose proof (lastIndexOf_lt "/" name) as Hlt. pose proof (bytes_nonneg name).
      rewrite nonneg_not_minus_one by lia.
      destruct (Z.ltb_spec (lastIndexOf name "/") (bytes name)); [|lia].
      cbn [andb]. rewrite slice_before, slice_after. reflexivity. }
    destruct digest as [d|].
    + cbn [validDigest] in Hdigest. apply andb_prop in Hdigest as [Hd Hda].
      replace (reference name (Some t) (Some d))
        with ((name +:+ String ":" t) +:+ String "@" d)
        by (unfold reference; rewrite append_assoc; reflexivity).
      rewrite (lastIndexOf_app "@" (name +:+ String ":" t) d Hda).
      pose proof (bytes_nonneg (name +:+ String ":" t)).
      rewrite nonneg_not_minus_one by lia. cbv beta iota zeta.
      rewrite slice_before, slice_after.
      cbv zeta in Hsplit.
      destruct (negb (lastIndexOf (name +:+ String ":" t) ":" =? -1)
                && (lastIndexOf (name +:+ String ":" t) "/"
                    <? lastIndexOf (name +:+ String ":" t) ":"));
        injection Hsplit as Hs1 Hs2; [rewrite Hs1, Hs2|congruence].
      unfold mbind, result_bind.
      destruct (Common.parseRepo name defaultIndex) as [repo|e]; [|reflexivity].
      rewrite Hcanonical. reflexivity.
    + replace (reference name (Some t) None) with (name +:+ String ":" t)
        by (unfold reference; rewrite append_nil_r; reflexivity).
      assert (Hat : lastIndexOf (name +:+ String ":" t) "@" = -1).
      { apply lastIndexOf_lacks. rewrite lacks_app, Hname, lacks_cons, Hta. reflexivity. }
      rewrite Hat. cbv beta iota zeta. change (negb (-1 =? -1)) with false. cbv beta iota zeta.
      cbv zeta in Hsplit.
      destruct (negb (lastIndexOf (name +:+ String ":" t) ":" =? -1)
                && (lastIndexOf (name +:+ String ":" t) "/"
                    <? lastIndexOf (name +:+ String ":" t) ":"));
        injection Hsplit as Hs1 Hs2; [rewrite Hs1, Hs2|congruence].
      unfold mbind, result_bind.
      destruct (Common.parseRepo name defaultIndex) as [repo|e]; [|reflexivity].
      rewrite Hcanonical. reflexivity.
  - (* a digest alone *)
    cbn [validDigest] in Hdigest. apply andb_prop in Hdigest as [Hd Hda].
    replace (reference name None (Some d)) with (name +:+ String "@" d)
      by reflexivity.
    rewrite (lastIndexOf_app "@" name d Hda).
    pose proof (bytes_nonneg name).
    rewrite nonneg_not_minus_one by lia. cbv beta iota zeta.
    rewrite slice_before, slice_after. rewrite (Hcolon eq_refl).
    unfold mbind, result_bind.
    destruct (Common.parseRepo name defaultIndex) as [repo|e]; [|reflexivity].
    rewrite Hcanonical. reflexivity.
Qed.

Lemma get_lacks (c : ascii) (s : string) :
  lacks c s = true ->
  forall n d, String.get n s = Some d -> Ascii.eqb d c = false.
Proof.
  induction s as [|x s IH]; intros Hs n d Hget; [destruct n; discriminate|].
  rewrite lacks_cons in Hs. apply andb_prop in Hs as [Hx Hs].
  destruct n as [|n]; simpl in Hget.
  - injection Hget as <-. apply negb_true_iff. exact Hx.
  - eapply IH; eauto.
Qed.

Lemma lastCharIs_lacks (c : ascii) (s : string) :
  lacks c s = true -> Common.lastCharIs s c = false.
Proof.
  intros Hs. unfold Common.lastCharIs, charAt.
  destruct (bytes s - 1 <? 0); [reflexivity|].
  destruct (String.get _ s) as [d|] eqn:Hget; [|reflexivity].
  eapply get_lacks; eauto.
Qed.

Lemma indexOf_scheme_lacks (s : string) : lacks "/" s = true -> indexOf s "://" = -1.
Proof.
  induction s as [|d s IH]; [reflexivity|].
  rewrite lacks_cons. intros [Hd Hs]%andb_prop.
  rewrite indexOf_cons, (IH Hs).
  assert (Hstart : startsWith (String d s) "://" = false).
  { cbn [startsWith]. destruct s as [|e s]; [apply andb_false_r|].
    rewrite lacks_cons in Hs. apply andb_prop in Hs as [He _].
    apply negb_true_iff in He. rewrite (Ascii.eqb_sym "/" e), He. apply andb_false_r. }
  rewrite Hstart. reflexivity.
Qed.

(** [parseIndex] on the name of a host: the name is kept, and the index is
    the official one when the name is [docker.io]. *)
Lemma parseIndex_host (idx : string) :
  hostLike idx = true ->
  Common.parseIndex (Some idx)
  = Ok {| RegistryIndex.name := idx;
          RegistryIndex.official := String.eqb idx "docker.io";
          RegistryIndex.scheme := if Common.isLocalhost idx then http else https |}.
Proof.
  unfold hostLike.
  intros [[[[Hne Hslash]%andb_prop Hat]%andb_prop Hhost]%andb_prop Hidx]%andb_prop.
  apply negb_true_iff in Hne, Hhost, Hidx.
  unfold Common.parseIndex. cbn [from_option id]. rewrite Hne.
  assert (Hlogin : String.eqb idx Common.DEFAULT_LOGIN_SERVERNAME = false).
  { destruct (String.eqb_spec idx Common.DEFAULT_LOGIN_SERVERNAME) as [->|]; [|reflexivity].
    vm_compute in Hslash. discriminate. }
  rewrite Hlogin. cbn [orb]. rewrite (indexOf_scheme_lacks idx Hslash).
  change (negb (-1 =? -1)) with false. cbv iota.
  unfold mbind at 1, result_bind at 1. cbv beta iota.
  rewrite Hne, Hhost, (lastCharIs_lacks "/" idx Hslash), (indexOf_lacks "/" idx Hslash).
  change (negb (-1 =? -1)) with false. cbv iota.
  unfold mbind, result_bind. cbv beta iota zeta.
  change ("index." +:+ Common.DEFAULT_INDEX_NAME) with "index.docker.io".
  rewrite Hidx. change Common.DEFAULT_INDEX_NAME with "docker.io".
  cbn [RegistryIndex.official].
  destruct (String.eqb_spec idx "docker.io") as [->|Hother]; [|reflexivity].
  assert (Hlocal : Common.isLocalhost "docker.io" = false) by (vm_compute; reflexivity).
  rewrite Hlocal. reflexivity.
Qed.

(** [parseRepo] on the name of a host, a slash and a name that passes the
    checks: the canonical name is what was written. *)
Lemma parseRepo_canonical (idx remote : string) (defaultIndex : option Common.DefaultIndex) :
  hostLike idx = true ->
  validRemote remote = true ->
  keepsNamespace idx remote = true ->
  indexOf (idx +:+ "/" +:+ remote) "://" = -1 ->
  exists repo,
    Common.parseRepo (idx +:+ "/" +:+ remote) defaultIndex = Ok repo
    /\ RegistryRepo.canonicalName repo = idx +:+ "/" +:+ remote
    /\ RegistryIndex.name (RegistryRepo.index repo) = idx.
Proof.
  intros Hhost Hremote Hkeeps Hproto.
  pose proof (parseIndex_host idx Hhost) as Hindex.
  unfold hostLike in Hhost.
  apply andb_prop in Hhost
    as [[[[Hne Hslash]%andb_prop Hat]%andb_prop Hdots]%andb_prop Hidx].
  apply negb_true_iff in Hdots.
  unfold keepsNamespace in Hkeeps. apply negb_true_iff in Hkeeps.
  unfold Common.parseRepo. rewrite Hproto.
  change (negb (-1 =? -1)) with false. cbv iota.
  change (idx +:+ "/" +:+ remote) with (idx +:+ String "/" remote).
  rewrite (splitIntoTwo_app "/" idx remote Hslash). cbv iota.
  rewrite Hdots, Hindex.
  unfold mbind at 2, result_bind at 2. cbv beta iota.
  unfold mbind at 1, result_bind at 1. cbv beta iota.
  cbn [RegistryIndex.official RegistryIndex.name].
  unfold validRemote in Hremote.
  destruct (splitIntoTwo_cases "/" remote) as [[Hone Hlacks]|(ns & name & Heq & Hns & Htwo)].
  - rewrite Hone in Hremote. unfold mbind, result_bind. cbv beta iota.
    rewrite Hone. cbv beta iota.
    destruct (String.eqb_spec idx "docker.io") as [->|Hother];
      rewrite Hremote; cbn [negb andb].
    + change (String.eqb "library" "library") with true.
      change (String.eqb "library" EmptyString) with false. cbv iota beta zeta.
      eexists. split; [reflexivity|]. split; reflexivity.
    + change (String.eqb EmptyString EmptyString) with true. cbv iota beta zeta.
      eexists. split; [reflexivity|]. split; reflexivity.
  - rewrite Htwo in Hremote. unfold mbind, result_bind. cbv beta iota.
    rewrite Htwo. cbv beta iota.
    apply andb_prop in Hremote as [Hvalid Hname]. unfold validNamespace in Hvalid.
    apply andb_prop in Hvalid
      as [[[Hlen Hchars]%andb_prop Hhyphen]%andb_prop Hdouble].
    apply negb_true_iff in Hlen, Hhyphen.
    rewrite Hlen, Hchars, Hhyphen. cbn [negb].
    apply Z.eqb_eq in Hdouble. rewrite Hdouble.
    change (negb (-1 =? -1)) with false. cbv beta iota. rewrite Hname. cbn [negb andb].
    assert (Hnonempty : String.eqb ns EmptyString = false).
    { destruct ns; [discriminate|reflexivity]. }
    rewrite Hnonempty. cbv iota beta zeta.
    destruct (String.eqb_spec idx "docker.io") as [->|Hother].
    + assert (Hlibrary : String.eqb ns "library" = false).
      { destruct (String.eqb_spec ns "library") as [->|]; [|reflexivity].
        rewrite Heq in Hkeeps. vm_compute in Hkeeps. discriminate. }
      rewrite Hlibrary. cbn [andb]. cbv iota beta zeta.
      eexists. split; [reflexivity|].
      cbn [RegistryRepo.canonicalName RegistryRepo.index RegistryIndex.name].
      rewrite Heq. split; reflexivity.
    + cbn [andb]. cbv iota beta zeta.
      eexists. split; [reflexivity|].
      cbn [RegistryRepo.canonicalName RegistryRepo.index RegistryIndex.name].
      rewrite Heq. split; reflexivity.
Qed.

Lemma all_impl (p q : ascii -> bool) (s : string) :
  (forall c, p c = true -> q c = true) -> all p s = true -> all q s = true.
Proof.
  intros Hpq. induction s as [|c s IH]; [reflexivity|].
  cbn [all]. intros [Hc Hs]%andb_prop. rewrite (Hpq c Hc), (IH Hs). reflexivity.
Qed.

(** A name that passes the checks has neither an at sign nor a colon. *)
Lemma validRemote_lacks (c : ascii) (remote : string) :
  c = "@"%char \/ c = ":"%char ->
  validRemote remote = true -> lacks c remote = true.
Proof.
  intros Hc Hremote.
  assert (Hrepo : forall s, Common.VALID_REPO s = true -> lacks c s = true).
  { intros s. apply all_impl. intros d Hd.
    destruct (Ascii.eqb_spec d c) as [->|]; [|reflexivity].
    destruct Hc as [-> | ->]; vm_compute in Hd; discriminate. }
  assert (Hns : forall s, Common.VALID_NS s = true -> lacks c s = true).
  { intros s. apply all_impl. intros d Hd.
    destruct (Ascii.eqb_spec d c) as [->|]; [|reflexivity].
    destruct Hc as [-> | ->]; vm_compute in Hd; discriminate. }
  unfold validRemote in Hremote.
  destruct (splitIntoTwo_cases "/" remote) as [[Hone _]|(ns & name & Heq & _ & Htwo)].
  - rewrite Hone in Hremote. apply Hrepo, Hremote.
  - rewrite Htwo in Hremote. apply andb_prop in Hremote as [Hvalid Hname].
    unfold validNamespace in Hvalid.
    apply andb_prop in Hvalid as [[[_ Hchars]%andb_prop _]%andb_prop _].
    rewrite Heq, lacks_app, lacks_cons, (Hns ns Hchars), (Hrepo name Hname).
    destruct Hc as [-> | ->]; reflexivity.
Qed.

(** C9. A reference written as the name of a host, a slash, the name of a
    repository that passes the checks of [parseRepo], and then a tag, a
    digest or both, is read by [parseRepoAndRef] into an image whose
    [canonicalRef] is the reference as it was written.  The host is written
    without a scheme and is not [index.docker.io]; with [docker.io] the name
    of the repository does not start with [library/]. *)
Theorem canonical_references_round_trip (idx remote : string) (tag digest : option string)
    (defaultIndex : option Common.DefaultIndex) :
  hostLike idx = true ->
  validRemote remote = true ->
  keepsNamespace idx remote = true ->
  includes (idx +:+ "/" +:+ remote) "://" = false ->
  validTag tag = true ->
  validDigest digest = true ->
  (tag = None -> digest <> None) ->
  RegistryImage.canonicalRef
    <$> Common.parseRepoAndRef (reference (idx +:+ "/" +:+ remote) tag digest) defaultIndex
  = Ok (reference (idx +:+ "/" +:+ remote) tag digest).
Proof.
  intros Hhost Hremote Hkeeps Hproto Htag Hdigest Hsome.
  assert (Hproto' : indexOf (idx +:+ "/" +:+ remote) "://" = -1).
  { unfold includes in Hproto.
    assert (Hrange : forall t, -1 <= indexOf t "://").
    { induction t as [|x t IHt]; [simpl; lia|].
      rewrite indexOf_cons. destruct (startsWith _ _); [lia|].
      destruct (Z.ltb_spec (indexOf t "://") 0); lia. }
    specialize (Hrange (idx +:+ "/" +:+ remote)).
    destruct (Z.leb_spec 0 (indexOf (idx +:+ "/" +:+ remote) "://")); [discriminate|lia]. }
  destruct (parseRepo_canonical idx remote defaultIndex Hhost Hremote Hkeeps Hproto')
    as (repo & Hrepo & Hcanonical & _).
  pose proof (validRemote_lacks "@" remote (or_introl eq_refl) Hremote) as Hat.
  pose proof (validRemote_lacks ":" remote (or_intror eq_refl) Hremote) as Hcolon.
  unfold hostLike in Hhost.
  apply andb_prop in Hhost
    as [[[[_ Hslash]%andb_prop Hidxat]%andb_prop _]%andb_prop _].
  rewrite parseRepoAndRef_reference; try assumption.
  - rewrite Hrepo. unfold mbind, result_bind, fmap, result_fmap.
    cbn [RegistryImage.canonicalRef]. rewrite Hcanonical. reflexivity.
  - change (idx +:+ "/" +:+ remote) with (idx +:+ String "/" remote).
    rewrite lacks_app, lacks_cons, Hidxat, Hat. reflexivity.
  - intros _. change (idx +:+ "/" +:+ remote) with (idx +:+ String "/" remote).
    rewrite (lastIndexOf_app_lacks ":" idx (String "/" remote))
      by (rewrite lacks_cons, Hcolon; reflexivity).
    pose proof (lastIndexOf_lt ":" idx) as Hlt.
    pose proof (lastIndexOf_ge "/" idx remote) as Hge.
    destruct (Z.ltb_spec (lastIndexOf (idx +:+ String "/" remote) "/")
                (lastIndexOf idx ":")); [lia|].
    apply andb_false_r.
Qed.

End References.

(** ** The theorems on concrete runs *)

Section Runs.
Local Existing Instance Reference.platform.

(** The blob of a registry that redirects for ever: three requests, then the
    error; and a registry that answers 200 to the first request. *)
Lemma redirects_are_bounded_witness :
  (exists s',
     Client._makeHttpRequest "GET" "/v2/blarg/blobs/sha256:abc" None None None
       (Examples.session Examples.redirecting)
     = (Throw (TooManyRedirectsError "maximum number of redirects (3) hit"), s')
     /\ List.length (sent (world s')) = 3%nat)
  /\ exists req,
       Client._makeHttpRequest "GET" "/v2/" None None None (Examples.session Examples.v1Registry)
       = (Ok [DockerResponse.make (Examples.resolved (Examples.v1Registry 0))],
          sending req (Examples.session Examples.v1Registry)).
Proof.
  split.
  - apply (proj1 (@redirects_are_bounded Reference.platform "GET" "/v2/blarg/blobs/sha256:abc"
                    None None None (Examples.session Examples.redirecting))
             (fun _ => "/next")).
    + reflexivity.
    + vm_compute. reflexivity.
    + intros k _. eexists. split; [reflexivity|]. split; [reflexivity|].
      split; [vm_compute; reflexivity|discriminate].
    + vm_compute. reflexivity.
  - eexists.
    apply (proj2 (proj2 (@redirects_are_bounded Reference.platform "GET" "/v2/" None None None
                           (Examples.session Examples.v1Registry)))
             2%nat "/v2/" None []
             (<["user-agent" := DEFAULT_USERAGENT]> ∅) "http://localhost:5000/v2/"
             (Examples.resolved (Examples.v1Registry 0)));
      vm_compute; reflexivity.
Defined.

(** A registry sends the request for a blob on to a content delivery network:
    the registry gets the authorization header, the network does not, and
    what the network gets is the same with other credentials. *)
Lemma redirect_targets_get_fresh_headers_witness :
  let blob := "/v2/blarg/blobs/sha256:abc" in
  let run credentials :=
    Client._makeHttpRequest "GET" blob (Some (_headers (Examples.authorized credentials)))
      None None (Examples.sessionOf (Examples.authorized credentials) Examples.cdn) in
  List.map (fun req => (Request.url req, Headers.get (Request.headers req) "authorization"))
    (sent (world (snd (run "secret"))))
  = [("http://localhost:5000/v2/blarg/blobs/sha256:abc", Some "Bearer secret");
     ("https://cdn.example.com/blobs/1?sig=abc", None)]
  /\ tail (issued (Examples.sessionOf (Examples.authorized "other") Examples.cdn)
             (snd (run "other")))
     = tail (issued (Examples.sessionOf (Examples.authorized "secret") Examples.cdn)
               (snd (run "secret"))).
Proof.
  cbv zeta. split.
  - vm_compute. reflexivity.
  - apply (proj2 (proj2 (proj2 (proj2
             (@redirect_targets_get_fresh_headers Reference.platform "GET"
                "/v2/blarg/blobs/sha256:abc" (Some (_headers (Examples.authorized "secret")))
                None None (Examples.sessionOf (Examples.authorized "secret") Examples.cdn)))))
             (Some (_headers (Examples.authorized "other")))
             (Examples.sessionOf (Examples.authorized "other") Examples.cdn));
      reflexivity.
Defined.

(** A client that holds a token for the pull scope asks for the push scope,
    and the login fails: the registry is down, it sends no challenge, a
    challenge that does not parse or one for an unknown scheme, or the token
    service refuses.  The client is left as it was. *)
Lemma login_is_atomic_witness :
  Forall (fun net =>
            let s := Examples.sessionOf (Examples.authorized "old") net in
            let run := Client.login None (Some "repository:blarg:pull,push") s in
            isThrow (fst run) = true /\ client (snd run) = client s)
    [Examples.down; Examples.noChallenge; Examples.badChallenge; Examples.digestChallenge;
     Examples.refusing "{}"].
Proof.
  repeat apply Forall_cons_2; try apply Forall_nil_2; cbv zeta;
    (split; [vm_compute; reflexivity|]);
    match goal with
    | |- client (snd (Client.login None ?scope ?s)) = _ =>
        let Hrun := fresh "Hrun" in
        assert (Hrun : Client.performLogin (Some (Client.effectiveScope (client s) scope))
                         None s
                       = (Throw (Examples.thrown
                                   (fst (Client.performLogin
                                           (Some (Client.effectiveScope (client s) scope))
                                           None s))),
                          snd (Client.performLogin
                                 (Some (Client.effectiveScope (client s) scope)) None s)))
          by (vm_compute; reflexivity);
        exact (proj1 (proj1 (@login_is_atomic Reference.platform None scope s) _ _ Hrun))
    end.
Defined.

(** A first [login] gets a token for the pull scope in two requests; a second
    one does nothing; a [login] for the push scope gets a new token in two
    more requests and replaces the authorization header. *)
Lemma login_is_memoized_witness :
  let s0 := Examples.session Examples.bearerRegistry in
  let s1 := snd (Client.login None None s0) in
  let s2 := snd (Client.login None (Some "repository:blarg:pull,push") s1) in
  (Client.login None None s1 = (Ok tt, s1)
   /\ _authInfo (client s1) = Some (AuthBearer "abc")
   /\ List.length (sent (world s1)) = 2%nat)
  /\ (_authInfo (client s2) = Some (AuthBearer "def")
      /\ Headers.get (_headers (client s2)) "authorization" = Some "Bearer def"
      /\ (List.length (sent (world s1)) < List.length (sent (world s2)))%nat).
Proof.
  cbv zeta.
  set (s0 := Examples.session Examples.bearerRegistry).
  set (s1 := snd (Client.login None None s0)).
  set (scope := Some "repository:blarg:pull,push").
  assert (Hfirst : Client.login None None s0 = (Ok tt, s1)) by (vm_compute; reflexivity).
  split.
  - split; [|split; vm_compute; reflexivity].
    exact (proj1 (proj2 (proj2 (@login_is_memoized Reference.platform None None s0)))
             s1 None Hfirst).
  - set (run := Client.performLogin (Some (Client.effectiveScope (client s1) scope)) None s1).
    assert (Hmiss : loggedInWith (client s1) (Client.effectiveScope (client s1) scope) = false)
      by (vm_compute; reflexivity).
    assert (Hrun : run = (Ok (AuthBearer "def"), snd run)) by (vm_compute; reflexivity).
    assert (Hset : Client._setAuthHeaderFromAuthInfo (_headers (client s1))
                     (Some (AuthBearer "def"))
                   = Ok (<["authorization" := "Bearer def"]> ∅))
      by (vm_compute; reflexivity).
    destruct (proj2 (proj2 (proj2 (@login_is_memoized Reference.platform None scope s1)))
                Hmiss _ _ _ Hrun Hset) as [Hlogin Hsent].
    rewrite Hlogin. cbn [snd client world Client.setHeaders Client.setLoggedIn _authInfo
                           _headers].
    split; [reflexivity|]. split; [reflexivity|]. exact (Hsent eq_refl).
Defined.


(** A body without text, and a list of errors without entries: [_getToken]
    throws a [TypeError]. *)
Lemma test_getToken_unreadable :
  fst (Examples.getToken (Examples.tokenService 401 EmptyString))
  = Throw (TypeError "Cannot read properties of undefined (reading 'body')")
  /\ fst (Examples.getToken (Examples.tokenService 401 Examples.noErrorsBody))
     = Throw (TypeError "Cannot read properties of undefined (reading 'message')").
Proof. split; vm_compute; reflexivity. Qed.


(** A registry serves other bytes than those of the digest it announces,
    which is the digest asked for: the stream that [createBlobReadStream]
    returns delivers them and ends well, and the transform of
    [validationStream] would have ended it with an error.  And a registry
    announces another digest than the one asked for. *)
Lemma createBlobReadStream_checks_the_header_only_witness :
  (exists ress stream s1 validate msg,
     Client.createBlobReadStream Examples.layerDigest
       (Examples.session (Examples.blobRegistry Examples.layerDigest "tampered"))
     = (Ok (ress, stream), s1)
     /\ DockerResponse.chunks stream = [Bytes.ofString "tampered"]
     /\ DockerResponse.failure stream = None
     /\ (Client._parseDockerContentDigest Examples.layerDigest ≫= Client.validationStream)
        = Ok validate
     /\ DockerResponse.failure (validate stream) = Some (BadDigestError msg))
  /\ exists msg s1,
       Client.createBlobReadStream Examples.layerDigest
         (Examples.session (Examples.blobRegistry "sha256:00" "layer"))
       = (Throw (BadDigestError msg), s1).
Proof.
  split.
  - set (s := Examples.session (Examples.blobRegistry Examples.layerDigest "tampered")).
    pose (r := Client._headOrGetBlob "GET" Examples.layerDigest s).
    pose (ress := Examples.value_or [] (fst r)).
    pose (res0 := hd Examples.noResponse ress).
    pose (stream := Examples.value_or Examples.noStream (DockerResponse.dockerStream res0)).
    pose (info := Examples.value_or Examples.noDigest
                    (Client._parseDockerContentDigest Examples.layerDigest)).
    assert (Hinfo : Client._parseDockerContentDigest Examples.layerDigest = Ok info)
      by (vm_compute; reflexivity).
    destruct (proj2 (@createBlobReadStream_checks_the_header_only Reference.platform
                       Examples.layerDigest Examples.layerDigest s (snd r) res0 res0 (tl ress)
                       stream
                       ltac:(vm_compute; reflexivity) ltac:(vm_compute; reflexivity)
                       ltac:(vm_compute; reflexivity) ltac:(vm_compute; reflexivity)
                       ltac:(vm_compute; discriminate))
                eq_refl info Hinfo) as (Hrun & validate & Hvalidate & Hrejects).
    destruct (Hrejects ltac:(vm_compute; reflexivity) ltac:(vm_compute; discriminate))
      as [_ [msg Hfail]].
    exists (res0 :: tl ress), stream, (snd r), validate, msg.
    split; [exact Hrun|]. split; [vm_compute; reflexivity|]. split; [vm_compute; reflexivity|].
    split; [|exact Hfail].
    rewrite Hinfo. exact Hvalidate.
  - set (s := Examples.session (Examples.blobRegistry "sha256:00" "layer")).
    pose (r := Client._headOrGetBlob "GET" Examples.layerDigest s).
    pose (ress := Examples.value_or [] (fst r)).
    pose (res0 := hd Examples.noResponse ress).
    pose (stream := Examples.value_or Examples.noStream (DockerResponse.dockerStream res0)).
    destruct (proj1 (@createBlobReadStream_checks_the_header_only Reference.platform
                       Examples.layerDigest "sha256:00" s (snd r) res0 res0 (tl ress) stream
                       ltac:(vm_compute; reflexivity) ltac:(vm_compute; reflexivity)
                       ltac:(vm_compute; reflexivity) ltac:(vm_compute; reflexivity)
                       ltac:(vm_compute; discriminate))
                ltac:(vm_compute; discriminate)) as [msg Hrun].
    exists msg, (snd r). exact Hrun.
Defined.

(** References that are not written in full come back completed: the name of
    the official index and the tag [latest] are added, and the namespace
    [library] is left out. *)
Lemma parseRepoAndRef_round_trip_counterexample :
  RegistryImage.canonicalRef <$> Common.parseRepoAndRef "busybox" None
  = Ok "docker.io/busybox:latest"
  /\ RegistryImage.canonicalRef <$> Common.parseRepoAndRef "busybox" None <> Ok "busybox"
  /\ RegistryImage.canonicalRef <$> Common.parseRepoAndRef "localhost:5000/blarg" None
     = Ok "localhost:5000/blarg:latest"
  /\ RegistryImage.canonicalRef
       <$> Common.parseRepoAndRef "docker.io/library/busybox:latest" None
     = Ok "docker.io/busybox:latest"
  /\ RegistryImage.canonicalRef
       <$> Common.parseRepoAndRef "index.docker.io/google/python:3" None
     = Ok "docker.io/google/python:3".
Proof.
  split; [vm_compute; reflexivity|]. split; [vm_compute; discriminate|].
  repeat split; vm_compute; reflexivity.
Qed.

(** The reference of the documentation, one with a namespace, and one of
    the official index. *)
Lemma canonical_references_round_trip_witness :
  RegistryImage.canonicalRef
    <$> Common.parseRepoAndRef "localhost:5000/blarg:mytag@sha256:cafebabe" None
  = Ok "localhost:5000/blarg:mytag@sha256:cafebabe"
  /\ RegistryImage.canonicalRef <$> Common.parseRepoAndRef "quay.io/coreos/etcd@sha256:00" None
     = Ok "quay.io/coreos/etcd@sha256:00"
  /\ RegistryImage.canonicalRef <$> Common.parseRepoAndRef "docker.io/busybox:latest" None
     = Ok "docker.io/busybox:latest".
Proof.
  split; [|split].
  - apply (canonical_references_round_trip "localhost:5000" "blarg" (Some "mytag")
             (Some "sha256:cafebabe") None); try (vm_compute; reflexivity).
    discriminate.
  - apply (canonical_references_round_trip "quay.io" "coreos/etcd" None
             (Some "sha256:00") None); try (vm_compute; reflexivity).
    discriminate.
  - apply (canonical_references_round_trip "docker.io" "busybox" (Some "latest") None None);
      try (vm_compute; reflexivity).
    discriminate.
Defined.

End Runs.

(** * Further properties *)

(** ** Names of indexes *)

Section Indexes.
Import JsString.

Lemma indexOf_range (s pat : string) : -1 <= indexOf s pat.
Proof.
  induction s as [|x s IH]; [simpl; destruct (startsWith _ _); lia|].
  rewrite indexOf_cons. destruct (startsWith _ _); [lia|].
  destruct (Z.ltb_spec (indexOf s pat) 0); lia.
Qed.

Lemma indexOf_none_lacks (c : ascii) (s : string) :
  indexOf s (String c EmptyString) = -1 -> lacks c s = true.
Proof.
  induction s as [|d s IH]; [reflexivity|].
  rewrite indexOf_cons, startsWith_one, lacks_cons.
  destruct (Ascii.eqb c d) eqn:Hcd; [discriminate|].
  rewrite Ascii.eqb_sym, Hcd. pose proof (indexOf_range s (String c EmptyString)).
  destruct (Z.ltb_spec (indexOf s (String c EmptyString)) 0); intros Hnone; [|lia].
  apply IH. lia.
Qed.

(** X1. [splitIntoTwo] cuts a string at the first separator and nowhere
    else: the parts joined with the separator are the string, there are one
    or two of them, and the separator is not in the first of two. *)
Theorem splitIntoTwo_joins (c : ascii) (s : string) :
  join (String c EmptyString) (Common.splitIntoTwo s (String c EmptyString)) = s
  /\ ((Common.splitIntoTwo s (String c EmptyString) = [s] /\ lacks c s = true)
      \/ exists a b, Common.splitIntoTwo s (String c EmptyString) = [a; b]
                     /\ lacks c a = true /\ lacks c s = false).
Proof.
  destruct (splitIntoTwo_cases c s) as [[Hone Hlacks]|(a & b & Heq & Ha & Htwo)].
  - rewrite Hone. split; [reflexivity|]. left. split; [reflexivity|assumption].
  - rewrite Htwo. split; [symmetry; exact Heq|]. right. exists a, b.
    split; [reflexivity|]. split; [assumption|].
    rewrite Heq, lacks_app, lacks_cons, Ascii.eqb_refl. apply andb_false_r.
Qed.

(** A string whose last character is [c] is the rest and [c]. *)
Lemma lastCharIs_app (c : ascii) (s : string) :
  Common.lastCharIs s c = true ->
  s = slice s 0 (Some (bytes s - 1)) +:+ String c EmptyString.
Proof.
  intros Hlast.
  assert (Hshape : exists a, s = a +:+ String c EmptyString).
  { unfold Common.lastCharIs, charAt in Hlast.
    destruct (Z.ltb_spec (bytes s - 1) 0) as [|Hpos]; [discriminate|].
    destruct (String.get (Z.to_nat (bytes s - 1)) s) as [d|] eqn:Hget; [|discriminate].
    apply Ascii.eqb_eq in Hlast as ->.
    replace (Z.to_nat (bytes s - 1)) with (Nat.pred (String.length s)) in Hget
      by (unfold bytes; lia).
    clear Hpos. induction s as [|x s IH]; [discriminate|].
    destruct s as [|y s].
    - simpl in Hget. injection Hget as ->. exists EmptyString. reflexivity.
    - destruct (IH Hget) as [a Ha]. exists (String x a). rewrite append_cons, <- Ha.
      reflexivity. }
  destruct Hshape as [a ->].
  rewrite bytes_app, bytes_cons, bytes_nil.
  replace (bytes a + (0 + 1) - 1) with (bytes a) by lia.
  rewrite slice_before. reflexivity.
Qed.

(** The checks of [parseIndex] on the name it has found, and the index it
    makes of it. *)
Lemma parseIndex_name (scheme : Scheme) (indexName arg : string) (idx : RegistryIndex.t) :
  (indexName ←
      (if String.eqb indexName EmptyString then
         Throw (Error ("invalid index, empty host: " +:+ arg))
       else if (indexOf indexName "." =? -1) && (indexOf indexName ":" =? -1)
               && negb (String.eqb indexName "localhost") then
         Throw (Error ("invalid index, " +:+ dquote +:+ indexName +:+ dquote
                       +:+ " does not look like a valid host: " +:+ arg))
       else
         let indexName :=
           if Common.lastCharIs indexName "/" then slice indexName 0 (Some (bytes indexName - 1))
           else indexName in
         if negb (indexOf indexName "/" =? -1) then
           Throw (Error ("invalid index, trailing repo: " +:+ arg))
         else Ok indexName);
   let indexName :=
     if String.eqb indexName ("index." +:+ Common.DEFAULT_INDEX_NAME)
     then Common.DEFAULT_INDEX_NAME
     else indexName in
   let index := {| RegistryIndex.name := indexName;
                   RegistryIndex.official := String.eqb indexName Common.DEFAULT_INDEX_NAME;
                   RegistryIndex.scheme := scheme |} in
   if RegistryIndex.official index && (match scheme with http => true | https => false end) then
     Throw (Error ("invalid index, plaintext HTTP to official index is disallowed: " +:+ arg))
   else Ok index) = Ok idx ->
  looksLikeHost (RegistryIndex.name idx) = true
  /\ lacks "/" (RegistryIndex.name idx) = true
  /\ RegistryIndex.name idx <> "index.docker.io"
  /\ RegistryIndex.official idx = String.eqb (RegistryIndex.name idx) "docker.io"
  /\ RegistryIndex.scheme idx = scheme
  /\ (RegistryIndex.official idx = true -> scheme = https)
  /\ (indexName = RegistryIndex.name idx
      \/ indexName = RegistryIndex.name idx +:+ "/"
      \/ (RegistryIndex.name idx = "docker.io"
          /\ (indexName = "index.docker.io" \/ indexName = "index.docker.io/"))).
Proof.
  destruct (String.eqb indexName EmptyString); [discriminate|].
  destruct ((indexOf indexName "." =? -1) && (indexOf indexName ":" =? -1)
            && negb (String.eqb indexName "localhost")) eqn:Hhost; [discriminate|].
  cbv zeta.
  set (stripped := if Common.lastCharIs indexName "/"
                   then slice indexName 0 (Some (bytes indexName - 1)) else indexName).
  assert (Hstripped : indexName = stripped \/ indexName = stripped +:+ "/").
  { subst stripped. destruct (Common.lastCharIs indexName "/") eqn:Hlast; [|left; reflexivity].
    right. apply (lastCharIs_app "/"). exact Hlast. }
  destruct (Z.eqb_spec (indexOf stripped "/") (-1)) as [Hslash|]; [|discriminate].
  cbn [negb]. unfold mbind, result_bind. cbv beta iota.
  apply (indexOf_none_lacks "/") in Hslash.
  assert (Hlooks : looksLikeHost stripped = true).
  { unfold looksLikeHost. destruct Hstripped as [<-|Heq]; [rewrite Hhost; reflexivity|].
    apply negb_true_iff.
    destruct (Z.eqb_spec (indexOf stripped ".") (-1)) as [Hdot|]; [|reflexivity].
    destruct (Z.eqb_spec (indexOf stripped ":") (-1)) as [Hcolon|]; [|reflexivity].
    cbn [andb]. apply negb_false_iff.
    apply (indexOf_none_lacks ".") in Hdot. apply (indexOf_none_lacks ":") in Hcolon.
    assert (Hdot' : indexOf indexName "." = -1).
    { apply indexOf_lacks. rewrite Heq, lacks_app, Hdot. reflexivity. }
    assert (Hcolon' : indexOf indexName ":" = -1).
    { apply indexOf_lacks. rewrite Heq, lacks_app, Hcolon. reflexivity. }
    rewrite Hdot', Hcolon' in Hhost. cbn in Hhost. apply negb_false_iff in Hhost.
    apply String.eqb_eq in Hhost. rewrite Hhost in Heq.
    apply (f_equal (lacks "/")) in Heq. rewrite lacks_app, lacks_cons in Heq.
    rewrite andb_false_r in Heq. vm_compute in Heq. discriminate. }
  change ("index." +:+ Common.DEFAULT_INDEX_NAME) with "index.docker.io".
  change Common.DEFAULT_INDEX_NAME with "docker.io".
  cbn [RegistryIndex.official].
  destruct (String.eqb_spec stripped "index.docker.io") as [Hlong|Hshort].
  - change (String.eqb "docker.io" "docker.io") with true. cbn [andb].
    destruct scheme; [discriminate|]. intros [= <-]. cbn.
    repeat split; try reflexivity; try discriminate.
    right. right. split; [reflexivity|]. rewrite Hlong in Hstripped. exact Hstripped.
  - destruct (String.eqb stripped "docker.io" && _) eqn:Hofficial; [discriminate|].
    intros [= <-]. cbn [RegistryIndex.name RegistryIndex.official RegistryIndex.scheme].
    split; [exact Hlooks|]. split; [exact Hslash|]. split; [exact Hshort|].
    split; [reflexivity|]. split; [reflexivity|]. split.
    + intros Hoff. rewrite Hoff in Hofficial. destruct scheme; [discriminate|reflexivity].
    + destruct Hstripped as [Heq|Heq]; [left|right; left]; exact Heq.
Qed.

(** X2. An index that [parseIndex] returns has a name that looks like the
    name of a host and has no slash; the name is never [index.docker.io],
    which is turned into [docker.io]; the index is the official one exactly
    when its name is [docker.io]; and the official index is never reached
    over plain HTTP. *)
Theorem parseIndex_invariants (arg : option string) (idx : RegistryIndex.t) :
  Common.parseIndex arg = Ok idx ->
  looksLikeHost (RegistryIndex.name idx) = true
  /\ lacks "/" (RegistryIndex.name idx) = true
  /\ RegistryIndex.name idx <> "index.docker.io"
  /\ RegistryIndex.official idx = String.eqb (RegistryIndex.name idx) "docker.io"
  /\ (RegistryIndex.official idx = true -> RegistryIndex.scheme idx = https).
Proof.
  unfold Common.parseIndex.
  destruct (String.eqb (default EmptyString arg) EmptyString
            || String.eqb (default EmptyString arg) Common.DEFAULT_LOGIN_SERVERNAME).
  { intros [= <-]. repeat split; try reflexivity. discriminate. }
  assert (Hname : forall scheme indexName,
            _ = Ok idx -> _) by (intros scheme indexName;
                                 exact (parseIndex_name scheme indexName (default EmptyString arg) idx)).
  destruct (negb (indexOf (default EmptyString arg) "://" =? -1)).
  - destruct (String.eqb _ "http").
    + unfold mbind at 1, result_bind at 1. cbv beta iota. intros Hparse.
      apply Hname in Hparse as (H1 & H2 & H3 & H4 & H5 & H6 & _).
      rewrite H5. repeat split; assumption.
    + destruct (String.eqb _ "https"); [|discriminate].
      unfold mbind at 1, result_bind at 1. cbv beta iota. intros Hparse.
      apply Hname in Hparse as (H1 & H2 & H3 & H4 & H5 & H6 & _).
      rewrite H5. repeat split; assumption.
  - unfold mbind at 1, result_bind at 1. cbv beta iota. intros Hparse.
    apply Hname in Hparse as (H1 & H2 & H3 & H4 & H5 & H6 & _).
    rewrite H5. repeat split; assumption.
Qed.

Lemma startsWith_split (s p : string) :
  startsWith s p = true -> exists b, s = p +:+ b.
Proof.
  revert s. induction p as [|c p IH]; intros s Hs; [exists s; reflexivity|].
  destruct s as [|d s]; [discriminate|]. simpl in Hs.
  apply andb_prop in Hs as [Hcd Hs]. apply Ascii.eqb_eq in Hcd as <-.
  destruct (IH s Hs) as [b ->]. exists b. reflexivity.
Qed.

Lemma slice_to (a r : string) : slice (a +:+ r) 0 (Some (bytes a)) = a.
Proof.
  unfold slice, relativeIndex. rewrite bytes_app.
  pose proof (bytes_nonneg a). pose proof (bytes_nonneg r).
  change (0 <? 0) with false. cbv iota.
  destruct (Z.ltb_spec (bytes a) 0); [lia|].
  rewrite (Z.min_l 0) by lia. rewrite (Z.min_l (bytes a)) by lia.
  change (Z.to_nat 0) with 0%nat. cbn [drop].
  replace (Z.to_nat (bytes a - 0)) with (String.length a) by (unfold bytes; lia).
  apply take_app.
Qed.

Lemma slice_from (a r : string) : slice (a +:+ r) (bytes a) None = r.
Proof.
  unfold slice, relativeIndex. rewrite bytes_app.
  pose proof (bytes_nonneg a). pose proof (bytes_nonneg r).
  destruct (Z.ltb_spec (bytes a) 0); [lia|].
  rewrite (Z.min_l (bytes a)) by lia.
  replace (Z.to_nat (bytes a)) with (String.length a) by (unfold bytes; lia).
  rewrite drop_app. apply take_all. unfold bytes. lia.
Qed.

(** A string in which [pat] occurs is what is before the first occurrence,
    [pat], and what is after it. *)
Lemma indexOf_split (s pat : string) :
  indexOf s pat <> -1 ->
  s = slice s 0 (Some (indexOf s pat)) +:+ pat
      +:+ slice s (indexOf s pat + bytes pat) None.
Proof.
  intros Hfound.
  assert (Hshape : exists a b, s = a +:+ pat +:+ b /\ indexOf s pat = bytes a).
  { induction s as [|d s IH].
    - simpl in Hfound. destruct (startsWith EmptyString pat) eqn:Hstart; [|congruence].
      destruct (startsWith_split _ _ Hstart) as [b Hb].
      exists EmptyString, b. split; [exact Hb|]. simpl. rewrite Hstart. reflexivity.
    - rewrite indexOf_cons in Hfound |- *.
      destruct (startsWith (String d s) pat) eqn:Hstart.
      + destruct (startsWith_split _ _ Hstart) as [b Hb].
        exists EmptyString, b. split; [exact Hb|reflexivity].
      + destruct (Z.ltb_spec (indexOf s pat) 0) as [|Hpos]; [congruence|].
        destruct IH as (a & b & Heq & Hidx); [lia|].
        exists (String d a), b. rewrite append_cons, <- Heq, bytes_cons, Hidx.
        split; reflexivity. }
  destruct Hshape as (a & b & Heq & ->). subst s.
  assert (Hafter : slice (a +:+ pat +:+ b) (bytes a + bytes pat) None = b).
  { rewrite <- bytes_app, <- append_assoc. apply slice_from. }
  rewrite slice_to, Hafter. reflexivity.
Qed.

(** X3. [urlFromIndex] after [parseIndex], for an index other than the
    official one: the URL is the scheme and the name, and what was given is
    that URL, or it with a slash at the end, or the name alone (with or
    without the slash), in which case the scheme is [http] for the local host
    and [https] otherwise. *)
Theorem urlFromIndex_parseIndex (arg : string) (idx : RegistryIndex.t) :
  Common.parseIndex (Some arg) = Ok idx ->
  RegistryIndex.official idx = false ->
  let url := schemeName (RegistryIndex.scheme idx) +:+ "://" +:+ RegistryIndex.name idx in
  Common.urlFromIndex idx None = Ok url
  /\ (arg = url \/ arg = url +:+ "/"
      \/ ((arg = RegistryIndex.name idx \/ arg = RegistryIndex.name idx +:+ "/")
          /\ RegistryIndex.scheme idx = if Common.isLocalhost arg then http else https)).
Proof.
  intros Hparse Hofficial. cbv zeta.
  split; [unfold Common.urlFromIndex; rewrite Hofficial; reflexivity|].
  revert Hparse. unfold Common.parseIndex. cbn [from_option id].
  destruct (String.eqb arg EmptyString || String.eqb arg Common.DEFAULT_LOGIN_SERVERNAME).
  { intros [= <-]. discriminate. }
  assert (Hname : forall scheme indexName,
            _ = Ok idx -> _) by (intros scheme indexName;
                                 exact (parseIndex_name scheme indexName arg idx)).
  assert (Hcases : forall indexName : string,
            RegistryIndex.official idx = String.eqb (RegistryIndex.name idx) "docker.io" ->
            (indexName = RegistryIndex.name idx
             \/ indexName = RegistryIndex.name idx +:+ "/"
             \/ (RegistryIndex.name idx = "docker.io"
                 /\ (indexName = "index.docker.io" \/ indexName = "index.docker.io/"))) ->
            indexName = RegistryIndex.name idx
            \/ indexName = RegistryIndex.name idx +:+ "/").
  { intros indexName H4 Hshape.
    destruct Hshape as [Heq|[Heq|[Hdocker _]]]; [left; exact Heq|right; exact Heq|].
    rewrite Hdocker, Hofficial in H4. discriminate. }
  destruct (Z.eqb_spec (indexOf arg "://") (-1)) as [Hnone|Hsome]; cbn [negb].
  - unfold mbind at 1, result_bind at 1. cbv beta iota. intros Hparse.
    apply Hname in Hparse as (_ & _ & _ & H4 & Hscheme & _ & Hshape).
    apply (Hcases _ H4) in Hshape.
    right. right. split; [exact Hshape|exact Hscheme].
  - pose proof (indexOf_split arg "://" Hsome) as Hsplit.
    change (bytes "://") with 3 in Hsplit.
    assert (Hurl : forall scheme,
              slice arg 0 (Some (indexOf arg "://")) = schemeName scheme ->
              (slice arg (indexOf arg "://" + 3) None = RegistryIndex.name idx
               \/ slice arg (indexOf arg "://" + 3) None = RegistryIndex.name idx +:+ "/") ->
              arg = schemeName scheme +:+ "://" +:+ RegistryIndex.name idx
              \/ arg = (schemeName scheme +:+ "://" +:+ RegistryIndex.name idx) +:+ "/").
    { intros scheme Hfound [Hrest|Hrest]; rewrite Hfound, Hrest in Hsplit.
      - left. exact Hsplit.
      - right. rewrite !append_assoc. exact Hsplit. }
    destruct (String.eqb_spec (slice arg 0 (Some (indexOf arg "://"))) "http") as [Hhttp|_].
    + unfold mbind at 1, result_bind at 1. cbv beta iota. intros Hparse.
      apply Hname in Hparse as (_ & _ & _ & H4 & Hscheme & _ & Hshape).
      apply (Hcases _ H4) in Hshape. rewrite Hscheme.
      destruct (Hurl http Hhttp Hshape) as [Heq|Heq]; [left|right; left]; exact Heq.
    + destruct (String.eqb_spec (slice arg 0 (Some (indexOf arg "://"))) "https")
        as [Hhttps|_]; [|discriminate].
      unfold mbind at 1, result_bind at 1. cbv beta iota. intros Hparse.
      apply Hname in Hparse as (_ & _ & _ & H4 & Hscheme & _ & Hshape).
      apply (Hcases _ H4) in Hshape. rewrite Hscheme.
      destruct (Hurl https Hhttps Hshape) as [Heq|Heq]; [left|right; left]; exact Heq.
Qed.

End Indexes.

(** ** The body of a response *)

Section Bodies.
Context `{Platform}.

(** [dockerBody] on a response whose body has not been read. *)
Lemma dockerBody_fresh (r : DockerResponse) :
  decodedBody r = None ->
  bodyUsed r = false ->
  DockerResponse.dockerBody r
  = let bytes := concat (default [] (body r)) in
    match Headers.get (headers r) "content-md5" with
    | Some contentMd5 =>
        if negb (String.eqb contentMd5 EmptyString) && negb (status r =? 206)
           && negb (String.eqb contentMd5 (MD5.base64Digest bytes))
        then (Throw (Error ("BadDigestError: Content-MD5 (" +:+ contentMd5 +:+ " vs "
                            +:+ MD5.base64Digest bytes +:+ ")")),
              DockerResponse.setBodyUsed r)
        else (Ok bytes, DockerResponse.setDecodedBody bytes (DockerResponse.setBodyUsed r))
    | None => (Ok bytes, DockerResponse.setDecodedBody bytes (DockerResponse.setBodyUsed r))
    end.
Proof.
  intros Hnone Hfresh. unfold DockerResponse.dockerBody.
  unfold mbind at 1, M_bind at 1, getState at 1. cbv beta iota. rewrite Hnone.
  unfold mbind at 1, M_bind at 1, DockerResponse.arrayBuffer at 1. rewrite Hfresh.
  cbv beta iota zeta.
  unfold mbind at 1, M_bind at 1, getState at 1. cbv beta iota.
  cbn [headers status DockerResponse.setBodyUsed].
  destruct (Headers.get (headers r) "content-md5") as [md5|]; [|reflexivity].
  destruct (negb (String.eqb md5 EmptyString) && negb (status r =? 206)); [|reflexivity].
  cbn [andb].
  destruct (negb (String.eqb md5 (MD5.base64Digest (concat (default [] (body r))))));
    reflexivity.
Qed.

Lemma dockerBody_cached (r : DockerResponse) (b : list byte) :
  decodedBody r = Some b -> DockerResponse.dockerBody r = (Ok b, r).
Proof.
  intros Hsome. unfold DockerResponse.dockerBody.
  unfold mbind, M_bind, getState. rewrite Hsome. reflexivity.
Qed.

(** What [dockerBody] leaves behind: the bytes when it returns them, and
    nothing when it throws. *)
Lemma dockerBody_leaves (r r' : DockerResponse) (x : result (list byte)) :
  DockerResponse.dockerBody r = (x, r') ->
  match x with
  | Ok b => decodedBody r' = Some b
  | Throw _ => decodedBody r' = None
  end.
Proof.
  intros Hbody.
  destruct (decodedBody r) as [b0|] eqn:Hdecoded.
  { rewrite (dockerBody_cached r b0 Hdecoded) in Hbody. injection Hbody as <- <-.
    exact Hdecoded. }
  destruct (bodyUsed r) eqn:Hused.
  { unfold DockerResponse.dockerBody in Hbody. unfold mbind, M_bind, getState in Hbody.
    rewrite Hdecoded in Hbody. unfold DockerResponse.arrayBuffer in Hbody.
    rewrite Hused in Hbody. injection Hbody as <- <-. exact Hdecoded. }
  rewrite (dockerBody_fresh r Hdecoded Hused) in Hbody. cbv zeta in Hbody.
  destruct (Headers.get (headers r) "content-md5") as [md5|].
  - destruct (negb (String.eqb md5 EmptyString) && negb (status r =? 206)
              && negb (String.eqb md5 (MD5.base64Digest (concat (default [] (body r))))));
      injection Hbody as <- <-; [exact Hdecoded|reflexivity].
  - injection Hbody as <- <-. reflexivity.
Qed.



(** [dockerJson] on a response whose bytes are kept. *)
Lemma dockerJson_cached (r : DockerResponse) (b : list byte) :
  decodedBody r = Some b ->
  DockerResponse.dockerJson r
  = (if JsString.length (JsString.trim (TextDecoder_decode b)) =? 0 then Ok VUndefined
     else match JSON_parse (TextDecoder_decode b) with
          | inr v => Ok v
          | inl jsonErr => Throw (Error ("Invalid JSON in response: " +:+ jsonErr))
          end, r).
Proof.
  intros Hsome. unfold DockerResponse.dockerJson.
  unfold mbind at 1, M_bind at 1, getState at 1. cbv beta iota. rewrite Hsome.
  unfold mbind, M_bind, mret, M_ret, throw. cbv beta iota zeta.
  destruct (JsString.length _ =? 0); [reflexivity|].
  destruct (JSON_parse _); reflexivity.
Qed.

Lemma dockerJson_uncached (r : DockerResponse) :
  decodedBody r = None ->
  DockerResponse.dockerJson r
  = match DockerResponse.dockerBody r with
    | (Ok b, r1) =>
        (if JsString.length (JsString.trim (TextDecoder_decode b)) =? 0 then Ok VUndefined
         else match JSON_parse (TextDecoder_decode b) with
              | inr v => Ok v
              | inl jsonErr => Throw (Error ("Invalid JSON in response: " +:+ jsonErr))
              end, r1)
    | (Throw e, r1) => (Throw e, r1)
    end.
Proof.
  intros Hnone. unfold DockerResponse.dockerJson.
  unfold mbind at 1, M_bind at 1, getState at 1. cbv beta iota. rewrite Hnone.
  unfold mbind at 1, M_bind at 1.
  destruct (DockerResponse.dockerBody r) as [[b|e] r1]; [|reflexivity].
  unfold mret, M_ret, throw. cbv zeta.
  destruct (JsString.length _ =? 0); [reflexivity|].
  destruct (JSON_parse _); reflexivity.
Qed.

(** X6. [dockerJson] can be asked again: once the body has been read, a
    second call gives the same value, or the same error, and leaves the
    response as it is.  A body of white space alone is [undefined], and a
    body that is not JSON is an error that names the one of the parser. *)
Theorem dockerJson_repeatable (r r' : DockerResponse) (x : result value) :
  DockerResponse.dockerJson r = (x, r') ->
  (forall b, decodedBody r' = Some b ->
     DockerResponse.dockerJson r' = (x, r')
     /\ (JsString.length (JsString.trim (TextDecoder_decode b)) = 0 -> x = Ok VUndefined)
     /\ (JsString.length (JsString.trim (TextDecoder_decode b)) <> 0 ->
         forall jsonErr, JSON_parse (TextDecoder_decode b) = inl jsonErr ->
         x = Throw (Error ("Invalid JSON in response: " +:+ jsonErr))))
  /\ (forall v, x = Ok v -> decodedBody r' <> None).
Proof.
  intros Hjson.
  assert (Hcases : (exists e, x = Throw e /\ decodedBody r' = None)
                   \/ exists b, decodedBody r' = Some b
                                /\ DockerResponse.dockerJson r' = (x, r')).
  { destruct (decodedBody r) as [b|] eqn:Hdecoded.
    - rewrite (dockerJson_cached r b Hdecoded) in Hjson. injection Hjson as <- <-.
      right. exists b. split; [exact Hdecoded|]. apply dockerJson_cached. exact Hdecoded.
    - rewrite (dockerJson_uncached r Hdecoded) in Hjson.
      destruct (DockerResponse.dockerBody r) as [[b|e] r1] eqn:Hbody;
        apply dockerBody_leaves in Hbody; injection Hjson as <- <-.
      + right. exists b. split; [exact Hbody|]. apply dockerJson_cached. exact Hbody.
      + left. exists e. split; [reflexivity|exact Hbody]. }
  split.
  - intros b Hkept. destruct Hcases as [(e & _ & Hnone)|(b' & Hkept' & Hagain)]; [congruence|].
    split; [exact Hagain|].
    rewrite (dockerJson_cached r' b Hkept) in Hagain. injection Hagain as Hx.
    split.
    + intros Hblank. rewrite Hblank in Hx. symmetry. exact Hx.
    + intros Htext jsonErr Hparse. apply Z.eqb_neq in Htext.
      rewrite Htext, Hparse in Hx. symmetry. exact Hx.
  - intros v -> Hnone. destruct Hcases as [(e & Hthrow & _)|(b & Hkept & _)]; congruence.
Qed.

Lemma filterMessages_keeps (items kept : list value) :
  DockerResponse.filterMessages items = Ok kept -> Forall hasMessage kept.
Proof.
  revert kept. induction items as [|x items IH]; intros kept.
  - intros [= <-]. constructor.
  - cbn [DockerResponse.filterMessages]. unfold mbind, result_bind.
    destruct (Js.get x "message") as [m|e] eqn:Hm; [|discriminate].
    destruct (DockerResponse.filterMessages items) as [kept'|e]; [|discriminate].
    specialize (IH kept' eq_refl).
    destruct m; cbn [Js.isString]; intros [= <-]; try exact IH.
    constructor; [|exact IH].
    destruct x; try discriminate. cbn [Js.get] in Hm. injection Hm as Hm.
    eexists _, _. split; [reflexivity|exact Hm].
Qed.

Lemma dockerErrors_keeps (r r' : DockerResponse) (errs : list value) :
  DockerResponse.dockerErrors r = (Ok errs, r') -> Forall hasMessage errs.
Proof.
  unfold DockerResponse.dockerErrors. intros Hrun.
  apply bind_Ok in Hrun as (obj & r1 & _ & Hrun).
  apply bind_Ok in Hrun as (error & r2 & _ & Hrun).
  apply bind_Ok in Hrun as (errObj & r3 & _ & Hrun).
  destruct errObj; try discriminate.
  unfold liftR in Hrun. injection Hrun as Hrun _.
  eapply filterMessages_keeps. exact Hrun.
Qed.

(** X7. The error that [dockerThrowable] makes is an [HttpError] that holds
    the response; its message starts with the base message; and every entry
    of its errors is an object with a string for [message], as the type of
    the errors says, whatever the body of the response is. *)
Theorem dockerThrowable_errors_have_messages (baseMsg : string) (r r' : DockerResponse)
    (e : exn) :
  DockerResponse.dockerThrowable baseMsg r = (Ok e, r') ->
  exists errs msg,
    e = HttpError r' errs msg
    /\ Forall hasMessage errs
    /\ JsString.startsWith msg baseMsg = true.
Proof.
  unfold DockerResponse.dockerThrowable.
  unfold mbind at 1, M_bind at 1, getState at 1. cbv beta iota.
  destruct (match Headers.get (headers r) "content-type" with
            | Some ct => JsString.startsWith ct "text/html"
            | None => false
            end).
  - unfoldM. destruct (DockerResponse.arrayBuffer r) as [[b|e0] r1]; [|discriminate].
    intros [= <- <-]. eexists _, _. split; [reflexivity|].
    split; [constructor|apply startsWith_app].
  - unfold tryCatch.
    match goal with |- context [match ?m r with _ => _ end] =>
      destruct (m r) as [[v|e0] r1] eqn:Hm end.
    + intros [= <- <-].
      apply bind_Ok in Hm as (errors & r2 & Herrors & Hm).
      apply bind_Ok in Hm as (errors' & r3 & Hmore & Hm).
      apply bind_Ok in Hm as (texts & r4 & _ & Hm).
      unfoldM. injection Hm as <- <-.
      eexists _, _. split; [reflexivity|]. split; [|apply startsWith_join_head].
      assert (Hall : Forall hasMessage errors).
      { destruct (400 <=? status r).
        - eapply dockerErrors_keeps. exact Herrors.
        - injection Herrors as <- _. constructor. }
      destruct (Z.of_nat (List.length errors) =? 0).
      * apply bind_Ok in Hmore as (b & r5 & _ & Hmore).
        destruct (1 <? JsString.length (TextDecoder_decode b)).
        -- injection Hmore as <- _. apply Forall_app. split; [exact Hall|].
           constructor; [|constructor]. eexists _, _. split; reflexivity.
        -- injection Hmore as <- _. exact Hall.
      * injection Hmore as <- _. exact Hall.
    + unfoldM. intros [= <- <-]. eexists _, _. split; [reflexivity|].
      split; [constructor|apply startsWith_app].
Qed.

End Bodies.

(** ** The requests of the executor *)

Section Requests.
Context `{Platform}.

Lemma get_set (h h' : Headers) (name v : string) :
  Headers.set h name v = Ok h' ->
  Headers.legalValue v = true
  /\ forall name', Headers.get h' name'
                   = if String.eqb (Headers.key name') (Headers.key name) then Some v
                     else Headers.get h name'.
Proof.
  unfold Headers.set. destruct (Headers.legalValue v); [|discriminate].
  intros [= <-]. split; [reflexivity|]. intros name'. unfold Headers.get.
  destruct (String.eqb_spec (Headers.key name') (Headers.key name)) as [->|Hne].
  - apply lookup_insert_eq.
  - apply lookup_insert_ne. congruence.
Qed.

(** The headers of a request of the executor: the user agent of the client,
    the [accept] header, and the other headers as they were given. *)
Lemma requestHeaders_sent (c : DockerJsonClient.t) (opts : HttpReqOpts) (h : Headers) :
  requestHeaders c opts = Ok h ->
  Headers.get h "user-agent" = Some (DockerJsonClient.userAgent c)
  /\ Headers.get h "accept" = acceptSent c opts
  /\ forall name, Headers.key name <> "user-agent" -> Headers.key name <> "accept" ->
                  Headers.get h name = Headers.get (default ∅ (opt_headers opts)) name.
Proof.
  unfold requestHeaders, acceptSent, Headers.has.
  set (given := default ∅ (opt_headers opts)).
  change (given !! Headers.key "accept") with (Headers.get given "accept").
  unfold mbind, result_bind.
  destruct (Headers.get given "accept") as [a|] eqn:Haccept; cbn [negb andb].
  - intros Hua. apply get_set in Hua as [_ Hua].
    split; [rewrite Hua; reflexivity|]. split; [rewrite Hua; exact Haccept|].
    intros name Hn1 Hn2. rewrite Hua. change (Headers.key "user-agent") with "user-agent".
    apply String.eqb_neq in Hn1. rewrite Hn1. reflexivity.
  - destruct (String.eqb (DockerJsonClient.accept c) EmptyString); cbn [negb].
    + intros Hua. apply get_set in Hua as [_ Hua].
      split; [rewrite Hua; reflexivity|]. split; [rewrite Hua; exact Haccept|].
      intros name Hn1 Hn2. rewrite Hua. change (Headers.key "user-agent") with "user-agent".
      apply String.eqb_neq in Hn1. rewrite Hn1. reflexivity.
    + destruct (Headers.set given "accept" (DockerJsonClient.accept c)) as [h1|e] eqn:Hset;
        [|discriminate].
      apply get_set in Hset as [_ Hset].
      intros Hua. apply get_set in Hua as [_ Hua].
      split; [rewrite Hua; reflexivity|]. split; [rewrite Hua, Hset; reflexivity|].
      intros name Hn1 Hn2. rewrite Hua, Hset.
      change (Headers.key "user-agent") with "user-agent".
      change (Headers.key "accept") with "accept".
      apply String.eqb_neq in Hn1, Hn2. rewrite Hn1, Hn2. reflexivity.
Qed.

(** X8. What a call of the executor does.  It leaves the network as it is
    and makes one request at most.  The request has the method it was given
    and the URL of the path resolved against the URL of the client; it
    carries the user agent of the client, the [accept] header that was given
    or else the one of the client, and the other headers unchanged.  A
    response is returned only with a status that was expected, and with its
    body unread; a response with another status is thrown as an [HttpError]
    whose message starts with the status and the path. *)
Theorem request_contract (c : DockerJsonClient.t) (opts : HttpReqOpts) (w w' : World)
    (x : result DockerResponse) :
  DockerJsonClient.request c opts w = (x, w') ->
  network w' = network w
  /\ ((sent w' = sent w /\ exists e, x = Throw e /\ resp e = None)
      \/ exists req,
           sent w' = sent w ++ [req]
           /\ Request.method req = opt_method opts
           /\ new_URL (opt_path opts) (Some (DockerJsonClient.url c)) = Some (Request.url req)
           /\ Headers.get (Request.headers req) "user-agent"
              = Some (DockerJsonClient.userAgent c)
           /\ Headers.get (Request.headers req) "accept" = acceptSent c opts
           /\ (forall name,
                 Headers.key name <> "user-agent" -> Headers.key name <> "accept" ->
                 Headers.get (Request.headers req) name
                 = Headers.get (default ∅ (opt_headers opts)) name)
           /\ match network w (List.length (sent w)) with
              | Rejected m => x = Throw (FetchError m)
              | Resolved raw =>
                  if expected opts (Fetch.status raw)
                  then x = Ok (DockerResponse.make raw)
                  else exists r errs msg,
                         x = Throw (HttpError r errs msg)
                         /\ JsString.startsWith msg
                              ("Unexpected HTTP " +:+ JsString.ofZ (Fetch.status raw)
                               +:+ " from " +:+ opt_path opts) = true
              end).
Proof.
  rewrite request_unfold.
  destruct (requestHeaders c opts) as [h|e] eqn:Hh.
  - destruct (new_URL (opt_path opts) (Some (DockerJsonClient.url c))) as [target|] eqn:Hurl.
    + intros [= <- <-]. split; [reflexivity|]. right.
      exists (requestOf c opts h target).
      destruct (requestHeaders_sent c opts h Hh) as (Hua & Haccept & Hframe).
      split; [reflexivity|]. split; [reflexivity|]. split; [reflexivity|].
      split; [exact Hua|]. split; [exact Haccept|]. split; [exact Hframe|].
      unfold answer. destruct (network w (List.length (sent w))) as [m|raw]; [reflexivity|].
      destruct (expected opts (Fetch.status raw)); [reflexivity|].
      edestruct (dockerThrowable_returns
                   ("Unexpected HTTP " +:+ JsString.ofZ (Fetch.status raw) +:+ " from "
                    +:+ opt_path opts) (DockerResponse.make raw))
        as (r' & errs & msg & Hthrow & Hstarts); [right; reflexivity|].
      rewrite Hthrow. eauto.
    + intros [= <- <-]. split; [reflexivity|]. left. split; [reflexivity|].
      eexists. split; reflexivity.
  - intros [= <- <-]. split; [reflexivity|]. left. split; [reflexivity|].
    exists e. split; [reflexivity|].
    revert Hh. unfold requestHeaders, Headers.set, mbind, result_bind.
    repeat match goal with
           | |- context [if ?b then _ else _] => destruct b
           end; intros [= <-]; reflexivity.
Qed.

End Requests.

(** ** Credentials and digests *)

Section Credentials.
Context `{Platform}.

Lemma get_delete (h : Headers) (name name' : string) :
  Headers.get (Headers.delete h name) name'
  = if String.eqb (Headers.key name') (Headers.key name) then None else Headers.get h name'.
Proof.
  unfold Headers.get, Headers.delete.
  destruct (String.eqb_spec (Headers.key name') (Headers.key name)) as [->|Hne].
  - apply lookup_delete_eq.
  - apply lookup_delete_ne. congruence.
Qed.

(** X9. [_setAuthHeaderFromAuthInfo] writes the [authorization] header and
    no other one: the header is the token after [Bearer], or the user name
    and the password in base64 after [Basic], and it is removed when there
    are no credentials, whatever it was before.  The call fails when the
    token is not a legal header value or when the user name or the password
    has a character that [btoa] refuses. *)
Theorem setAuthHeader_writes_authorization (headers : Headers) (authInfo : option AuthInfo) :
  (forall headers',
     Client._setAuthHeaderFromAuthInfo headers authInfo = Ok headers' ->
     Headers.get headers' "authorization" = authorizationOf authInfo
     /\ (forall name, Headers.key name <> "authorization" ->
                      Headers.get headers' name = Headers.get headers name)
     /\ Client._setAuthHeaderFromAuthInfo headers' authInfo = Ok headers')
  /\ (forall e,
        Client._setAuthHeaderFromAuthInfo headers authInfo = Throw e ->
        match authInfo with
        | Some (AuthBearer token) => Headers.legalValue ("Bearer " +:+ token) = false
        | Some (AuthBasic username password) =>
            btoa (username +:+ ":" +:+ password) = None
            \/ exists b, btoa (username +:+ ":" +:+ password) = Some b
                         /\ Headers.legalValue ("Basic " +:+ b) = false
        | _ => False
        end).
Proof.
  assert (Hset : forall v headers',
            Headers.set headers "authorization" v = Ok headers' ->
            Headers.get headers' "authorization" = Some v
            /\ (forall name, Headers.key name <> "authorization" ->
                             Headers.get headers' name = Headers.get headers name)
            /\ Headers.set headers' "authorization" v = Ok headers').
  { intros v headers' Hv. pose proof (get_set _ _ _ _ Hv) as [Hlegal Hget].
    split; [rewrite Hget; reflexivity|]. split.
    - intros name Hname. rewrite Hget. change (Headers.key "authorization") with "authorization".
      apply String.eqb_neq in Hname. rewrite Hname. reflexivity.
    - revert Hv. unfold Headers.set. rewrite Hlegal. intros [= <-].
      f_equal. apply insert_insert_eq. }
  assert (Hfail : forall v e,
            Headers.set headers "authorization" v = Throw e -> Headers.legalValue v = false).
  { intros v e. unfold Headers.set. destruct (Headers.legalValue v); [discriminate|reflexivity]. }
  split.
  - intros headers'. unfold Client._setAuthHeaderFromAuthInfo, authorizationOf.
    destruct authInfo as [[|username password|token]|].
    + intros [= <-]. rewrite get_delete. split; [reflexivity|]. split.
      * intros name Hname. rewrite get_delete.
        change (Headers.key "authorization") with "authorization".
        apply String.eqb_neq in Hname. rewrite Hname. reflexivity.
      * f_equal. unfold Headers.delete. apply delete_delete_eq.
    + destruct (btoa (username +:+ ":" +:+ password)) as [b|]; [|discriminate].
      apply Hset.
    + apply Hset.
    + intros [= <-]. rewrite get_delete. split; [reflexivity|]. split.
      * intros name Hname. rewrite get_delete.
        change (Headers.key "authorization") with "authorization".
        apply String.eqb_neq in Hname. rewrite Hname. reflexivity.
      * f_equal. unfold Headers.delete. apply delete_delete_eq.
  - intros e. unfold Client._setAuthHeaderFromAuthInfo.
    destruct authInfo as [[|username password|token]|]; try discriminate.
    + destruct (btoa (username +:+ ":" +:+ password)) as [b|]; [|left; reflexivity].
      intros Hthrow. right. exists b. split; [reflexivity|]. eapply Hfail. exact Hthrow.
    + apply Hfail.
Qed.

(** The headers that [_setAuthHeaderFromAuthInfo] makes of no headers. *)
Lemma setAuthHeader_empty (authInfo : option AuthInfo) (headers : Headers) :
  Client._setAuthHeaderFromAuthInfo ∅ authInfo = Ok headers ->
  Headers.get headers "authorization" = authorizationOf authInfo
  /\ forall name, Headers.key name <> "authorization" -> Headers.get headers name = None.
Proof.
  assert (Hset : forall v, Headers.set ∅ "authorization" v = Ok headers ->
            Headers.get headers "authorization" = Some v
            /\ forall name, Headers.key name <> "authorization" ->
                            Headers.get headers name = None).
  { intros v Hv. apply get_set in Hv as [_ Hget]. split; [rewrite Hget; reflexivity|].
    intros name Hname. rewrite Hget. change (Headers.key "authorization") with "authorization".
    apply String.eqb_neq in Hname. rewrite Hname. apply lookup_empty. }
  assert (Hdelete : Ok (Headers.delete ∅ "authorization") = Ok headers ->
            Headers.get headers "authorization" = None
            /\ forall name, Headers.key name <> "authorization" ->
                            Headers.get headers name = None).
  { intros [= <-]. split; [rewrite get_delete; reflexivity|].
    intros name Hname. rewrite get_delete.
    change (Headers.key "authorization") with "authorization".
    apply String.eqb_neq in Hname. rewrite Hname. apply lookup_empty. }
  unfold Client._setAuthHeaderFromAuthInfo, authorizationOf.
  destruct authInfo as [[|username password|token]|]; try exact Hdelete.
  - destruct (btoa (username +:+ ":" +:+ password)) as [b|]; [|discriminate]. apply Hset.
  - apply Hset.
Qed.

(** X10. A client that the constructor has made is not logged in, with any
    scope; it pulls, unless it is given other scopes; its URL is the one of
    the index of its repository; and its headers are the [authorization]
    header of the credentials it was given and nothing else, the token
    before the user name and the password.  Without a name and without a
    repository the constructor throws. *)
Theorem new_client_is_logged_out (opts : RegistryClientOpts) :
  (forall c,
     Client.new opts = Ok c ->
     (forall scope, loggedInWith c scope = false)
     /\ _authInfo c = None
     /\ scopes c = default ["pull"] (opts_scopes opts)
     /\ Common.urlFromIndex (RegistryRepo.index (repo c)) (opts_scheme opts) = Ok (_url c)
     /\ Headers.get (_headers c) "authorization" = authorizationOf (credentialsOf opts)
     /\ (forall name, Headers.key name <> "authorization" ->
                      Headers.get (_headers c) name = None))
  /\ (opts_repo opts = None -> Client.nonEmpty (opts_name opts) = false ->
      Client.new opts = Throw (Error "name or repo required")).
Proof.
  split.
  - intros c. unfold Client.new.
    unfold mbind at 1, result_bind at 1.
    destruct (match opts_repo opts with
              | Some r => Ok r
              | None => _
              end) as [r|e]; [|discriminate].
    unfold mbind at 1, result_bind at 1.
    assert (Hheaders :
              (if Client.nonEmpty (opts_token opts)
               then Client._setAuthHeaderFromAuthInfo ∅
                      (Some (AuthBearer (default EmptyString (opts_token opts))))
               else if Client.nonEmpty (opts_username opts) || Client.nonEmpty (opts_password opts)
               then Client._setAuthHeaderFromAuthInfo ∅
                      (Some (AuthBasic (default EmptyString (opts_username opts))
                                       (default EmptyString (opts_password opts))))
               else Client._setAuthHeaderFromAuthInfo ∅ (Some AuthNone))
              = Client._setAuthHeaderFromAuthInfo ∅ (credentialsOf opts)).
    { unfold credentialsOf.
      destruct (Client.nonEmpty (opts_token opts)); [reflexivity|].
      destruct (Client.nonEmpty (opts_username opts) || Client.nonEmpty (opts_password opts));
        reflexivity. }
    rewrite Hheaders.
    destruct (Client._setAuthHeaderFromAuthInfo ∅ (credentialsOf opts)) as [headers|e] eqn:Hh;
      [|discriminate].
    apply setAuthHeader_empty in Hh as [Hauth Hothers].
    unfold mbind, result_bind.
    destruct (Common.urlFromIndex (RegistryRepo.index r) (opts_scheme opts)) as [url|e] eqn:Hurl;
      [|discriminate].
    intros [= <-]. cbn [_loggedIn _authInfo scopes repo _url _headers].
    split; [intros scope; reflexivity|]. split; [reflexivity|]. split; [reflexivity|].
    split; [exact Hurl|]. split; [exact Hauth|exact Hothers].
  - intros Hrepo Hname. unfold Client.new. rewrite Hrepo, Hname. reflexivity.
Qed.

(** X11. After a [login] that had to authenticate, the client is logged in
    with the scope it asked for, and its [authorization] header is the one of
    the credentials that [performLogin] returned, whatever header the client
    had before: a token that was given to the constructor is replaced, and
    it is removed when the registry asks for no authentication.  The other
    headers are as they were. *)
Theorem login_replaces_authorization pingRes scope (s s' : Session) :
  loggedInWith (client s) (Client.effectiveScope (client s) scope) = false ->
  Client.login pingRes scope s = (Ok tt, s') ->
  exists authInfo s1,
    Client.performLogin (Some (Client.effectiveScope (client s) scope)) pingRes s
    = (Ok authInfo, s1)
    /\ world s' = world s1
    /\ _loggedIn (client s') = true
    /\ _loggedInScope (client s') = Some (Client.effectiveScope (client s) scope)
    /\ _authInfo (client s') = Some authInfo
    /\ Headers.get (_headers (client s')) "authorization" = authorizationOf (Some authInfo)
    /\ (forall name, Headers.key name <> "authorization" ->
                     Headers.get (_headers (client s')) name
                     = Headers.get (_headers (client s)) name).
Proof.
  intros Hout. rewrite login_unfold. cbv zeta. rewrite Hout.
  pose proof (performLogin_sameClient (Some (Client.effectiveScope (client s) scope))
                pingRes s) as Hsame.
  destruct (Client.performLogin _ pingRes s) as [[authInfo|e] s1]; [|discriminate].
  cbn [snd] in Hsame. rewrite headers_setLoggedIn, Hsame.
  destruct (Client._setAuthHeaderFromAuthInfo (_headers (client s)) (Some authInfo))
    as [h|e] eqn:Hh; [|discriminate].
  intros [= <-]. exists authInfo, s1. split; [reflexivity|].
  cbn [client world Client.setHeaders Client.setLoggedIn _loggedIn _loggedInScope _authInfo
         _headers].
  assert (Hset : forall v, Headers.set (_headers (client s)) "authorization" v = Ok h ->
            Headers.get h "authorization" = Some v
            /\ forall name, Headers.key name <> "authorization" ->
                            Headers.get h name = Headers.get (_headers (client s)) name).
  { intros v Hv. apply get_set in Hv as [_ Hget]. split; [rewrite Hget; reflexivity|].
    intros name Hname. rewrite Hget. change (Headers.key "authorization") with "authorization".
    apply String.eqb_neq in Hname. rewrite Hname. reflexivity. }
  repeat (split; [reflexivity|]).
  revert Hh. unfold Client._setAuthHeaderFromAuthInfo, authorizationOf.
  destruct authInfo as [|username password|token].
  - intros [= <-]. split; [rewrite get_delete; reflexivity|].
    intros name Hname. rewrite get_delete.
    change (Headers.key "authorization") with "authorization".
    apply String.eqb_neq in Hname. rewrite Hname. reflexivity.
  - destruct (btoa (username +:+ ":" +:+ password)) as [b|]; [|discriminate]. apply Hset.
  - apply Hset.
Qed.

End Credentials.

Section Digests.
Context `{Platform}.

Lemma parseDockerContentDigest_sha256 (rest : string) :
  Client._parseDockerContentDigest ("sha256:" +:+ rest)
  = Ok {| raw := "sha256:" +:+ rest; algorithm := "sha256"; expectedDigest := rest |}.
Proof.
  unfold Client._parseDockerContentDigest.
  change (String.eqb ("sha256:" +:+ rest) EmptyString) with false. cbv iota zeta.
  change ("sha256:" +:+ rest) with ("sha256" +:+ String ":" rest).
  rewrite (splitIntoTwo_app ":" "sha256" rest eq_refl). reflexivity.
Qed.

Lemma parseDockerContentDigest_Ok (dcd : string) (info : ContentDigest) :
  Client._parseDockerContentDigest dcd = Ok info ->
  JsString.startsWith dcd "sha256:" = true /\ raw info = dcd.
Proof.
  unfold Client._parseDockerContentDigest.
  destruct (String.eqb dcd EmptyString); [discriminate|]. cbv zeta.
  destruct (splitIntoTwo_cases ":" dcd) as [[Hone _]|(a & b & Heq & _ & Htwo)].
  - rewrite Hone. discriminate.
  - rewrite Htwo. destruct (String.eqb_spec a "sha256") as [->|]; [|discriminate].
    intros [= <-]. split; [|reflexivity]. rewrite Heq.
    exact (startsWith_app "sha256:" b).
Qed.

(** X12. [_parseDockerContentDigest] accepts the values that start with
    [sha256:] and no others: what follows the first colon is the digest it
    expects, and the value itself is kept; every other value, the empty one
    among them, is a [BadDigestError]. *)
Theorem parseDockerContentDigest_accepts_sha256 (dcd : string) :
  (JsString.startsWith dcd "sha256:" = true ->
   Client._parseDockerContentDigest dcd
   = Ok {| raw := dcd; algorithm := "sha256"; expectedDigest := JsString.drop 7 dcd |})
  /\ (JsString.startsWith dcd "sha256:" = false ->
      exists msg, Client._parseDockerContentDigest dcd = Throw (BadDigestError msg)).
Proof.
  split.
  - intros Hstart. destruct (startsWith_split _ _ Hstart) as [rest ->].
    apply parseDockerContentDigest_sha256.
  - intros Hstart.
    destruct (parseDockerContentDigest_cases dcd) as [Hthrow|[d Hok]]; [exact Hthrow|].
    apply parseDockerContentDigest_Ok in Hok as [Hsha _]. congruence.
Qed.

Lemma digestFromManifestStr_Ok (manifestStr digest : string) :
  Client.digestFromManifestStr manifestStr = Ok digest ->
  digest = "sha256:" +:+ SHA256.hexDigest (Bytes.ofString manifestStr).
Proof.
  unfold Client.digestFromManifestStr. cbv zeta.
  destruct (JSON_parse manifestStr) as [e|manifest]; [discriminate|].
  unfold mbind, result_bind.
  destruct (Js.get manifest "schemaVersion") as [sv|e]; [|discriminate].
  destruct (Js.isOne sv); [discriminate|]. intros [= <-]. reflexivity.
Qed.

(** X13. The digest of a manifest checks the manifest: the digest that
    [digestFromManifestStr] returns is a value that
    [_parseDockerContentDigest] accepts, and the transform of
    [validationStream] for it passes the chunks on and lets a stream end
    well exactly when its bytes have the SHA-256 of the bytes of the
    manifest, however they are cut into chunks. *)
Theorem manifest_digest_validates_manifest (manifestStr digest : string) :
  Client.digestFromManifestStr manifestStr = Ok digest ->
  exists info validate,
    Client._parseDockerContentDigest digest = Ok info
    /\ raw info = digest
    /\ Client.validationStream info = Ok validate
    /\ forall stream,
         DockerResponse.chunks (validate stream) = DockerResponse.chunks stream
         /\ (DockerResponse.failure stream = None ->
             (DockerResponse.failure (validate stream) = None
              <-> SHA256.hexDigest (concat (DockerResponse.chunks stream))
                  = SHA256.hexDigest (Bytes.ofString manifestStr))
             /\ (concat (DockerResponse.chunks stream) = Bytes.ofString manifestStr ->
                 DockerResponse.failure (validate stream) = None)).
Proof.
  intros Hdigest. apply digestFromManifestStr_Ok in Hdigest as ->.
  set (hex := SHA256.hexDigest (Bytes.ofString manifestStr)).
  assert (Hparse : Client._parseDockerContentDigest ("sha256:" +:+ hex)
                   = Ok {| raw := "sha256:" +:+ hex; algorithm := "sha256";
                           expectedDigest := hex |}).
  { unfold Client._parseDockerContentDigest.
    change (String.eqb ("sha256:" +:+ hex) EmptyString) with false. cbv iota zeta.
    change ("sha256:" +:+ hex) with ("sha256" +:+ String ":" hex).
    rewrite (splitIntoTwo_app ":" "sha256" hex eq_refl). reflexivity. }
  eexists _, _. split; [exact Hparse|]. split; [reflexivity|].
  unfold Client.validationStream, Client.startHash. cbn [algorithm expectedDigest].
  change (String.eqb "sha256" "sha256") with true. cbv iota.
  unfold mbind, result_bind. split; [reflexivity|].
  intros stream. unfold DockerResponse.pipeThrough.
  cbn [DockerResponse.chunks DockerResponse.failure]. split; [reflexivity|].
  intros ->.
  assert (Hiff : (if String.eqb hex (SHA256.hexDigest (concat (DockerResponse.chunks stream)))
                  then None
                  else Some (BadDigestError
                               ("Docker-Content-Digest (" +:+ hex +:+ " vs "
                                +:+ SHA256.hexDigest (concat (DockerResponse.chunks stream))
                                +:+ ")"))) = None
                 <-> SHA256.hexDigest (concat (DockerResponse.chunks stream)) = hex).
  { destruct (String.eqb_spec hex (SHA256.hexDigest (concat (DockerResponse.chunks stream))))
      as [Heq|Hne].
    - split; [intros _; symmetry; exact Heq|reflexivity].
    - split; [discriminate|]. intros Heq. congruence. }
  split; [exact Hiff|]. intros Hbytes. apply Hiff. rewrite Hbytes. reflexivity.
Qed.

End Digests.

(** ** How many requests a call makes *)

Section Bounds.
Context `{Platform}.

Lemma atMost_refl (n : nat) (s : Session) : atMost n s s.
Proof.
  split; [reflexivity|]. exists []. split; [symmetry; apply app_nil_r|simpl; lia].
Qed.

Lemma atMost_trans (n k : nat) (s1 s2 s3 : Session) :
  atMost n s1 s2 -> atMost k s2 s3 -> atMost (n + k) s1 s3.
Proof.
  intros [Hn1 (r1 & Hs1 & Hl1)] [Hn2 (r2 & Hs2 & Hl2)]. split; [congruence|].
  exists (r1 ++ r2). split.
  - rewrite Hs2, Hs1. symmetry. apply app_assoc.
  - rewrite length_app. lia.
Qed.

Lemma atMost_le (n k : nat) (s s' : Session) :
  (n <= k)%nat -> atMost n s s' -> atMost k s s'.
Proof.
  intros Hle [Hn (r & Hs & Hl)]. split; [exact Hn|]. exists r. split; [exact Hs|lia].
Qed.

Lemma bound_le {A} (n k : nat) (m : M Session A) :
  (n <= k)%nat -> respects (atMost n) m -> respects (atMost k) m.
Proof. intros Hle Hm s. eapply atMost_le; [exact Hle|apply Hm]. Qed.

Lemma bound_bind {A B} (n k : nat) (m : M Session A) (f : A -> M Session B) :
  respects (atMost n) m -> (forall a, respects (atMost k) (f a)) ->
  respects (atMost (n + k)) (m ≫= f).
Proof.
  intros Hm Hf s. unfold mbind, M_bind. specialize (Hm s).
  destruct (m s) as [[a|e] s1]; simpl in *.
  - eapply atMost_trans; [exact Hm|]. apply Hf.
  - eapply atMost_le; [|exact Hm]. lia.
Qed.

Lemma bound_tryCatch {A} (n k : nat) (m : M Session A) (h : exn -> M Session A) :
  respects (atMost n) m -> (forall e, respects (atMost k) (h e)) ->
  respects (atMost (n + k)) (tryCatch m h).
Proof.
  intros Hm Hh s. unfold tryCatch. specialize (Hm s).
  destruct (m s) as [[a|e] s1]; simpl in *.
  - eapply atMost_le; [|exact Hm]. lia.
  - eapply atMost_trans; [exact Hm|]. apply Hh.
Qed.

Lemma bound_request (c : DockerJsonClient.t) (opts : HttpReqOpts) :
  respects (atMost 1) (Client.liftW (DockerJsonClient.request c opts)).
Proof.
  intros [cl w]. unfold Client.liftW. rewrite request_unfold.
  destruct (requestHeaders c opts) as [h|e]; [|apply atMost_refl].
  destruct (new_URL (opt_path opts) (Some (DockerJsonClient.url c))) as [target|];
    [|apply atMost_refl].
  split; [reflexivity|]. eexists [_]. split; [reflexivity|simpl; lia].
Qed.

Lemma bound_onClient (n : nat) (f : RegistryClientV2 -> RegistryClientV2) :
  respects (atMost n) (Client.onClient f).
Proof.
  intros s. split; [reflexivity|]. exists []. split; [symmetry; apply app_nil_r|simpl; lia].
Qed.

End Bounds.

(** One step of a bound: a computation that makes no request within any
    bound, a request within one, a sequence by the bounds [n] and [k] of its
    parts. *)
Ltac bound_pure :=
  first
    [ apply respects_ret | apply respects_throw | apply respects_liftR
    | apply respects_getThis | apply respects_call | apply bound_onClient ];
  try (intros ?; apply atMost_refl).

Ltac bound_split n k := apply (bound_bind n k); [|intros ?].

Ltac bound_cases :=
  repeat match goal with
         | |- respects _ (match ?x with _ => _ end) => destruct x
         | |- respects _ (if ?x then _ else _) => destruct x
         | |- respects _ (let '(_, _) := ?x in _) => destruct x
         | |- respects _ (let _ := _ in _) => cbv zeta
         end.

Section CallBounds.
Context `{Platform}.

Lemma ping_bound headers expectStatus :
  respects (atMost 1) (Client.ping headers expectStatus).
Proof.
  unfold Client.ping.
  bound_split 0%nat 1%nat; [bound_pure|].
  bound_split 1%nat 0%nat; [apply bound_request|].
  bound_split 0%nat 0%nat; [bound_pure|]. bound_cases. bound_pure.
Qed.

Lemma tokenResponse_bound resp : respects (atMost 0) (Client.tokenResponse resp).
Proof.
  unfold Client.tokenResponse.
  repeat first [ bound_split 0%nat 0%nat; [bound_pure|] | progress bound_cases | bound_pure ].
Qed.

Lemma getToken_bound realm service scopes :
  respects (atMost 1) (Client._getToken realm service scopes).
Proof.
  unfold Client._getToken.
  bound_split 0%nat 1%nat; [bound_pure|].
  bound_split 0%nat 1%nat; [bound_pure|].
  bound_split 1%nat 0%nat; [apply bound_request|]. apply tokenResponse_bound.
Qed.

(** What [performLogin] does once it has a response to read a challenge
    from: at most the request of [_getToken]. *)
Ltac bound_challenge :=
  bound_cases; [bound_pure| |];
  [ bound_split 0%nat 1%nat; [bound_pure|]; bound_cases; bound_pure
  | bound_split 0%nat 1%nat; [bound_pure|]; bound_cases; [bound_pure| |bound_pure];
    bound_split 1%nat 0%nat; [apply getToken_bound|]; bound_pure ].

Lemma performLogin_bound scope pingRes :
  respects (atMost (if hasChallenge pingRes then 1 else 2)) (Client.performLogin scope pingRes).
Proof.
  unfold Client.performLogin, hasChallenge.
  assert (HrePing : respects (atMost 1)
            (res ← Client.ping None (Some [200; 401]);
             mret (if status res =? 200 then inl AuthNone else inr res)
             : M Session (AuthInfo + DockerResponse))).
  { bound_split 1%nat 0%nat; [apply ping_bound|]. bound_pure. }
  destruct pingRes as [res|].
  - destruct (Client.nonEmpty (Headers.get (headers res) "www-authenticate")).
    + bound_split 0%nat 1%nat; [bound_pure|]. cbv zeta.
      bound_split 0%nat 1%nat; [bound_pure|]. bound_challenge.
    + bound_split 0%nat 2%nat; [bound_pure|]. cbv zeta.
      bound_split 1%nat 1%nat; [exact HrePing|]. bound_challenge.
  - bound_split 0%nat 2%nat; [bound_pure|]. cbv zeta.
    bound_split 1%nat 1%nat; [exact HrePing|]. bound_challenge.
Qed.

Lemma login_bound pingRes scope :
  respects (atMost (if hasChallenge pingRes then 1 else 2)) (Client.login pingRes scope).
Proof.
  unfold Client.login.
  set (n := if hasChallenge pingRes then 1%nat else 2%nat).
  apply (bound_le (0 + n) n); [lia|].
  bound_split 0%nat n; [bound_pure|]. cbv zeta.
  destruct (_loggedIn a && bool_decide (_loggedInScope a = Some (Client.effectiveScope a scope)));
    [bound_pure|].
  apply (bound_le (n + 0) n); [lia|].
  bound_split n 0%nat; [apply performLogin_bound|].
  repeat first [ bound_split 0%nat 0%nat; [bound_pure|] | bound_pure ].
Qed.

Lemma login_default_bound : respects (atMost 2) (Client.login None None).
Proof. exact (login_bound None None). Qed.

Lemma redirectLoop_bound remaining method followRedirects maxRedirects :
  forall path reqHeaders ress,
    respects (atMost remaining)
      (Client.redirectLoop remaining method followRedirects maxRedirects path reqHeaders ress).
Proof.
  induction remaining as [|remaining IH]; intros path reqHeaders ress; simpl.
  - bound_pure.
  - apply (bound_le (0 + (1 + remaining)) (Datatypes.S remaining)); [lia|].
    bound_split 0%nat (1 + remaining)%nat; [bound_pure|]. cbv zeta.
    bound_split 1%nat remaining; [apply bound_request|].
    destruct (negb followRedirects); [bound_pure|].
    destruct (negb ((status a0 =? 302) || (status a0 =? 307))); [bound_pure|].
    destruct (negb (Client.nonEmpty (Headers.get (headers a0) "location"))); [bound_pure|].
    destruct (new_URL path (Some (_url a))); [|bound_pure].
    destruct (new_URL _ (Some s)); [|bound_pure]. apply IH.
Qed.

Lemma headOrGetBlob_bound method digest :
  respects (atMost 5) (Client._headOrGetBlob method digest).
Proof.
  unfold Client._headOrGetBlob.
  bound_split 2%nat 3%nat; [apply login_default_bound|].
  bound_split 0%nat 3%nat; [bound_pure|].
  apply (redirectLoop_bound 3).
Qed.

(** X14. [ping], [supportsV2] and [login] make few requests, add them to
    those made before and leave the network as it is: [ping] and
    [supportsV2] make at most one, [login] at most two, and at most one when
    it is given a ping response that carries a challenge. *)
Theorem login_makes_few_requests (s : Session) :
  (forall headers expectStatus, atMost 1 s (snd (Client.ping headers expectStatus s)))
  /\ atMost 1 s (snd (Client.supportsV2 s))
  /\ (forall pingRes scope,
        atMost (if hasChallenge pingRes then 1 else 2) s (snd (Client.login pingRes scope s))).
Proof.
  refine (conj _ (conj _ _)).
  - intros headers expectStatus. apply ping_bound.
  - revert s. change (respects (atMost 1) Client.supportsV2). unfold Client.supportsV2.
    apply (bound_tryCatch 1 0).
    + bound_split 1%nat 0%nat; [apply ping_bound|]. cbv zeta. bound_cases; bound_pure.
    + intros e. bound_cases; bound_pure.
  - intros pingRes scope. apply login_bound.
Qed.

(** X15. A call of the client for tags, manifests and blobs makes few
    requests, the login among them, adds them to those made before and
    leaves the network as it is: [listTags], [getManifest] and
    [deleteManifest] make at most three, [headBlob] and
    [createBlobReadStream] at most five, the redirects among them. *)
Theorem calls_make_few_requests (s : Session) :
  atMost 3 s (snd (Client.listTags s))
  /\ (forall ref lists oci follow, atMost 3 s (snd (Client.getManifest ref lists oci follow s)))
  /\ (forall ref, atMost 3 s (snd (Client.deleteManifest ref s)))
  /\ (forall digest, atMost 5 s (snd (Client.headBlob digest s)))
  /\ (forall digest, atMost 5 s (snd (Client.createBlobReadStream digest s))).
Proof.
  refine (conj _ (conj _ (conj _ (conj _ _)))).
  - revert s. change (respects (atMost 3) Client.listTags). unfold Client.listTags.
    bound_split 2%nat 1%nat; [apply login_default_bound|].
    bound_split 0%nat 1%nat; [bound_pure|].
    bound_split 1%nat 0%nat; [apply bound_request|].
    bound_split 0%nat 0%nat; [bound_pure|]. bound_cases. bound_pure.
  - intros ref lists oci follow. revert s.
    change (respects (atMost 3) (Client.getManifest ref lists oci follow)).
    unfold Client.getManifest.
    bound_split 0%nat 3%nat; [bound_pure|]. cbv zeta.
    bound_split 2%nat 1%nat; [apply login_default_bound|].
    bound_split 0%nat 1%nat; [bound_pure|].
    bound_split 0%nat 1%nat; [bound_pure|].
    bound_split 1%nat 0%nat; [apply bound_request|].
    unfold Client.manifestResponse.
    repeat first [ bound_split 0%nat 0%nat; [bound_pure|] | progress bound_cases | bound_pure ].
  - intros ref. revert s. change (respects (atMost 3) (Client.deleteManifest ref)).
    unfold Client.deleteManifest.
    bound_split 2%nat 1%nat; [apply login_default_bound|].
    bound_split 0%nat 1%nat; [bound_pure|].
    bound_split 1%nat 0%nat; [apply bound_request|].
    bound_split 0%nat 0%nat; [bound_pure|]. bound_pure.
  - intros digest. apply headOrGetBlob_bound.
  - intros digest. revert s. change (respects (atMost 5) (Client.createBlobReadStream digest)).
    unfold Client.createBlobReadStream.
    bound_split 5%nat 0%nat; [apply headOrGetBlob_bound|].
    bound_split 0%nat 0%nat; [bound_cases; bound_pure|].
    bound_split 0%nat 0%nat; [|bound_pure].
    repeat first [ bound_split 0%nat 0%nat; [bound_pure|] | progress bound_cases | bound_pure ].
Qed.

End CallBounds.

(** ** The responses of [_makeHttpRequest] *)

Section Responses.
Context `{Platform}.

Lemma answer_expected (opts : HttpReqOpts) (f : Fetched) (resp : DockerResponse) :
  answer opts f = Ok resp ->
  exists raw, f = Resolved raw /\ resp = DockerResponse.make raw
              /\ expected opts (Fetch.status raw) = true.
Proof.
  unfold answer. destruct f as [m|raw]; [discriminate|].
  destruct (expected opts (Fetch.status raw)) eqn:Hexp.
  - intros [= <-]. eauto.
  - destruct (DockerResponse.dockerThrowable _ _) as [[e|e] r']; discriminate.
Qed.

Lemma redirectLoop_responses method followRedirects maxRedirects :
  forall remaining path reqHeaders ress0 (s s' : Session) ress,
    Client.redirectLoop remaining method followRedirects maxRedirects path reqHeaders ress0 s
    = (Ok ress, s') ->
    exists redirects final reqs,
      ress = ress0 ++ redirects ++ [final]
      /\ s' = extend s reqs
      /\ List.length reqs = Datatypes.S (List.length redirects)
      /\ (List.length reqs <= remaining)%nat
      /\ (forall i r, (redirects ++ [final]) !! i = Some r ->
            exists raw,
              network (world s) (List.length (sent (world s)) + i) = Resolved raw
              /\ r = DockerResponse.make raw
              /\ existsb (Z.eqb (status r)) [200; 302; 307] = true)
      /\ Forall (fun r => isRedirect r = true) redirects
      /\ (if followRedirects then isRedirect final = false else redirects = []).
Proof.
  induction remaining as [|remaining IH]; intros path reqHeaders ress0 s s' ress.
  - discriminate.
  - rewrite redirectLoop_turn.
    destruct (Headers.set _ "user-agent" _) as [h|e]; [|discriminate].
    destruct (new_URL path (Some (_url (client s)))) as [target|]; [|discriminate].
    cbv zeta.
    set (req := requestOf (redirectClient (client s)) (redirectRequest method path reqHeaders)
                  h target).
    destruct (answer _ _) as [resp|e] eqn:Hanswer; [|discriminate].
    apply answer_expected in Hanswer as (raw & Hraw & Hresp & Hexp).
    assert (Hlast : (if followRedirects then isRedirect resp = false else True) ->
              (Ok (ress0 ++ [resp]), sending req s) = (Ok ress, s') ->
              exists redirects final reqs,
                ress = ress0 ++ redirects ++ [final]
                /\ s' = extend s reqs
                /\ List.length reqs = Datatypes.S (List.length redirects)
                /\ (List.length reqs <= Datatypes.S remaining)%nat
                /\ (forall i r, (redirects ++ [final]) !! i = Some r ->
                      exists raw,
                        network (world s) (List.length (sent (world s)) + i) = Resolved raw
                        /\ r = DockerResponse.make raw
                        /\ existsb (Z.eqb (status r)) [200; 302; 307] = true)
                /\ Forall (fun r => isRedirect r = true) redirects
                /\ (if followRedirects then isRedirect final = false else redirects = [])).
    { intros Hend [= <- <-]. exists [], resp, [req].
      split; [reflexivity|]. split; [reflexivity|]. split; [reflexivity|].
      split; [simpl; lia|]. split.
      - intros i r Hi. destruct i as [|i]; [|discriminate]. injection Hi as <-.
        exists raw. rewrite Nat.add_0_r. split; [exact Hraw|]. split; [exact Hresp|].
        rewrite Hresp. exact Hexp.
      - split; [constructor|]. destruct followRedirects; [exact Hend|reflexivity]. }
    unfold isRedirect in Hlast.
    destruct followRedirects; cbn [negb orb]; [|apply Hlast; exact I].
    destruct ((status resp =? 302) || (status resp =? 307)) eqn:Hstatus; cbn [negb];
      [|apply Hlast; reflexivity].
    destruct (Headers.get (headers resp) "location") as [location|] eqn:Hloc;
      [|apply Hlast; reflexivity].
    destruct (String.eqb location EmptyString) eqn:Hempty.
    { apply Hlast. cbn [Client.nonEmpty from_option id andb]. rewrite Hempty. reflexivity. }
    destruct (new_URL location (Some target)) as [next|]; [|discriminate].
    intros Hrun.
    apply IH in Hrun as (redirects & final & reqs & Hress & Hs' & Hlen & Hbound & Hnth
                         & Hredirects & Hfinal).
    exists (resp :: redirects), final, (req :: reqs).
    split; [rewrite Hress, <- app_assoc; reflexivity|].
    split; [rewrite Hs'; apply extend_sending|].
    split; [simpl; lia|]. split; [simpl; lia|]. split.
    + intros i r Hi. destruct i as [|i].
      * injection Hi as <-. exists raw. rewrite Nat.add_0_r.
        split; [exact Hraw|]. split; [exact Hresp|]. rewrite Hresp. exact Hexp.
      * destruct (Hnth i r Hi) as (raw' & Hraw' & Hr & Hst). exists raw'.
        split; [|split; assumption].
        simpl in Hraw'. rewrite length_app in Hraw'. simpl in Hraw'.
        replace (List.length (sent (world s)) + Datatypes.S i)%nat
          with (List.length (sent (world s)) + 1 + i)%nat by lia.
        exact Hraw'.
    + split; [|exact Hfinal]. constructor; [|exact Hredirects].
      unfold isRedirect. rewrite Hstatus, Hloc. cbn [Client.nonEmpty from_option id andb].
      rewrite Hempty. reflexivity.
Qed.

(** X16. When [_makeHttpRequest] returns, it returns one response for each
    request it has made, in order, and at least one: the response number [i]
    is the answer of the network to the request number [i], with a status
    among 200, 302 and 307.   Every response but the last is a redirect with
    a location; the last is not one when redirects are followed, and it is
    the only one when they are not.  The client is left as it was. *)
Theorem makeHttpRequest_responses (method path : string) (reqHeaders : option Headers)
    (followRedirects : option bool) (maxRedirects : option Z) (s s' : Session)
    (ress : list DockerResponse) :
  Client._makeHttpRequest method path reqHeaders followRedirects maxRedirects s = (Ok ress, s') ->
  exists redirects final reqs,
    ress = redirects ++ [final]
    /\ s' = extend s reqs
    /\ List.length reqs = List.length ress
    /\ (forall i r, ress !! i = Some r ->
          exists raw,
            network (world s) (List.length (sent (world s)) + i) = Resolved raw
            /\ r = DockerResponse.make raw
            /\ existsb (Z.eqb (status r)) [200; 302; 307] = true)
    /\ Forall (fun r => isRedirect r = true) redirects
    /\ (if default true followRedirects then isRedirect final = false else redirects = []).
Proof.
  unfold Client._makeHttpRequest. intros Hrun.
  apply redirectLoop_responses in Hrun
    as (redirects & final & reqs & Hress & Hs' & Hlen & _ & Hnth & Hredirects & Hfinal).
  simpl in Hress. exists redirects, final, reqs.
  split; [exact Hress|]. split; [exact Hs'|].
  split; [rewrite Hress, length_app; simpl; lia|].
  split; [rewrite Hress; exact Hnth|]. split; assumption.
Qed.

Lemma headOrGetBlob_responses (method digest : string) (s s' : Session)
    (ress : list DockerResponse) :
  Client._headOrGetBlob method digest s = (Ok ress, s') ->
  exists redirects final,
    ress = redirects ++ [final]
    /\ Forall (fun r => isRedirect r = true) redirects
    /\ isRedirect final = false.
Proof.
  unfold Client._headOrGetBlob. intros Hrun.
  apply bind_Ok in Hrun as ([] & s1 & _ & Hrun).
  apply bind_Ok in Hrun as (this & s2 & _ & Hrun).
  unfold Client._makeHttpRequest in Hrun.
  apply redirectLoop_responses in Hrun
    as (redirects & final & reqs & Hress & _ & _ & _ & _ & Hredirects & Hfinal).
  exists redirects, final. split; [exact Hress|]. split; assumption.
Qed.

(** X17. When [createBlobReadStream] returns, the responses it returns are
    those of the blob request, at least one; the stream is the one that
    [dockerStream] makes of the last of them, which is no redirect; and if
    the first of them has a [docker-content-digest] header that is not empty,
    that header is the digest asked for, and the digest starts with
    [sha256:]. *)
Theorem createBlobReadStream_returns (digest : string) (s s' : Session)
    (ress : list DockerResponse) (stream : DockerResponse.ByteStream) :
  Client.createBlobReadStream digest s = (Ok (ress, stream), s') ->
  Client._headOrGetBlob "GET" digest s = (Ok ress, s')
  /\ exists first final,
       head ress = Some first
       /\ last ress = Some final
       /\ isRedirect final = false
       /\ DockerResponse.dockerStream final = Ok stream
       /\ forall dcd,
            Headers.get (headers first) "docker-content-digest" = Some dcd ->
            dcd <> EmptyString ->
            dcd = digest /\ JsString.startsWith digest "sha256:" = true.
Proof.
  unfold Client.createBlobReadStream. intros Hrun.
  apply bind_Ok in Hrun as (ress' & s1 & Hblob & Hrun).
  apply bind_Ok in Hrun as (stream' & s2 & Hstream & Hrun).
  apply bind_Ok in Hrun as ([] & s3 & Hcheck & Hrun).
  injection Hrun as <- <- <-.
  destruct (headOrGetBlob_responses _ _ _ _ _ Hblob) as (redirects & final & Hress & _ & Hfinal).
  assert (Hlast : last ress' = Some final) by (rewrite Hress; apply last_snoc).
  rewrite Hlast in Hstream. unfold liftR in Hstream.
  injection Hstream as Hstream <-.
  destruct ress' as [|first rest]; [discriminate|].
  assert (Hs3 : s3 = s1 /\ forall dcd,
            Headers.get (headers first) "docker-content-digest" = Some dcd ->
            dcd <> EmptyString ->
            dcd = digest /\ JsString.startsWith digest "sha256:" = true).
  { revert Hcheck. cbv zeta.
    destruct (Headers.get (headers first) "docker-content-digest") as [dcd|] eqn:Hdcd;
      cbn [Client.nonEmpty from_option id].
    - destruct (String.eqb dcd EmptyString) eqn:Hempty; cbn [negb].
      + intros [= <-]. split; [reflexivity|]. intros dcd' [= <-] Hne.
        apply String.eqb_eq in Hempty. contradiction.
      + intros Hcheck. apply bind_Ok in Hcheck as (info & s4 & Hinfo & Hcheck).
        unfold liftR in Hinfo. injection Hinfo as Hinfo <-.
        destruct (negb (String.eqb (raw info) digest)) eqn:Hraw; [discriminate|].
        injection Hcheck as <-. split; [reflexivity|]. intros dcd' [= <-] _.
        apply negb_false_iff, String.eqb_eq in Hraw.
        apply parseDockerContentDigest_Ok in Hinfo as [Hstart Hsame].
        rewrite Hsame in Hraw. split; [exact Hraw|]. rewrite <- Hraw. exact Hstart.
    - intros [= <-]. split; [reflexivity|]. discriminate. }
  destruct Hs3 as [-> Hdcd]. split; [exact Hblob|].
  exists first, final. split; [reflexivity|]. split; [exact Hlast|].
  split; [exact Hfinal|]. split; [exact Hstream|exact Hdcd].
Qed.

End Responses.

(** ** The names of a repository *)

Section Repositories.
Context `{Platform}.
Import JsString.

Lemma all_app (p : ascii -> bool) (a b : string) : all p (a +:+ b) = all p a && all p b.
Proof.
  induction a as [|x a IH]; [reflexivity|].
  rewrite append_cons. cbn [all]. rewrite IH. apply andb_assoc.
Qed.

Lemma VALID_NS_REPO (s : string) : Common.VALID_NS s = true -> Common.VALID_REPO s = true.
Proof.
  apply all_impl. intros c Hc.
  destruct (Common.isLowerOrDigit c); [reflexivity|].
  destruct (Ascii.eqb c "."); [rewrite !orb_true_r; reflexivity|].
  destruct (Ascii.eqb c "_"); [reflexivity|].
  destruct (Ascii.eqb c "-"); [rewrite !orb_true_r; reflexivity|]. discriminate.
Qed.

(** The end of [parseRepo], once the index and the two parts of the name are
    known. *)
Lemma parseRepo_names (index : RegistryIndex.t) (ns name : string) (repo : RegistryRepo.t) :
  Common.VALID_REPO ns = true ->
  (if negb (Common.VALID_REPO name) then
     Throw (Error ("invalid repository name, may only contain [a-z0-9_/.-] characters: "
                   +:+ name))
   else
     let official := RegistryIndex.official index && String.eqb ns "library" in
     let remoteName := if String.eqb ns EmptyString then name else ns +:+ "/" +:+ name in
     let '(localName, canonicalName) :=
       if RegistryIndex.official index then
         let localName := if official then name else remoteName in
         (localName, Common.DEFAULT_INDEX_NAME +:+ "/" +:+ localName)
       else
         let localName := RegistryIndex.name index +:+ "/" +:+ remoteName in
         (localName, localName) in
     Ok {| RegistryRepo.index := index;
           RegistryRepo.official := official;
           RegistryRepo.remoteName := remoteName;
           RegistryRepo.localName := localName;
           RegistryRepo.canonicalName := canonicalName |}) = Ok repo ->
  RegistryRepo.index repo = index
  /\ Common.VALID_REPO (RegistryRepo.remoteName repo) = true
  /\ (RegistryRepo.official repo = true ->
      RegistryIndex.official index = true
      /\ RegistryRepo.remoteName repo = "library/" +:+ RegistryRepo.localName repo)
  /\ (RegistryRepo.official repo = false ->
      RegistryRepo.localName repo
      = (if RegistryIndex.official index then EmptyString
         else RegistryIndex.name index +:+ "/")
        +:+ RegistryRepo.remoteName repo)
  /\ RegistryRepo.canonicalName repo
     = (if RegistryIndex.official index then "docker.io/" else EmptyString)
       +:+ RegistryRepo.localName repo.
Proof.
  intros Hns. destruct (Common.VALID_REPO name) eqn:Hname; cbn [negb]; [|discriminate].
  cbv zeta.
  assert (Hremote : Common.VALID_REPO
                      (if String.eqb ns EmptyString then name else ns +:+ "/" +:+ name) = true).
  { destruct (String.eqb ns EmptyString); [exact Hname|].
    unfold Common.VALID_REPO in *. rewrite !all_app, Hns, Hname. reflexivity. }
  destruct (RegistryIndex.official index) eqn:Hofficial; cbn [andb].
  - destruct (String.eqb_spec ns "library") as [->|Hother]; intros [= <-];
      cbn [RegistryRepo.index RegistryRepo.official RegistryRepo.remoteName
           RegistryRepo.localName RegistryRepo.canonicalName].
    + split; [reflexivity|]. split; [exact Hremote|].
      split; [intros _; split; reflexivity|]. split; [discriminate|reflexivity].
    + split; [reflexivity|]. split; [exact Hremote|].
      split; [discriminate|]. split; [intros _; reflexivity|reflexivity].
  - intros [= <-];
      cbn [RegistryRepo.index RegistryRepo.official RegistryRepo.remoteName
           RegistryRepo.localName RegistryRepo.canonicalName].
    split; [reflexivity|]. split; [exact Hremote|].
    split; [discriminate|]. split; [intros _; symmetry; apply append_assoc|reflexivity].
Qed.

(** X18. What [parseRepo] returns: a remote name made of the characters
    [a-z0-9_/.-] only; for an official repository, the remote name is the
    local name in the namespace [library], and the index is official; for
    any other one, the local name is the remote name, after the name of the
    index and a slash unless the index is official; and the canonical name is
    the local name, after [docker.io/] when the index is official. *)
Theorem parseRepo_invariants (arg : string) (defaultIndex : option Common.DefaultIndex)
    (repo : RegistryRepo.t) :
  Common.parseRepo arg defaultIndex = Ok repo ->
  Common.VALID_REPO (RegistryRepo.remoteName repo) = true
  /\ (RegistryRepo.official repo = true ->
      RegistryIndex.official (RegistryRepo.index repo) = true
      /\ RegistryRepo.remoteName repo = "library/" +:+ RegistryRepo.localName repo)
  /\ (RegistryRepo.official repo = false ->
      RegistryRepo.localName repo
      = (if RegistryIndex.official (RegistryRepo.index repo) then EmptyString
         else RegistryIndex.name (RegistryRepo.index repo) +:+ "/")
        +:+ RegistryRepo.remoteName repo)
  /\ RegistryRepo.canonicalName repo
     = (if RegistryIndex.official (RegistryRepo.index repo) then "docker.io/" else EmptyString)
       +:+ RegistryRepo.localName repo.
Proof.
  unfold Common.parseRepo. cbv zeta.
  match goal with
  | |- mbind _ ?m = _ -> _ => destruct m as [[index remoteNameRaw]|e]; [|discriminate]
  end.
  unfold mbind at 1, result_bind at 1. cbv beta iota.
  assert (Hend : forall ns name,
            Common.VALID_REPO ns = true ->
            _ = Ok repo -> _) by (intros ns name; apply (parseRepo_names index ns name repo)).
  destruct (splitIntoTwo_cases "/" remoteNameRaw) as [[Hone _]|(ns & name & _ & _ & Htwo)].
  - rewrite Hone. unfold mbind, result_bind. cbv beta iota. intros Hrepo.
    apply Hend in Hrepo as (<- & Hrest); [exact Hrest|].
    destruct (RegistryIndex.official index); reflexivity.
  - rewrite Htwo.
    destruct ((length ns <? 2) || (255 <? length ns)); [discriminate|].
    destruct (Common.VALID_NS ns) eqn:Hns; cbn [negb]; [|discriminate].
    destruct (Common.lastCharIs (take 1 ns) "-" && Common.lastCharIs ns "-"); [discriminate|].
    destruct (negb (indexOf ns "--" =? -1)); [discriminate|].
    unfold mbind, result_bind. cbv beta iota. intros Hrepo.
    apply Hend in Hrepo as (<- & Hrest); [exact Hrest|]. apply VALID_NS_REPO, Hns.
Qed.


End Repositories.

(** ** Challenges *)

Section Challenges.
Context `{Platform}.
Import JsString.

Lemma wordChar_facts (c : ascii) :
  isWordChar c = true ->
  isQuotable c = true /\ WwwAuthenticate.isSeparator c = false.
Proof.
  destruct c as [[] [] [] [] [] [] [] []]; vm_compute; intros Hc;
    first [discriminate Hc | split; reflexivity].
Qed.

Lemma quotable_facts (c : ascii) :
  isQuotable c = true ->
  Ascii.eqb c (Ascii.ascii_of_N 34) = false
  /\ ((code c =? 10) || (code c =? 13))%N = false
  /\ Ascii.eqb (Ascii.ascii_of_N 226) c = false.
Proof.
  destruct c as [[] [] [] [] [] [] [] []]; vm_compute; intros Hc;
    first [discriminate Hc | repeat split; reflexivity].
Qed.

Lemma wsLen_word (c : ascii) (r : string) : isWordChar c = true -> wsLen (String c r) = 0%nat.
Proof.
  destruct c as [[] [] [] [] [] [] [] []]; vm_compute; intros Hc;
    first [discriminate Hc | destruct r as [|b [|d r]]; reflexivity].
Qed.

Lemma trimEnd_word (s : string) : all isWordChar s = true -> trimEnd s = s.
Proof.
  induction s as [|c s IH]; [reflexivity|].
  cbn [all]. intros [Hc Hs]%andb_prop.
  change (trimEnd (String c s))
    with (if isBlank (String c s) then EmptyString else String c (trimEnd s)).
  unfold isBlank, trimStart. cbn [String.length trimStartFuel].
  rewrite (wsLen_word c s Hc), (IH Hs). reflexivity.
Qed.

Lemma trim_word (s : string) : all isWordChar s = true -> trim s = s.
Proof.
  intros Hs. unfold trim.
  assert (Hstart : trimStart s = s).
  { destruct s as [|c s]; [reflexivity|].
    cbn [all] in Hs. apply andb_prop in Hs as [Hc _].
    unfold trimStart. cbn [String.length trimStartFuel]. rewrite (wsLen_word c s Hc).
    reflexivity. }
  rewrite Hstart. apply trimEnd_word, Hs.
Qed.

Lemma restOfLine_quotable (s : string) :
  all (fun c => isQuotable c || Ascii.eqb c (Ascii.ascii_of_N 34)) s = true ->
  WwwAuthenticate.restOfLine s = s.
Proof.
  induction s as [|c s IH]; [reflexivity|].
  cbn [all]. intros [Hc Hs]%andb_prop.
  assert (Hline : ((code c =? 10) || (code c =? 13))%N = false
                  /\ Ascii.eqb (Ascii.ascii_of_N 226) c = false).
  { destruct (isQuotable c) eqn:Hq.
    - apply quotable_facts in Hq as (_ & H1 & H2). split; assumption.
    - cbn [orb] in Hc. apply Ascii.eqb_eq in Hc as ->. split; reflexivity. }
  destruct Hline as [Hnl Hsep].
  cbn [WwwAuthenticate.restOfLine startsWith]. rewrite Hnl, Hsep, (IH Hs). reflexivity.
Qed.

Lemma span_word (w r : string) (c : ascii) :
  all isWordChar w = true -> isWordChar c = false ->
  span isWordChar (w +:+ String c r) = (w, String c r).
Proof.
  intros Hw Hc. induction w as [|d w IH].
  - rewrite append_nil_l. cbn [span]. rewrite Hc. reflexivity.
  - cbn [all] in Hw. apply andb_prop in Hw as [Hd Hw].
    rewrite append_cons. cbn [span]. rewrite Hd, (IH Hw). reflexivity.
Qed.

(** The scheme and the parameters of a challenge, as [ParseAuth] matches
    them. *)
Lemma matchParseAuth_challenge (scheme rest : string) :
  isWord scheme = true ->
  all (fun c => isQuotable c || Ascii.eqb c (Ascii.ascii_of_N 34)) rest = true ->
  wsLen rest = 0%nat ->
  WwwAuthenticate.matchParseAuth (String.length (scheme +:+ " " +:+ rest))
    (scheme +:+ " " +:+ rest)
  = Some (scheme, rest).
Proof.
  unfold isWord. intros [Hne Hword]%andb_prop Hrest Hstart.
  destruct scheme as [|c scheme]; [discriminate|].
  pose proof Hword as Hall. cbn [all] in Hword. apply andb_prop in Hword as [Hc _].
  rewrite append_cons. cbn [String.length WwwAuthenticate.matchParseAuth]. rewrite Hc.
  rewrite <- append_cons.
  change (String c scheme +:+ " " +:+ rest) with (String c scheme +:+ String " " rest).
  rewrite (span_word (String c scheme) rest " " Hall eq_refl).
  change (wsLen (String " " rest)) with 1%nat. cbv iota.
  unfold trimStart. cbn [String.length trimStartFuel].
  change (wsLen (String " " rest)) with 1%nat. cbv iota. cbn [drop].
  assert (Htrim : trimStartFuel (String.length rest) rest = rest).
  { destruct rest as [|d rest]; [reflexivity|].
    cbn [String.length trimStartFuel]. rewrite Hstart. reflexivity. }
  rewrite Htrim, (restOfLine_quotable rest Hrest). reflexivity.
Qed.

Lemma splitSeparators_cons (s : string) :
  WwwAuthenticate.splitSeparators s
  = hd EmptyString (WwwAuthenticate.splitSeparators s)
    :: tl (WwwAuthenticate.splitSeparators s).
Proof.
  destruct s as [|c s]; [reflexivity|]. cbn [WwwAuthenticate.splitSeparators].
  destruct (WwwAuthenticate.isSeparator c); [reflexivity|].
  destruct (WwwAuthenticate.splitSeparators s); reflexivity.
Qed.

(** Text without separators joins the token that follows it. *)
Lemma splitSeparators_text (w r : string) :
  all (fun c => negb (WwwAuthenticate.isSeparator c)) w = true ->
  WwwAuthenticate.splitSeparators (w +:+ r)
  = (w +:+ hd EmptyString (WwwAuthenticate.splitSeparators r))
    :: tl (WwwAuthenticate.splitSeparators r).
Proof.
  induction w as [|c w IH]; intros Hw.
  - rewrite !append_nil_l. apply splitSeparators_cons.
  - cbn [all] in Hw. apply andb_prop in Hw as [Hc%negb_true_iff Hw].
    rewrite !append_cons. cbn [WwwAuthenticate.splitSeparators]. rewrite Hc, (IH Hw).
    reflexivity.
Qed.

(** Text without separators is no separator. *)
Lemma text_not_dquote (w : string) :
  all (fun c => negb (WwwAuthenticate.isSeparator c)) w = true ->
  String.eqb dquote w = false.
Proof.
  destruct w as [|c w]; [reflexivity|]. cbn [all]. intros [Hc%negb_true_iff _]%andb_prop.
  apply String.eqb_neq. intros [= <- _]. discriminate.
Qed.

(** Inside the quotes: the text read so far, [p] the part of it that is in
    the token at hand, then the value up to the closing quote. *)
Lemma parseTokens_quoted (key : string) (parms : gmap string string) (r : string) :
  forall (v p acc : string),
    all isQuotable v = true ->
    all (fun c => negb (WwwAuthenticate.isSeparator c)) p = true ->
    WwwAuthenticate.parseTokens
      ((p +:+ hd EmptyString (WwwAuthenticate.splitSeparators (v +:+ dquote +:+ r)))
       :: tl (WwwAuthenticate.splitSeparators (v +:+ dquote +:+ r)))
      WwwAuthenticate.Quoted key acc parms
    = WwwAuthenticate.parseTokens (WwwAuthenticate.splitSeparators r)
        WwwAuthenticate.EndQuote key (acc +:+ p +:+ v) parms.
Proof.
  assert (Htext : forall (p acc : string) toks,
            all (fun c => negb (WwwAuthenticate.isSeparator c)) p = true ->
            WwwAuthenticate.parseTokens (p :: toks) WwwAuthenticate.Quoted key acc parms
            = WwwAuthenticate.parseTokens toks WwwAuthenticate.Quoted key (acc +:+ p) parms).
  { intros p acc toks Hp. cbn [WwwAuthenticate.parseTokens].
    destruct (String.eqb_spec p EmptyString) as [->|_].
    - rewrite (append_nil_r acc). reflexivity.
    - rewrite (text_not_dquote p Hp). reflexivity. }
  induction v as [|c v IH]; intros p acc Hv Hp.
  - rewrite (append_nil_l (dquote +:+ r)), (append_nil_r p).
    change (dquote +:+ r) with (String (Ascii.ascii_of_N 34) r).
    cbn [WwwAuthenticate.splitSeparators]. change (WwwAuthenticate.isSeparator _) with true.
    cbv iota. cbn [hd tl]. rewrite (append_nil_r p), (Htext p acc _ Hp). reflexivity.
  - cbn [all] in Hv. apply andb_prop in Hv as [Hc Hv].
    rewrite append_cons. cbn [WwwAuthenticate.splitSeparators].
    destruct (WwwAuthenticate.isSeparator c) eqn:Hsep.
    + cbn [hd tl]. rewrite (append_nil_r p), (Htext p acc _ Hp).
      cbn [WwwAuthenticate.parseTokens].
      change (String.eqb (String c EmptyString) EmptyString) with false. cbv iota.
      assert (Hdq : String.eqb dquote (String c EmptyString) = false).
      { apply String.eqb_neq. intros [= <-].
        apply quotable_facts in Hc as (Hc & _). discriminate. }
      rewrite Hdq. rewrite (splitSeparators_cons (v +:+ dquote +:+ r)).
      rewrite <- (append_nil_l (hd EmptyString _)).
      rewrite (IH EmptyString _ Hv eq_refl). f_equal.
      rewrite append_nil_l, !append_assoc. reflexivity.
    + rewrite (splitSeparators_cons (v +:+ dquote +:+ r)). cbn [hd tl].
      change (String c (hd EmptyString (WwwAuthenticate.splitSeparators (v +:+ dquote +:+ r))))
        with (String c EmptyString
              +:+ hd EmptyString (WwwAuthenticate.splitSeparators (v +:+ dquote +:+ r))).
      rewrite <- append_assoc. rewrite (IH (p +:+ String c EmptyString) acc Hv).
      * f_equal. rewrite !append_assoc. reflexivity.
      * rewrite all_app, Hp. cbn [all]. rewrite Hsep. reflexivity.
Qed.

Lemma word_text (k : string) :
  all isWordChar k = true -> all (fun c => negb (WwwAuthenticate.isSeparator c)) k = true.
Proof.
  apply all_impl. intros c Hc. apply wordChar_facts in Hc as [_ ->]. reflexivity.
Qed.

(** One parameter of a challenge: the parser is left after the closing
    quote with the name and the value. *)
Lemma parseTokens_param (k v r key0 value0 : string) (parms : gmap string string) :
  isWord k = true -> all isQuotable v = true ->
  WwwAuthenticate.parseTokens (WwwAuthenticate.splitSeparators (quotedParam (k, v) +:+ r))
    WwwAuthenticate.Token key0 value0 parms
  = WwwAuthenticate.parseTokens (WwwAuthenticate.splitSeparators r)
      WwwAuthenticate.EndQuote k v parms.
Proof.
  unfold isWord, quotedParam. cbn [fst snd]. intros [Hne Hword]%andb_prop Hv.
  rewrite !append_assoc.
  rewrite (splitSeparators_text k _ (word_text k Hword)).
  change ("=" +:+ dquote +:+ v +:+ dquote +:+ r)
    with (String "=" (String (Ascii.ascii_of_N 34) (v +:+ dquote +:+ r))).
  cbn [WwwAuthenticate.splitSeparators].
  change (WwwAuthenticate.isSeparator "=") with true.
  change (WwwAuthenticate.isSeparator (Ascii.ascii_of_N 34)) with true.
  cbv iota. cbn [hd tl]. rewrite (append_nil_r k).
  cbn [WwwAuthenticate.parseTokens]. rewrite (negb_true_iff _ ) in Hne. rewrite Hne.
  rewrite (trim_word k Hword).
  change (String.eqb "=" EmptyString) with false.
  change (String.eqb "=" "=") with true.
  change (String.eqb EmptyString EmptyString) with true.
  change (String.eqb (String (Ascii.ascii_of_N 34) EmptyString) EmptyString) with false.
  change (String.eqb dquote (String (Ascii.ascii_of_N 34) EmptyString)) with true.
  cbn [negb]. cbv iota.
  rewrite (splitSeparators_cons (v +:+ dquote +:+ r)).
  rewrite <- (append_nil_l (hd EmptyString _)).
  rewrite (parseTokens_quoted k parms r v EmptyString EmptyString Hv eq_refl).
  rewrite !append_nil_l. reflexivity.
Qed.

(** The parameters of a challenge, from any state of the parser that
    expects a name. *)
Lemma parse_params_challenge (params : list (string * string)) :
  forallb (fun p => isWord p.1 && all isQuotable p.2) params = true ->
  forall (key0 value0 : string) (parms0 : gmap string string),
    match WwwAuthenticate.parseTokens
            (WwwAuthenticate.splitSeparators (join "," (map quotedParam params)))
            WwwAuthenticate.Token key0 value0 parms0 with
    | inl err => inl err
    | inr (st, key, value, parms) =>
        match st with
        | WwwAuthenticate.Token | WwwAuthenticate.ExpectComma => inr parms
        | WwwAuthenticate.EndQuote => inr (<[key := value]> parms)
        | _ => inl "Unexpected end of www-authenticate value."
        end
    end
    = inr (foldl (fun m p => <[p.1 := p.2]> m) parms0 params).
Proof.
  induction params as [|[k v] params IH]; intros Hparams key0 value0 parms0; [reflexivity|].
  cbn [forallb fst snd] in Hparams.
  apply andb_prop in Hparams as [[Hk Hv]%andb_prop Hparams].
  cbn [map foldl fst snd]. destruct params as [|p params].
  - cbn [map join]. rewrite <- (append_nil_r (quotedParam (k, v))).
    rewrite (parseTokens_param k v EmptyString key0 value0 parms0 Hk Hv). reflexivity.
  - change (join "," (quotedParam (k, v) :: map quotedParam (p :: params)))
      with (quotedParam (k, v) +:+ "," +:+ join "," (map quotedParam (p :: params))).
    rewrite (parseTokens_param k v _ key0 value0 parms0 Hk Hv).
    change ("," +:+ join "," (map quotedParam (p :: params)))
      with (String "," (join "," (map quotedParam (p :: params)))).
    cbn [WwwAuthenticate.splitSeparators]. change (WwwAuthenticate.isSeparator ",") with true.
    cbv iota. cbn [WwwAuthenticate.parseTokens].
    change (String.eqb EmptyString EmptyString) with true.
    change (String.eqb (String "," EmptyString) EmptyString) with false.
    change (String.eqb dquote (String "," EmptyString)) with false.
    change (String.eqb "," (String "," EmptyString)) with true. cbv iota.
    apply (IH Hparams).
Qed.

Lemma quotable_line (s : string) :
  all isQuotable s = true ->
  all (fun c => isQuotable c || Ascii.eqb c (Ascii.ascii_of_N 34)) s = true.
Proof. apply all_impl. intros c ->. reflexivity. Qed.

(** The parameters of a challenge are on one line, and start with no white
    space. *)
Lemma params_line (params : list (string * string)) :
  forallb (fun p => isWord p.1 && all isQuotable p.2) params = true ->
  all (fun c => isQuotable c || Ascii.eqb c (Ascii.ascii_of_N 34))
    (join "," (map quotedParam params)) = true
  /\ wsLen (join "," (map quotedParam params)) = 0%nat.
Proof.
  intros Hparams.
  assert (Hone : forall k v, isWord k = true -> all isQuotable v = true ->
            all (fun c => isQuotable c || Ascii.eqb c (Ascii.ascii_of_N 34))
              (quotedParam (k, v)) = true
            /\ forall r, wsLen (quotedParam (k, v) +:+ r) = 0%nat).
  { intros k v [Hne Hk]%andb_prop Hv. unfold quotedParam. cbn [fst snd]. split.
    - rewrite !all_app. rewrite (quotable_line v Hv).
      rewrite (quotable_line k); [reflexivity|].
      revert Hk. apply all_impl. intros c Hc. apply wordChar_facts in Hc as [-> _].
      reflexivity.
    - intros r. destruct k as [|c k]; [discriminate|].
      cbn [all] in Hk. apply andb_prop in Hk as [Hc _].
      rewrite !append_cons. apply wsLen_word, Hc. }
  induction params as [|[k v] params IH]; [split; reflexivity|].
  cbn [forallb fst snd] in Hparams.
  apply andb_prop in Hparams as [[Hk Hv]%andb_prop Hparams].
  destruct (Hone k v Hk Hv) as [Hline Hstart].
  destruct params as [|p params].
  - cbn [map join]. split; [exact Hline|].
    rewrite <- (append_nil_r (quotedParam (k, v))). apply Hstart.
  - change (join "," (map quotedParam ((k, v) :: p :: params)))
      with (quotedParam (k, v) +:+ "," +:+ join "," (map quotedParam (p :: params))).
    split; [|apply Hstart].
    rewrite !all_app, Hline. destruct (IH Hparams) as [-> _]. reflexivity.
Qed.

(** X20. A challenge written as a scheme, a space and parameters with
    quoted values and commas between them is read back by
    [_parseWWWAuthenticate]: the scheme is the one written, and the
    parameters are those written, the last value of a name that is written
    twice.  The scheme and the names are words; the values are printable
    ASCII without a double quote, and may hold commas, colons and equals
    signs.  There is no error. *)
Theorem challenges_are_read_back (scheme : string) (params : list (string * string)) :
  isWord scheme = true ->
  forallb (fun p => isWord p.1 && all isQuotable p.2) params = true ->
  Client._parseWWWAuthenticate (challenge scheme params)
  = Ok {| WwwAuthenticate.scheme := scheme;
          WwwAuthenticate.parms := paramsOf params;
          WwwAuthenticate.err := None |}.
Proof.
  intros Hscheme Hparams. destruct (params_line params Hparams) as [Hline Hstart].
  unfold Client._parseWWWAuthenticate, WwwAuthenticate.Parse_WWW_Authenticate, challenge.
  rewrite (matchParseAuth_challenge scheme _ Hscheme Hline Hstart).
  unfold WwwAuthenticate.parse_params.
  rewrite (parse_params_challenge params Hparams EmptyString EmptyString ∅). reflexivity.
Qed.

End Challenges.

(** ** What the calls of the client return *)

Section Calls.
Context `{Platform}.

(** A call of the executor that returns has made one request, and returns
    the answer of the network to it. *)
Lemma request_Ok (c : DockerJsonClient.t) (opts : HttpReqOpts) (s s' : Session)
    (resp : DockerResponse) :
  Client.liftW (DockerJsonClient.request c opts) s = (Ok resp, s') ->
  exists h target raw,
    requestHeaders c opts = Ok h
    /\ new_URL (opt_path opts) (Some (DockerJsonClient.url c)) = Some target
    /\ s' = sending (requestOf c opts h target) s
    /\ network (world s) (List.length (sent (world s))) = Resolved raw
    /\ resp = DockerResponse.make raw
    /\ expected opts (Fetch.status raw) = true.
Proof.
  unfold Client.liftW. rewrite request_unfold.
  destruct (requestHeaders c opts) as [h|e]; [|discriminate].
  destruct (new_URL (opt_path opts) (Some (DockerJsonClient.url c))) as [target|];
    [|discriminate].
  intros [= Hanswer <-]. apply answer_expected in Hanswer as (raw & Hraw & Hresp & Hexp).
  exists h, target, raw. repeat split; assumption.
Qed.

(** X21. [getManifest] returns a manifest only from a response with status
    200 to the one request it makes after [login]: a GET with the headers of
    the client after the login, as [manifestRequest] completes them.  The
    manifest is the JSON of the body, it has a [schemaVersion] that can be
    read and is not 1, and the response is returned with the headers it
    came with. *)
Theorem getManifest_returns (ref : string) (lists oci follow : option bool) (s s' : Session)
    (resp : DockerResponse) (manifest : value) :
  Client.getManifest ref lists oci follow s = (Ok (resp, manifest), s') ->
  exists s1 opts h target raw sv,
    Client.login None None s = (Ok tt, s1)
    /\ Client.manifestRequest (client s1) ref
         (default (acceptManifestLists (client s)) lists)
         (default (acceptOCIManifests (client s)) oci) follow = Ok opts
    /\ requestHeaders (Client._api (client s1)) opts = Ok h
    /\ new_URL (opt_path opts) (Some (_url (client s1))) = Some target
    /\ s' = sending (requestOf (Client._api (client s1)) opts h target) s1
    /\ network (world s1) (List.length (sent (world s1))) = Resolved raw
    /\ Fetch.status raw = 200
    /\ DockerResponse.dockerJson (DockerResponse.make raw) = (Ok manifest, resp)
    /\ headers resp = Fetch.headers raw
    /\ Js.get manifest "schemaVersion" = Ok sv
    /\ Js.isOne sv = false.
Proof.
  unfold Client.getManifest. intros Hrun.
  apply bind_Ok in Hrun as (this0 & s0 & Hthis0 & Hrun).
  unfold Client.getThis in Hthis0. injection Hthis0 as <- <-. cbv zeta in Hrun.
  apply bind_Ok in Hrun as ([] & s1 & Hlogin & Hrun).
  apply bind_Ok in Hrun as (this & s2 & Hthis & Hrun).
  unfold Client.getThis in Hthis. injection Hthis as <- <-.
  apply bind_Ok in Hrun as (opts & s2 & Hopts & Hrun).
  unfold liftR in Hopts. injection Hopts as Hopts <-.
  apply bind_Ok in Hrun as (resp0 & s2 & Hreq & Hrun).
  apply request_Ok in Hreq as (h & target & raw & Hh & Htarget & -> & Hraw & -> & Hexp).
  assert (Hstatus : opt_expectStatus opts = Some [200; 401]).
  { revert Hopts. unfold Client.manifestRequest, mbind, result_bind.
    repeat match goal with
           | |- context [match ?x with Ok _ => _ | Throw _ => _ end] =>
               destruct x; try discriminate
           | |- context [if ?b then _ else _] => destruct b
           end; intros [= <-]; reflexivity. }
  unfold expected in Hexp. rewrite Hstatus in Hexp. cbn [from_option id existsb] in Hexp.
  revert Hrun. unfold Client.manifestResponse.
  change (status (DockerResponse.make raw)) with (Fetch.status raw).
  destruct (Fetch.status raw =? 401) eqn:H401.
  - intros Hrun. exfalso.
    apply bind_Ok in Hrun as ([json r1] & s3 & _ & Hrun).
    apply bind_Ok in Hrun as (m & s4 & _ & Hrun).
    apply bind_Ok in Hrun as (text & s5 & _ & Hrun).
    apply bind_Ok in Hrun as ([e r2] & s6 & _ & Hrun). discriminate.
  - intros Hrun. rewrite !orb_false_r in Hexp.
    apply Z.eqb_eq in Hexp.
    apply bind_Ok in Hrun as ([manifest' r1] & s3 & Hjson & Hrun).
    unfold call in Hjson.
    pose proof (dockerJson_headers (DockerResponse.make raw)) as Hheaders.
    destruct (DockerResponse.dockerJson (DockerResponse.make raw)) as [[v|e] r] eqn:Hbody;
      [|discriminate].
    injection Hjson as <- <- <-.
    apply bind_Ok in Hrun as (sv & s3 & Hsv & Hrun).
    unfold liftR in Hsv. injection Hsv as Hsv <-.
    destruct (Js.isOne sv) eqn:Hone; [discriminate|].
    injection Hrun as <- <- <-.
    exists s1, opts, h, target, raw, sv.
    repeat split; try assumption; try reflexivity.
Qed.

(** [dockerJson] on a response as the executor returns it. *)
Lemma dockerJson_make (raw : Fetch.Response) :
  DockerResponse.dockerJson (DockerResponse.make raw)
  = match DockerResponse.dockerBody (DockerResponse.make raw) with
    | (Ok b, r1) => (jsonOf b, r1)
    | (Throw e, r1) => (Throw e, r1)
    end.
Proof. apply dockerJson_uncached. reflexivity. Qed.

(** X22. [deleteManifest] reads the body of the answer: once the registry
    has answered the DELETE request with 200 or 202, the call still fails
    when the body is neither blank nor JSON, with the error of [dockerJson];
    it returns when the body is blank or any JSON value.  The request is
    made after a [login] for the default scope of the client. *)
Theorem deleteManifest_reads_the_body (ref : string) (s s1 s2 : Session)
    (resp r' : DockerResponse) (b : list byte) :
  Client.login None None s = (Ok tt, s1) ->
  Client.liftW (DockerJsonClient.request (Client._api (client s1))
                  (deleteRequest (client s1) ref)) s1 = (Ok resp, s2) ->
  DockerResponse.dockerBody resp = (Ok b, r') ->
  (status resp = 200 \/ status resp = 202)
  /\ Client.deleteManifest ref s
     = (if JsString.length (JsString.trim (TextDecoder_decode b)) =? 0 then Ok tt
        else match JSON_parse (TextDecoder_decode b) with
             | inr _ => Ok tt
             | inl jsonErr => Throw (Error ("Invalid JSON in response: " +:+ jsonErr))
             end, s2).
Proof.
  intros Hlogin Hreq Hbody. split.
  - apply request_Ok in Hreq as (h & target & raw & _ & _ & _ & _ & -> & Hexp).
    unfold expected in Hexp. cbn [deleteRequest opt_expectStatus from_option id existsb] in Hexp.
    rewrite orb_false_r in Hexp. apply orb_prop in Hexp as [Hst|Hst];
      apply Z.eqb_eq in Hst; [left|right]; exact Hst.
  - unfold Client.deleteManifest.
    rewrite (bind_run _ _ _ _ _ Hlogin).
    unfold mbind at 1, M_bind at 1, Client.getThis at 1. cbv beta iota.
    fold (deleteRequest (client s1) ref).
    rewrite (bind_run _ _ _ _ _ Hreq).
    apply request_Ok in Hreq as (h & target & raw & _ & _ & _ & _ & -> & _).
    unfold mbind, M_bind, call, mret, M_ret. rewrite dockerJson_make, Hbody. unfold jsonOf.
    destruct (JsString.length _ =? 0); [reflexivity|].
    destruct (JSON_parse _); reflexivity.
Qed.

(** X23. [listTags] returns the JSON of the body of a response with status
    200 to the one request it makes after [login]: a GET of the tags of the
    repository that follows redirects and carries the [authorization] header
    of the client after the login. *)
Theorem listTags_returns (s s' : Session) (json : value) :
  Client.listTags s = (Ok json, s') ->
  exists s1 h target raw r,
    Client.login None None s = (Ok tt, s1)
    /\ s' = sending (requestOf (Client._api (client s1)) (tagsRequest (client s1)) h target) s1
    /\ new_URL ("/v2/" +:+ Uri.encodeURI (RegistryRepo.remoteName (repo (client s1)))
                +:+ "/tags/list") (Some (_url (client s1))) = Some target
    /\ Headers.get h "authorization" = Headers.get (_headers (client s1)) "authorization"
    /\ network (world s1) (List.length (sent (world s1))) = Resolved raw
    /\ Fetch.status raw = 200
    /\ DockerResponse.dockerJson (DockerResponse.make raw) = (Ok json, r).
Proof.
  unfold Client.listTags. intros Hrun.
  apply bind_Ok in Hrun as ([] & s1 & Hlogin & Hrun).
  apply bind_Ok in Hrun as (this & s2 & Hthis & Hrun).
  unfold Client.getThis in Hthis. injection Hthis as <- <-.
  fold (tagsRequest (client s1)) in Hrun.
  apply bind_Ok in Hrun as (resp0 & s2 & Hreq & Hrun).
  apply request_Ok in Hreq as (h & target & raw & Hh & Htarget & -> & Hraw & -> & Hexp).
  unfold expected in Hexp. cbn [tagsRequest opt_expectStatus from_option id existsb] in Hexp.
  rewrite orb_false_r in Hexp. apply Z.eqb_eq in Hexp.
  apply bind_Ok in Hrun as ([json' r] & s3 & Hjson & Hrun).
  unfold call in Hjson.
  destruct (DockerResponse.dockerJson (DockerResponse.make raw)) as [[v|e] r1] eqn:Hbody;
    [|discriminate].
  injection Hjson as <- <- <-. injection Hrun as <- <-.
  exists s1, h, target, raw, r1.
  split; [exact Hlogin|]. split; [reflexivity|]. split; [exact Htarget|].
  split; [|split; [exact Hraw|split; [exact Hexp|exact Hbody]]].
  destruct (requestHeaders_sent _ _ _ Hh) as (_ & _ & Hframe).
  apply Hframe; discriminate.
Qed.

(** X24. [ping] returns the answer of the network to one GET of [/v2/],
    with a status among those expected (200, 401 and 404 by default) and
    with its headers, and it has read the body: the bytes are kept in the
    response, so that reading it again gives them back. *)
Theorem ping_returns (reqHeaders : option Headers) (expectStatus : option (list Z))
    (s s' : Session) (res : DockerResponse) :
  Client.ping reqHeaders expectStatus s = (Ok res, s') ->
  exists req raw b,
    s' = sending req s
    /\ Request.method req = "GET"
    /\ new_URL "/v2/" (Some (_url (client s))) = Some (Request.url req)
    /\ network (world s) (List.length (sent (world s))) = Resolved raw
    /\ existsb (Z.eqb (Fetch.status raw)) (default [200; 401; 404] expectStatus) = true
    /\ status res = Fetch.status raw
    /\ headers res = Fetch.headers raw
    /\ decodedBody res = Some b
    /\ DockerResponse.dockerBody res = (Ok b, res).
Proof.
  unfold Client.ping. intros Hrun.
  apply bind_Ok in Hrun as (this & s0 & Hthis & Hrun).
  unfold Client.getThis in Hthis. injection Hthis as <- <-.
  apply bind_Ok in Hrun as (resp & s1 & Hreq & Hrun).
  apply request_Ok in Hreq as (h & target & raw & Hh & Htarget & -> & Hraw & -> & Hexp).
  apply bind_Ok in Hrun as ([b res'] & s2 & Hcall & Hrun).
  injection Hrun as <- <-. unfold call in Hcall.
  pose proof (dockerBody_headers (DockerResponse.make raw)) as Hheaders.
  pose proof (dockerBody_fresh (DockerResponse.make raw) eq_refl eq_refl) as Hfresh.
  destruct (DockerResponse.dockerBody (DockerResponse.make raw)) as [[b0|e] r1] eqn:Hbody;
    [|discriminate].
  injection Hcall as <- <- <-.
  pose proof (dockerBody_leaves _ _ _ Hbody) as Hkept. cbv beta iota in Hkept.
  eexists _, raw, b0. split; [reflexivity|]. split; [reflexivity|].
  split; [exact Htarget|]. split; [exact Hraw|]. split; [exact Hexp|].
  split; [|split; [exact Hheaders|split; [exact Hkept|apply dockerBody_cached, Hkept]]].
  cbv zeta in Hfresh.
  destruct (Headers.get _ "content-md5") as [md5|].
  - destruct (negb _ && negb _ && negb _); [discriminate Hfresh|].
    injection Hfresh as _ ->. reflexivity.
  - injection Hfresh as _ ->. reflexivity.
Qed.

Lemma span_app (p : ascii -> bool) (s a b : string) :
  JsString.span p s = (a, b) -> s = a +:+ b.
Proof.
  revert a b. induction s as [|c s IH]; intros a b; cbn [JsString.span].
  - intros [= <- <-]. reflexivity.
  - destruct (p c); [|intros [= <- <-]; reflexivity].
    destruct (JsString.span p s) as [a' b']. intros [= <- <-].
    rewrite append_cons, <- (IH a' b' eq_refl). reflexivity.
Qed.

(** X25. The request of [_getToken] is a GET that expects 200 or 401.  Its
    URL starts with the realm when that begins with [http://] or
    [https://], and else with the realm after the scheme of the client,
    [https://] unless it is insecure, [undefined] standing for a realm that
    is missing; the query follows.  It carries the user name and the
    password of the client as basic credentials when the client has a user
    name, and no header at all when it has none: a password alone is not
    sent.  A realm with another scheme is refused before any request. *)
Theorem tokenRequest_sends_credentials (this : RegistryClientV2) (realm service : option string)
    (scopes : option (list string)) :
  (forall opts,
     Client.tokenRequest this realm service scopes = Ok opts ->
     opt_method opts = "GET"
     /\ opt_expectStatus opts = Some [200; 401]
     /\ JsString.startsWith (opt_path opts)
          (if JsString.startsWith (default "undefined" realm) "http://"
              || JsString.startsWith (default "undefined" realm) "https://"
           then default "undefined" realm
           else (if insecure this then "http://" else "https://")
                +:+ default "undefined" realm) = true
     /\ exists h,
          opt_headers opts = Some h
          /\ Headers.get h "authorization"
             = (if Client.nonEmpty (username this)
                then authorizationOf
                       (Some (AuthBasic (default EmptyString (username this))
                                        (default EmptyString (password this))))
                else None)
          /\ (Client.nonEmpty (username this) = true ->
              Headers.get h "authorization" <> None)
          /\ forall name, Headers.key name <> "authorization" -> Headers.get h name = None)
  /\ (forall scheme rest,
        realm = Some (scheme +:+ "://" +:+ rest) ->
        isWord scheme = true -> scheme <> "http" -> scheme <> "https" ->
        exists msg, Client.tokenRequest this realm service scopes = Throw (Error msg)).
Proof.
  split.
  - intros opts. unfold Client.tokenRequest. cbv zeta.
    destruct (JsString.span JsString.isWordChar (default "undefined" realm))
      as [scheme rest] eqn:Hspan.
    pose proof (span_app _ _ _ _ Hspan) as Hrealm.
    match goal with
    | |- mbind _ ?m = _ -> _ => destruct m as [base|e] eqn:Hbase; [|discriminate]
    end.
    unfold mbind at 1, result_bind at 1. cbv beta iota.
    assert (Hurl : forall query : string,
              JsString.startsWith
                (if negb (String.eqb query EmptyString) then base +:+ "?" +:+ query else base)
                (if JsString.startsWith (default "undefined" realm) "http://"
                    || JsString.startsWith (default "undefined" realm) "https://"
                 then default "undefined" realm
                 else (if insecure this then "http://" else "https://")
                      +:+ default "undefined" realm) = true).
    { intros query.
      assert (Hpath : JsString.startsWith
                        (if negb (String.eqb query EmptyString) then base +:+ "?" +:+ query
                         else base) base = true).
      { destruct (negb (String.eqb query EmptyString));
          [apply startsWith_app|apply startsWith_refl]. }
      destruct (negb (String.eqb scheme EmptyString) && JsString.startsWith rest "://")
        eqn:Hscheme.
      - apply andb_prop in Hscheme as [_ Hrest].
        destruct (startsWith_split _ _ Hrest) as [rest' ->].
        destruct (String.eqb_spec scheme "http") as [->|Hhttp]; cbn [negb andb] in Hbase.
        + injection Hbase as <-.
          assert (Hstart : JsString.startsWith (default "undefined" realm) "http://" = true)
            by (rewrite Hrealm; exact (startsWith_app "http://" rest')).
          rewrite Hstart. exact Hpath.
        + destruct (String.eqb_spec scheme "https") as [->|Hhttps]; cbn [negb] in Hbase;
            [|discriminate].
          injection Hbase as <-.
          assert (Hstart : JsString.startsWith (default "undefined" realm) "https://" = true)
            by (rewrite Hrealm; exact (startsWith_app "https://" rest')).
          rewrite Hstart, orb_true_r. exact Hpath.
      - injection Hbase as <-.
        assert (Hnone : forall word : string,
                  JsString.all JsString.isWordChar word = true -> word <> EmptyString ->
                  JsString.startsWith (default "undefined" realm) (word +:+ "://") = false).
        { intros word Hword Hne.
          destruct (JsString.startsWith (default "undefined" realm) (word +:+ "://"))
            eqn:Hstart; [|reflexivity].
          destruct (startsWith_split _ _ Hstart) as [r Hr].
          rewrite Hr, append_assoc in Hspan.
          change ("://" +:+ r) with (String ":" ("//" +:+ r)) in Hspan.
          rewrite (span_word word ("//" +:+ r) ":" Hword eq_refl) in Hspan.
          injection Hspan as <- <-.
          apply String.eqb_neq in Hne. rewrite Hne in Hscheme. discriminate Hscheme. }
        pose proof (Hnone "http" eq_refl ltac:(discriminate)) as Hhttp.
        pose proof (Hnone "https" eq_refl ltac:(discriminate)) as Hhttps.
        change ("http" +:+ "://") with "http://" in Hhttp.
        change ("https" +:+ "://") with "https://" in Hhttps.
        rewrite Hhttp, Hhttps. cbn [orb]. destruct (insecure this); exact Hpath. }
    destruct (Client.nonEmpty (username this)) eqn:Huser.
    + destruct (Client._setAuthHeaderFromAuthInfo ∅ _) as [h|e] eqn:Hh; [|discriminate].
      unfold mbind, result_bind. intros [= <-]. cbn [opt_method opt_expectStatus opt_path
                                                     opt_headers].
      split; [reflexivity|]. split; [reflexivity|]. split; [apply Hurl|].
      exists h. split; [reflexivity|].
      assert (Hsome : authorizationOf
                        (Some (AuthBasic (default EmptyString (username this))
                                         (default EmptyString (password this)))) <> None).
      { revert Hh. unfold Client._setAuthHeaderFromAuthInfo, authorizationOf. cbv zeta.
        destruct (btoa _); [discriminate|discriminate]. }
      apply setAuthHeader_empty in Hh as [Hauth Hothers].
      split; [exact Hauth|]. split; [|exact Hothers].
      intros _. rewrite Hauth. exact Hsome.
    + unfold mbind, result_bind. intros [= <-]. cbn [opt_method opt_expectStatus opt_path
                                                     opt_headers].
      split; [reflexivity|]. split; [reflexivity|]. split; [apply Hurl|].
      exists ∅. split; [reflexivity|]. split; [apply lookup_empty|].
      split; [discriminate|]. intros name _. apply lookup_empty.
  - intros scheme rest -> [Hne Hword]%andb_prop Hhttp Hhttps.
    unfold Client.tokenRequest. cbv zeta. cbn [from_option id].
    change (scheme +:+ "://" +:+ rest) with (scheme +:+ String ":" ("//" +:+ rest)).
    rewrite (span_word scheme ("//" +:+ rest) ":" Hword eq_refl).
    rewrite Hne.
    change (String ":" ("//" +:+ rest)) with ("://" +:+ rest).
    rewrite (startsWith_app "://" rest). cbn [andb].
    apply String.eqb_neq in Hhttp, Hhttps. rewrite Hhttp, Hhttps. cbn [negb andb].
    eexists. reflexivity.
Qed.

Lemma join_snoc (sep v : string) (l : list string) :
  l <> [] -> JsString.join sep (l ++ [v]) = JsString.join sep l +:+ sep +:+ v.
Proof.
  induction l as [|a l IH]; [congruence|]. intros _.
  destruct l as [|b l]; [reflexivity|].
  change (JsString.join sep ((a :: b :: l) ++ [v]))
    with (a +:+ sep +:+ JsString.join sep ((b :: l) ++ [v])).
  rewrite IH by discriminate.
  change (JsString.join sep (a :: b :: l)) with (a +:+ sep +:+ JsString.join sep (b :: l)).
  rewrite !append_assoc. reflexivity.
Qed.

(** One more media type in the [accept] header. *)
Lemma append_accept (h : Headers) (l : list string) (v : string) :
  Headers.legalValue v = true ->
  Headers.get h "accept" = (if l is [] then None else Some (JsString.join ", " l)) ->
  exists h',
    Headers.append h "accept" v = Ok h'
    /\ Headers.get h' "accept" = Some (JsString.join ", " (l ++ [v]))
    /\ forall name, Headers.key name <> "accept" -> Headers.get h' name = Headers.get h name.
Proof.
  intros Hlegal. unfold Headers.append, Headers.get. rewrite Hlegal.
  change (Headers.key "accept") with "accept". intros ->.
  destruct l as [|a l]; eexists; (split; [reflexivity|]);
    (split; [rewrite lookup_insert_eq|intros name Hname; apply lookup_insert_ne; congruence]).
  - reflexivity.
  - rewrite (join_snoc ", " v (a :: l)) by discriminate. reflexivity.
Qed.

(** X26. [manifestRequest] always makes a request: a GET for the manifest
    that expects 200 or 401 and follows redirects unless it is told not to.
    Its [accept] header lists, after what the client accepts already, the
    media type of a version 2 manifest, that of a manifest list if lists are
    accepted, that of an OCI manifest if OCI manifests are accepted, and that
    of an OCI index only if both are.  The other headers are those of the
    client. *)
Theorem manifestRequest_accepts (this : RegistryClientV2) (ref : string)
    (acceptManifestLists acceptOCIManifests : bool) (followRedirects : option bool) :
  exists h,
    Client.manifestRequest this ref acceptManifestLists acceptOCIManifests followRedirects
    = Ok {| opt_method := "GET";
            opt_path := "/v2/" +:+ Uri.encodeURI (RegistryRepo.remoteName (repo this))
                        +:+ "/manifests/" +:+ Uri.encodeURI ref;
            opt_headers := Some h;
            opt_expectStatus := Some [200; 401];
            opt_redirect := Some (if bool_decide (followRedirects = Some false)
                                  then "manual" else "follow") |}
    /\ Headers.get h "accept"
       = Some (JsString.join ", " (accepted this acceptManifestLists acceptOCIManifests))
    /\ forall name, Headers.key name <> "accept" ->
                    Headers.get h name = Headers.get (_headers this) name.
Proof.
  assert (Hredirect : match followRedirects with Some false => "manual" | _ => "follow" end
                      = if bool_decide (followRedirects = Some false)
                        then "manual" else "follow").
  { destruct followRedirects as [[|]|]; reflexivity. }
  unfold Client.manifestRequest, accepted. rewrite Hredirect.
  set (l0 := match Headers.get (_headers this) "accept" with Some a => [a] | None => [] end).
  assert (H0 : Headers.get (_headers this) "accept"
               = if l0 is [] then None else Some (JsString.join ", " l0)).
  { subst l0. destruct (Headers.get (_headers this) "accept"); reflexivity. }
  assert (Hnext : forall l v, (if l ++ [v] is [] then None
                               else Some (JsString.join ", " (l ++ [v])))
                              = Some (JsString.join ", " (l ++ [v]))).
  { intros l v. destruct l; reflexivity. }
  destruct (append_accept _ l0 Common.MEDIATYPE_MANIFEST_V2 eq_refl H0)
    as (h1 & -> & Ha1 & Hf1).
  unfold mbind, result_bind. cbv beta iota.
  rewrite <- Hnext in Ha1.
  destruct acceptManifestLists.
  - destruct (append_accept _ _ Common.MEDIATYPE_MANIFEST_LIST_V2 eq_refl Ha1)
      as (h2 & -> & Ha2 & Hf2).
    unfold mbind, result_bind. cbv beta iota.
    rewrite <- Hnext in Ha2.
    destruct acceptOCIManifests.
    + destruct (append_accept _ _ Common.MEDIATYPE_OCI_MANIFEST_V1 eq_refl Ha2)
        as (h3 & -> & Ha3 & Hf3).
      unfold mbind, result_bind. cbv beta iota.
      rewrite <- Hnext in Ha3.
      destruct (append_accept _ _ Common.MEDIATYPE_OCI_MANIFEST_INDEX_V1 eq_refl Ha3)
        as (h4 & -> & Ha4 & Hf4).
      exists h4. split; [reflexivity|]. split.
      * rewrite Ha4, <- ?app_assoc. reflexivity.
      * intros name Hname. rewrite Hf4, Hf3, Hf2, Hf1 by exact Hname. reflexivity.
    + exists h2. split; [reflexivity|]. split.
      * rewrite Ha2, Hnext, <- ?app_assoc. reflexivity.
      * intros name Hname. rewrite Hf2, Hf1 by exact Hname. reflexivity.
  - unfold mbind, result_bind. cbv beta iota.
    destruct acceptOCIManifests.
    + destruct (append_accept _ _ Common.MEDIATYPE_OCI_MANIFEST_V1 eq_refl Ha1)
        as (h3 & -> & Ha3 & Hf3).
      exists h3. split; [reflexivity|]. split.
      * rewrite Ha3, <- ?app_assoc. reflexivity.
      * intros name Hname. rewrite Hf3, Hf1 by exact Hname. reflexivity.
    + exists h1. split; [reflexivity|]. split.
      * rewrite Ha1, Hnext, <- ?app_assoc. reflexivity.
      * intros name Hname. rewrite Hf1 by exact Hname. reflexivity.
Qed.

(** X27. The credentials that [performLogin] returns.  It reads the
    challenge of the ping response it is given if that has one, and of the
    response to a ping of its own if not.  It returns no credentials only
    when its own ping was answered with 200.  For a challenge with the scheme
    basic, in any case of the letters, it returns the user name and the
    password of the client, empty when they are missing, and makes no
    further request; for the scheme bearer it returns the token that
    [_getToken] gets with the realm and the service of the challenge and the
    scope asked for. *)
Theorem performLogin_credentials (scope : option string) (pingRes : option DockerResponse)
    (s s' : Session) (authInfo : AuthInfo) :
  Client.performLogin scope pingRes s = (Ok authInfo, s') ->
  exists res s1,
    (if hasChallenge pingRes then pingRes = Some res /\ s1 = s
     else Client.ping None (Some [200; 401]) s = (Ok res, s1))
    /\ match authInfo with
       | AuthNone => hasChallenge pingRes = false /\ status res = 200 /\ s' = s1
       | AuthBasic username' password' =>
           exists authChallenge,
             Client._parseWWWAuthenticate
               (default EmptyString (Headers.get (headers res) "www-authenticate"))
             = Ok authChallenge
             /\ JsString.toLowerCase (WwwAuthenticate.scheme authChallenge) = "basic"
             /\ username' = default EmptyString (username (client s))
             /\ password' = default EmptyString (password (client s))
             /\ s' = s1
       | AuthBearer token =>
           exists authChallenge,
             Client._parseWWWAuthenticate
               (default EmptyString (Headers.get (headers res) "www-authenticate"))
             = Ok authChallenge
             /\ JsString.toLowerCase (WwwAuthenticate.scheme authChallenge) = "bearer"
             /\ Client._getToken (WwwAuthenticate.parms authChallenge !! "realm")
                  (WwwAuthenticate.parms authChallenge !! "service")
                  (Some (if Client.nonEmpty scope then [default EmptyString scope] else []))
                  s1
                = (Ok token, s')
       end.
Proof.
  unfold Client.performLogin. intros Hrun.
  apply bind_Ok in Hrun as (this & s0 & Hthis & Hrun).
  unfold Client.getThis in Hthis. injection Hthis as <- <-. cbv zeta in Hrun.
  apply bind_Ok in Hrun as (pinged & s1 & Hpinged & Hrun).
  assert (Hfrom : exists res,
            (if hasChallenge pingRes then pingRes = Some res /\ s1 = s
             else Client.ping None (Some [200; 401]) s = (Ok res, s1))
            /\ (pinged = inr res
                \/ (pinged = inl AuthNone /\ hasChallenge pingRes = false
                    /\ status res = 200))).
  { assert (Hping : (Client.ping None (Some [200; 401]) ≫= fun res =>
                     mret (if status res =? 200 then inl AuthNone else inr res)) s
                    = (Ok pinged, s1) ->
                    exists res,
                      Client.ping None (Some [200; 401]) s = (Ok res, s1)
                      /\ (pinged = inr res \/ (pinged = inl AuthNone /\ status res = 200))).
    { intros Hre. apply bind_Ok in Hre as (res & s2 & Hres & Hre).
      injection Hre as <- <-. exists res. split; [exact Hres|].
      destruct (Z.eqb_spec (status res) 200) as [Hst|_]; [right|left]; auto. }
    unfold hasChallenge. destruct pingRes as [res0|].
    - destruct (Client.nonEmpty (Headers.get (headers res0) "www-authenticate")).
      + injection Hpinged as <- <-. exists res0. split; [split; reflexivity|left; reflexivity].
      + destruct (Hping Hpinged) as (res & Hres & [Hin|[Hin Hst]]); exists res;
          (split; [exact Hres|]); [left|right]; auto.
    - destruct (Hping Hpinged) as (res & Hres & [Hin|[Hin Hst]]); exists res;
        (split; [exact Hres|]); [left|right]; auto. }
  destruct Hfrom as (res & Hres & [->|(-> & Hnone & Hst)]).
  - exists res, s1. split; [exact Hres|]. cbv zeta in Hrun.
    destruct (negb (Client.nonEmpty (Headers.get (headers res) "www-authenticate"))).
    { apply bind_Ok in Hrun as ([e r] & s2 & _ & Hrun). discriminate. }
    apply bind_Ok in Hrun as (authChallenge & s2 & Hparse & Hrun).
    unfold liftR in Hparse. injection Hparse as Hparse <-.
    destruct (String.eqb_spec (JsString.toLowerCase (WwwAuthenticate.scheme authChallenge))
                "basic") as [Hbasic|_].
    { injection Hrun as <- <-. exists authChallenge. repeat split; assumption. }
    destruct (String.eqb_spec (JsString.toLowerCase (WwwAuthenticate.scheme authChallenge))
                "bearer") as [Hbearer|_]; [|discriminate].
    apply bind_Ok in Hrun as (token & s2 & Htoken & Hrun). injection Hrun as <- <-.
    exists authChallenge. repeat split; assumption.
  - injection Hrun as <- <-. exists res, s1. split; [exact Hres|]. repeat split; assumption.
Qed.

End Calls.

(** ** The further properties at work *)

Section FurtherRuns.
Local Existing Instance Reference.platform.
Import FurtherExamples.

(** The index of [https://quay.io/] has the name of a host and is not
    official. *)
Lemma parseIndex_invariants_witness :
  Common.parseIndex (Some "https://quay.io/") = Ok quay
  /\ looksLikeHost "quay.io" = true
  /\ lacks "/" "quay.io" = true.
Proof.
  assert (Hrun : Common.parseIndex (Some "https://quay.io/") = Ok quay)
    by (vm_compute; reflexivity).
  split; [exact Hrun|].
  destruct (parseIndex_invariants (Some "https://quay.io/") quay Hrun) as (Hhost & Hslash & _).
  split; [exact Hhost|exact Hslash].
Defined.

(** A registry on this host is spoken to without encryption. *)
Lemma urlFromIndex_parseIndex_witness :
  Common.urlFromIndex localIndex None = Ok "http://localhost:5000".
Proof.
  assert (Hrun : Common.parseIndex (Some "localhost:5000") = Ok localIndex)
    by (vm_compute; reflexivity).
  exact (proj1 (urlFromIndex_parseIndex "localhost:5000" localIndex Hrun eq_refl)).
Defined.

(** The body of an open registry is read once and kept. *)
Lemma dockerJson_repeatable_witness :
  fst (DockerResponse.dockerJson open) = Ok (VObject [])
  /\ decodedBody (snd (DockerResponse.dockerJson open)) <> None.
Proof.
  assert (Hrun : DockerResponse.dockerJson open
                 = (Ok (VObject []), snd (DockerResponse.dockerJson open)))
    by (vm_compute; reflexivity).
  split; [vm_compute; reflexivity|].
  exact (proj2 (dockerJson_repeatable open _ _ Hrun) (VObject []) eq_refl).
Defined.

(** The error made of a refusal names the error of the registry. *)
Lemma dockerThrowable_errors_have_messages_witness :
  exists errs msg,
    fst (DockerResponse.dockerThrowable "Registry auth failed" refusal)
    = Ok (HttpError (snd (DockerResponse.dockerThrowable "Registry auth failed" refusal))
            errs msg)
    /\ Forall hasMessage errs
    /\ JsString.startsWith msg "Registry auth failed" = true.
Proof.
  set (run := DockerResponse.dockerThrowable "Registry auth failed" refusal).
  assert (Hrun : run = (Ok (Examples.value_or (Error EmptyString) (fst run)), snd run))
    by (vm_compute; reflexivity).
  destruct (dockerThrowable_errors_have_messages "Registry auth failed" refusal _ _ Hrun)
    as (errs & msg & He & Herrs & Hmsg).
  exists errs, msg. split; [|split; assumption].
  rewrite <- He. rewrite Hrun at 1. reflexivity.
Defined.

(** The ping of a fresh client is one GET of [/v2/] with its user agent. *)
Lemma request_contract_witness :
  let run := DockerJsonClient.request (Client._api Examples.blarg) (pingRequest None)
               (world (Examples.session Examples.v1Registry)) in
  network (snd run) = Examples.v1Registry.
Proof.
  cbv zeta.
  set (run := DockerJsonClient.request (Client._api Examples.blarg) (pingRequest None)
                (world (Examples.session Examples.v1Registry))).
  assert (Hrun : run = (fst run, snd run)) by (vm_compute; reflexivity).
  exact (proj1 (request_contract (Client._api Examples.blarg) (pingRequest None)
                  (world (Examples.session Examples.v1Registry)) _ _ Hrun)).
Defined.

(** A client that logs in with a token sends it from then on. *)
Lemma login_replaces_authorization_witness :
  let s := Examples.session Examples.bearerRegistry in
  Headers.get (_headers (client (snd (Client.login None None s)))) "authorization"
  = Some "Bearer abc".
Proof.
  cbv zeta.
  set (s := Examples.session Examples.bearerRegistry).
  assert (Hmiss : loggedInWith (client s) (Client.effectiveScope (client s) None) = false)
    by (vm_compute; reflexivity).
  assert (Hrun : Client.login None None s = (Ok tt, snd (Client.login None None s)))
    by (vm_compute; reflexivity).
  destruct (login_replaces_authorization None None s _ Hmiss Hrun)
    as (authInfo & s1 & Hperform & _ & _ & _ & _ & Hauth & _).
  rewrite Hauth.
  assert (Hinfo : Client.performLogin (Some (Client.effectiveScope (client s) None)) None s
                  = (Ok (AuthBearer "abc"),
                     snd (Client.performLogin (Some (Client.effectiveScope (client s) None))
                            None s)))
    by (vm_compute; reflexivity).
  rewrite Hinfo in Hperform. injection Hperform as <- _. reflexivity.
Defined.

(** The digest of the manifest of the tests is one that the client reads. *)
Lemma manifest_digest_validates_manifest_witness :
  exists info,
    Client._parseDockerContentDigest
      ("sha256:" +:+ SHA256.hexDigest (Bytes.ofString Examples.v2ManifestStr)) = Ok info
    /\ raw info = "sha256:" +:+ SHA256.hexDigest (Bytes.ofString Examples.v2ManifestStr).
Proof.
  assert (Hrun : Client.digestFromManifestStr Examples.v2ManifestStr
                 = Ok ("sha256:" +:+ SHA256.hexDigest (Bytes.ofString Examples.v2ManifestStr)))
    by (vm_compute; reflexivity).
  destruct (manifest_digest_validates_manifest _ _ Hrun) as (info & validate & Hinfo & Hraw & _).
  exists info. split; assumption.
Defined.

(** A blob that a content delivery network serves comes back as two
    responses, the redirect first. *)
Lemma makeHttpRequest_responses_witness :
  let run := Client._makeHttpRequest "GET" "/v2/blarg/blobs/sha256:1" None None None
               (Examples.session Examples.cdn) in
  exists redirects final,
    fst run = Ok (redirects ++ [final])
    /\ Forall (fun r => isRedirect r = true) redirects
    /\ isRedirect final = false.
Proof.
  cbv zeta.
  set (run := Client._makeHttpRequest "GET" "/v2/blarg/blobs/sha256:1" None None None
                (Examples.session Examples.cdn)).
  assert (Hrun : run = (Ok (Examples.value_or [] (fst run)), snd run))
    by (vm_compute; reflexivity).
  destruct (makeHttpRequest_responses _ _ _ _ _ _ _ _ Hrun)
    as (redirects & final & reqs & Hress & _ & _ & _ & Hredirects & Hfinal).
  exists redirects, final. split; [|split; assumption].
  rewrite <- Hress. rewrite Hrun at 1. reflexivity.
Defined.

(** A blob served with the digest that was asked for: the responses are
    those of the blob request. *)
Lemma createBlobReadStream_returns_witness :
  let s := Examples.session (Examples.blobRegistry Examples.layerDigest "layer") in
  let run := Client.createBlobReadStream Examples.layerDigest s in
  Client._headOrGetBlob "GET" Examples.layerDigest s
  = (Ok (fst (Examples.value_or ([], Examples.noStream) (fst run))), snd run).
Proof.
  cbv zeta.
  set (s := Examples.session (Examples.blobRegistry Examples.layerDigest "layer")).
  set (run := Client.createBlobReadStream Examples.layerDigest s).
  assert (Hrun : run = (Ok (fst (Examples.value_or ([], Examples.noStream) (fst run)),
                            snd (Examples.value_or ([], Examples.noStream) (fst run))),
                        snd run))
    by (vm_compute; reflexivity).
  exact (proj1 (createBlobReadStream_returns _ _ _ _ _ Hrun)).
Defined.

(** The repository of [busybox] is official, in the namespace [library]. *)
Lemma parseRepo_invariants_witness :
  Common.parseRepo "busybox" None = Ok busybox
  /\ Common.VALID_REPO "library/busybox" = true.
Proof.
  assert (Hrun : Common.parseRepo "busybox" None = Ok busybox) by (vm_compute; reflexivity).
  split; [exact Hrun|]. exact (proj1 (parseRepo_invariants "busybox" None busybox Hrun)).
Defined.

(** The challenge of the official registry, with a comma in its scope. *)
Lemma challenges_are_read_back_witness :
  Client._parseWWWAuthenticate (challenge "Bearer" dockerParams)
  = Ok {| WwwAuthenticate.scheme := "Bearer";
          WwwAuthenticate.parms := paramsOf dockerParams;
          WwwAuthenticate.err := None |}.
Proof.
  apply (challenges_are_read_back "Bearer" dockerParams); vm_compute; reflexivity.
Defined.

(** A manifest of the second schema version is returned from a 200
    response. *)
Lemma getManifest_returns_witness :
  let s := Examples.session manifestRegistry in
  let run := Client.getManifest "latest" None None None s in
  exists s1 raw,
    Client.login None None s = (Ok tt, s1)
    /\ network (world s1) (List.length (sent (world s1))) = Resolved raw
    /\ Fetch.status raw = 200
    /\ fst (DockerResponse.dockerJson (DockerResponse.make raw))
       = Ok (snd (Examples.value_or (Examples.noResponse, VUndefined) (fst run))).
Proof.
  cbv zeta.
  set (s := Examples.session manifestRegistry).
  set (run := Client.getManifest "latest" None None None s).
  assert (Hrun : run = (Ok (fst (Examples.value_or (Examples.noResponse, VUndefined) (fst run)),
                            snd (Examples.value_or (Examples.noResponse, VUndefined)
                                   (fst run))),
                        snd run))
    by (vm_compute; reflexivity).
  destruct (getManifest_returns _ _ _ _ _ _ _ _ Hrun)
    as (s1 & opts & h & target & raw & sv & Hlogin & _ & _ & _ & _ & Hraw & Hstatus & Hjson & _).
  exists s1, raw. split; [exact Hlogin|]. split; [exact Hraw|]. split; [exact Hstatus|].
  rewrite Hjson. reflexivity.
Defined.

(** The registry accepts the deletion and says so in plain words: the call
    fails on the body. *)
Lemma deleteManifest_reads_the_body_witness :
  exists msg,
    fst (Client.deleteManifest "latest" (Examples.session deletingRegistry))
    = Throw (Error msg)
    /\ JsString.startsWith msg "Invalid JSON in response: " = true.
Proof.
  set (s := Examples.session deletingRegistry).
  set (s1 := snd (Client.login None None s)).
  set (run := Client.liftW (DockerJsonClient.request (Client._api (client s1))
                              (deleteRequest (client s1) "latest")) s1).
  set (resp := Examples.value_or Examples.noResponse (fst run)).
  set (body := DockerResponse.dockerBody resp).
  assert (Hlogin : Client.login None None s = (Ok tt, s1)) by (vm_compute; reflexivity).
  assert (Hrun : run = (Ok resp, snd run)) by (vm_compute; reflexivity).
  assert (Hbody : body = (Ok (Bytes.ofString "Accepted"), snd body))
    by (vm_compute; reflexivity).
  destruct (deleteManifest_reads_the_body "latest" s s1 (snd run) resp (snd body)
              (Bytes.ofString "Accepted") Hlogin Hrun Hbody) as [_ Hdelete].
  rewrite Hdelete. cbn [fst].
  assert (Hblank : (JsString.length
                      (JsString.trim (TextDecoder_decode (Bytes.ofString "Accepted"))) =? 0)
                   = false) by (vm_compute; reflexivity).
  rewrite Hblank.
  destruct (JSON_parse (TextDecoder_decode (Bytes.ofString "Accepted"))) as [jsonErr|v] eqn:Hparse.
  - eexists. split; [reflexivity|]. apply startsWith_app.
  - vm_compute in Hparse. discriminate Hparse.
Defined.

(** The tags of a repository, from a registry that asks for no
    authentication. *)
Lemma listTags_returns_witness :
  let s := Examples.session tagsRegistry in
  exists s1 raw r,
    Client.login None None s = (Ok tt, s1)
    /\ Fetch.status raw = 200
    /\ DockerResponse.dockerJson (DockerResponse.make raw) = (Ok tagsBody, r).
Proof.
  cbv zeta.
  set (s := Examples.session tagsRegistry).
  assert (Hrun : Client.listTags s = (Ok tagsBody, snd (Client.listTags s)))
    by (vm_compute; reflexivity).
  destruct (listTags_returns _ _ _ Hrun)
    as (s1 & h & target & raw & r & Hlogin & _ & _ & _ & _ & Hstatus & Hjson).
  exists s1, raw, r. split; [exact Hlogin|]. split; assumption.
Defined.

(** The ping of a registry that asks for no authentication. *)
Lemma ping_returns_witness :
  let run := Client.ping None None (Examples.session Examples.v1Registry) in
  exists res b,
    fst run = Ok res /\ status res = 200 /\ DockerResponse.dockerBody res = (Ok b, res).
Proof.
  cbv zeta.
  set (run := Client.ping None None (Examples.session Examples.v1Registry)).
  assert (Hrun : run = (Ok (Examples.value_or Examples.noResponse (fst run)), snd run))
    by (vm_compute; reflexivity).
  destruct (ping_returns _ _ _ _ _ Hrun)
    as (req & raw & b & _ & _ & _ & Hraw & _ & Hstatus & _ & _ & Hbody).
  exists (Examples.value_or Examples.noResponse (fst run)), b.
  split; [rewrite Hrun at 1; reflexivity|]. split; [|exact Hbody].
  rewrite Hstatus. vm_compute in Hraw. injection Hraw as <-. reflexivity.
Defined.


(** A registry that wants a token: the client pings it, and gets the token
    from the service that the challenge names. *)
Lemma performLogin_credentials_witness :
  let s := Examples.session Examples.bearerRegistry in
  exists res s1 authChallenge,
    Client.ping None (Some [200; 401]) s = (Ok res, s1)
    /\ Client._parseWWWAuthenticate
         (default EmptyString (Headers.get (headers res) "www-authenticate"))
       = Ok authChallenge
    /\ JsString.toLowerCase (WwwAuthenticate.scheme authChallenge) = "bearer".
Proof.
  cbv zeta.
  set (s := Examples.session Examples.bearerRegistry).
  set (run := Client.performLogin (Some "repository:blarg:pull") None s).
  assert (Hrun : run = (Ok (AuthBearer "abc"), snd run)) by (vm_compute; reflexivity).
  destruct (performLogin_credentials (Some "repository:blarg:pull") None s (snd run)
              (AuthBearer "abc") Hrun)
    as (res & s1 & Hping & authChallenge & Hparse & Hbearer & _).
  exists res, s1, authChallenge. split; [exact Hping|]. split; assumption.
Defined.

End FurtherRuns.
